(* ===== verification/_CoqProject ===== *)
-Q . S2P
Prelude.v
PyText.v
Datetime.v
Format.v
Double.v
Strptime.v
Match.v
Frame.v
Effects.v
Dates.v
Pipeline.v
Stages.v
Invariant.v
Scenario.v
Schedule.v
Lifecycle.v
Correct.v
Diagnostics.v
Gantt.v
Main.v
Runs.v
