(* ===== verification/Prelude.v ===== *)
(** * RunBookTimeline (src/workshift.py): a verification development

    The program reads a schedule table (CSV or spreadsheet), validates its
    columns, parses two date columns, keeps the rows whose activity number
    starts with 'Prod' and whose dates lie in a window given by the caller,
    adds a duration column, and hands the rows to a Gantt-chart library.
    Its functions are [try_read_csv] (lines 9-30), [clean_and_validate_data]
    (32-53), [parse_dates] (55-73), [create_gantt_chart] (75-116),
    [read_and_process_data] (118-195) and [main] (197-241).

    ** Files, in the order they are checked

    - [Prelude] (this file): the effect model.  Python code here prints
      lines and raises exceptions: a computation is a [run V E A], the list
      of events printed and either the returned value or the exception
      raised.  [bind] (the [x ← m; k] of stdpp) is sequencing, [catch] is
      try/except, [emit] is print, [raise] is raise, [map_run] is a for loop
      that collects results, [first_ok] is the first attempt that succeeds.
      Also the laws of these, the lemmas on lists the components share, the
      hint databases [run] and [run_rw], and the tactics.
    - [PyText]: the str operations called: [startswith], [lower],
      [os.path.splitext], [str] of an integer, zero-padded digits.
    - [Datetime]: naive date-times as records of integers; validity, the
      proleptic Gregorian ordinal, comparison, subtraction, the value a
      datetime64 column stores, and [duration_hours].
    - [Format]: the duration as [:.2f] of line 230 writes it:
      [round_half_even] and [format_2f] on the rational a float stands for.
    - [Double]: the float itself.  [b64] rounds a rational to binary64 (53
      bits, to nearest, ties to even, subnormal numbers included) and
      [hours_f64] is [total_seconds() / 3600] of lines 188-190 in floats.
    - [Strptime]: [datetime.strptime] for the two formats of the program, as
      CPython's _strptime does it: the format becomes a regular expression
      ([regex_of]), [re_match] is the backtracking match, [set_field] and
      [read_groups] turn the groups into fields, the constructor checks the
      ranges.  [matches] is the declarative reading of the expression.
    - [Match]: for the two formats, the whole text matches in one way and
      the search finds it; [reads] is what a text says as a date, and
      [rejects] which error a text that is none ends with.
    - [Frame]: the pandas DataFrame as the program uses it: a typed header
      and rows with index labels; one function per operation called, the
      shape invariant [wf] and the typing invariant [typed] (every cell has
      the dtype of its column).
    - [Effects]: the exceptions ([exn], one constructor per raise statement
      and per library error), their classes and [issubclass], the printed
      lines ([event], one constructor per print or group of adjacent
      prints), [py A := run event exn A], and [except].
    - [Dates]: [parse_dates] and the body of the date loop,
      [normalize_column] (lines 147-153).
    - [Pipeline]: the outside as the class [World] (what [os.path.exists],
      [pd.read_csv] and [pd.read_excel] answer; [WorldOk] and [WorldTyped]
      say that the frames they return are well formed and typed),
      [try_read_csv],
      [clean_and_validate_data], and [read_and_process_data] as the
      sequence of stages of its try block: [decode], validation,
      [normalize_dates], [drop_null_dates], [filter_prefix], [parse_window],
      [filter_range], [compute_duration], in [process], under the handler
      of lines 194-195.
    - [Stages]: the try block once more, as a state machine: a state is
      the stage about to run with the values live there, a step is a stage
      that returned.
    - [Invariant]: [sound] frames (well formed and typed), kept by every
      stage, hence by every state the machine reaches.
    - [Scenario]: a world of five files and complete runs in it.
    - [Schedule]: the reference the pipeline is compared with.  [schedule]
      reads the same computation one row at a time; the stage lemmas show
      that each column operation of a stage is a map or a filter over rows,
      and [process_result] that the try block computes [schedule].
      [same_rows] and [same_outcome] are frames and results up to the
      order of the rows; [schedule] respects them ([schedule_proper]).
    - [Lifecycle]: [facts], what the frame of each state of the machine
      holds (the required columns, two dates in every row, a 'Prod' number,
      the row inside the window, the duration), kept by every step.
    - [Correct]: the theorems on [read_and_process_data].
    - [Diagnostics]: the lines [read_and_process_data] prints, and the
      loop body of lines 148-153 with the table of invalid dates.
    - [Gantt]: [create_gantt_chart] up to the call of Plotly; the draws of
      [randint] are the class [Random].
    - [Main]: [main] with its three handlers; writing the chart is the
      class [Output].
    - [Runs]: worlds for [main], runs of it, and the theorems of Gantt and
      Main at those runs.

    ** What the theorems show

    The manifest (PROJECT.json) lists the main theorems as C1, C2, ...; the
    doc comment of each names its id.
    - Refinement: for every world that returns well-formed frames,
      [read_and_process_data] returns or raises what [specification], the
      row-by-row reading, gives (Correct).  The try block returns a frame
      exactly when the machine of its stages reaches its last state with
      it, raises exactly when a reachable stage fails, and runs its stages
      in one order, each once (Stages).
    - The returned frame: well formed, not empty, every row a 'Prod' task
      with valid dates inside the window, bounds included, and with its
      duration; rows keep the labels and the order of the file; the rows
      are exactly the tasks of the file that the program keeps, none lost
      and none made up, and the function returns exactly when the file has
      such a task; no duration exceeds the hours of the window; a
      wider window returns the same rows and maybe more, in the same order;
      a file with the same rows in another order gives the same error or
      the same tasks in another order (Correct).
    - Invariants: every stage returns a sound frame when it is given one,
      by one lemma per stage; by induction on the runs, every reachable
      state holds a sound frame, and the frame returned is typed, with
      datetime64 date columns and a float64 duration column (Invariant,
      Correct).  Every reachable state also has the facts of its stage,
      each stage relying on those of the stage before: dates are compared
      once every row has two, and subtracted after that (Lifecycle).
    - Termination and progress: every step moves to a later stage, so the
      step relation is strongly normalising, and within eight steps the
      machine is done or at a stage that fails; the loop over the encodings
      returns when an encoding reads the file (Stages, Pipeline).
    - Errors: validation names every missing column; the function raises
      FileNotFoundError, or a plain Exception, or what is no Exception, and
      never a ValueError; 'no valid data' is raised exactly when no row has
      both dates, and a bound of the window that does not parse is reported
      exactly when a row has passed the prefix filter; [main] lets no
      Exception through, and its ValueError handler takes no error of the
      pipeline (Pipeline, Schedule, Correct, Main).
    - Dates: what [parse_dates] returns is valid, lies in 1969..2068 and
      fits a datetime64; printing then parsing is the identity for both
      formats; the search [re_match] is sound and complete for [matches],
      and for the two formats it finds the one match of the whole text, so
      [parse_dates] returns a date exactly when the text of the cell reads
      as that date: the order of the search is no part of the result; only
      a cell that holds text parses: a time stamp or a number never does;
      which of its three errors [strptime] raises is told by what the
      format matches of the text, the data left over being the least any
      match leaves (Strptime, Match, Dates).  [os.path.splitext] splits a path in two
      parts that make the path, the second empty or one dot and what
      follows it, without dot or separator (PyText).
    - Frames: [wf] and [typed] are kept by every operation; assigning then
      reading a column gives the values; which rows a mask and a dropna
      keep (Frame).
    - Printed lines: every line of a run is given, for a file that is read
      and has its columns, whether the run returns or fails; a run names
      the values of the start column that do
      not parse, then those of the end column, in row order, and the
      stages after the date loop print nothing; the loop body prints the
      heading, those values, and the table of the rows left without a
      date, made after the column was overwritten; the encodings are tried
      in the declared order; [main] prints the earliest start and the
      latest end of the tasks returned, both inside the window (Dates,
      Diagnostics, Pipeline, Main).
    - The duration as a float: the frames of the model hold the exact
      hours, those of the program their double.  Rounding to binary64
      moves a number by the unit roundoff, [2^-53], relatively; the double
      of a duration is within [2^-26] of the hours and has their sign; and
      since no tie of the rounding to hundredths is nearer than a sixth of
      a hundredth to a whole number of minutes, [:.2f] prints for the
      double the text [format_2f] makes of the rational (Format, Double,
      Correct).
    - The chart: one record per row, one colour per responsible person and
      a colour for every record, three numbers from 0 to 255 in every
      colour, the height of line 112 (Gantt).
    - Complete runs evaluate inside the kernel (Scenario, Runs): the
      end-to-end example of five rows, the inverted window that returns a
      row, the spreadsheet whose dates are time stamps.

    ** Bounds and fuel

    Integers are Python integers, [Z].  The machine-width quantities are
    the datetime64 value, a signed 64-bit count of nanoseconds since 1970
    ([Datetime.dt64_in_range] gives the years that fit, and
    [Dates.parsed_valid] that parsed dates do), and the float of a
    duration: the seconds between two valid dates are below [2^39], so
    they are a double as they are ([Double.b64_Z] asks for less than
    [2^53]), and the hours are below [2^28], far from the overflow that
    [b64] leaves out.  Two definitions take fuel:
    [Effects.mro_fuel], with fuel 5 because the class hierarchy modelled is
    five deep (UnicodeDecodeError, UnicodeError, ValueError, Exception,
    BaseException), and [PyText.nat_digits], with one more than the binary
    logarithm of the number, which bounds the count of its decimal digits.
    That the fuel is enough is proved: [Effects.mro_fuel_enough] (fuel 4
    and more lists the same classes, ending at BaseException) and
    [PyText.str_int_fuel_enough] (the digits written have the value of the
    number, and more fuel writes the same digits).  Every other recursion
    is structural on a list or a string.  The machine of Stages needs no
    fuel: [Stages.step_terminates] bounds its runs by the eight stages.

    ** What is not modelled, and why

    - The file system and the parsers of pandas: input.  The theorems hold
      for every [World]; [WorldOk] is what pandas promises of a frame.
    - Plotly and [random.randint]: libraries the source only calls.  The
      figure is the arguments handed over, [Random] the draws.
    - Floats inside the frames: the duration column of the model holds
      the exact rational seconds / 3600, and the comparisons and bounds of
      Correct are proved of it; Double relates it to the double the
      program stores, and [Correct.duration_double] shows that the one
      thing the program does with the value, printing two decimals, gives
      the same text.  Overflow to infinity and NaN arithmetic do not occur
      for durations and are left out of [b64].  [total_seconds] is taken
      as the double nearest to the seconds, which pandas computes by one
      division or by one multiplication depending on its version.  [str]
      of a float cell is not modelled: [py_str] gives [None] for it, and
      such a cell counts as one that does not parse.
    - Alignment by index label: frames are positional, which is what
      pandas does here because every mask and column the program uses is
      computed from the frame it is applied to.
    - Characters outside Latin-1: a string is a sequence of 8-bit
      characters; the upper-case letters [lower] moves are A-Z.
    - The messages of the exceptions and the wording of the printed lines:
      an exception or a line carries the values its text interpolates. *)

From Stdlib Require Import ZArith Lia.
From stdpp Require Import base tactics option list.

#[global] Set Warnings "-clear-no-such-hyp".

Create HintDb run discriminated.
Create Rewrite HintDb run_rw.

(** ** Outcomes and runs *)

Inductive outcome (E A : Type) : Type :=
| Returned (a : A)
| Raised (e : E).
Arguments Returned {E A} a.
Arguments Raised {E A} e.

Record run (V E A : Type) : Type := Run {
  trace : list V;
  result : outcome E A
}.
Arguments Run {V E A} trace result.
Arguments trace {V E A} r.
Arguments result {V E A} r.

Section RunOps.
Context {V E : Type}.

Definition ret {A} (a : A) : run V E A := Run [] (Returned a).

Definition raise {A} (e : E) : run V E A := Run [] (Raised e).

Definition emit (v : V) : run V E unit := Run [v] (Returned tt).

Definition bind {A B} (m : run V E A) (f : A → run V E B) : run V E B :=
  match result m with
  | Returned a => let r := f a in Run (trace m ++ trace r) (result r)
  | Raised e => Run (trace m) (Raised e)
  end.

(** try: [m] except e: [h e] *)
Definition catch {A} (m : run V E A) (h : E → run V E A) : run V E A :=
  match result m with
  | Returned _ => m
  | Raised e => let r := h e in Run (trace m ++ trace r) (result r)
  end.

Definition returns {A} (m : run V E A) (a : A) : Prop := result m = Returned a.

Definition raises {A} (m : run V E A) (e : E) : Prop := result m = Raised e.

End RunOps.

(** stdpp's monad notation ([x ← m; k], [m ≫= f], [mret]) is used for [run]. *)
#[export] Instance run_ret {V E} : MRet (run V E) := λ A, @ret V E A.
#[export] Instance run_fmap {V E} : FMap (run V E) :=
  λ A B f m, bind m (λ a, ret (f a)).

#[export] Instance run_bind {V E} : MBind (run V E) := λ A B f m, bind m f.

Declare Scope run_scope.
Delimit Scope run_scope with run.
Notation "m ↯ h" := (catch m h) (at level 60, right associativity) : run_scope.
Notation "m ⇓ a" := (returns m a) (at level 70, no associativity) : run_scope.
Notation "m ⇑ e" := (raises m e) (at level 70, no associativity) : run_scope.
Open Scope run_scope.

(** [f] on every element of a list, left to right, stopping at the first
    exception: a for loop that collects results. *)
Fixpoint map_run {V E A B} (f : A → run V E B) (l : list A) : run V E (list B) :=
  match l with
  | [] => ret []
  | x :: l' => bind (f x) (λ y, bind (map_run f l') (λ ys, ret (y :: ys)))
  end.

(** ** The first attempt that succeeds *)

Section FirstOk.
Context {A B : Type} (f : A → option B).

Fixpoint first_ok (l : list A) : option (A * B) :=
  match l with
  | [] => None
  | x :: l' =>
      match f x with
      | Some y => Some (x, y)
      | None => first_ok l'
      end
  end.

End FirstOk.

(** ** Tactics *)

Ltac run_unfold :=
  unfold returns, raises, bind, catch, emit, raise, ret in *; simpl in *.

(** Linear arithmetic with division and remainder by constants. *)
Ltac zlia := Z.div_mod_to_equations; lia.

Ltac case_result m :=
  let r := fresh "r" in
  let Hr := fresh "Hr" in
  destruct (result m) as [r|r] eqn:Hr; simpl in *.

(** ** Laws of [run] *)

Section RunLaws.
Context {V E : Type}.
Implicit Types v : V.
Implicit Types e : E.

Lemma run_eq {A} (m1 m2 : run V E A) :
  trace m1 = trace m2 → result m1 = result m2 → m1 = m2.
Proof. destruct m1, m2; simpl; congruence. Qed.

Lemma bind_ret_l {A B} (a : A) (f : A → run V E B) : bind (ret a) f = f a.
Proof. by apply run_eq. Qed.

Lemma bind_ret_r {A} (m : run V E A) : bind m ret = m.
Proof.
  apply run_eq; unfold bind; case_result m; by rewrite ?app_nil_r.
Qed.

Lemma bind_assoc {A B C} (m : run V E A) (f : A → run V E B) (g : B → run V E C) :
  bind (bind m f) g = bind m (λ a, bind (f a) g).
Proof.
  unfold bind; case_result m; [|done].
  case_result (f r); by rewrite ?app_assoc.
Qed.

Lemma bind_raise {A B} e (f : A → run V E B) : bind (raise e) f = raise e.
Proof. done. Qed.

Lemma catch_ret {A} (a : A) (h : E → run V E A) : catch (ret a) h = ret a.
Proof. done. Qed.

Lemma catch_raise {A} e (h : E → run V E A) : catch (raise e) h = h e.
Proof. by apply run_eq. Qed.

Lemma catch_Raised {A} t e (h : E → run V E A) :
  catch (Run t (Raised e)) h = Run (t ++ trace (h e)) (result (h e)).
Proof. done. Qed.

Lemma catch_Returned {A} t (a : A) (h : E → run V E A) :
  catch (Run t (Returned a)) h = Run t (Returned a).
Proof. done. Qed.

Lemma bind_returns {A B} (m : run V E A) (f : A → run V E B) b :
  returns (bind m f) b ↔ ∃ a, returns m a ∧ returns (f a) b.
Proof.
  unfold returns, bind; case_result m; [naive_solver|].
  split; [done|]. by intros (? & ? & _).
Qed.

Lemma bind_raises {A B} (m : run V E A) (f : A → run V E B) e :
  raises (bind m f) e ↔ raises m e ∨ ∃ a, returns m a ∧ raises (f a) e.
Proof. unfold raises, returns, bind; case_result m; naive_solver. Qed.

(** What was printed before a step stays printed after it. *)
Lemma trace_bind_prefix {A B} (m : run V E A) (f : A → run V E B) :
  trace m `prefix_of` trace (bind m f).
Proof.
  unfold bind; case_result m; [by apply prefix_app_r|done].
Qed.

Lemma trace_catch_prefix {A} (m : run V E A) (h : E → run V E A) :
  trace m `prefix_of` trace (catch m h).
Proof.
  unfold catch; case_result m; [done|by apply prefix_app_r].
Qed.

Lemma returns_inj {A} (m : run V E A) a1 a2 :
  returns m a1 → returns m a2 → a1 = a2.
Proof. unfold returns; congruence. Qed.

Lemma returns_inj_raises {A} (m : run V E A) e1 e2 : raises m e1 → raises m e2 → e1 = e2.
Proof. unfold raises; congruence. Qed.

Lemma returns_not_raises {A} (m : run V E A) a e : returns m a → ¬ raises m e.
Proof. unfold returns, raises; congruence. Qed.

(** A loop whose body never raises returns one result per element and
    prints what the bodies print, in order. *)
Lemma map_run_total {A B} (f : A → run V E B) (g : A → B) (l : list A) :
  (∀ x, x ∈ l → returns (f x) (g x)) →
  returns (map_run f l) (g <$> l) ∧ trace (map_run f l) = l ≫= (λ x, trace (f x)).
Proof.
  induction l as [|x l IH]; intros Hf; [split; reflexivity|].
  destruct IH as [IH1 IH2]; [intros ??; apply Hf; by right|].
  assert (returns (f x) (g x)) as Hx by (apply Hf; left). unfold returns in *. simpl.
  unfold bind. rewrite !Hx. simpl. rewrite !IH1. simpl.
  by rewrite IH2, app_nil_r.
Qed.

End RunLaws.

#[export] Hint Rewrite @bind_ret_l @bind_ret_r @bind_raise @catch_ret @catch_raise : run_rw.
#[export] Hint Resolve trace_bind_prefix trace_catch_prefix : run.

(** ** Laws of [first_ok] *)

Section FirstOkLaws.
Context {A B : Type} (f : A → option B).

Lemma first_ok_Some l x y :
  first_ok f l = Some (x, y) ↔
  ∃ l1 l2, l = l1 ++ x :: l2 ∧ Forall (λ z, f z = None) l1 ∧ f x = Some y.
Proof.
  induction l as [|z l IH]; simpl.
  - split; [done|]. intros ([|??] & ? & ? & _); done.
  - destruct (f z) as [y'|] eqn:Hz.
    + split.
      * intros [= -> ->]. by exists [], l.
      * intros ([|z' l1] & l2 & Hl & Hall & Hx); simplify_eq/=; [done|].
        apply Forall_cons in Hall as [? _]; congruence.
    + rewrite IH. split.
      * intros (l1 & l2 & -> & ? & ?). exists (z :: l1), l2. by repeat constructor.
      * intros ([|z' l1] & l2 & Hl & Hall & Hx); simplify_eq/=.
        apply Forall_cons in Hall as [_ ?]. by exists l1, l2.
Qed.

Lemma first_ok_None l : first_ok f l = None ↔ Forall (λ z, f z = None) l.
Proof.
  induction l as [|z l IH]; simpl; [done|].
  rewrite Forall_cons. destruct (f z) eqn:Hz; naive_solver.
Qed.

Lemma first_ok_is_Some l x : x ∈ l → is_Some (f x) → is_Some (first_ok f l).
Proof.
  intros Hx [y Hy]. destruct (first_ok f l) as [|] eqn:Hf; [done|].
  apply first_ok_None in Hf. rewrite Forall_forall in Hf. apply Hf in Hx. congruence.
Qed.

Lemma first_ok_elem_of l x y : first_ok f l = Some (x, y) → x ∈ l ∧ f x = Some y.
Proof.
  intros (l1 & l2 & -> & _ & ?)%first_ok_Some. split; [|done].
  apply elem_of_app; right; left.
Qed.

End FirstOkLaws.

(** ** Lists *)

Section ListFacts.
Context {A B C D : Type}.

Lemma Forall_sublist (P : A → Prop) (l k : list A) :
  l `sublist_of` k → Forall P k → Forall P l.
Proof.
  induction 1 as [|x l k _ IH|x l k _ IH]; [done|..].
  - intros [? ?]%Forall_cons. constructor; auto.
  - intros [_ ?]%Forall_cons. auto.
Qed.

(** A weaker test keeps more: the rows that pass [P] are, in order, among
    the rows that pass [Q]. *)
Lemma sublist_filter_impl (P Q : A → Prop) `{!∀ x, Decision (P x)} `{!∀ x, Decision (Q x)}
    (l : list A) :
  Forall (λ x, P x → Q x) l → filter P l `sublist_of` filter Q l.
Proof.
  induction 1 as [|x l Hx _ IH]; [done|]. rewrite !filter_cons.
  repeat case_decide; [by constructor|tauto|by constructor|done].
Qed.

(** Reading back the second argument of a [zip_with]. *)
Lemma fmap_zip_with_r (g : C → D) (h : B → D) (f : A → B → C) (l : list A) (k : list B) :
  length l = length k → (∀ x y, y ∈ k → g (f x y) = h y) →
  g <$> zip_with f l k = h <$> k.
Proof.
  revert l. induction k as [|y k IH]; intros [|x l] Hlen Hg; simplify_eq/=; [done|].
  f_equal; [apply Hg; left|]. apply IH; [done|]. intros ???. apply Hg. by right.
Qed.

(** Reading back the first argument of a [zip_with]. *)
Lemma fmap_zip_with_l (g : C → A) (f : A → B → C) (l : list A) (k : list B) :
  length l = length k → (∀ x y, y ∈ k → g (f x y) = x) →
  g <$> zip_with f l k = l.
Proof.
  revert l. induction k as [|y k IH]; intros [|x l] Hlen Hg; simplify_eq/=; [done|].
  f_equal; [apply Hg; left|]. apply IH; [done|]. intros ???. apply Hg. by right.
Qed.

Lemma Forall_zip_with_r (P : C → Prop) (f : A → B → C) (l : list A) (k : list B) :
  (∀ x y, y ∈ k → P (f x y)) → Forall P (zip_with f l k).
Proof.
  revert l. induction k as [|y k IH]; intros [|x l] Hp; simpl; try done.
  constructor; [apply Hp; left|]. apply IH. intros ???. apply Hp. by right.
Qed.

End ListFacts.

Section ZipFacts.
Context {A B C D : Type}.

(** A [zip_with] of two maps of one list is a map. *)
Lemma zip_with_fmap_same (g : B → C → D) (f1 : A → B) (f2 : A → C) (l : list A) :
  zip_with g (f1 <$> l) (f2 <$> l) = (λ x, g (f1 x) (f2 x)) <$> l.
Proof. induction l; simpl; by f_equal. Qed.

End ZipFacts.

(** A [zip_with] of a list with a map of itself is a map. *)
Lemma zip_with_fmap_l {A B C} (g : B → A → C) (h : A → B) (l : list A) :
  zip_with g (h <$> l) l = (λ x, g (h x) x) <$> l.
Proof. induction l; simpl; by f_equal. Qed.

(** A map that keeps the first components keeps their list. *)
Lemma fmap_fst_preserved {A B} (g : A * B → A * B) (l : list (A * B)) :
  (∀ x, (g x).1 = x.1) → (g <$> l).*1 = l.*1.
Proof. intros Hg. induction l; simpl; by f_equal. Qed.

(** ** Running a sequence of steps

    [result_bind] and [trace_bind] compute the result and the printed lines
    of [x ← m; f x] from those of [m]; with a hypothesis [returns m a] in
    hand, [run_step] moves past [m]. *)

Section RunSteps.
Context {V E : Type}.

Lemma result_bind {A B} (m : run V E A) (f : A → run V E B) :
  result (m ≫= f) =
  match result m with Returned a => result (f a) | Raised e => Raised e end.
Proof. unfold mbind, run_bind, bind. by destruct (result m). Qed.

Lemma trace_bind {A B} (m : run V E A) (f : A → run V E B) :
  trace (m ≫= f) =
  trace m ++ match result m with Returned a => trace (f a) | Raised _ => [] end.
Proof. unfold mbind, run_bind, bind. destruct (result m); simpl; by rewrite ?app_nil_r. Qed.

Lemma mbind_returns {A B} (m : run V E A) (f : A → run V E B) b :
  returns (m ≫= f) b ↔ ∃ a, returns m a ∧ returns (f a) b.
Proof. apply bind_returns. Qed.

Lemma mbind_raises {A B} (m : run V E A) (f : A → run V E B) e :
  raises (m ≫= f) e ↔ raises m e ∨ ∃ a, returns m a ∧ raises (f a) e.
Proof. apply bind_raises. Qed.

Lemma result_fmap {A B} (g : A → B) (m : run V E A) :
  result (g <$> m) =
  match result m with Returned a => Returned (g a) | Raised e => Raised e end.
Proof. unfold fmap, run_fmap, bind. by destruct (result m). Qed.

Lemma fmap_returns {A B} (g : A → B) (m : run V E A) b :
  returns (g <$> m) b ↔ ∃ a, returns m a ∧ b = g a.
Proof.
  unfold returns. rewrite result_fmap. destruct (result m) as [a|e].
  - split; [intros [= <-]; eauto|]. intros (a' & Ha & ->). by simplify_eq.
  - split; [done|]. by intros (? & ? & _).
Qed.

Lemma fmap_raises {A B} (g : A → B) (m : run V E A) e : raises (g <$> m) e ↔ raises m e.
Proof. unfold raises. rewrite result_fmap. destruct (result m); split; intros [=]; by subst. Qed.

Lemma result_bind_returns {A B} (m : run V E A) (f : A → run V E B) a :
  returns m a → result (m ≫= f) = result (f a).
Proof. intros H. by rewrite result_bind, H. Qed.

Lemma result_bind_raises {A B} (m : run V E A) (f : A → run V E B) e :
  raises m e → result (m ≫= f) = Raised e.
Proof. intros H. by rewrite result_bind, H. Qed.

Lemma trace_bind_returns {A B} (m : run V E A) (f : A → run V E B) a :
  returns m a → trace (m ≫= f) = trace m ++ trace (f a).
Proof. intros H. by rewrite trace_bind, H. Qed.

(** A step that prints nothing after [m] leaves the lines of [m]. *)
Lemma trace_bind_quiet {A B} (m : run V E A) (f : A → run V E B) :
  (∀ a, trace (f a) = []) → trace (m ≫= f) = trace m.
Proof. intros Hf. rewrite trace_bind. destruct (result m); by rewrite ?Hf, app_nil_r. Qed.

Lemma ret_bind {A B} (a : A) (f : A → run V E B) : ret a ≫= f = f a.
Proof. apply bind_ret_l. Qed.

Lemma raise_bind {A B} (e : E) (f : A → run V E B) : raise e ≫= f = raise e.
Proof. done. Qed.

Lemma result_emit {B} (v : V) (f : unit → run V E B) :
  result (emit v ≫= f) = result (f tt).
Proof. done. Qed.

Lemma trace_emit {B} (v : V) (f : unit → run V E B) :
  trace (emit v ≫= f) = v :: trace (f tt).
Proof. done. Qed.

(** A computation is its printed lines and its result. *)
Lemma returns_eta {A} (m : run V E A) a : returns m a → m = Run (trace m) (Returned a).
Proof. destruct m; unfold returns; simpl; congruence. Qed.

Lemma raises_eta {A} (m : run V E A) e : raises m e → m = Run (trace m) (Raised e).
Proof. destruct m; unfold raises; simpl; congruence. Qed.

(** A computation returns or raises. *)
Lemma returns_or_raises {A} (m : run V E A) : (∃ a, returns m a) ∨ (∃ e, raises m e).
Proof. unfold returns, raises. destruct (result m); eauto. Qed.

End RunSteps.

(** A loop whose body only returns is a map. *)
Lemma map_run_ret {V E A B} (f : A → run V E B) (g : A → B) (l : list A) :
  (∀ x, x ∈ l → f x = ret (g x)) → map_run f l = ret (g <$> l).
Proof.
  induction l as [|x l IH]; intros Hf; [done|]. simpl.
  rewrite (Hf x), IH by (try left; intros; apply Hf; by right). done.
Qed.

(** A loop whose body prints one line prints the lines in order. *)
Lemma map_run_emit {V E A} (f : A → run V E unit) (l : list A) (lines : list V) :
  Forall2 (λ x v, f x = emit v) l lines →
  map_run f l = Run lines (Returned (replicate (length l) tt)).
Proof.
  induction 1 as [|x v l lines Hx _ IH]; [done|].
  simpl. rewrite Hx, IH. apply run_eq; simpl; by rewrite ?app_nil_r.
Qed.

#[export] Hint Rewrite @ret_bind @raise_bind @result_emit @trace_emit : run_rw.

Ltac run_step H :=
  first [ rewrite (result_bind_returns _ _ _ H)
        | rewrite (trace_bind_returns _ _ _ H)
        | rewrite (result_bind_raises _ _ _ H) ].
