(* ===== verification/PyText.v ===== *)
(** * PyText: the operations on Python [str] that the program calls

    A [str] is a [string] (a sequence of 8-bit characters).  The file models
    [str.startswith] (src/workshift.py line 162), [os.path.splitext] and
    [str.lower] (line 125), and the character classes and decimal numerals
    that [datetime.strptime] and [str] of a number are made of.  The
    operations that index a string work on its list of characters
    ([list_ascii_of_string]), as Python's slices do.  The digit loop of
    [str_int] takes fuel; [str_int_fuel_enough] shows it is enough.
    [lower] is idempotent and keeps the length; [splitext_spec] says what
    the two parts of a path are. *)

From Stdlib Require Import ZArith Lia Ascii String.
From stdpp Require Import base tactics option list strings.
From S2P Require Import Prelude.

Local Open Scope Z_scope.

(** ** Characters *)

(** The code point of a character. *)
Definition ord (c : ascii) : Z := Z.of_nat (nat_of_ascii c).

Definition chr (z : Z) : ascii := ascii_of_nat (Z.to_nat z).

(** ASCII decimal digits: [0-9]. *)
Definition is_digit (c : ascii) : bool := (48 <=? ord c) && (ord c <=? 57).

Definition digit_val (c : ascii) : Z := ord c - 48.

Definition digit_chr (d : Z) : ascii := chr (48 + d).

(** White space as the regular expression class \s reads a character below
    256: tab, line feed, vertical tab, form feed, carriage return, the
    separators 28-31, space, next line (133) and no-break space (160). *)
Definition is_space (c : ascii) : bool :=
  let n := ord c in
  ((9 <=? n) && (n <=? 13)) || ((28 <=? n) && (n <=? 32)) || (n =? 133) || (n =? 160).

Definition is_upper (c : ascii) : bool := (65 <=? ord c) && (ord c <=? 90).

(** [str.lower] on one character: A-Z move to a-z, the rest stays. *)
Definition lower_char (c : ascii) : ascii :=
  if is_upper c then chr (ord c + 32) else c.

(** ** Strings *)

Definition chars (s : string) : list ascii := list_ascii_of_string s.

Definition text (l : list ascii) : string := string_of_list_ascii l.

(** [s.lower()] *)
Definition lower (s : string) : string := text (lower_char <$> chars s).

(** [s.startswith(p)] *)
Fixpoint startswith (s p : string) {struct p} : bool :=
  match p, s with
  | EmptyString, _ => true
  | String c p', String d s' => if decide (c = d) then startswith s' p' else false
  | String _ _, EmptyString => false
  end.

(** ** Numerals *)

(** The value of a run of digits, most significant first ([int] of it). *)
Definition digits_val (l : list ascii) : Z :=
  foldl (λ acc c, 10 * acc + digit_val c) 0 l.

(** [n] written with exactly two digits: the rendering of %d, %m, %y, %H and
    %M, and of the fields of an ISO time stamp. *)
Definition pad2 (n : Z) : list ascii := [digit_chr ((n / 10) `mod` 10); digit_chr (n `mod` 10)].

(** [n] written with exactly four digits (%Y). *)
Definition pad4 (n : Z) : list ascii := pad2 (n / 100) ++ pad2 (n `mod` 100).

(** The decimal digits of a positive number with [fuel] digits at most. *)
Fixpoint nat_digits (fuel : nat) (n : Z) : list ascii :=
  match fuel with
  | O => []
  | S fuel' =>
      if n <? 10 then [digit_chr n]
      else nat_digits fuel' (n / 10) ++ [digit_chr (n `mod` 10)]
  end.

(** [str(n)] for an [int]: a minus sign for a negative number, then the
    digits.  A number below 10^k has k digits, and [Z.abs n < 10 ^ (1 + log2)]. *)
Definition str_int (n : Z) : string :=
  let ds := nat_digits (S (Z.to_nat (Z.log2 (Z.abs n)))) (Z.abs n) in
  text (if n <? 0 then "-"%char :: ds else ds).

(** ** [os.path.splitext] *)

(** [p.rfind(c)] for a character class: the last index whose character is in
    the class, -1 when there is none. *)
Fixpoint rfind_from (P : ascii → bool) (l : list ascii) (i : Z) : Z :=
  match l with
  | [] => -1
  | c :: l' =>
      let r := rfind_from P l' (i + 1) in
      if 0 <=? r then r else if P c then i else -1
  end.

Definition rfind (P : ascii → bool) (l : list ascii) : Z := rfind_from P l 0.

Definition is_sep (c : ascii) : bool := bool_decide (c = "/"%char).

Definition is_extsep (c : ascii) : bool := bool_decide (c = "."%char).

(** The loop of [genericpath._splitext] that skips leading dots: from
    [filenameIndex], at most [n] characters are read; the answer is whether one
    of them is not a dot. *)
Fixpoint splitext_scan (l : list ascii) (n : nat) : bool :=
  match n, l with
  | S n', c :: l' => if is_extsep c then splitext_scan l' n' else true
  | _, _ => false
  end.

(** [os.path.splitext(p)] with '/' as the separator: (root, extension). *)
Definition splitext (p : string) : string * string :=
  let l := chars p in
  let sepIndex := rfind is_sep l in
  let dotIndex := rfind is_extsep l in
  if (sepIndex <? dotIndex) &&
     splitext_scan (drop (Z.to_nat (sepIndex + 1)) l) (Z.to_nat (dotIndex - (sepIndex + 1)))
  then (text (take (Z.to_nat dotIndex) l), text (drop (Z.to_nat dotIndex) l))
  else (p, EmptyString).

(** ** Examples *)

Example splitext_csv : splitext "C:/Users/Admin/Documents/MinBook.csv" = ("C:/Users/Admin/Documents/MinBook"%string, ".csv"%string).
Proof. reflexivity. Qed.

Example splitext_hidden : splitext "dir/.bashrc" = ("dir/.bashrc"%string, ""%string).
Proof. reflexivity. Qed.

Example splitext_dotdir : splitext "a.b/c" = ("a.b/c"%string, ""%string).
Proof. reflexivity. Qed.

Example lower_ext : lower ".XLSX" = ".xlsx"%string.
Proof. reflexivity. Qed.

Example str_int_neg : str_int (-2024) = "-2024"%string.
Proof. reflexivity. Qed.

Example startswith_prod : startswith "Prod-12" "Prod" = true ∧ startswith "prod-12" "Prod" = false.
Proof. done. Qed.

(** ** Characters: lemmas *)

Lemma ord_range c : 0 ≤ ord c < 256.
Proof.
  unfold ord. pose proof (nat_ascii_bounded c). lia.
Qed.

Lemma chr_ord c : chr (ord c) = c.
Proof. unfold chr, ord. by rewrite Nat2Z.id, ascii_nat_embedding. Qed.

Lemma ord_chr z : 0 ≤ z < 256 → ord (chr z) = z.
Proof.
  intros ?. unfold chr, ord. rewrite nat_ascii_embedding by lia. lia.
Qed.

Lemma ord_inj c d : ord c = ord d → c = d.
Proof. intros H. by rewrite <-(chr_ord c), <-(chr_ord d), H. Qed.

Lemma is_digit_spec c : is_digit c = true ↔ 48 ≤ ord c ≤ 57.
Proof. unfold is_digit. rewrite andb_true_iff, !Z.leb_le. done. Qed.

Lemma digit_val_range c : is_digit c = true → 0 ≤ digit_val c ≤ 9.
Proof. rewrite is_digit_spec. unfold digit_val. lia. Qed.

Lemma digit_val_chr d : 0 ≤ d ≤ 9 → digit_val (digit_chr d) = d.
Proof. intros ?. unfold digit_val, digit_chr. rewrite ord_chr; lia. Qed.

Lemma is_digit_chr d : 0 ≤ d ≤ 9 → is_digit (digit_chr d) = true.
Proof. intros ?. apply is_digit_spec. unfold digit_chr. rewrite ord_chr; lia. Qed.

Lemma digit_chr_val c : is_digit c = true → digit_chr (digit_val c) = c.
Proof.
  intros _. unfold digit_chr, digit_val.
  replace (48 + (ord c - 48)) with (ord c) by lia. apply chr_ord.
Qed.

Lemma is_digit_not_space c : is_digit c = true → is_space c = false.
Proof.
  rewrite is_digit_spec. unfold is_space. intros ?.
  repeat (apply orb_false_iff; split); try apply andb_false_iff; lia.
Qed.

#[export] Hint Resolve is_digit_chr digit_val_range : run.
#[export] Hint Rewrite digit_val_chr using lia : run_rw.

(** ** Strings: lemmas *)

Lemma text_chars s : text (chars s) = s.
Proof. apply string_of_list_ascii_of_string. Qed.

Lemma chars_text l : chars (text l) = l.
Proof. apply list_ascii_of_string_of_list_ascii. Qed.

Lemma chars_inj s1 s2 : chars s1 = chars s2 → s1 = s2.
Proof. intros H. by rewrite <-(text_chars s1), <-(text_chars s2), H. Qed.

Lemma chars_app s1 s2 : chars (s1 +:+ s2) = chars s1 ++ chars s2.
Proof. unfold chars. induction s1; simpl; [done|by f_equal]. Qed.

Lemma text_app l1 l2 : text (l1 ++ l2) = text l1 +:+ text l2.
Proof. apply chars_inj. by rewrite chars_app, !chars_text. Qed.

(** ** [lower]: lemmas *)

(** A lower-case letter is no upper-case letter. *)
Lemma is_upper_lower_char c : is_upper (lower_char c) = false.
Proof.
  unfold lower_char. destruct (is_upper c) eqn:Hu; [|done].
  apply andb_true_iff in Hu as [?%Z.leb_le ?%Z.leb_le].
  unfold is_upper. rewrite ord_chr by lia. apply andb_false_iff. right. apply Z.leb_gt. lia.
Qed.

Lemma lower_char_idempotent c : lower_char (lower_char c) = lower_char c.
Proof. unfold lower_char at 1. by rewrite is_upper_lower_char. Qed.

(** Lowering twice is lowering once, and the length stays. *)
Lemma lower_idempotent s : lower (lower s) = lower s.
Proof.
  unfold lower. rewrite chars_text, <-list_fmap_compose. f_equal.
  apply list_fmap_ext. intros _ c _. apply lower_char_idempotent.
Qed.

Lemma lower_length s : length (chars (lower s)) = length (chars s).
Proof. unfold lower. by rewrite chars_text, length_fmap. Qed.

Lemma string_app_cons c (p r : string) : String c p +:+ r = String c (p +:+ r).
Proof. reflexivity. Qed.

(** [startswith] is being an extension: s = p + rest. *)
Lemma startswith_spec s p : startswith s p = true ↔ ∃ r, s = p +:+ r.
Proof.
  revert s. induction p as [|c p IH]; intros s; simpl.
  - split; [intros _; by exists s|done].
  - destruct s as [|d s]; [split; [done|by intros [? ?]]|].
    case_decide as Hcd; subst.
    + rewrite IH. split; intros [r Hr]; exists r; rewrite string_app_cons in *; congruence.
    + split; [done|]. intros [r Hr]. rewrite string_app_cons in Hr. congruence.
Qed.

Lemma startswith_refl s : startswith s s = true.
Proof. induction s; simpl; [done|]. by case_decide. Qed.

Lemma startswith_empty s : startswith s "" = true.
Proof. by destruct s. Qed.

Lemma startswith_length s p :
  startswith s p = true → (String.length p ≤ String.length s)%nat.
Proof.
  revert s. induction p as [|c p IH]; intros [|d s]; simpl; try done; [lia|].
  case_decide; [|done]. intros ?%IH. lia.
Qed.

#[export] Hint Rewrite text_chars chars_text : run_rw.

(** ** Numerals: lemmas *)

Lemma digits_val_snoc l c : digits_val (l ++ [c]) = 10 * digits_val l + digit_val c.
Proof. unfold digits_val. by rewrite foldl_app. Qed.

(** With a unit of fuel for every digit, [nat_digits] writes the whole
    number: the digits read back give it. *)
Lemma nat_digits_val fuel n :
  0 ≤ n < 10 ^ Z.of_nat fuel → digits_val (nat_digits fuel n) = n.
Proof.
  revert n. induction fuel as [|fuel IH]; intros n Hn.
  { simpl in *. unfold digits_val. simpl. lia. }
  rewrite Nat2Z.inj_succ, Z.pow_succ_r in Hn by lia. simpl.
  destruct (Z.ltb_spec n 10).
  - unfold digits_val. simpl. rewrite digit_val_chr; lia.
  - rewrite digits_val_snoc, IH, digit_val_chr by zlia. zlia.
Qed.

(** Fuel past the number of digits is not used. *)
Lemma nat_digits_fuel fuel fuel' n :
  0 ≤ n < 10 ^ Z.of_nat fuel → (0 < fuel ≤ fuel')%nat →
  nat_digits fuel' n = nat_digits fuel n.
Proof.
  revert fuel' n. induction fuel as [|fuel IH]; intros [|fuel'] n Hn Hf; try lia.
  rewrite Nat2Z.inj_succ, Z.pow_succ_r in Hn by lia. simpl.
  destruct (Z.ltb_spec n 10); [done|]. f_equal.
  destruct fuel as [|fuel]; [simpl in Hn; lia|]. apply IH; [zlia|lia].
Qed.

Lemma nat_digits_digit fuel n c : 0 ≤ n → c ∈ nat_digits fuel n → is_digit c = true.
Proof.
  revert n. induction fuel as [|fuel IH]; intros n Hn; simpl; [by intros ?%elem_of_nil|].
  destruct (Z.ltb_spec n 10).
  - intros ->%list_elem_of_singleton. apply is_digit_chr. lia.
  - rewrite elem_of_app, list_elem_of_singleton. intros [?| ->].
    + apply (IH (n / 10)); [zlia|done].
    + apply is_digit_chr. zlia.
Qed.

Lemma nat_digits_nonempty fuel n : nat_digits (S fuel) n ≠ [].
Proof. simpl. destruct (n <? 10); [done|]. by intros [_ ?]%app_eq_nil. Qed.

(** A number has fewer decimal digits than binary digits. *)
Lemma log2_fuel n : 0 ≤ n → n < 10 ^ Z.of_nat (S (Z.to_nat (Z.log2 n))).
Proof.
  intros Hn. rewrite Nat2Z.inj_succ, Z2Nat.id by apply Z.log2_nonneg.
  destruct (decide (n = 0)) as [->|]; [done|].
  pose proof (Z.log2_nonneg n).
  assert (n < 2 ^ Z.succ (Z.log2 n)) by (apply Z.log2_spec; lia).
  assert (2 ^ Z.succ (Z.log2 n) ≤ 10 ^ Z.succ (Z.log2 n)) by (apply Z.pow_le_mono_l; lia).
  lia.
Qed.

(** The text of an integer: a minus sign for a negative number, then
    decimal digits, one at least, whose value is the magnitude. *)
Lemma str_int_chars n :
  ∃ ds, chars (str_int n) = (if n <? 0 then ["-"%char] else []) ++ ds ∧ ds ≠ [] ∧
        Forall (λ c, is_digit c = true) ds ∧ digits_val ds = Z.abs n.
Proof.
  unfold str_int. exists (nat_digits (S (Z.to_nat (Z.log2 (Z.abs n)))) (Z.abs n)).
  rewrite chars_text. split_and!.
  - by destruct (n <? 0).
  - apply nat_digits_nonempty.
  - apply Forall_forall. intros c. apply nat_digits_digit. lia.
  - apply nat_digits_val. split; [lia|]. apply log2_fuel. lia.
Qed.

(** C40. The fuel [str_int] gives [nat_digits] is enough for every integer: the
    digits written have the value of the number, and more fuel writes the
    same digits. *)
Theorem str_int_fuel_enough n fuel :
  (S (Z.to_nat (Z.log2 (Z.abs n))) ≤ fuel)%nat →
  nat_digits fuel (Z.abs n) = nat_digits (S (Z.to_nat (Z.log2 (Z.abs n)))) (Z.abs n) ∧
  digits_val (nat_digits fuel (Z.abs n)) = Z.abs n.
Proof.
  intros Hf. assert (0 ≤ Z.abs n < 10 ^ Z.of_nat (S (Z.to_nat (Z.log2 (Z.abs n))))) as Hn
    by (split; [lia|apply log2_fuel; lia]).
  rewrite (nat_digits_fuel _ fuel _ Hn) by lia. split; [done|]. by apply nat_digits_val.
Qed.

Lemma str_int_fuel_enough_witness :
  nat_digits 40 (Z.abs (-2024)) = nat_digits (S (Z.to_nat (Z.log2 (Z.abs (-2024))))) (Z.abs (-2024)) ∧
  digits_val (nat_digits 40 (Z.abs (-2024))) = Z.abs (-2024).
Proof. apply (str_int_fuel_enough (-2024) 40). vm_compute. lia. Defined.

(** [str] of an integer is injective. *)
Lemma str_int_inj n m : str_int n = str_int m → n = m.
Proof.
  intros H. destruct (str_int_chars n) as (dn & Hn & Hne & Hdn & Hvn).
  destruct (str_int_chars m) as (dm & Hm & Hme & Hdm & Hvm).
  rewrite H, Hm in Hn. clear H Hm.
  destruct (Z.ltb_spec n 0), (Z.ltb_spec m 0); simpl in Hn.
  - simplify_eq. lia.
  - destruct dm as [|c dm]; [done|]. simplify_eq. by apply Forall_cons in Hdm as [? _].
  - destruct dn as [|c dn]; [done|]. simplify_eq. by apply Forall_cons in Hdn as [? _].
  - simplify_eq. lia.
Qed.

(** ** [os.path.splitext]: lemmas *)

(** [rfind_from] finds the last character of the class: none of the list is
    in the class, or the character at the index found is and none after it
    is. *)
Lemma rfind_from_spec P l i :
  0 ≤ i →
  (rfind_from P l i = -1 ∧ Forall (λ c, P c = false) l) ∨
  ∃ k c, rfind_from P l i = i + Z.of_nat k ∧ l !! k = Some c ∧ P c = true ∧
         Forall (λ c, P c = false) (drop (S k) l).
Proof.
  revert i. induction l as [|c l IH]; intros i Hi; [by left|]. simpl.
  destruct (IH (i + 1)) as [[-> Hl]|(k & c' & -> & Hk & Hc' & Hl)]; [lia|..].
  - simpl. destruct (P c) eqn:Hc; [right|left; by repeat constructor].
    exists 0%nat, c. rewrite Z.add_0_r. by rewrite drop_0 in *.
  - right. exists (S k), c'. rewrite (proj2 (Z.leb_le _ _)) by lia.
    split_and!; [lia|done..].
Qed.

Lemma rfind_spec P l :
  (rfind P l = -1 ∧ Forall (λ c, P c = false) l) ∨
  ∃ k c, rfind P l = Z.of_nat k ∧ l !! k = Some c ∧ P c = true ∧
         Forall (λ c, P c = false) (drop (S k) l).
Proof. exact (rfind_from_spec P l 0 (Z.le_refl 0)). Qed.

(** No separator after the last dot, when the last dot comes after the
    last separator. *)
Lemma no_sep_after l k :
  rfind is_sep l < Z.of_nat k → Forall (λ c, is_sep c = false) (drop (S k) l).
Proof.
  destruct (rfind_spec is_sep l) as [[_ Hl]|(j & c & -> & _ & _ & Hl)]; intros Hlt.
  - by apply Forall_drop.
  - replace (S k) with (S j + (k - j))%nat by lia. rewrite <-drop_drop. by apply Forall_drop.
Qed.

(** C39. [os.path.splitext]: the two parts make the path, and the extension is
    empty or a dot followed by characters that are neither a dot nor a
    separator. *)
Theorem splitext_spec p :
  (splitext p).1 +:+ (splitext p).2 = p ∧
  ((splitext p).2 = EmptyString ∨
   ∃ e, chars (splitext p).2 = "."%char :: e ∧
        Forall (λ c, c ≠ "."%char ∧ c ≠ "/"%char) e).
Proof.
  unfold splitext. cbv zeta. destruct (_ && _) eqn:Hb; simpl; [|split; [|by left]].
  - apply andb_true_iff in Hb as [Hlt%Z.ltb_lt _].
    destruct (rfind_spec is_extsep (chars p)) as [[Hd _]|(k & c & Hd & Hk & Hc & Hl)].
    { destruct (rfind_spec is_sep (chars p)) as [[Hs _]|(j & ? & Hs & _)]; lia. }
    rewrite Hd in *. rewrite Nat2Z.id. split.
    + by rewrite <-text_app, take_drop, text_chars.
    + right. exists (drop (S k) (chars p)). rewrite chars_text. split.
      * apply bool_decide_eq_true in Hc as ->. by apply drop_S.
      * pose proof (no_sep_after _ _ Hlt) as Hs. rewrite Forall_forall in Hl, Hs.
        apply Forall_forall. intros x Hx. specialize (Hl x Hx). specialize (Hs x Hx).
        by apply bool_decide_eq_false in Hl, Hs.
  - apply chars_inj. rewrite chars_app. apply app_nil_r.
Qed.
