(* ===== verification/Datetime.v ===== *)
(** * Datetime: naive date-times, their order and their differences

    The program holds date-times in three places: the values
    [datetime.strptime] returns, the datetime64 column pandas makes of them,
    and the two bounds of the date window.  It compares them (src/workshift.py
    lines 179-182) and subtracts them (lines 188-190).

    A [datetime] is the record of its fields.  [valid] is the range check of
    the [datetime] constructor.  [toordinal] is the day number of the
    proleptic Gregorian calendar (1 for 0001-01-01) computed as CPython's
    [_ymd2ord] does; [to_seconds] extends it to seconds.  [dt_compare] compares
    field by field, as [datetime.__lt__] does; pandas compares the 64-bit
    nanosecond counts [dt64]; the file proves the two agree on valid values.
    [duration_hours] is [(end - start).total_seconds() / 3600] as an exact
    rational. *)

From Stdlib Require Import ZArith Lia Ascii String QArith.
From stdpp Require Import base tactics option list.
From S2P Require Import Prelude PyText.

Local Open Scope Z_scope.

(** ** Data *)

Record datetime : Type := DT {
  year : Z;
  month : Z;
  day : Z;
  hour : Z;
  minute : Z;
  second : Z
}.

#[export] Instance datetime_eq_dec : EqDecision datetime.
Proof. solve_decision. Defined.

(** ** The calendar *)

Definition MINYEAR : Z := 1.
Definition MAXYEAR : Z := 9999.

Definition is_leap (y : Z) : bool :=
  (y `mod` 4 =? 0) && (negb (y `mod` 100 =? 0) || (y `mod` 400 =? 0)).

Definition days_in_month (y m : Z) : Z :=
  match m with
  | 1 | 3 | 5 | 7 | 8 | 10 | 12 => 31
  | 4 | 6 | 9 | 11 => 30
  | 2 => if is_leap y then 29 else 28
  | _ => 0
  end.

Definition days_in_year (y : Z) : Z := if is_leap y then 366 else 365.

(** Number of days before January 1st of year [y]. *)
Definition days_before_year (y : Z) : Z :=
  let p := y - 1 in p * 365 + p / 4 - p / 100 + p / 400.

(** Number of days in year [y] before the first day of month [m]. *)
Definition days_before_month (y m : Z) : Z :=
  match m with
  | 1 => 0 | 2 => 31 | 3 => 59 | 4 => 90 | 5 => 120 | 6 => 151
  | 7 => 181 | 8 => 212 | 9 => 243 | 10 => 273 | 11 => 304 | 12 => 334
  | _ => 0
  end + (if (2 <? m) && is_leap y then 1 else 0).

Definition ymd2ord (y m d : Z) : Z :=
  days_before_year y + days_before_month y m + d.

(** ** Validity: the range checks of the [datetime] constructor *)

Definition valid_date (y m d : Z) : bool :=
  (MINYEAR <=? y) && (y <=? MAXYEAR) && (1 <=? m) && (m <=? 12) &&
  (1 <=? d) && (d <=? days_in_month y m).

Definition valid_time (h mi s : Z) : bool :=
  (0 <=? h) && (h <=? 23) && (0 <=? mi) && (mi <=? 59) && (0 <=? s) && (s <=? 59).

Definition valid (t : datetime) : bool :=
  valid_date (year t) (month t) (day t) && valid_time (hour t) (minute t) (second t).

(** [datetime(y, m, d, h, mi)]: the constructor raises ValueError out of range. *)
Definition mk_datetime (y m d h mi : Z) : option datetime :=
  let t := DT y m d h mi 0 in if valid t then Some t else None.

(** ** Ordinals and seconds *)

Definition toordinal (t : datetime) : Z := ymd2ord (year t) (month t) (day t).

Definition time_seconds (t : datetime) : Z := (hour t * 60 + minute t) * 60 + second t.

(** Seconds since the midnight before 0001-01-01. *)
Definition to_seconds (t : datetime) : Z := toordinal t * 86400 + time_seconds t.

(** ** Comparison *)

(** Field by field, most significant first. *)
Definition dt_compare (a b : datetime) : comparison :=
  match year a ?= year b with
  | Eq =>
    match month a ?= month b with
    | Eq =>
      match day a ?= day b with
      | Eq =>
        match hour a ?= hour b with
        | Eq =>
          match minute a ?= minute b with
          | Eq => second a ?= second b
          | c => c
          end
        | c => c
        end
      | c => c
      end
    | c => c
    end
  | c => c
  end.

(** [a <= b] *)
Definition dt_le (a b : datetime) : bool :=
  match dt_compare a b with Gt => false | _ => true end.

(** [a >= b] *)
Definition dt_ge (a b : datetime) : bool := dt_le b a.

(** ** datetime64[ns] *)

Definition EPOCH : datetime := DT 1970 1 1 0 0 0.

(** The value pandas stores: nanoseconds since 1970-01-01T00:00. *)
Definition dt64 (t : datetime) : Z := (to_seconds t - to_seconds EPOCH) * 1000000000.

(** The values a signed 64-bit integer holds, the least one apart (it is NaT). *)
Definition in_dt64_range (n : Z) : bool := (- 2 ^ 63 <? n) && (n <? 2 ^ 63).

(** ** Differences *)

(** [(a - b).total_seconds()] *)
Definition sub_seconds (a b : datetime) : Z := to_seconds a - to_seconds b.

(** [(finish - start).total_seconds() / 3600], in lowest terms. *)
Definition duration_hours (start finish : datetime) : Q :=
  Qred (sub_seconds finish start # 3600).

(** ** Rendering *)

(** [str] of a time stamp: YYYY-MM-DD HH:MM:SS. *)
Definition str_datetime (t : datetime) : string :=
  text (pad4 (year t) ++ "-"%char :: pad2 (month t) ++ "-"%char :: pad2 (day t) ++
        " "%char :: pad2 (hour t) ++ ":"%char :: pad2 (minute t) ++
        ":"%char :: pad2 (second t)).

(** ** Examples *)

Example ordinal_2024_11_08 : toordinal (DT 2024 11 8 17 0 0) = 739198.
Proof. reflexivity. Qed.

Example ordinal_first_day : toordinal (DT 1 1 1 0 0 0) = 1.
Proof. reflexivity. Qed.

Example feb_29_1900_invalid : mk_datetime 1900 2 29 0 0 = None ∧ mk_datetime 2000 2 29 0 0 = Some (DT 2000 2 29 0 0 0).
Proof. done. Qed.

Example duration_example : duration_hours (DT 2024 11 8 10 0 0) (DT 2024 11 8 12 30 0) = (5 # 2)%Q.
Proof. reflexivity. Qed.

Example str_datetime_example : str_datetime (DT 2024 11 8 17 0 0) = "2024-11-08 17:00:00"%string.
Proof. reflexivity. Qed.

(** ** Tactics *)

(** Case analysis on a month known to lie in 1..12. *)
Ltac month_cases m :=
  let H := fresh "Hm" in
  assert (m = 1 ∨ m = 2 ∨ m = 3 ∨ m = 4 ∨ m = 5 ∨ m = 6 ∨
          m = 7 ∨ m = 8 ∨ m = 9 ∨ m = 10 ∨ m = 11 ∨ m = 12) as H by lia;
  destruct_or! H; subst m; try lia.

(** Turn the boolean range checks in the context and the goal into
    inequalities. *)
Ltac bool_to_prop :=
  repeat match goal with
  | H : _ && _ = true |- _ => apply andb_true_iff in H as [? ?]
  | H : (_ <=? _) = true |- _ => apply Z.leb_le in H
  | H : (_ <? _) = true |- _ => apply Z.ltb_lt in H
  | H : (_ =? _) = true |- _ => apply Z.eqb_eq in H
  | H : (_ <=? _) = false |- _ => apply Z.leb_gt in H
  | H : (_ <? _) = false |- _ => apply Z.ltb_ge in H
  | H : (_ =? _) = false |- _ => apply Z.eqb_neq in H
  | |- _ && _ = true => apply andb_true_iff; split
  | |- (_ <=? _) = true => apply Z.leb_le
  | |- (_ <? _) = true => apply Z.ltb_lt
  | |- (_ =? _) = true => apply Z.eqb_eq
  end.

(** ** The calendar: lemmas *)

Lemma is_leap_spec y :
  is_leap y = true ↔ y `mod` 4 = 0 ∧ (y `mod` 100 ≠ 0 ∨ y `mod` 400 = 0).
Proof.
  unfold is_leap.
  rewrite andb_true_iff, orb_true_iff, negb_true_iff, !Z.eqb_eq, Z.eqb_neq. done.
Qed.

Lemma days_in_year_range y : 365 ≤ days_in_year y ≤ 366.
Proof. unfold days_in_year. destruct (is_leap y); lia. Qed.

Lemma days_in_month_range y m : 1 ≤ m ≤ 12 → 28 ≤ days_in_month y m ≤ 31.
Proof.
  intros ?. month_cases m; unfold days_in_month; destruct (is_leap y); lia.
Qed.

Lemma days_before_year_succ y :
  days_before_year (y + 1) = days_before_year y + days_in_year y.
Proof.
  unfold days_before_year, days_in_year. cbv zeta.
  replace (y + 1 - 1) with y by lia.
  destruct (is_leap y) eqn:Hl.
  - apply is_leap_spec in Hl. zlia.
  - assert (¬ (y `mod` 4 = 0 ∧ (y `mod` 100 ≠ 0 ∨ y `mod` 400 = 0))) as Hn.
    { rewrite <-is_leap_spec. congruence. }
    zlia.
Qed.

Lemma days_before_year_mono y1 y2 :
  y1 < y2 → days_before_year y1 + days_in_year y1 ≤ days_before_year y2.
Proof.
  intros Hlt. replace y2 with (y1 + 1 + (y2 - y1 - 1)) by lia.
  assert (0 ≤ y2 - y1 - 1) as Hk by lia.
  revert Hk. generalize (y2 - y1 - 1). clear Hlt.
  apply (natlike_ind (λ k, _ ≤ days_before_year (y1 + 1 + k))).
  - rewrite Z.add_0_r, days_before_year_succ. lia.
  - intros k Hk IH. replace (y1 + 1 + Z.succ k) with ((y1 + 1 + k) + 1) by lia.
    rewrite days_before_year_succ. pose proof (days_in_year_range (y1 + 1 + k)). lia.
Qed.

Lemma days_before_month_succ y m :
  1 ≤ m < 12 →
  days_before_month y (m + 1) = days_before_month y m + days_in_month y m.
Proof.
  intros ?. month_cases m;
    unfold days_before_month, days_in_month; destruct (is_leap y); reflexivity.
Qed.

Lemma days_before_month_nonneg y m : 0 ≤ days_before_month y m.
Proof.
  unfold days_before_month.
  assert (0 ≤ (if (2 <? m) && is_leap y then 1 else 0)) by (case_match; lia).
  repeat case_match; lia.
Qed.

Lemma days_before_month_mono y m1 m2 :
  1 ≤ m1 → m1 < m2 → m2 ≤ 12 →
  days_before_month y m1 + days_in_month y m1 ≤ days_before_month y m2.
Proof.
  intros ? Hlt ?. replace m2 with (m1 + 1 + (m2 - m1 - 1)) in * by lia.
  assert (0 ≤ m2 - m1 - 1) as Hk by lia.
  revert Hk H0. generalize (m2 - m1 - 1). clear Hlt.
  apply (natlike_ind (λ k, _ → _ ≤ days_before_month y (m1 + 1 + k))).
  - intros ?. rewrite Z.add_0_r, days_before_month_succ by lia. lia.
  - intros k Hk IH ?. replace (m1 + 1 + Z.succ k) with ((m1 + 1 + k) + 1) by lia.
    rewrite days_before_month_succ by lia.
    pose proof (days_in_month_range y (m1 + 1 + k)). lia.
Qed.

Lemma days_before_month_end y m :
  1 ≤ m ≤ 12 → days_before_month y m + days_in_month y m ≤ days_in_year y.
Proof.
  intros ?. unfold days_in_year.
  month_cases m; unfold days_before_month, days_in_month; destruct (is_leap y); simpl; lia.
Qed.

(** ** Validity *)

Lemma valid_date_spec y m d :
  valid_date y m d = true ↔
  MINYEAR ≤ y ≤ MAXYEAR ∧ 1 ≤ m ≤ 12 ∧ 1 ≤ d ≤ days_in_month y m.
Proof.
  unfold valid_date. rewrite !andb_true_iff, !Z.leb_le. lia.
Qed.

Lemma valid_time_spec h mi s :
  valid_time h mi s = true ↔ 0 ≤ h ≤ 23 ∧ 0 ≤ mi ≤ 59 ∧ 0 ≤ s ≤ 59.
Proof.
  unfold valid_time. rewrite !andb_true_iff, !Z.leb_le. lia.
Qed.

Lemma valid_spec t :
  valid t = true ↔
  (MINYEAR ≤ year t ≤ MAXYEAR ∧ 1 ≤ month t ≤ 12 ∧
   1 ≤ day t ≤ days_in_month (year t) (month t)) ∧
  (0 ≤ hour t ≤ 23 ∧ 0 ≤ minute t ≤ 59 ∧ 0 ≤ second t ≤ 59).
Proof.
  unfold valid. by rewrite andb_true_iff, valid_date_spec, valid_time_spec.
Qed.

Lemma mk_datetime_Some y m d h mi t :
  mk_datetime y m d h mi = Some t ↔ t = DT y m d h mi 0 ∧ valid t = true.
Proof.
  unfold mk_datetime. cbv zeta. destruct (valid _) eqn:Hv; split.
  - by intros [= <-].
  - by intros [-> _].
  - done.
  - intros [-> ?]. congruence.
Qed.

Lemma time_seconds_range t :
  valid t = true → 0 ≤ time_seconds t < 86400.
Proof. rewrite valid_spec. unfold time_seconds. lia. Qed.

(** ** Comparison: lemmas *)

(** Lexicographic order on the fields, as a proposition. *)
Definition lex_lt (a b : datetime) : Prop :=
  year a < year b ∨ year a = year b ∧
  (month a < month b ∨ month a = month b ∧
  (day a < day b ∨ day a = day b ∧
  (hour a < hour b ∨ hour a = hour b ∧
  (minute a < minute b ∨ minute a = minute b ∧ second a < second b)))).

Ltac compare_cases :=
  unfold dt_compare, lex_lt;
  repeat match goal with
  | |- context [?x ?= ?y] => destruct (Z.compare_spec x y)
  end.

Lemma dt_compare_Lt a b : dt_compare a b = Lt ↔ lex_lt a b.
Proof. compare_cases; split; (done || lia). Qed.

Lemma dt_compare_Gt a b : dt_compare a b = Gt ↔ lex_lt b a.
Proof. compare_cases; split; (done || lia). Qed.

Lemma dt_compare_Eq a b : dt_compare a b = Eq ↔ a = b.
Proof.
  split; [|intros ->; unfold dt_compare; by rewrite !Z.compare_refl].
  destruct a, b; unfold dt_compare; simpl.
  repeat match goal with
  | |- context [?x ?= ?y] => destruct (Z.compare_spec x y)
  end; (done || (intros _; congruence)).
Qed.

Lemma dt_compare_antisym a b : dt_compare b a = CompOpp (dt_compare a b).
Proof.
  destruct (dt_compare a b) eqn:H; simpl.
  - apply dt_compare_Eq in H as ->. by apply dt_compare_Eq.
  - by apply dt_compare_Gt, dt_compare_Lt.
  - by apply dt_compare_Lt, dt_compare_Gt.
Qed.

(** The day number grows with the date. *)
Lemma ymd2ord_lt y1 m1 d1 y2 m2 d2 :
  valid_date y1 m1 d1 = true → valid_date y2 m2 d2 = true →
  y1 < y2 ∨ y1 = y2 ∧ (m1 < m2 ∨ m1 = m2 ∧ d1 < d2) →
  ymd2ord y1 m1 d1 < ymd2ord y2 m2 d2.
Proof.
  rewrite !valid_date_spec. intros (_ & ? & ?) (_ & ? & ?) Hlt. unfold ymd2ord.
  pose proof (days_before_month_nonneg y2 m2).
  destruct Hlt as [Hy|[-> [Hm|[-> Hd]]]]; [| |lia].
  - pose proof (days_before_year_mono y1 y2 Hy).
    pose proof (days_before_month_end y1 m1). lia.
  - pose proof (days_before_month_mono y2 m1 m2). lia.
Qed.

Lemma to_seconds_lex_lt a b :
  valid a = true → valid b = true → lex_lt a b → to_seconds a < to_seconds b.
Proof.
  intros Ha Hb Hlt.
  pose proof (time_seconds_range a Ha). pose proof (time_seconds_range b Hb).
  unfold valid in Ha, Hb. apply andb_true_iff in Ha as [Hda Hta], Hb as [Hdb Htb].
  apply valid_time_spec in Hta, Htb.
  pose proof (ymd2ord_lt _ _ _ _ _ _ Hda Hdb) as Hord.
  unfold to_seconds, toordinal, lex_lt in *.
  destruct Hlt as [?|[? [?|[? [?|[? Ht]]]]]]; [lia..|].
  replace (year a) with (year b) by lia. replace (month a) with (month b) by lia.
  replace (day a) with (day b) by lia. unfold time_seconds. lia.
Qed.

(** Comparing two valid date-times field by field, as [datetime] does,
    gives the same answer as comparing their counts of seconds, as the
    datetime64 column of pandas does: the two comparisons of the window
    filter agree. *)
Lemma dt_compare_to_seconds a b :
  valid a = true → valid b = true →
  dt_compare a b = (to_seconds a ?= to_seconds b).
Proof.
  intros Ha Hb. symmetry. destruct (dt_compare a b) eqn:H.
  - apply dt_compare_Eq in H as ->. apply Z.compare_refl.
  - apply Z.compare_lt_iff, to_seconds_lex_lt, dt_compare_Lt; done.
  - apply Z.compare_gt_iff, to_seconds_lex_lt, dt_compare_Gt; done.
Qed.

Lemma dt_compare_to_seconds_witness :
  dt_compare (DT 2024 11 8 17 0 0) (DT 2024 11 10 23 59 0) =
  (to_seconds (DT 2024 11 8 17 0 0) ?= to_seconds (DT 2024 11 10 23 59 0)).
Proof. apply dt_compare_to_seconds; reflexivity. Defined.

Lemma dt_le_to_seconds a b :
  valid a = true → valid b = true →
  dt_le a b = (to_seconds a <=? to_seconds b).
Proof.
  intros Ha Hb. unfold dt_le, Z.leb. by rewrite dt_compare_to_seconds.
Qed.

Lemma to_seconds_inj a b :
  valid a = true → valid b = true → to_seconds a = to_seconds b → a = b.
Proof.
  intros Ha Hb Heq. apply dt_compare_Eq.
  rewrite dt_compare_to_seconds by done. by apply Z.compare_eq_iff.
Qed.

Lemma dt_le_refl a : dt_le a a = true.
Proof. unfold dt_le. by rewrite (proj2 (dt_compare_Eq a a)). Qed.

Lemma dt_le_antisym a b : dt_le a b = true → dt_le b a = true → a = b.
Proof.
  unfold dt_le. rewrite (dt_compare_antisym a b).
  destruct (dt_compare a b) eqn:H; try done. by apply dt_compare_Eq in H.
Qed.

Lemma dt_le_total a b : dt_le a b = true ∨ dt_le b a = true.
Proof.
  unfold dt_le. rewrite (dt_compare_antisym a b).
  destruct (dt_compare a b); simpl; auto.
Qed.

Lemma dt_le_trans a b c :
  valid a = true → valid b = true → valid c = true →
  dt_le a b = true → dt_le b c = true → dt_le a c = true.
Proof.
  intros ???. rewrite !dt_le_to_seconds, !Z.leb_le by done. lia.
Qed.

#[export] Hint Resolve dt_le_refl : run.

(** ** datetime64[ns]: lemmas *)

Lemma days_before_year_le y1 y2 : y1 ≤ y2 → days_before_year y1 ≤ days_before_year y2.
Proof.
  intros Hle. destruct (decide (y1 = y2)) as [->|]; [done|].
  pose proof (days_before_year_mono y1 y2). pose proof (days_in_year_range y1). lia.
Qed.

Lemma toordinal_year_bounds t :
  valid t = true →
  days_before_year (year t) < toordinal t ≤ days_before_year (year t + 1).
Proof.
  intros (Hd & _)%valid_spec. unfold toordinal, ymd2ord.
  rewrite days_before_year_succ.
  pose proof (days_before_month_nonneg (year t) (month t)).
  pose proof (days_before_month_end (year t) (month t)). lia.
Qed.

(** Every valid date-time of the years 1678 to 2261 has a datetime64[ns]
    value: the count of nanoseconds fits a signed 64-bit integer. *)
Lemma dt64_in_range t :
  valid t = true → 1678 ≤ year t ≤ 2261 → in_dt64_range (dt64 t) = true.
Proof.
  intros Hv Hy. pose proof (toordinal_year_bounds t Hv) as Ho.
  pose proof (time_seconds_range t Hv).
  pose proof (days_before_year_le 1678 (year t)) as Hlo.
  pose proof (days_before_year_le (year t + 1) 2262) as Hhi.
  unfold in_dt64_range, dt64, to_seconds.
  change (toordinal EPOCH) with 719163. change (time_seconds EPOCH) with 0.
  change (days_before_year 1678) with 612512 in Hlo.
  change (days_before_year 2262) with 825813 in Hhi.
  bool_to_prop; lia.
Qed.

(** ** Differences: lemmas *)

Lemma sub_seconds_self a : sub_seconds a a = 0.
Proof. unfold sub_seconds. lia. Qed.

Lemma sub_seconds_antisym a b : sub_seconds a b = - sub_seconds b a.
Proof. unfold sub_seconds. lia. Qed.

Lemma sub_seconds_nonneg a b :
  valid a = true → valid b = true → (0 ≤ sub_seconds b a ↔ dt_le a b = true).
Proof.
  intros ??. rewrite dt_le_to_seconds, Z.leb_le by done. unfold sub_seconds. lia.
Qed.

Lemma duration_hours_eq s f : (duration_hours s f == sub_seconds f s # 3600)%Q.
Proof. apply Qred_correct. Qed.

(** The duration is not negative exactly when the start is not after the end. *)
Lemma duration_hours_nonneg s f :
  valid s = true → valid f = true →
  ((0 <= duration_hours s f)%Q ↔ dt_le s f = true).
Proof.
  intros ??. rewrite duration_hours_eq, <-sub_seconds_nonneg by done.
  unfold Qle. simpl. lia.
Qed.

(** The duration is zero exactly when the task starts and ends at the same
    time. *)
Lemma duration_hours_zero s f :
  valid s = true → valid f = true →
  ((duration_hours s f == 0)%Q ↔ s = f).
Proof.
  intros Hs Hf. rewrite duration_hours_eq. unfold Qeq, sub_seconds. simpl. split.
  - intros ?. symmetry. apply to_seconds_inj; [done..|lia].
  - intros ->. lia.
Qed.

(** A start after the end gives a negative duration: nothing rejects it. *)
Example duration_negative :
  duration_hours (DT 2024 11 9 12 0 0) (DT 2024 11 9 10 30 0) = (-3 # 2)%Q.
Proof. reflexivity. Qed.

(** A task that ends before it starts has a negative duration. *)
Lemma duration_hours_negative s f :
  valid s = true → valid f = true →
  dt_le s f = false → (duration_hours s f < 0)%Q.
Proof.
  intros Hs Hf Hle. apply Qnot_le_lt. intros Hq.
  apply (duration_hours_nonneg s f Hs Hf) in Hq. congruence.
Qed.

(** A task inside a window lasts no longer than the window. *)
Lemma duration_hours_mono s f s' f' :
  valid s = true → valid f = true → valid s' = true → valid f' = true →
  dt_le s' s = true → dt_le f f' = true →
  (duration_hours s f <= duration_hours s' f')%Q.
Proof.
  intros ???? Hs Hf. rewrite !duration_hours_eq.
  rewrite dt_le_to_seconds, Z.leb_le in Hs, Hf by done.
  unfold Qle, sub_seconds. simpl. lia.
Qed.

(** Comparing two time stamps field by field is comparing the integers a
    datetime64 column stores for them. *)
Theorem dt_le_dt64 a b :
  valid a = true → valid b = true → (dt_le a b = true ↔ dt64 a ≤ dt64 b).
Proof.
  intros Ha Hb. rewrite dt_le_to_seconds, Z.leb_le by done. unfold dt64. lia.
Qed.

Lemma dt_le_dt64_witness :
  dt_le (DT 2024 11 8 17 0 0) (DT 2024 11 10 23 59 0) = true ↔
  dt64 (DT 2024 11 8 17 0 0) ≤ dt64 (DT 2024 11 10 23 59 0).
Proof. apply dt_le_dt64; reflexivity. Defined.

(** The order of time stamps is a total order. *)
Theorem dt_le_total_order a b c :
  valid a = true → valid b = true → valid c = true →
  dt_le a a = true ∧
  (dt_le a b = true → dt_le b a = true → a = b) ∧
  (dt_le a b = true → dt_le b c = true → dt_le a c = true) ∧
  (dt_le a b = true ∨ dt_le b a = true).
Proof.
  intros Ha Hb Hc. split_and!.
  - apply dt_le_refl.
  - apply dt_le_antisym.
  - by apply dt_le_trans.
  - apply dt_le_total.
Qed.

Lemma dt_le_total_order_witness :
  dt_le (DT 2024 11 8 17 0 0) (DT 2024 11 8 17 0 0) = true ∧
  (dt_le (DT 2024 11 8 17 0 0) (DT 2024 11 9 8 0 0) = true →
   dt_le (DT 2024 11 9 8 0 0) (DT 2024 11 8 17 0 0) = true →
   DT 2024 11 8 17 0 0 = DT 2024 11 9 8 0 0) ∧
  (dt_le (DT 2024 11 8 17 0 0) (DT 2024 11 9 8 0 0) = true →
   dt_le (DT 2024 11 9 8 0 0) (DT 2024 11 10 23 59 0) = true →
   dt_le (DT 2024 11 8 17 0 0) (DT 2024 11 10 23 59 0) = true) ∧
  (dt_le (DT 2024 11 8 17 0 0) (DT 2024 11 9 8 0 0) = true ∨
   dt_le (DT 2024 11 9 8 0 0) (DT 2024 11 8 17 0 0) = true).
Proof. apply dt_le_total_order; reflexivity. Defined.

Lemma duration_hours_zero_witness :
  (duration_hours (DT 2024 11 8 17 0 0) (DT 2024 11 8 17 0 0) == 0)%Q ↔
  DT 2024 11 8 17 0 0 = DT 2024 11 8 17 0 0.
Proof. apply duration_hours_zero; reflexivity. Defined.
