(* ===== verification/Format.v ===== *)
(** * Format: the duration as [:.2f] prints it

    The last line of a task (src/workshift.py line 230) prints the duration
    with two decimals.  Python rounds the exact value of the float to the
    nearest hundredth, a tie to the even neighbour, and writes a minus sign
    for a negative value, also when the digits are all zero.  [format_2f]
    does this to the rational a float cell stands for.

    The float of the program is the double nearest to the rational; the two
    round to the same hundredth unless a tie lies between them.  Rounding
    is monotone and odd, and [round_half_even_stable] says that two values
    round alike when they are nearer to each other than the first is to a
    tie; [format_2f_near] says the same of the text.  For the durations of
    the program, whole minutes, [hundredths_apart] shows that every tie is a
    sixth of a hundredth away or more, which is far more than the error of a
    double: Double draws the conclusion. *)

From Stdlib Require Import ZArith Lia Ascii String QArith Qround Qabs Lqa.
From stdpp Require Import base tactics option list strings.
From S2P Require Import Prelude PyText Datetime.

Local Open Scope Q_scope.

(** ** Rounding *)

(** The integer nearest to [q]; of two that are as near, the even one. *)
Definition round_half_even (q : Q) : Z :=
  let f := Qfloor q in
  match Qcompare (q - inject_Z f) (1 # 2) with
  | Lt => f
  | Gt => (f + 1)%Z
  | Eq => if Z.even f then f else (f + 1)%Z
  end.

(** [q] lies half way between two integers. *)
Definition is_tie (q : Q) : Prop := q - inject_Z (Qfloor q) == 1 # 2.

(** [f"{x:.2f}"]: the sign, the integer part, a point, two decimals. *)
Definition format_2f (q : Q) : string :=
  let n := round_half_even (Qabs q * 100) in
  text ((if Qlt_le_dec q 0 then ["-"%char] else []) ++
        chars (str_int (n / 100)) ++ "."%char :: pad2 (n `mod` 100)).

(** ** Examples *)

Example format_half : format_2f (5 # 2) = "2.50"%string.
Proof. reflexivity. Qed.

Example format_minutes : format_2f (899 # 60) = "14.98"%string.
Proof. reflexivity. Qed.

Example format_negative : format_2f (-49) = "-49.00"%string.
Proof. reflexivity. Qed.

(** A tie goes to the even neighbour: 0.125 is 0.12 and 0.375 is 0.38. *)
Example format_ties : format_2f (1 # 8) = "0.12"%string ∧ format_2f (3 # 8) = "0.38"%string.
Proof. done. Qed.

(** A minute before nothing is -0.02; a value that rounds to zero keeps
    its sign. *)
Example format_small : format_2f (-1 # 60) = "-0.02"%string ∧ format_2f (-1 # 1000) = "-0.00"%string.
Proof. done. Qed.

(** ** Rounding: lemmas *)

#[export] Instance round_half_even_proper : Proper (Qeq ==> eq) round_half_even.
Proof.
  intros x y H. unfold round_half_even. cbv zeta. rewrite (Qfloor_comp x y H).
  by rewrite (Qcompare_comp (x - inject_Z (Qfloor y)) (y - inject_Z (Qfloor y))
                (Qplus_comp _ _ H _ _ (Qeq_refl _)) _ _ (Qeq_refl (1 # 2))).
Qed.

#[export] Instance is_tie_proper : Proper (Qeq ==> iff) is_tie.
Proof. intros x y H. unfold is_tie. by rewrite (Qfloor_comp x y H), H. Qed.

Ltac inject_consts :=
  change (inject_Z 1) with 1 in *; change (inject_Z (-1)) with (-1) in *;
  change (inject_Z 2) with 2 in *.

(** The rounded value is half a unit away at most. *)
Lemma round_half_even_error q : Qabs (inject_Z (round_half_even q) - q) <= 1 # 2.
Proof.
  pose proof (Qfloor_le q). pose proof (Qlt_floor q) as Hlt.
  rewrite inject_Z_plus in Hlt. change (inject_Z 1) with 1 in Hlt.
  apply Qabs_Qle_condition. unfold round_half_even.
  destruct (Qcompare_spec (q - inject_Z (Qfloor q)) (1 # 2));
    [destruct (Z.even _)|..]; rewrite ?inject_Z_plus; change (inject_Z 1) with 1;
    split; lra.
Qed.

(** Away from a tie, the rounded value is the nearest integer. *)
Lemma round_half_even_nearest q n :
  ¬ is_tie q → Qabs (inject_Z n - q) < 1 # 2 → round_half_even q = n.
Proof.
  unfold is_tie. intros Htie Hn. pose proof (Qfloor_le q). pose proof (Qlt_floor q) as Hlt.
  rewrite inject_Z_plus in Hlt. change (inject_Z 1) with 1 in Hlt.
  apply Qabs_Qlt_condition in Hn as [Hn1 Hn2]. unfold round_half_even.
  destruct (Qcompare_spec (q - inject_Z (Qfloor q)) (1 # 2)) as [He|Hl|Hg]; [done|..].
  - assert (inject_Z n < inject_Z (Qfloor q + 1) ∧ inject_Z (Qfloor q + -1) < inject_Z n)
      as [H1 H2] by (rewrite !inject_Z_plus; inject_consts; split; lra).
    rewrite <-Zlt_Qlt in H1, H2. lia.
  - assert (inject_Z n < inject_Z (Qfloor q + 2) ∧ inject_Z (Qfloor q) < inject_Z n)
      as [H1 H2] by (rewrite !inject_Z_plus; inject_consts; split; lra).
    rewrite <-Zlt_Qlt in H1, H2. lia.
Qed.

(** A value less than a half away from an integer rounds to it. *)
Lemma round_half_even_near q n : Qabs (inject_Z n - q) < 1 # 2 → round_half_even q = n.
Proof.
  intros Hn. apply round_half_even_nearest; [|done].
  unfold is_tie. intros Ht. pose proof (Qfloor_le q).
  apply Qabs_Qlt_condition in Hn as [Hn1 Hn2].
  assert (inject_Z (Qfloor q) < inject_Z n ∧ inject_Z n < inject_Z (Qfloor q + 1))
    as [H1 H2] by (rewrite inject_Z_plus; inject_consts; split; lra).
  rewrite <-Zlt_Qlt in H1, H2. lia.
Qed.

(** An integer rounds to itself. *)
Lemma round_half_even_Z m : round_half_even (inject_Z m) = m.
Proof.
  apply round_half_even_near.
  assert (inject_Z m - inject_Z m == 0) as -> by ring. done.
Qed.

(** Rounding is monotone. *)
Lemma round_half_even_mono a b : a <= b → (round_half_even a <= round_half_even b)%Z.
Proof.
  intros Hab. pose proof (round_half_even_error a) as Ha.
  pose proof (round_half_even_error b) as Hb.
  apply Qabs_Qle_condition in Ha as [Ha1 Ha2], Hb as [Hb1 Hb2].
  destruct (Z.le_gt_cases (round_half_even a) (round_half_even b)) as [|Hlt]; [done|].
  assert (inject_Z (round_half_even b + 1) <= inject_Z (round_half_even a)) as Hz
    by (rewrite <-Zle_Qle; lia).
  rewrite inject_Z_plus in Hz. inject_consts.
  assert (a == b) as Heq by lra.
  rewrite (round_half_even_proper _ _ Heq) in Hlt. lia.
Qed.

Lemma Qabs_eq_bounds x d : Qabs x == d → - d <= x ∧ x <= d.
Proof. intros H. apply Qabs_Qle_condition. rewrite H. apply Qle_refl. Qed.

(** What the rounded value is: the nearest integer, or of two that are as
    near the even one. *)
Lemma round_half_even_spec q :
  Qabs (inject_Z (round_half_even q) - q) < 1 # 2 ∨
  (Qabs (inject_Z (round_half_even q) - q) == 1 # 2 ∧ Z.even (round_half_even q) = true).
Proof.
  pose proof (Qfloor_le q). pose proof (Qlt_floor q) as Hlt.
  rewrite inject_Z_plus in Hlt. inject_consts. unfold round_half_even.
  destruct (Qcompare_spec (q - inject_Z (Qfloor q)) (1 # 2)) as [He|Hl|Hg].
  - right. destruct (Z.even (Qfloor q)) eqn:Hev.
    + split; [|done]. rewrite Qabs_neg by lra. lra.
    + split; [|by rewrite Z.even_add, Hev]. rewrite inject_Z_plus. inject_consts.
      rewrite Qabs_pos by lra. lra.
  - left. apply Qabs_Qlt_condition. split; lra.
  - left. rewrite inject_Z_plus. inject_consts. apply Qabs_Qlt_condition. split; lra.
Qed.

Lemma round_half_even_unique q n :
  Qabs (inject_Z n - q) < 1 # 2 ∨ (Qabs (inject_Z n - q) == 1 # 2 ∧ Z.even n = true) →
  round_half_even q = n.
Proof.
  intros [Hn|[[Hn1 Hn2]%Qabs_eq_bounds Hev]]; [by apply round_half_even_near|].
  destruct (round_half_even_spec q) as [Hr|[[Hr1 Hr2]%Qabs_eq_bounds Hev']].
  { pose proof (round_half_even_near q _ Hr). apply Qabs_Qlt_condition in Hr as [Hr1 Hr2].
    set (m := round_half_even q) in *.
    assert (inject_Z (m + -1) < inject_Z n ∧ inject_Z n < inject_Z (m + 1)) as [H1 H2]
      by (rewrite !inject_Z_plus; inject_consts; split; lra).
    rewrite <-Zlt_Qlt in H1, H2. lia. }
  set (m := round_half_even q) in *.
  assert (inject_Z (m + -2) < inject_Z n ∧ inject_Z n < inject_Z (m + 2)) as [H1 H2].
  { rewrite !inject_Z_plus. change (inject_Z (-2)) with (-2). inject_consts. split; lra. }
  rewrite <-Zlt_Qlt in H1, H2.
  assert (n = m ∨ n = m + 1 ∨ n = m + -1)%Z as [->|[->| ->]] by lia; [done|..];
    rewrite Z.even_add in Hev; by destruct (Z.even m).
Qed.

Lemma round_half_even_opp q : round_half_even (- q) = (- round_half_even q)%Z.
Proof.
  apply round_half_even_unique.
  assert (inject_Z (- round_half_even q) - - q == - (inject_Z (round_half_even q) - q)) as ->
    by (rewrite inject_Z_opp; ring).
  rewrite Qabs_opp, Z.even_opp. apply round_half_even_spec.
Qed.

Lemma Qabs_ge_cases d x : d <= Qabs x → d <= x ∨ d <= - x.
Proof. apply Qabs_case; auto. Qed.

(** Two values round to the same integer when they are nearer to each
    other than the first is to a tie. *)
Lemma round_half_even_stable a b d :
  (∀ m, d <= Qabs (a - (inject_Z m + (1 # 2)))) → Qabs (b - a) < d →
  round_half_even b = round_half_even a.
Proof.
  intros Hties Hd. apply round_half_even_near.
  pose proof (round_half_even_error a) as He. set (n := round_half_even a) in *.
  pose proof (Hties n) as Hup. pose proof (Hties (n + -1)%Z) as Hdown.
  rewrite inject_Z_plus in Hdown. inject_consts.
  apply Qabs_Qle_condition in He as [He1 He2].
  apply Qabs_Qlt_condition in Hd as [Hd1 Hd2].
  apply Qabs_Qlt_condition.
  apply Qabs_ge_cases in Hup, Hdown. destruct Hup, Hdown; split; lra.
Qed.

(** ** The text: lemmas *)

(** The text is made of the sign and of the hundredths. *)
Lemma format_2f_same x q :
  (x < 0 ↔ q < 0) → round_half_even (Qabs x * 100) = round_half_even (Qabs q * 100) →
  format_2f x = format_2f q.
Proof.
  intros Hs Hr. unfold format_2f. rewrite Hr.
  destruct (Qlt_le_dec x 0), (Qlt_le_dec q 0); [done| | |done]; exfalso; intuition lra.
Qed.

#[export] Instance format_2f_proper : Proper (Qeq ==> eq) format_2f.
Proof.
  intros x y H. apply format_2f_same; [by rewrite H|].
  apply round_half_even_proper. by rewrite H.
Qed.

(** A value prints as [q] does when it has the sign of [q] and is nearer
    to it, in hundredths, than [q] is to a tie. *)
Lemma format_2f_near d x q :
  (∀ m, d <= Qabs (Qabs q * 100 - (inject_Z m + (1 # 2)))) →
  Qabs (x - q) * 100 < d → (x < 0 ↔ q < 0) → format_2f x = format_2f q.
Proof.
  intros Hties Hd Hs. apply format_2f_same; [done|].
  apply (round_half_even_stable _ _ d); [done|].
  eapply Qle_lt_trans; [|exact Hd].
  assert (Qabs x * 100 - Qabs q * 100 == (Qabs x - Qabs q) * 100) as -> by ring.
  rewrite Qabs_Qmult. change (Qabs 100) with 100. apply Qmult_le_compat_r; [|done].
  apply Qabs_case; intros ?; [apply Qabs_triangle_reverse|].
  rewrite <-(Qabs_opp (x - q)).
  assert (- (x - q) == q - x) as -> by ring.
  assert (- (Qabs x - Qabs q) == Qabs q - Qabs x) as -> by ring.
  apply Qabs_triangle_reverse.
Qed.

(** ** The durations of the program *)

(** Between two times without seconds lies a whole number of minutes. *)
Lemma sub_seconds_minutes ts tf :
  second ts = 0%Z → second tf = 0%Z → ∃ k, sub_seconds tf ts = (60 * k)%Z.
Proof.
  intros Hs Hf. unfold sub_seconds, to_seconds, time_seconds. rewrite Hs, Hf.
  exists ((toordinal tf - toordinal ts) * 1440 + (hour tf * 60 + minute tf) -
          (hour ts * 60 + minute ts))%Z. lia.
Qed.

Lemma duration_hours_minutes ts tf :
  second ts = 0%Z → second tf = 0%Z → ∃ k, duration_hours ts tf == k # 60.
Proof.
  intros Hs Hf. destruct (sub_seconds_minutes ts tf Hs Hf) as [k Hk]. exists k.
  unfold duration_hours. rewrite Qred_correct, Hk. unfold Qeq. simpl. lia.
Qed.

(** The hundredths of a whole number of minutes are a sixth away from every
    tie, or more. *)
Lemma minutes_apart k m : 1 # 6 <= Qabs ((k # 60) * 100 - (inject_Z m + (1 # 2))).
Proof.
  assert ((k # 60) * 100 - (inject_Z m + (1 # 2)) == (10 * k - 6 * m - 3) # 6) as ->
    by (unfold Qeq; simpl; lia).
  unfold Qabs, Qle. simpl. lia.
Qed.

(** Rounding a whole number of minutes to hundredths moves it by a third of
    a hundredth at most. *)
Lemma minutes_error k : Qabs (inject_Z (round_half_even ((k # 60) * 100)) - (k # 60) * 100) <= 1 # 3.
Proof.
  pose proof (round_half_even_error ((k # 60) * 100)) as He.
  set (n := round_half_even ((k # 60) * 100)) in *.
  assert (inject_Z n - (k # 60) * 100 == (3 * n - 5 * k) # 3) as Hq
    by (unfold Qeq; simpl; lia).
  rewrite Hq in *. unfold Qabs, Qle in *. simpl in *. lia.
Qed.

(** The hundredths of a duration of the program, the hours between two
    times without seconds, are a sixth away from every tie, or more, and a
    third away from the value printed, or less: the digits printed do not
    depend on how a tie is broken, nor on an error below a sixth of a
    hundredth in the value. *)
Theorem hundredths_apart ts tf :
  second ts = 0%Z → second tf = 0%Z →
  (∀ m, 1 # 6 <= Qabs (duration_hours ts tf * 100 - (inject_Z m + (1 # 2)))) ∧
  Qabs (inject_Z (round_half_even (duration_hours ts tf * 100)) - duration_hours ts tf * 100)
    <= 1 # 3.
Proof.
  intros Hs Hf. destruct (duration_hours_minutes ts tf Hs Hf) as [k Hk].
  split; [intros m; rewrite Hk; apply minutes_apart|].
  assert (duration_hours ts tf * 100 == (k # 60) * 100) as Hk' by (by rewrite Hk).
  rewrite (round_half_even_proper _ _ Hk'), Hk. apply minutes_error.
Qed.

Lemma hundredths_apart_witness :
  (∀ m, 1 # 6 <= Qabs (duration_hours (DT 2024 11 10 9 0 0) (DT 2024 11 10 23 59 0) * 100 -
                        (inject_Z m + (1 # 2)))) ∧
  Qabs (inject_Z (round_half_even
                    (duration_hours (DT 2024 11 10 9 0 0) (DT 2024 11 10 23 59 0) * 100)) -
        duration_hours (DT 2024 11 10 9 0 0) (DT 2024 11 10 23 59 0) * 100) <= 1 # 3.
Proof. apply hundredths_apart; reflexivity. Defined.
