(* ===== verification/Double.v ===== *)
(** * Double: the float of a duration

    The duration of a task is [(end - start).dt.total_seconds() / 3600]
    (src/workshift.py lines 188-190): a float, the double nearest to the
    quotient.  The frames of the model hold the quotient itself, an exact
    rational ([duration_hours], Datetime); this file says what the double
    is and how far it is from the rational.

    [b64] rounds a rational to binary64: 53 significant bits, the nearest
    value, a tie to the even significand, with the subnormal numbers below
    [2^-1022].  Overflow to infinity is not modelled: the durations of the
    program are below [2^28] hours.  [hours_f64] is the float of a duration:
    the seconds as a double (they are whole and below [2^53], so the double
    is the number itself), divided by 3600 and rounded.

    The theorems: the double is within the unit roundoff of the rational
    ([b64_relative_error]); rounding keeps the order ([b64_mono]), is odd
    ([b64_opp]) and leaves a double as it is ([b64_idempotent]); the float
    of a duration is within [2^-26] of the hours, has their sign and grows
    with them; and the text [:.2f] prints for the float is the text
    [format_2f] makes of the rational ([format_2f_double]), which is the
    one use the program makes of the value. *)

From Stdlib Require Import ZArith Lia QArith Qround Qabs Lqa Qpower.
From stdpp Require Import base tactics.
From S2P Require Import Prelude Datetime Format.

Local Open Scope Q_scope.

(** ** binary64 *)

(** The bits of the significand, and the exponent of the least normal
    number. *)
Definition PREC : Z := 53.
Definition EMIN : Z := -1022.

(** The exponent of the leading bit of [q]: [2^e <= |q| < 2^(e+1)], found
    from the lengths of the numerator and of the denominator. *)
Definition exponent (q : Q) : Z :=
  let e := (Z.log2 (Z.abs (Qnum q)) - Z.log2 (Zpos (Qden q)))%Z in
  if Qle_bool (2 ^ e) (Qabs q) then e else (e - 1)%Z.

(** The binade of [q]: its exponent, or the least exponent when [q] is
    subnormal. *)
Definition binade (q : Q) : Z := Z.max (exponent q) EMIN.

(** The unit in the last place of the doubles of the binade of [q]. *)
Definition ulp (q : Q) : Q := 2 ^ (binade q - (PREC - 1)).

(** The double nearest to [q]; of two that are as near, the one with the
    even significand. *)
Definition b64 (q : Q) : Q := inject_Z (round_half_even (q / ulp q)) * ulp q.

(** [(finish - start).dt.total_seconds() / 3600] in floats (lines 188-190). *)
Definition hours_f64 (start finish : datetime) : Q :=
  b64 (b64 (inject_Z (sub_seconds finish start)) / 3600).

(** ** Examples *)

(** The doubles of a tenth and of a third. *)
Example b64_tenth : Qred (b64 (1 # 10)) = 3602879701896397 # 36028797018963968.
Proof. by vm_compute. Qed.

Example b64_third : Qred (b64 (1 # 3)) = 6004799503160661 # 18014398509481984.
Proof. by vm_compute. Qed.

(** A double is its own double; so is a number with few bits. *)
Example b64_exact : Qred (b64 (-7 # 2)) = -7 # 2 ∧ Qred (b64 (b64 (1 # 10))) = Qred (b64 (1 # 10)).
Proof. by vm_compute. Qed.

(** The least subnormal number is [2^-1074]; half of it rounds to zero, the
    even neighbour. *)
Example b64_subnormal :
  b64 (2 ^ (-1074)) == 2 ^ (-1074) ∧ b64 (2 ^ (-1075)) == 0 ∧
  b64 (3 * 2 ^ (-1075)) == 2 ^ (-1073).
Proof. by vm_compute. Qed.

(** From 9:00 to 23:59 is 14.98333... hours. *)
Example hours_f64_day :
  Qred (hours_f64 (DT 2024 11 10 9 0 0) (DT 2024 11 10 23 59 0)) =
  8434866802095991 # 562949953421312.
Proof. by vm_compute. Qed.

(** ** Powers of two *)

Lemma pow2_pos e : 0 < 2 ^ e.
Proof. by apply Qpower_0_lt. Qed.

Lemma pow2_succ e : 2 ^ (e + 1) == 2 * 2 ^ e.
Proof. rewrite Qpower_plus by done. change (2 ^ 1) with 2. ring. Qed.

Lemma pow2_pred e : 2 ^ (e - 1) == (1 # 2) * 2 ^ e.
Proof. rewrite Qpower_minus by done. change (2 ^ 1) with 2. field. Qed.

Lemma Qabs_make n d : Qabs (n # d) == inject_Z (Z.abs n) / inject_Z (Zpos d).
Proof. unfold Qabs. rewrite (Qmake_Qdiv (Z.abs n) d). reflexivity. Qed.

Lemma log2_bounds n : (0 < n)%Z → 2 ^ Z.log2 n <= inject_Z n ∧ inject_Z n < 2 * 2 ^ Z.log2 n.
Proof.
  intros Hn. destruct (Z.log2_spec n Hn) as [H1 H2]. pose proof (Z.log2_nonneg n).
  rewrite <-pow2_succ. change 2 with (inject_Z 2). rewrite <-!Zpower_Qpower by lia.
  rewrite <-Zle_Qle, <-Zlt_Qlt. by rewrite <-Z.add_1_r in H2.
Qed.

Lemma exponent_spec q : ¬ q == 0 → 2 ^ exponent q <= Qabs q ∧ Qabs q < 2 * 2 ^ exponent q.
Proof.
  intros Hq. destruct q as [n d]. unfold exponent. cbn [Qnum Qden].
  assert (0 < Z.abs n)%Z as Hn by (unfold Qeq in Hq; simpl in Hq; lia).
  destruct (log2_bounds _ Hn) as [Hn1 Hn2].
  destruct (log2_bounds (Zpos d) eq_refl) as [Hd1 Hd2].
  set (a := Z.log2 (Z.abs n)) in *. set (b := Z.log2 (Z.pos d)) in *.
  pose proof (pow2_pos a) as Ha. pose proof (pow2_pos b) as Hb.
  assert (Qabs (n # d) * inject_Z (Zpos d) == inject_Z (Z.abs n)) as Hx.
  { rewrite Qabs_make. field. by intros [=]. }
  assert (2 ^ (a - b) * 2 ^ b == 2 ^ a) as Hy.
  { rewrite Qpower_minus by done. field. apply Qnot_eq_sym, Qlt_not_eq, Hb. }
  pose proof (pow2_pos (a - b)) as Hab. pose proof (Qabs_nonneg (n # d)) as Hx0.
  pose proof (pow2_pred (a - b)) as Hp.
  set (x := Qabs (n # d)) in *. set (D := inject_Z (Z.pos d)) in *.
  set (N := inject_Z (Z.abs n)) in *. set (y := 2 ^ (a - b)) in *.
  set (A := 2 ^ a) in *. set (B := 2 ^ b) in *.
  destruct (Qle_bool y x) eqn:Hc.
  - apply Qle_bool_iff in Hc. split; [done|].
    destruct (Qlt_le_dec x (2 * y)) as [|Hle]; [done|].
    assert (2 * y * D <= x * D) by (apply Qmult_le_compat_r; lra).
    assert (y * B <= y * D) by (apply Qmult_le_l; lra). lra.
  - assert (x < y) as Hlt.
    { apply Qnot_le_lt. intros ?%Qle_bool_iff. congruence. }
    rewrite Hp. split; [|lra].
    destruct (Qlt_le_dec x ((1 # 2) * y)) as [Hle|]; [|done].
    assert (x * D <= (1 # 2) * y * D) by (apply Qmult_le_compat_r; lra).
    assert (y * D < y * (2 * B)) by (apply Qmult_lt_l; lra). lra.
Qed.

(** The exponent is the only one with the leading bit in its binade. *)
Lemma exponent_unique q e :
  2 ^ e <= Qabs q → Qabs q < 2 * 2 ^ e → exponent q = e.
Proof.
  intros H1 H2. pose proof (pow2_pos e).
  assert (¬ q == 0) as Hq by (intros Hq; rewrite Hq in H1; change (Qabs 0) with 0 in H1; lra).
  destruct (exponent_spec q Hq) as [H3 H4]. rewrite <-pow2_succ in H2, H4.
  assert (exponent q < e + 1)%Z by (apply (Qpower_lt_compat_l_inv 2); [lra|done]).
  assert (e < exponent q + 1)%Z by (apply (Qpower_lt_compat_l_inv 2); [lra|done]).
  lia.
Qed.

Lemma exponent_lt q k : ¬ q == 0 → Qabs q < 2 ^ k → (exponent q < k)%Z.
Proof.
  intros [H1 _]%exponent_spec H2. apply (Qpower_lt_compat_l_inv 2); [lra|done].
Qed.

Lemma exponent_zero q : q == 0 → (exponent q < 0)%Z.
Proof.
  intros Hq. unfold exponent. pose proof (Z.log2_nonneg (Z.pos (Qden q))).
  assert (Qnum q = 0%Z) as -> by (unfold Qeq in Hq; simpl in Hq; lia).
  change (Z.log2 (Z.abs 0)) with 0%Z.
  destruct (Qle_bool _ _) eqn:Hc; [|lia].
  apply Qle_bool_iff in Hc. pose proof (pow2_pos (0 - Z.log2 (Z.pos (Qden q)))).
  assert (Qabs q == 0) as Ha by (by rewrite Hq). lra.
Qed.

Lemma ulp_pos q : 0 < ulp q.
Proof. apply pow2_pos. Qed.

Lemma exponent_proper q q' : q == q' → ¬ q == 0 → exponent q = exponent q'.
Proof.
  intros Heq Hq. symmetry. apply exponent_unique; rewrite <-Heq; by apply exponent_spec.
Qed.

(** ** Rounding to a double *)

(** The double is half a unit in the last place away at most. *)
Lemma b64_error q : Qabs (b64 q - q) <= (1 # 2) * ulp q.
Proof.
  unfold b64. pose proof (ulp_pos q) as Hu. set (u := ulp q) in *.
  pose proof (round_half_even_error (q / u)) as He.
  assert (inject_Z (round_half_even (q / u)) * u - q ==
          (inject_Z (round_half_even (q / u)) - q / u) * u) as ->
    by (field; lra).
  rewrite Qabs_Qmult, (Qabs_pos u) by lra. apply Qmult_le_compat_r; lra.
Qed.

(** The unit in the last place of a number below [2^k]. *)
Lemma ulp_le q k : (0 <= k)%Z → Qabs q < 2 ^ k → ulp q <= 2 ^ (k - PREC).
Proof.
  intros Hk Hq. unfold ulp, binade. apply Qpower_le_compat_l; [|lra].
  assert (exponent q < k)%Z.
  { destruct (Qeq_dec q 0) as [H0%exponent_zero|]; [lia|by apply exponent_lt]. }
  unfold PREC, EMIN. lia.
Qed.



Lemma pow2_Z k : (0 <= k)%Z → 2 ^ k == inject_Z (2 ^ k).
Proof. intros Hk. by rewrite Zpower_Qpower. Qed.

(** An integer of 53 bits is a double. *)
Lemma b64_Z n : (Z.abs n < 2 ^ PREC)%Z → b64 (inject_Z n) == inject_Z n.
Proof.
  intros Hn. destruct (decide (n = 0%Z)) as [->|Hn0]; [done|].
  assert (¬ inject_Z n == 0) as Hq by (unfold Qeq; simpl; lia).
  pose proof (exponent_spec _ Hq) as [_ H1]. 
  assert (Qabs (inject_Z n) < 2 ^ PREC) as H2.
  { rewrite pow2_Z by done. change (Qabs (inject_Z n)) with (inject_Z (Z.abs n)).
    by rewrite <-Zlt_Qlt. }
  apply (exponent_lt _ _ Hq) in H2.
  assert (0 < exponent (inject_Z n) + 1)%Z as H3.
  { apply (Qpower_lt_compat_l_inv 2); [|done]. rewrite pow2_succ.
    change (2 ^ 0) with 1. eapply Qle_lt_trans; [|exact H1].
    unfold Qabs, inject_Z, Qle. simpl. lia. }
  unfold b64, ulp, binade. set (e := exponent (inject_Z n)) in *.
  rewrite Z.max_l by (unfold EMIN; lia).
  set (p := (2 ^ (PREC - 1 - e))%Z). assert (0 < p)%Z by (unfold PREC in *; lia).
  assert (¬ inject_Z p == 0) by (unfold Qeq; simpl; lia).
  assert (2 ^ (e - (PREC - 1)) == / inject_Z p) as Hu.
  { unfold p. rewrite <-pow2_Z by (unfold PREC in *; lia). rewrite <-Qpower_opp.
    f_equiv. lia. }
  set (u := 2 ^ (e - (PREC - 1))) in *.
  assert (inject_Z n / u == inject_Z (n * p)) as Hm
    by (rewrite Hu, inject_Z_mult; by field).
  rewrite (round_half_even_proper _ _ Hm), round_half_even_Z, Hu, inject_Z_mult.
  by field.
Qed.

Lemma b64_zero q : q == 0 → b64 q == 0.
Proof.
  intros Hq. unfold b64. pose proof (ulp_pos q). set (u := ulp q) in *.
  assert (q / u == inject_Z 0) as Hm by (rewrite Hq; field; lra).
  rewrite (round_half_even_proper _ _ Hm), round_half_even_Z. ring.
Qed.

#[export] Instance b64_proper : Proper (Qeq ==> Qeq) b64.
Proof.
  intros q q' Heq. destruct (Qeq_dec q 0) as [Hq|Hq].
  - rewrite (b64_zero q), (b64_zero q'); [done|by rewrite <-Heq|done].
  - unfold b64, ulp, binade. rewrite <-(exponent_proper q q') by done.
    set (u := 2 ^ _). pose proof (pow2_pos (Z.max (exponent q) EMIN - (PREC - 1))).
    assert (q / u == q' / u) as Hm by (by rewrite Heq).
    by rewrite (round_half_even_proper _ _ Hm).
Qed.

(** ** The doubles of a binade *)

Lemma pow2_ulp q : 2 ^ (binade q + 1) == inject_Z (2 ^ PREC) * ulp q.
Proof.
  unfold ulp. rewrite <-pow2_Z, <-Qpower_plus by done. f_equiv. unfold PREC. lia.
Qed.

Lemma binade_upper q : Qabs q < 2 ^ (binade q + 1).
Proof.
  destruct (Qeq_dec q 0) as [Hq|Hq].
  - assert (Qabs q == 0) as -> by (by rewrite Hq). apply pow2_pos.
  - destruct (exponent_spec q Hq) as [_ H]. rewrite <-pow2_succ in H.
    eapply Qlt_le_trans; [exact H|]. apply Qpower_le_compat_l; [unfold binade; lia|lra].
Qed.

(** The double of a number is no larger than the top of its binade. *)
Lemma b64_upper q : 0 <= q → b64 q <= 2 ^ (binade q + 1).
Proof.
  intros Hq. pose proof (binade_upper q) as Hb. rewrite Qabs_pos, pow2_ulp in Hb by done.
  rewrite pow2_ulp. unfold b64. pose proof (ulp_pos q). set (u := ulp q) in *.
  apply Qmult_le_compat_r; [|lra]. rewrite <-Zle_Qle.
  rewrite <-(round_half_even_Z (2 ^ PREC)). apply round_half_even_mono.
  apply Qle_shift_div_r; lra.
Qed.

(** The double of a normal number is no smaller than the bottom of its
    binade. *)
Lemma b64_lower q : 0 <= q → 2 ^ binade q <= q → 2 ^ binade q <= b64 q.
Proof.
  intros Hq Hb. pose proof (ulp_pos q).
  assert (2 ^ binade q == inject_Z (2 ^ (PREC - 1)) * ulp q) as Hp.
  { unfold ulp. rewrite <-pow2_Z, <-Qpower_plus by done. f_equiv. unfold PREC. lia. }
  rewrite Hp in *. unfold b64. set (u := ulp q) in *.
  apply Qmult_le_compat_r; [|lra]. rewrite <-Zle_Qle.
  rewrite <-(round_half_even_Z (2 ^ (PREC - 1))). apply round_half_even_mono.
  apply Qle_shift_div_l; lra.
Qed.

Lemma b64_nonneg q : 0 <= q → 0 <= b64 q.
Proof.
  intros Hq. unfold b64. pose proof (ulp_pos q). apply Qmult_le_0_compat; [|lra].
  change 0 with (inject_Z 0). rewrite <-Zle_Qle, <-(round_half_even_Z 0).
  apply round_half_even_mono. apply Qle_shift_div_l; [done|]. change (inject_Z 0) with 0. lra.
Qed.

Lemma exponent_opp q : exponent (- q) = exponent q.
Proof.
  destruct q as [n d]. unfold exponent, Qabs, Qopp. cbn [Qnum Qden]. by rewrite Z.abs_opp.
Qed.

(** Rounding is odd. *)
Lemma b64_opp q : b64 (- q) == - b64 q.
Proof.
  unfold b64, ulp, binade. rewrite exponent_opp. set (u := 2 ^ _).
  assert (- q / u == - (q / u)) as Hm by (unfold Qdiv; ring).
  rewrite (round_half_even_proper _ _ Hm), round_half_even_opp, inject_Z_opp. ring.
Qed.

Lemma b64_mono_nonneg q q' : 0 <= q → q <= q' → b64 q <= b64 q'.
Proof.
  intros Hq Hle. destruct (Qeq_dec q 0) as [H0|H0].
  { rewrite (b64_zero q H0). apply b64_nonneg. lra. }
  assert (¬ q' == 0) as H0' by lra.
  destruct (exponent_spec q H0) as [H1 _], (exponent_spec q' H0') as [_ H2].
  rewrite <-pow2_succ in H2. rewrite Qabs_pos in H1, H2 by lra.
  assert (exponent q < exponent q' + 1)%Z
    by (apply (Qpower_lt_compat_l_inv 2); [|done]; lra).
  destruct (decide (binade q = binade q')) as [Hb|Hb].
  - unfold b64, ulp. rewrite Hb. set (u := 2 ^ _).
    assert (0 < u) by apply pow2_pos.
    apply Qmult_le_compat_r; [|lra]. rewrite <-Zle_Qle. apply round_half_even_mono.
    apply Qmult_le_compat_r; [done|]. apply Qinv_le_0_compat. lra.
  - assert (binade q + 1 <= binade q')%Z by (unfold binade in *; lia).
    assert (binade q' = exponent q') as He by (unfold binade in *; lia).
    eapply Qle_trans; [apply b64_upper; lra|]. eapply Qle_trans; [|apply b64_lower; [lra|]].
    + by apply Qpower_le_compat_l.
    + rewrite He. destruct (exponent_spec q' H0') as [Hq' _]. by rewrite Qabs_pos in Hq' by lra.
Qed.

(** Rounding keeps the order. *)
Lemma b64_mono q q' : q <= q' → b64 q <= b64 q'.
Proof.
  intros Hle. destruct (Qlt_le_dec q 0) as [Hq|Hq]; [|by apply b64_mono_nonneg].
  destruct (Qlt_le_dec q' 0) as [Hq'|Hq'].
  - assert (b64 (- q') <= b64 (- q)) as H by (apply b64_mono_nonneg; lra).
    rewrite !b64_opp in H. lra.
  - pose proof (b64_nonneg q' Hq'). assert (0 <= b64 (- q)) as Hn by (apply b64_nonneg; lra).
    rewrite b64_opp in Hn. lra.
Qed.

(** ** Doubles *)

(** A number of 53 bits at an exponent of the format is a double. *)
Lemma b64_scaled m k :
  (EMIN - (PREC - 1) <= k)%Z → (Z.abs m < 2 ^ PREC)%Z →
  b64 (inject_Z m * 2 ^ k) == inject_Z m * 2 ^ k.
Proof.
  intros Hk Hm. destruct (decide (m = 0%Z)) as [->|Hm0].
  { assert (inject_Z 0 * 2 ^ k == 0) as H0 by ring. by rewrite (b64_zero _ H0), H0. }
  set (x := inject_Z m * 2 ^ k). pose proof (pow2_pos k).
  assert (Qabs x < 2 ^ (k + PREC)) as Hx.
  { assert (2 ^ (k + PREC) == inject_Z (2 ^ PREC) * 2 ^ k) as ->
      by (rewrite Qpower_plus, (pow2_Z PREC) by done; ring).
    unfold x. rewrite Qabs_Qmult, (Qabs_pos (2 ^ k)) by lra.
    apply Qmult_lt_compat_r; [done|]. change (Qabs (inject_Z m)) with (inject_Z (Z.abs m)).
    by rewrite <-Zlt_Qlt. }
  assert (¬ x == 0) as Hx0.
  { unfold x. intros [H0|H0]%Qmult_integral; [|lra]. revert H0. unfold Qeq. simpl. lia. }
  apply exponent_lt in Hx; [|done].
  set (j := (k + (PREC - 1) - binade x)%Z).
  assert (0 <= j)%Z by (unfold j, binade; lia).
  assert (ulp x * inject_Z (2 ^ j) == 2 ^ k) as Hu.
  { unfold ulp. rewrite <-pow2_Z, <-Qpower_plus by done. f_equiv. unfold j. lia. }
  pose proof (ulp_pos x). unfold b64. set (u := ulp x) in *.
  assert (x / u == inject_Z (m * 2 ^ j)) as Hq.
  { unfold x. rewrite <-Hu, inject_Z_mult. field. lra. }
  rewrite (round_half_even_proper _ _ Hq), round_half_even_Z, inject_Z_mult.
  unfold x. rewrite <-Hu. ring.
Qed.

(** The significand of a double has 53 bits, or is [2^53]. *)
Lemma significand_range q :
  (Z.abs (round_half_even (q / ulp q)) <= 2 ^ PREC)%Z.
Proof.
  pose proof (binade_upper q) as Hb. rewrite pow2_ulp in Hb. pose proof (ulp_pos q).
  set (u := ulp q) in *. apply Qabs_Qlt_condition in Hb as [Hb1 Hb2].
  assert (inject_Z (- 2 ^ PREC) <= q / u ∧ q / u <= inject_Z (2 ^ PREC)) as [H1 H2].
  { rewrite inject_Z_opp. split; [apply Qle_shift_div_l|apply Qle_shift_div_r]; lra. }
  apply round_half_even_mono in H1, H2. rewrite round_half_even_Z in H1, H2.
  subst u. lia.
Qed.

(** A double is its own double. *)
Lemma b64_idempotent q : b64 (b64 q) == b64 q.
Proof.
  pose proof (significand_range q) as Hm. unfold b64 at 2 3. unfold ulp.
  set (m := round_half_even _) in *. set (k := (binade q - (PREC - 1))%Z).
  assert (EMIN - (PREC - 1) <= k)%Z by (unfold k, binade; lia).
  destruct (decide (Z.abs m = 2 ^ PREC)%Z) as [Htop|]; [|apply b64_scaled; [done|lia]].
  assert (inject_Z m * 2 ^ k == inject_Z (Z.sgn m) * 2 ^ (k + PREC)) as Hx.
  { rewrite Qpower_plus, (pow2_Z PREC), (Qmult_comm (2 ^ k)), Qmult_assoc, <-inject_Z_mult
      by done.
    by rewrite <-Htop, Z.mul_comm, Z.abs_sgn. }
  rewrite Hx. apply b64_scaled; [unfold PREC in *; lia|]. clearbody m. by destruct m.
Qed.

(** ** The durations of the program *)

(** The seconds of a valid date-time, and the seconds between two. *)
Lemma to_seconds_range t : valid t = true → (0 < to_seconds t < 2 ^ 39)%Z.
Proof.
  intros Hv. pose proof (toordinal_year_bounds t Hv) as Ho.
  pose proof (time_seconds_range t Hv). pose proof Hv as [Hd _]%valid_spec.
  pose proof (days_before_year_le 1 (year t)) as Hlo.
  pose proof (days_before_year_le (year t + 1) 10000) as Hhi.
  change (days_before_year 1) with 0%Z in Hlo.
  change (days_before_year 10000) with 3652059%Z in Hhi.
  unfold to_seconds, MINYEAR, MAXYEAR in *. lia.
Qed.

Lemma sub_seconds_range ts tf :
  valid ts = true → valid tf = true → (Z.abs (sub_seconds tf ts) < 2 ^ 39)%Z.
Proof. intros ?%to_seconds_range ?%to_seconds_range. unfold sub_seconds. lia. Qed.

(** The seconds are a double as they are: the float of the duration is
    the double nearest to the hours. *)
Lemma hours_f64_eq ts tf :
  valid ts = true → valid tf = true → hours_f64 ts tf == b64 (duration_hours ts tf).
Proof.
  intros Hs Hf. pose proof (sub_seconds_range ts tf Hs Hf). unfold hours_f64.
  rewrite b64_Z by (unfold PREC; lia). apply b64_proper.
  rewrite duration_hours_eq, (Qmake_Qdiv _ 3600). done.
Qed.

Lemma duration_hours_range ts tf :
  valid ts = true → valid tf = true → Qabs (duration_hours ts tf) < 2 ^ 28.
Proof.
  intros Hs Hf. pose proof (sub_seconds_range ts tf Hs Hf).
  rewrite duration_hours_eq. unfold Qabs, Qlt. simpl. lia.
Qed.

(** The float of a duration is within [2^-26] of the hours. *)
Lemma hours_f64_error ts tf :
  valid ts = true → valid tf = true →
  Qabs (hours_f64 ts tf - duration_hours ts tf) <= 2 ^ (-26).
Proof.
  intros Hs Hf. rewrite hours_f64_eq by done.
  pose proof (b64_error (duration_hours ts tf)) as He.
  assert (ulp (duration_hours ts tf) <= 2 ^ (28 - PREC)) as Hu
    by (apply ulp_le; [done|by apply duration_hours_range]).
  change (2 ^ (28 - PREC)) with (1 # 33554432) in Hu.
  change (2 ^ (-26)) with (1 # 67108864). lra.
Qed.

(** The float of no time at all is zero. *)
Lemma hours_f64_zero ts tf :
  valid ts = true → valid tf = true → duration_hours ts tf == 0 → hours_f64 ts tf == 0.
Proof. intros Hs Hf H0. rewrite hours_f64_eq by done. by apply b64_zero. Qed.

(** The float has the sign of the hours: a second is more than the error. *)
Lemma hours_f64_sign ts tf :
  valid ts = true → valid tf = true →
  (hours_f64 ts tf < 0 ↔ duration_hours ts tf < 0).
Proof.
  intros Hs Hf. pose proof (hours_f64_error ts tf Hs Hf) as He.
  destruct (decide (sub_seconds tf ts = 0%Z)) as [H0|H0].
  - assert (duration_hours ts tf == 0) as Hq by (by rewrite duration_hours_eq, H0).
    by rewrite (hours_f64_zero ts tf Hs Hf Hq), Hq.
  - assert (1 # 3600 <= Qabs (duration_hours ts tf)) as Hq.
    { rewrite duration_hours_eq. unfold Qabs, Qle. simpl. lia. }
    change (2 ^ (-26)) with (1 # 67108864) in He.
    apply Qabs_Qle_condition in He as [He1 He2].
    apply Qabs_ge_cases in Hq. destruct Hq; split; lra.
Qed.

(** A task inside another lasts no longer, in floats too. *)
Lemma hours_f64_mono s f s' f' :
  valid s = true → valid f = true → valid s' = true → valid f' = true →
  dt_le s' s = true → dt_le f f' = true → hours_f64 s f <= hours_f64 s' f'.
Proof.
  intros. rewrite !hours_f64_eq by done. by apply b64_mono, duration_hours_mono.
Qed.

(** The text of the float of a duration is the text of the hours: for two
    valid times without seconds, as the cells of the date columns are,
    [:.2f] prints for the double what [format_2f] makes of the rational. *)
Theorem format_2f_double ts tf :
  valid ts = true → valid tf = true → second ts = 0%Z → second tf = 0%Z →
  format_2f (hours_f64 ts tf) = format_2f (duration_hours ts tf).
Proof.
  intros Hs Hf Hs0 Hf0. pose proof (hours_f64_error ts tf Hs Hf) as He.
  destruct (duration_hours_minutes ts tf Hs0 Hf0) as [k Hk].
  apply (format_2f_near (1 # 6)); [| |by apply hours_f64_sign].
  - intros m. rewrite Hk. change (Qabs (k # 60)) with (Z.abs k # 60). apply minutes_apart.
  - change (2 ^ (-26)) with (1 # 67108864) in He. lra.
Qed.

Lemma format_2f_double_witness :
  format_2f (hours_f64 (DT 2024 11 10 9 0 0) (DT 2024 11 10 23 59 0)) =
  format_2f (duration_hours (DT 2024 11 10 9 0 0) (DT 2024 11 10 23 59 0)).
Proof. by apply format_2f_double. Defined.
