(* ===== verification/Strptime.v ===== *)
(** * Strptime: [datetime.strptime] for the formats of the program

    The program parses dates with [datetime.strptime(text, format)] for two
    formats: '%d/%m/%y %H:%M' for the cells (src/workshift.py lines 62-68) and
    '%d/%m/%Y %H:%M' for the bounds of the window (lines 169 and 174).

    CPython turns the format into a regular expression (one group of ordered
    alternatives per directive, every run of white space into \s+, the other
    characters into themselves, case ignored), matches it at the start of the
    text with backtracking, refuses text left over after the match, converts
    the groups to integers and builds the [datetime], whose constructor
    checks the ranges.  The model follows these steps one by one:
    [tokenize] reads a format, [regex_of] is the table of alternatives,
    [re_match] is the backtracking match, [strptime] does the rest. *)

From Stdlib Require Import ZArith Lia Ascii String.
From stdpp Require Import base tactics option list.
From S2P Require Import Prelude PyText Datetime.

Local Open Scope Z_scope.

(** ** Formats *)

(** The directives the program uses: %d %m %y %Y %H %M. *)
Inductive directive : Type := Dd | Dm | Dy | DY | DH | DM.

#[export] Instance directive_eq_dec : EqDecision directive.
Proof. solve_decision. Defined.

Inductive token : Type :=
| Dir (d : directive)
| Lit (c : ascii)
| Ws.

#[export] Instance token_eq_dec : EqDecision token.
Proof. solve_decision. Defined.

Definition directive_of (c : ascii) : option directive :=
  if decide (c = "d"%char) then Some Dd
  else if decide (c = "m"%char) then Some Dm
  else if decide (c = "y"%char) then Some Dy
  else if decide (c = "Y"%char) then Some DY
  else if decide (c = "H"%char) then Some DH
  else if decide (c = "M"%char) then Some DM
  else None.

(** The tokens of a format; [None] for a directive outside the six above or a
    % at the end.  [in_ws] says that the previous character was white space:
    a run of white space is one token. *)
Fixpoint tokenize_from (in_ws : bool) (l : list ascii) : option (list token) :=
  match l with
  | [] => Some []
  | c :: l' =>
      if decide (c = "%"%char) then
        match l' with
        | [] => None
        | k :: l'' =>
            if decide (k = "%"%char) then cons (Lit k) <$> tokenize_from false l''
            else d ← directive_of k; cons (Dir d) <$> tokenize_from false l''
        end
      else if is_space c then
        if in_ws then tokenize_from true l' else cons Ws <$> tokenize_from true l'
      else cons (Lit c) <$> tokenize_from false l'
  end.

Definition tokenize (fmt : string) : option (list token) := tokenize_from false (chars fmt).

(** ** The regular expression of a directive *)

(** A character class. *)
Inductive cclass : Type :=
| Chr (c : ascii)
| Rng (lo hi : ascii)
| Digit.

Definition cc_match (k : cclass) (c : ascii) : bool :=
  match k with
  | Chr d => bool_decide (c = d)
  | Rng lo hi => (ord lo <=? ord c) && (ord c <=? ord hi)
  | Digit => is_digit c
  end.

(** The alternatives of a directive, in the order the regular expression tries
    them; an alternative is a sequence of character classes. *)
Definition regex_of (d : directive) : list (list cclass) :=
  match d with
  | Dd => [[Chr "3"; Rng "0" "1"]; [Rng "1" "2"; Digit]; [Chr "0"; Rng "1" "9"];
           [Rng "1" "9"]; [Chr " "; Rng "1" "9"]]
  | Dm => [[Chr "1"; Rng "0" "2"]; [Chr "0"; Rng "1" "9"]; [Rng "1" "9"]]
  | Dy => [[Digit; Digit]]
  | DY => [[Digit; Digit; Digit; Digit]]
  | DH => [[Chr "2"; Rng "0" "3"]; [Rng "0" "1"; Digit]; [Digit]]
  | DM => [[Rng "0" "5"; Digit]; [Digit]]
  end%char.

(** One alternative against the start of the text: (matched, rest). *)
Fixpoint match_alt (alt : list cclass) (s : list ascii) : option (list ascii * list ascii) :=
  match alt, s with
  | [], _ => Some ([], s)
  | k :: alt', c :: s' =>
      if cc_match k c then '(m, r) ← match_alt alt' s'; Some (c :: m, r) else None
  | _ :: _, [] => None
  end.

(** ** Matching with backtracking *)

(** What a match found: the text of each directive's group, in the order of
    the format, and the text after the match. *)
Definition groups : Type := list (directive * list ascii).

Section Backtrack.
Context (k : list ascii → option (groups * list ascii)).

(** \s* before the continuation [k]: as many white-space characters as
    possible, giving one back at a time while [k] fails. *)
Fixpoint ws_star (s : list ascii) : option (groups * list ascii) :=
  match s with
  | c :: s' =>
      if is_space c then
        match ws_star s' with
        | Some r => Some r
        | None => k s
        end
      else k s
  | [] => k []
  end.

(** \s+ before [k]. *)
Definition ws_plus (s : list ascii) : option (groups * list ascii) :=
  match s with
  | c :: s' => if is_space c then ws_star s' else None
  | [] => None
  end.

(** A directive before [k]: the first alternative after which [k] succeeds. *)
Definition dir_match (d : directive) (s : list ascii) : option (groups * list ascii) :=
  snd <$> first_ok (λ alt,
    '(m, r) ← match_alt alt s;
    '(g, rest) ← k r;
    Some ((d, m) :: g, rest)) (regex_of d).

End Backtrack.

(** The match of a whole format at the start of the text. *)
Fixpoint re_match (ts : list token) (s : list ascii) : option (groups * list ascii) :=
  match ts with
  | [] => Some ([], s)
  | Lit c :: ts' =>
      match s with
      | d :: s' => if decide (lower_char c = lower_char d) then re_match ts' s' else None
      | [] => None
      end
  | Ws :: ts' => ws_plus (re_match ts') s
  | Dir d :: ts' => dir_match (re_match ts') d s
  end.

(** ** From groups to a [datetime] *)

(** [int(text)]: white space around the digits is dropped. *)
Definition py_int (l : list ascii) : Z := digits_val (List.filter is_digit l).

(** The fields while the groups are read; the defaults are those of CPython. *)
Record fields : Type := Fields {
  f_year : Z;
  f_month : Z;
  f_day : Z;
  f_hour : Z;
  f_minute : Z
}.

Definition default_fields : fields := Fields 1900 1 1 0 0.

Definition set_field (d : directive) (m : list ascii) (f : fields) : fields :=
  let n := py_int m in
  match d with
  | Dd => Fields (f_year f) (f_month f) n (f_hour f) (f_minute f)
  | Dm => Fields (f_year f) n (f_day f) (f_hour f) (f_minute f)
  | Dy => Fields (if n <=? 68 then n + 2000 else n + 1900) (f_month f) (f_day f) (f_hour f) (f_minute f)
  | DY => Fields n (f_month f) (f_day f) (f_hour f) (f_minute f)
  | DH => Fields (f_year f) (f_month f) (f_day f) n (f_minute f)
  | DM => Fields (f_year f) (f_month f) (f_day f) (f_hour f) n
  end.

Definition read_groups (g : groups) : fields :=
  foldl (λ f dm, set_field dm.1 dm.2 f) default_fields g.

(** ** [strptime] *)

(** The three ways [strptime] raises ValueError. *)
Inductive strptime_error : Type :=
| NoMatch                          (* time data ... does not match format ... *)
| Unconverted (rest : string)      (* unconverted data remains: ... *)
| OutOfRange.                      (* day is out of range for month, year 0 ... *)

#[export] Instance strptime_error_eq_dec : EqDecision strptime_error.
Proof. solve_decision. Defined.

Definition strptime_tokens (data : string) (ts : list token) : strptime_error + datetime :=
  match re_match ts (chars data) with
  | None => inl NoMatch
  | Some (g, []) =>
      let f := read_groups g in
      match mk_datetime (f_year f) (f_month f) (f_day f) (f_hour f) (f_minute f) with
      | Some t => inr t
      | None => inl OutOfRange
      end
  | Some (_, rest) => inl (Unconverted (text rest))
  end.

(** The format of the date cells: '%d/%m/%y %H:%M'. *)
Definition FMT_CELL : list token :=
  [Dir Dd; Lit "/"; Dir Dm; Lit "/"; Dir Dy; Ws; Dir DH; Lit ":"; Dir DM]%char.

(** The format of the window bounds: '%d/%m/%Y %H:%M'. *)
Definition FMT_WINDOW : list token :=
  [Dir Dd; Lit "/"; Dir Dm; Lit "/"; Dir DY; Ws; Dir DH; Lit ":"; Dir DM]%char.

(** [datetime.strptime(data, fmt)] for a format given as text; a format the
    model does not read gives [None]. *)
Definition strptime (data fmt : string) : option (strptime_error + datetime) :=
  strptime_tokens data <$> tokenize fmt.

(** ** Rendering *)

(** [t.strftime('%d/%m/%y %H:%M')] *)
Definition strftime_cell (t : datetime) : string :=
  text (pad2 (day t) ++ "/"%char :: pad2 (month t) ++ "/"%char ::
        pad2 (year t `mod` 100) ++ " "%char :: pad2 (hour t) ++ ":"%char ::
        pad2 (minute t)).

(** [t.strftime('%d/%m/%Y %H:%M')] *)
Definition strftime_window (t : datetime) : string :=
  text (pad2 (day t) ++ "/"%char :: pad2 (month t) ++ "/"%char ::
        pad4 (year t) ++ " "%char :: pad2 (hour t) ++ ":"%char ::
        pad2 (minute t)).

(** ** Examples *)

Example strftime_cell_example : strftime_cell (DT 2024 11 8 17 0 0) = "08/11/24 17:00"%string.
Proof. reflexivity. Qed.

Example tokenize_cell : tokenize "%d/%m/%y %H:%M" = Some FMT_CELL.
Proof. reflexivity. Qed.

Example tokenize_window : tokenize "%d/%m/%Y %H:%M" = Some FMT_WINDOW.
Proof. reflexivity. Qed.

Example strptime_cell : strptime_tokens "08/11/24 17:00" FMT_CELL = inr (DT 2024 11 8 17 0 0).
Proof. reflexivity. Qed.

Example strptime_short_fields : strptime_tokens "8/1/69   7:5" FMT_CELL = inr (DT 1969 1 8 7 5 0).
Proof. reflexivity. Qed.

Example strptime_window : strptime_tokens "10/11/2024 23:59" FMT_WINDOW = inr (DT 2024 11 10 23 59 0).
Proof. reflexivity. Qed.

Example strptime_four_digit_year_in_cell :
  strptime_tokens "08/11/2024 17:00" FMT_CELL = inl NoMatch.
Proof. reflexivity. Qed.

Example strptime_seconds_left_over :
  strptime_tokens "08/11/24 17:00:30" FMT_CELL = inl (Unconverted ":30").
Proof. reflexivity. Qed.

Example strptime_minute_backtracks :
  strptime_tokens "08/11/24 17:75" FMT_CELL = inl (Unconverted "5").
Proof. reflexivity. Qed.

Example strptime_february_30 : strptime_tokens "30/02/24 10:00" FMT_CELL = inl OutOfRange.
Proof. reflexivity. Qed.

Example strptime_year_zero : strptime_tokens "01/01/0000 00:00" FMT_WINDOW = inl OutOfRange.
Proof. reflexivity. Qed.

Example strptime_iso_text : strptime_tokens "2024-11-08 17:00:00" FMT_CELL = inl NoMatch.
Proof. reflexivity. Qed.

(** ** One alternative: lemmas *)

Lemma match_alt_Some alt s m r :
  match_alt alt s = Some (m, r) →
  s = m ++ r ∧ Forall2 (λ k c, cc_match k c = true) alt m.
Proof.
  revert s m. induction alt as [|k alt IH]; intros [|c s] m; simpl; try done.
  - by intros [= <- <-].
  - by intros [= <- <-].
  - destruct (cc_match k c) eqn:Hk; [|done].
    destruct (match_alt alt s) as [[m' r']|] eqn:Hm; [|done].
    intros [= <- <-]. apply IH in Hm as [-> ?]. split; [done|by constructor].
Qed.

Lemma match_alt_app alt m r :
  Forall2 (λ k c, cc_match k c = true) alt m → match_alt alt (m ++ r) = Some (m, r).
Proof.
  induction 1 as [|k c alt m Hk _ IH]; simpl; [by destruct r|]. by rewrite Hk, IH.
Qed.

Lemma match_alt_spec alt s m r :
  match_alt alt s = Some (m, r) ↔
  s = m ++ r ∧ Forall2 (λ k c, cc_match k c = true) alt m.
Proof.
  split; [apply match_alt_Some|]. intros [-> ?]. by apply match_alt_app.
Qed.

Lemma match_alt_length alt s m r :
  match_alt alt s = Some (m, r) → length m = length alt.
Proof. intros [_ ?%Forall2_length]%match_alt_Some. done. Qed.

(** ** What a match is *)

(** The matches of a format, whatever the order of the search: [matches ts s g
    r] says that the format [ts] matches a prefix of [s], with groups [g],
    and leaves [r]. *)
Inductive matches : list token → list ascii → groups → list ascii → Prop :=
| M_nil s : matches [] s [] s
| M_lit c d ts s g r :
    lower_char c = lower_char d → matches ts s g r →
    matches (Lit c :: ts) (d :: s) g r
| M_ws w ts s g r :
    w ≠ [] → Forall (λ c, is_space c = true) w → matches ts s g r →
    matches (Ws :: ts) (w ++ s) g r
| M_dir d alt m ts s g r :
    alt ∈ regex_of d → Forall2 (λ k c, cc_match k c = true) alt m →
    matches ts s g r →
    matches (Dir d :: ts) (m ++ s) ((d, m) :: g) r.

(** ** Backtracking: lemmas *)

Section BacktrackLaws.
Context (k : list ascii → option (groups * list ascii)).

Lemma ws_star_Some s res :
  ws_star k s = Some res →
  ∃ w s', s = w ++ s' ∧ Forall (λ c, is_space c = true) w ∧ k s' = Some res.
Proof.
  induction s as [|c s IH]; simpl.
  - intros ?. by exists [], [].
  - destruct (is_space c) eqn:Hc; [|intros ?; by exists [], (c :: s)].
    destruct (ws_star k s) as [res'|] eqn:Hs.
    + intros [= ->]. destruct (IH eq_refl) as (w & s' & -> & ? & ?).
      exists (c :: w), s'. by repeat constructor.
    + intros ?. by exists [], (c :: s).
Qed.

Lemma ws_star_is_Some w s :
  Forall (λ c, is_space c = true) w → is_Some (k s) → is_Some (ws_star k (w ++ s)).
Proof.
  intros Hw Hk. induction Hw as [|c w Hc _ IH]; simpl.
  - destruct s as [|c s]; simpl; [done|]. destruct (is_space c); [|done].
    by destruct (ws_star k s).
  - rewrite Hc. by destruct (ws_star k (w ++ s)).
Qed.

Lemma ws_plus_Some s res :
  ws_plus k s = Some res →
  ∃ w s', s = w ++ s' ∧ w ≠ [] ∧ Forall (λ c, is_space c = true) w ∧ k s' = Some res.
Proof.
  destruct s as [|c s]; simpl; [done|]. destruct (is_space c) eqn:Hc; [|done].
  intros (w & s' & -> & ? & ?)%ws_star_Some. exists (c :: w), s'. by repeat constructor.
Qed.

Lemma ws_plus_is_Some w s :
  w ≠ [] → Forall (λ c, is_space c = true) w → is_Some (k s) → is_Some (ws_plus k (w ++ s)).
Proof.
  intros Hne Hw Hk. destruct Hw as [|c w Hc Hw]; [done|]. simpl. rewrite Hc.
  by apply ws_star_is_Some.
Qed.

Lemma dir_match_Some d s g r :
  dir_match k d s = Some (g, r) →
  ∃ alt m s' g', alt ∈ regex_of d ∧ match_alt alt s = Some (m, s') ∧
                 k s' = Some (g', r) ∧ g = (d, m) :: g'.
Proof.
  unfold dir_match. destruct (first_ok _ _) as [[alt res]|] eqn:Hf; [|done].
  simpl. intros [= ->]. apply first_ok_elem_of in Hf as [Halt Hres].
  destruct (match_alt alt s) as [[m s']|] eqn:Hm; [|done]. simpl in Hres.
  destruct (k s') as [[g' r']|] eqn:Hk; [|done]. simplify_eq/=.
  by exists alt, m, s', g'.
Qed.

Lemma dir_match_is_Some d alt m s :
  alt ∈ regex_of d → Forall2 (λ k c, cc_match k c = true) alt m →
  is_Some (k s) → is_Some (dir_match k d (m ++ s)).
Proof.
  intros Halt Hm [[g r] Hk]. unfold dir_match. apply fmap_is_Some.
  eapply first_ok_is_Some; [done|]. by rewrite (match_alt_app _ _ _ Hm); simpl; rewrite Hk.
Qed.

End BacktrackLaws.

(** The search returns a match. *)
Lemma re_match_sound ts s g r : re_match ts s = Some (g, r) → matches ts s g r.
Proof.
  revert s g. induction ts as [|[d|c|] ts IH]; intros s g; simpl.
  - intros [= <- <-]. constructor.
  - intros (alt & m & s' & g' & ? & [-> ?]%match_alt_Some & ? & ->)%dir_match_Some.
    econstructor; eauto.
  - destruct s as [|d s]; [done|]. case_decide; [|done]. intros ?. constructor; auto.
  - intros (w & s' & -> & ? & ? & ?)%ws_plus_Some. constructor; auto.
Qed.

(** The search finds a match whenever there is one. *)
Lemma re_match_complete ts s g r : matches ts s g r → is_Some (re_match ts s).
Proof.
  induction 1; simpl.
  - done.
  - by case_decide.
  - by apply ws_plus_is_Some.
  - by eapply dir_match_is_Some.
Qed.

(** The backtracking search of [strptime] fails exactly on the texts no
    prefix of which the format matches: trying the alternatives in order
    and giving white space back loses no match. *)
Theorem re_match_None_iff ts s :
  re_match ts s = None ↔ ¬ ∃ g r, matches ts s g r.
Proof.
  split.
  - intros Hn (g & r & Hm). apply re_match_complete in Hm as [? ?]. congruence.
  - intros Hn. destruct (re_match ts s) as [[g r]|] eqn:Hm; [|done].
    destruct Hn. eauto using re_match_sound.
Qed.

(** ** Consequences of a match *)

Lemma matches_suffix ts s g r : matches ts s g r → r `suffix_of` s.
Proof.
  induction 1 as [s|c d ts s g r _ _ IH|w ts s g r _ _ _ IH|d alt m ts s g r _ _ _ IH].
  - done.
  - by apply suffix_cons_r.
  - by apply suffix_app_r.
  - by apply suffix_app_r.
Qed.

(** A literal of the format is a character of the text, case apart. *)
Lemma matches_lit ts s g r c :
  matches ts s g r → Lit c ∈ ts → ∃ d, d ∈ s ∧ lower_char c = lower_char d.
Proof.
  induction 1 as [s|c' d ts s g r Hc _ IH|w ts s g r _ _ _ IH|d alt m ts s g r _ _ _ IH];
    intros Hin.
  - by apply elem_of_nil in Hin.
  - apply elem_of_cons in Hin as [[= ->]|Hin].
    + exists d. split; [left|done].
    + destruct (IH Hin) as (d' & ? & ?). exists d'. split; [by right|done].
  - apply elem_of_cons in Hin as [?|Hin]; [done|].
    destruct (IH Hin) as (d' & ? & ?). exists d'. split; [|done].
    apply elem_of_app; by right.
  - apply elem_of_cons in Hin as [?|Hin]; [done|].
    destruct (IH Hin) as (d' & ? & ?). exists d'. split; [|done].
    apply elem_of_app; by right.
Qed.

(** The directives of a format, in order. *)
Definition dirs (ts : list token) : list directive :=
  omap (λ t, match t with Dir d => Some d | _ => None end) ts.

(** A group holds text one of its directive's alternatives accepts. *)
Definition group_ok (d : directive) (dm : directive * list ascii) : Prop :=
  dm.1 = d ∧ ∃ alt, alt ∈ regex_of d ∧ Forall2 (λ k c, cc_match k c = true) alt dm.2.

Lemma matches_groups ts s g r : matches ts s g r → Forall2 group_ok (dirs ts) g.
Proof.
  induction 1; simpl; try done. constructor; [|done]. split; [done|]. eauto.
Qed.

(** ** The range of a group *)

(** The least and the greatest value the text of a directive's group has. *)
Definition group_range (d : directive) : Z * Z :=
  match d with
  | Dd => (1, 31)
  | Dm => (1, 12)
  | Dy => (0, 99)
  | DY => (0, 9999)
  | DH => (0, 23)
  | DM => (0, 59)
  end.

Lemma cc_match_Prop k c :
  cc_match k c = true →
  match k with
  | Chr d => c = d
  | Rng lo hi => ord lo ≤ ord c ≤ ord hi
  | Digit => 48 ≤ ord c ≤ 57
  end.
Proof.
  destruct k; simpl.
  - by intros ?%bool_decide_eq_true.
  - rewrite andb_true_iff, !Z.leb_le. done.
  - by intros ?%is_digit_spec.
Qed.

(** Replace [ord] of a literal character by its code. *)
Ltac eval_ord :=
  repeat match goal with
  | H : context [ord (Ascii ?a ?b ?c ?d ?e ?f ?g ?h)] |- _ =>
      let v := eval vm_compute in (ord (Ascii a b c d e f g h)) in
      change (ord (Ascii a b c d e f g h)) with v in H
  | |- context [ord (Ascii ?a ?b ?c ?d ?e ?f ?g ?h)] =>
      let v := eval vm_compute in (ord (Ascii a b c d e f g h)) in
      change (ord (Ascii a b c d e f g h)) with v
  end.

(** Split the text an alternative accepted into its characters, each with
    the bounds of its class. *)
Ltac split_group H :=
  repeat match type of H with
  | Forall2 _ (_ :: _) _ =>
      let c := fresh "c" in let Hc := fresh "Hc" in
      apply Forall2_cons_inv_l in H as (c & ? & Hc & H & ->);
      apply cc_match_Prop in Hc; simpl in Hc
  | Forall2 _ [] _ => apply Forall2_nil_inv_l in H as ->
  end; subst; eval_ord.

(** Decide [is_digit] of the characters in the goal from their bounds. *)
Ltac decide_digits :=
  repeat match goal with
  | |- context [is_digit ?c] =>
      first
        [ replace (is_digit c) with true by (symmetry; apply is_digit_spec; eval_ord; lia)
        | replace (is_digit c) with false by (symmetry; vm_compute; reflexivity) ]
  end.

Lemma group_ok_range d dm :
  group_ok d dm → (group_range d).1 ≤ py_int dm.2 ≤ (group_range d).2.
Proof.
  destruct dm as [d' m]. intros [Hd (alt & Halt & Hm)]. simpl in *. subst d'.
  destruct d; simpl in Halt;
    repeat (apply elem_of_cons in Halt as [->|Halt]); try (by apply elem_of_nil in Halt);
    split_group Hm; unfold py_int; cbn [List.filter]; decide_digits;
    unfold digits_val, digit_val; simpl; eval_ord; lia.
Qed.

(** ** What [strptime] returns *)

Lemma strptime_tokens_inr data ts t :
  strptime_tokens data ts = inr t ↔
  ∃ g, re_match ts (chars data) = Some (g, []) ∧
       let f := read_groups g in
       mk_datetime (f_year f) (f_month f) (f_day f) (f_hour f) (f_minute f) = Some t.
Proof.
  unfold strptime_tokens. destruct (re_match ts (chars data)) as [[g [|c r]]|]; simpl.
  - destruct (mk_datetime _ _ _ _ _) as [t'|] eqn:Hmk.
    + split; [intros [= <-]; eauto|]. intros (g' & [= <-] & Ht). congruence.
    + split; [done|]. intros (g' & [= <-] & Ht). congruence.
  - split; [done|]. by intros (g' & [=] & _).
  - split; [done|]. by intros (g' & [=] & _).
Qed.

(** Whatever [strptime] returns is a date-time the [datetime]
    constructor accepts (month 1-12, a day the month has, hour below 24,
    minute below 60), with zero seconds. *)
Theorem strptime_valid data ts t :
  strptime_tokens data ts = inr t → valid t = true ∧ second t = 0.
Proof.
  intros (g & _ & Hmk)%strptime_tokens_inr. simpl in Hmk.
  apply mk_datetime_Some in Hmk as [-> ?]. done.
Qed.

Lemma strptime_valid_witness :
  valid (DT 2024 11 8 17 0 0) = true ∧ second (DT 2024 11 8 17 0 0) = 0.
Proof. apply (strptime_valid "08/11/24 17:00" FMT_CELL). reflexivity. Defined.

(** A text that lacks a literal character of the format does not match. *)
Lemma strptime_missing_literal data ts c :
  Lit c ∈ ts → (∀ d, d ∈ chars data → lower_char c ≠ lower_char d) →
  strptime_tokens data ts = inl NoMatch.
Proof.
  intros Hin Hno. unfold strptime_tokens.
  destruct (re_match ts (chars data)) as [[g r]|] eqn:Hm; [|done].
  apply re_match_sound in Hm. destruct (matches_lit _ _ _ _ _ Hm Hin) as (d & ? & ?).
  by destruct (Hno d).
Qed.

Lemma read_groups_cell m1 m2 m3 m4 m5 :
  read_groups [(Dd, m1); (Dm, m2); (Dy, m3); (DH, m4); (DM, m5)] =
  Fields (if py_int m3 <=? 68 then py_int m3 + 2000 else py_int m3 + 1900)
         (py_int m2) (py_int m1) (py_int m4) (py_int m5).
Proof. reflexivity. Qed.

Lemma read_groups_window m1 m2 m3 m4 m5 :
  read_groups [(Dd, m1); (Dm, m2); (DY, m3); (DH, m4); (DM, m5)] =
  Fields (py_int m3) (py_int m2) (py_int m1) (py_int m4) (py_int m5).
Proof. reflexivity. Qed.

(** The groups of a match of a five-directive format. *)
Lemma matches_groups5 ts s g r d1 d2 d3 d4 d5 :
  dirs ts = [d1; d2; d3; d4; d5] → matches ts s g r →
  ∃ m1 m2 m3 m4 m5,
    g = [(d1, m1); (d2, m2); (d3, m3); (d4, m4); (d5, m5)] ∧
    group_ok d1 (d1, m1) ∧ group_ok d2 (d2, m2) ∧ group_ok d3 (d3, m3) ∧
    group_ok d4 (d4, m4) ∧ group_ok d5 (d5, m5).
Proof.
  intros Hd Hm%matches_groups. rewrite Hd in Hm.
  repeat match type of Hm with
  | Forall2 _ (_ :: _) _ =>
      let x := fresh "x" in let Hx := fresh "Hx" in
      apply Forall2_cons_inv_l in Hm as ([? x] & ? & Hx & Hm & ->);
      pose proof (proj1 Hx); simpl in *; subst
  | Forall2 _ [] _ => apply Forall2_nil_inv_l in Hm as ->
  end.
  naive_solver.
Qed.

(** A date cell that parses lies in the years 1969 to 2068 (two-digit
    years up to 68 are 20xx, the others 19xx), so its datetime64[ns] value
    fits a signed 64-bit integer: building the datetime64 column cannot
    overflow. *)
Theorem strptime_cell_in_range data t :
  strptime_tokens data FMT_CELL = inr t →
  1969 ≤ year t ≤ 2068 ∧ in_dt64_range (dt64 t) = true.
Proof.
  intros Ht. pose proof (strptime_valid _ _ _ Ht) as [Hv _].
  apply strptime_tokens_inr in Ht as (g & Hm%re_match_sound & Hmk).
  destruct (matches_groups5 FMT_CELL _ _ _ Dd Dm Dy DH DM eq_refl Hm)
    as (m1 & m2 & m3 & m4 & m5 & -> & _ & _ & Hy & _).
  apply group_ok_range in Hy. simpl in Hy. cbv zeta in Hmk.
  rewrite read_groups_cell in Hmk. simpl in Hmk.
  apply mk_datetime_Some in Hmk as [-> _]. simpl in *.
  assert (1969 ≤ (if py_int m3 <=? 68 then py_int m3 + 2000 else py_int m3 + 1900) ≤ 2068)
    by (case_match; bool_to_prop; lia).
  split; [done|]. apply dt64_in_range; simpl; [done|lia].
Qed.

Lemma strptime_cell_in_range_witness :
  1969 ≤ year (DT 1969 1 8 7 5 0) ≤ 2068 ∧ in_dt64_range (dt64 (DT 1969 1 8 7 5 0)) = true.
Proof. apply (strptime_cell_in_range "8/1/69   7:5"). reflexivity. Defined.

(** ** Printing, then parsing *)

(** Case analysis on a decimal digit. *)
Ltac digit_cases a :=
  let H := fresh "Hd" in
  assert (a = 0 ∨ a = 1 ∨ a = 2 ∨ a = 3 ∨ a = 4 ∨ a = 5 ∨ a = 6 ∨ a = 7 ∨ a = 8 ∨ a = 9)
    as H by lia;
  destruct_or! H; subst a; try lia.

Lemma pad2_digits n :
  0 ≤ n ≤ 99 →
  ∃ a b, 0 ≤ a ≤ 9 ∧ 0 ≤ b ≤ 9 ∧ n = 10 * a + b ∧ pad2 n = [digit_chr a; digit_chr b].
Proof.
  intros ?. exists ((n / 10) `mod` 10), (n `mod` 10). unfold pad2.
  repeat split; zlia.
Qed.

Lemma py_int_pad2 n : 0 ≤ n ≤ 99 → py_int (pad2 n) = n.
Proof.
  intros (a & b & ? & ? & -> & ->)%pad2_digits. unfold py_int. cbn [List.filter].
  rewrite !is_digit_chr by done. unfold digits_val. simpl.
  rewrite !digit_val_chr by done. lia.
Qed.

Lemma pad4_digits n : 0 ≤ n ≤ 9999 → 0 ≤ n / 100 ≤ 99 ∧ 0 ≤ n `mod` 100 ≤ 99.
Proof. zlia. Qed.

Lemma py_int_pad4 n : 0 ≤ n ≤ 9999 → py_int (pad4 n) = n.
Proof.
  intros [Hh Hl]%pad4_digits. unfold pad4.
  destruct (pad2_digits _ Hh) as (a & b & ? & ? & Hab & ->).
  destruct (pad2_digits _ Hl) as (c & d & ? & ? & Hcd & ->).
  unfold py_int. cbn [app List.filter]. rewrite !is_digit_chr by done.
  unfold digits_val. simpl. rewrite !digit_val_chr by done. zlia.
Qed.

Section Roundtrip.
Context (k : list ascii → option (groups * list ascii)).

(** A two-digit rendering in the range of its directive is taken whole by
    the first alternative that matches it. *)
Lemma dir_match_pad2 d n rest g r :
  d ≠ DY → (group_range d).1 ≤ n ≤ (group_range d).2 →
  k rest = Some (g, r) →
  dir_match k d (pad2 n ++ rest) = Some ((d, pad2 n) :: g, r).
Proof.
  intros Hd Hn Hk.
  destruct (pad2_digits n) as (a & b & ? & ? & -> & ->); [destruct d; simpl in Hn; (done || lia)|].
  destruct d; simpl in Hn; try done;
    digit_cases a; digit_cases b; vm_compute; rewrite Hk; reflexivity.
Qed.

Lemma dir_match_pad4 n rest g r :
  0 ≤ n ≤ 9999 → k rest = Some (g, r) →
  dir_match k DY (pad4 n ++ rest) = Some ((DY, pad4 n) :: g, r).
Proof.
  intros [Hh Hl]%pad4_digits Hk. unfold dir_match. cbn [regex_of first_ok].
  rewrite match_alt_app; [simpl; by rewrite Hk|].
  unfold pad4.
  destruct (pad2_digits _ Hh) as (a & b & ? & ? & _ & ->).
  destruct (pad2_digits _ Hl) as (c & d & ? & ? & _ & ->).
  repeat constructor; simpl; by apply is_digit_chr.
Qed.

(** One white-space character before something else is taken by \s+. *)
Lemma ws_plus_one c d s :
  is_space c = true → is_space d = false → ws_plus k (c :: d :: s) = k (d :: s).
Proof. intros Hc Hd. simpl. by rewrite Hc, Hd. Qed.

End Roundtrip.

Lemma re_match_lit c ts s : re_match (Lit c :: ts) (c :: s) = re_match ts s.
Proof. simpl. by case_decide. Qed.

Lemma re_match_dir d ts s : re_match (Dir d :: ts) s = dir_match (re_match ts) d s.
Proof. reflexivity. Qed.

Lemma re_match_ws ts s : re_match (Ws :: ts) s = ws_plus (re_match ts) s.
Proof. reflexivity. Qed.

Lemma pad2_head_not_space n rest :
  0 ≤ n ≤ 99 → ∃ d s, pad2 n ++ rest = d :: s ∧ is_space d = false.
Proof.
  intros (a & b & ? & ? & _ & ->)%pad2_digits. eexists _, _. split; [done|].
  by apply is_digit_not_space, is_digit_chr.
Qed.

(** The year a two-digit year stands for: 00-68 are 2000-2068, 69-99 are
    1969-1999. *)
Lemma two_digit_year y :
  1969 ≤ y ≤ 2068 →
  (if y `mod` 100 <=? 68 then y `mod` 100 + 2000 else y `mod` 100 + 1900) = y.
Proof. intros ?. case_match; bool_to_prop; zlia. Qed.

(** The match of a rendered date-time, for either way of writing the year:
    [dy] is the year's directive and [yr] its rendering. *)
Lemma re_match_rendered dy yr t :
  valid t = true →
  (∀ k rest g r, k rest = Some (g, r) →
     dir_match k dy (yr ++ rest) = Some ((dy, yr) :: g, r)) →
  re_match [Dir Dd; Lit "/"; Dir Dm; Lit "/"; Dir dy; Ws; Dir DH; Lit ":"; Dir DM]
    (pad2 (day t) ++ "/"%char :: pad2 (month t) ++ "/"%char :: yr ++
     " "%char :: pad2 (hour t) ++ ":"%char :: pad2 (minute t)) =
  Some ([(Dd, pad2 (day t)); (Dm, pad2 (month t)); (dy, yr);
         (DH, pad2 (hour t)); (DM, pad2 (minute t))], []).
Proof.
  intros ((_ & ? & ?) & ? & ? & _)%valid_spec Hyr.
  pose proof (days_in_month_range (year t) (month t)).
  rewrite re_match_dir. apply dir_match_pad2; [done|simpl; lia|].
  rewrite re_match_lit, re_match_dir. apply dir_match_pad2; [done|simpl; lia|].
  rewrite re_match_lit, re_match_dir. apply Hyr. rewrite re_match_ws.
  destruct (pad2_head_not_space (hour t) (":"%char :: pad2 (minute t)))
    as (d & s & Heq & Hd); [lia|].
  rewrite Heq, ws_plus_one, <-Heq, re_match_dir by done.
  apply dir_match_pad2; [done|simpl; lia|].
  rewrite re_match_lit, re_match_dir.
  rewrite <-(app_nil_r (pad2 (minute t))). apply dir_match_pad2; [done|simpl; lia|done].
Qed.

(** C10. Printing a date-time in the format of the cells and parsing the text
    gives the date-time back, for every valid date-time of the years 1969
    to 2068 with zero seconds: the parser accepts every date written the way
    the format prescribes, and reads it right. *)
Theorem strptime_strftime_cell t :
  valid t = true → second t = 0 → 1969 ≤ year t ≤ 2068 →
  strptime_tokens (strftime_cell t) FMT_CELL = inr t.
Proof.
  intros Hv Hs Hy. apply strptime_tokens_inr. eexists. split.
  - unfold strftime_cell. rewrite chars_text. apply re_match_rendered; [done|].
    intros. apply dir_match_pad2; [done|simpl; zlia|done].
  - pose proof Hv as ((_ & ? & ?) & ? & ? & _)%valid_spec.
    pose proof (days_in_month_range (year t) (month t)).
    cbv zeta. rewrite read_groups_cell. simpl.
    rewrite !py_int_pad2 by zlia. apply mk_datetime_Some. split; [|done].
    destruct t; simpl in *. f_equal; [|done]. symmetry. by apply two_digit_year.
Qed.

Lemma strptime_strftime_cell_witness :
  strptime_tokens (strftime_cell (DT 2024 11 8 17 0 0)) FMT_CELL = inr (DT 2024 11 8 17 0 0).
Proof. apply strptime_strftime_cell; [reflexivity|reflexivity|simpl; lia]. Defined.

(** The same for the format of the window bounds, for every year 1 to 9999. *)
Theorem strptime_strftime_window t :
  valid t = true → second t = 0 →
  strptime_tokens (strftime_window t) FMT_WINDOW = inr t.
Proof.
  intros Hv Hs. pose proof Hv as ((Hy & ? & ?) & ? & ? & _)%valid_spec.
  unfold MINYEAR, MAXYEAR in Hy.
  apply strptime_tokens_inr. eexists. split.
  - unfold strftime_window. rewrite chars_text. apply re_match_rendered; [done|].
    intros. apply dir_match_pad4; [lia|done].
  - pose proof (days_in_month_range (year t) (month t)).
    cbv zeta. rewrite read_groups_window. simpl.
    rewrite !py_int_pad2, py_int_pad4 by lia. apply mk_datetime_Some. split; [|done].
    destruct t; simpl in *. by f_equal.
Qed.

Lemma strptime_strftime_window_witness :
  strptime_tokens (strftime_window (DT 2024 11 10 23 59 0)) FMT_WINDOW =
  inr (DT 2024 11 10 23 59 0).
Proof. apply strptime_strftime_window; reflexivity. Defined.
