(* ===== verification/Match.v ===== *)
(** * Match: a date matches its format in one way

    [datetime.strptime] (src/workshift.py lines 68, 170 and 174) searches
    for a match of the regular expression of the format, trying the
    alternatives of a directive in their order and giving white space back
    when the rest fails ([re_match] of Strptime), and raises when the match
    it finds leaves text over.  For the two formats of the program the
    search cannot miss: a text that matches the format as a whole does so in
    one way only, and that is the match the search finds.  The groups of
    the day, the month and the hour end at a '/' or a ':' that no group can
    hold; the year has one alternative; the white space before the hour is
    followed by a digit; and the alternatives of the minute come longest
    first.

    So [strptime] returns a date exactly when the whole text matches the
    format, read declaratively ([matches]), with groups that make that
    date ([reads]): the order of the search is no part of what the program
    computes.

    The errors are read the same way ([rejects]): the search finds the match
    that leaves the least of the text ([re_match_longest]), so [strptime]
    raises 'does not match' when no start of the text matches, 'unconverted
    data remains' with the least any match leaves when none matches the
    whole text, and the error of the [datetime] constructor when the whole
    text matches with numbers that make no date ([strptime_cell_rejects],
    [strptime_window_rejects]). *)

From Stdlib Require Import ZArith Lia Ascii String.
From stdpp Require Import base tactics option list.
From S2P Require Import Prelude PyText Datetime Strptime.

Local Open Scope Z_scope.

(** The characters a group can hold: a digit or a blank. *)
Definition group_char (x : ascii) : bool := is_digit x || bool_decide (x = " "%char).

(** The literal characters of the two formats. *)
Definition is_lit (c : ascii) : bool :=
  bool_decide (c = "/"%char) || bool_decide (c = ":"%char).

(** The two formats, by the directive of the year. *)
Definition fmt (dy : directive) : list token :=
  [Dir Dd; Lit "/"; Dir Dm; Lit "/"; Dir dy; Ws; Dir DH; Lit ":"; Dir DM]%char.

(** The date the groups of a match make, if their numbers make one. *)
Definition date_of (g : groups) : option datetime :=
  let f := read_groups g in
  mk_datetime (f_year f) (f_month f) (f_day f) (f_hour f) (f_minute f).

(** The text [s] reads as the date [t] in the format [ts]: the whole text
    matches the format, with groups whose numbers make [t]. *)
Definition reads (ts : list token) (s : string) (t : datetime) : Prop :=
  ∃ g, matches ts (chars s) g [] ∧ date_of g = Some t.

(** The format [ts] rejects the text [s] with the error [e]: no start of
    the text matches the format; or the whole text matches and its numbers
    make no date; or a start of the text matches, none matches the whole
    text, and [rest] is the least that a match leaves of it. *)
Definition rejects (ts : list token) (s : string) (e : strptime_error) : Prop :=
  match e with
  | NoMatch => ∀ g r, ¬ matches ts (chars s) g r
  | OutOfRange => ∃ g, matches ts (chars s) g [] ∧ date_of g = None
  | Unconverted rest =>
      rest ≠ EmptyString ∧ (∃ g, matches ts (chars s) g (chars rest)) ∧
      ∀ g r, matches ts (chars s) g r → (length (chars rest) ≤ length r)%nat
  end.

(** ** Characters *)

Lemma cc_match_group_char d alt k x :
  alt ∈ regex_of d → k ∈ alt → cc_match k x = true → group_char x = true.
Proof.
  intros Halt Hk Hc%cc_match_Prop. unfold group_char.
  destruct d; simpl in Halt;
    repeat (apply elem_of_cons in Halt as [->|Halt]); try (by apply elem_of_nil in Halt);
    repeat (apply elem_of_cons in Hk as [->|Hk]); try (by apply elem_of_nil in Hk);
    simpl in Hc; first [ by subst | apply orb_true_iff; left; apply is_digit_spec; eval_ord; lia ].
Qed.

(** A character that stands for a literal is that literal, and no group
    holds it. *)
Lemma lit_not_group c x :
  is_lit c = true → lower_char c = lower_char x → x = c ∧ group_char x = false.
Proof.
  intros Hc Hx. assert (x = c) as ->; [|split; [done|]].
  - apply ord_inj. apply (f_equal ord) in Hx. revert Hx. unfold lower_char at 2.
    destruct (is_upper x) eqn:Hu; [|by apply orb_true_iff in Hc as [->%bool_decide_eq_true|
                                        ->%bool_decide_eq_true]].
    apply andb_true_iff in Hu as [?%Z.leb_le ?%Z.leb_le]. rewrite ord_chr by lia.
    apply orb_true_iff in Hc as [->%bool_decide_eq_true| ->%bool_decide_eq_true];
      vm_compute (ord (lower_char _)); lia.
  - by apply orb_true_iff in Hc as [->%bool_decide_eq_true| ->%bool_decide_eq_true].
Qed.

Lemma Forall2_Forall_r {A B} (R : A → B → Prop) (P : B → Prop) l m :
  Forall2 R l m → (∀ k x, k ∈ l → R k x → P x) → Forall P m.
Proof.
  induction 1 as [|k x l m Hk _ IH]; intros HP; constructor.
  - apply (HP k); [left|done].
  - apply IH. intros k' x' ?. apply HP. by right.
Qed.

(** The text of a group: characters of groups, one at least. *)
Lemma group_text d alt m :
  alt ∈ regex_of d → Forall2 (λ k c, cc_match k c = true) alt m →
  Forall (λ x, group_char x = true) m ∧ m ≠ [].
Proof.
  intros Halt Hm. split.
  - eapply Forall2_Forall_r; [exact Hm|]. intros k x. by apply (cc_match_group_char d).
  - intros ->. apply Forall2_nil_inv_r in Hm as ->.
    destruct d; simpl in Halt;
      repeat (apply elem_of_cons in Halt as [?|Halt]); try done; by apply elem_of_nil in Halt.
Qed.

(** ** Lists *)

(** A text splits in one way at the first character outside a class. *)
Lemma split_unique (P : ascii → bool) m m' x x' s s' :
  m ++ x :: s = m' ++ x' :: s' → P x = false → P x' = false →
  Forall (λ y, P y = true) m → Forall (λ y, P y = true) m' → m = m' ∧ s = s'.
Proof.
  revert m'. induction m as [|y m IH]; intros [|y' m'] Heq Hx Hx' Hm Hm';
    injection Heq as -> Heq.
  - by subst.
  - apply Forall_cons in Hm' as [? _]. congruence.
  - apply Forall_cons in Hm as [? _]. congruence.
  - apply Forall_cons in Hm as [_ Hm], Hm' as [_ Hm'].
    by destruct (IH m' Heq Hx Hx' Hm Hm') as [-> ->].
Qed.

(** Two ends of a text of one length are the same. *)
Lemma suffix_same_length {A} (r r' s : list A) :
  r `suffix_of` s → r' `suffix_of` s → length r = length r' → r = r'.
Proof.
  intros [k ->] [k' Heq] Hlen. apply app_inj_2 in Heq as [_ ?]; [done|].
  apply (f_equal length) in Heq. rewrite !length_app in Heq. lia.
Qed.

(** ** The search, token by token *)

Lemma re_match_Lit_inv c ts s res :
  re_match (Lit c :: ts) s = Some res →
  ∃ x s', s = x :: s' ∧ lower_char c = lower_char x ∧ re_match ts s' = Some res.
Proof. destruct s as [|x s']; simpl; [done|]. case_decide; [|done]. eauto. Qed.

(** A directive before a literal: the group ends where the literal is, so
    whichever alternative the search takes first, it takes this text. *)
Lemma dir_match_before_lit d c ts alt m s g r :
  is_lit c = true → alt ∈ regex_of d → Forall2 (λ k x, cc_match k x = true) alt m →
  re_match (Lit c :: ts) s = Some (g, r) →
  dir_match (re_match (Lit c :: ts)) d (m ++ s) = Some ((d, m) :: g, r).
Proof.
  intros Hc Halt Hm Hk. unfold dir_match.
  destruct (first_ok _ (regex_of d)) as [[alt' y]|] eqn:Hf.
  - apply first_ok_elem_of in Hf as [Halt' Hy]. simpl. f_equal.
    destruct (match_alt alt' (m ++ s)) as [[m' s']|] eqn:Hm'; [|done].
    cbn -[re_match] in Hy.
    destruct (re_match (Lit c :: ts) s') as [[g' r']|] eqn:Hk'; cbn -[re_match] in Hy; [|done].
    injection Hy as <-.
    apply match_alt_Some in Hm' as [Heq Hm'].
    pose proof Hk as (x & s0 & -> & [-> ?]%(lit_not_group c) & _)%re_match_Lit_inv; [|done].
    pose proof Hk' as (x' & s0' & -> & [-> ?]%(lit_not_group c) & _)%re_match_Lit_inv; [|done].
    destruct (split_unique group_char _ _ _ _ _ _ Heq) as [-> ->];
      [done|done|exact (proj1 (group_text d alt m Halt Hm))
      |exact (proj1 (group_text d alt' m' Halt' Hm'))|]. congruence.
  - apply first_ok_None in Hf. rewrite Forall_forall in Hf. specialize (Hf alt Halt).
    rewrite (match_alt_app _ _ _ Hm) in Hf. cbn -[re_match] in Hf. by rewrite Hk in Hf.
Qed.

(** A directive with one alternative. *)
Lemma dir_match_single k d alt m s g r :
  regex_of d = [alt] → Forall2 (λ k x, cc_match k x = true) alt m → k s = Some (g, r) →
  dir_match k d (m ++ s) = Some ((d, m) :: g, r).
Proof.
  intros Hd Hm Hk. unfold dir_match. rewrite Hd. simpl.
  rewrite (match_alt_app _ _ _ Hm). simpl. by rewrite Hk.
Qed.

(** White space before a character that is none: all of it is taken. *)
Lemma ws_star_all k w s res :
  Forall (λ c, is_space c = true) w → (∀ c s', s = c :: s' → is_space c = false) →
  k s = Some res → ws_star k (w ++ s) = Some res.
Proof.
  intros Hw Hs Hk. induction Hw as [|c w Hc _ IH]; simpl.
  - destruct s as [|c s']; [done|]. simpl. by rewrite (Hs c s').
  - by rewrite Hc, IH.
Qed.

Lemma ws_plus_all k w s res :
  w ≠ [] → Forall (λ c, is_space c = true) w → (∀ c s', s = c :: s' → is_space c = false) →
  k s = Some res → ws_plus k (w ++ s) = Some res.
Proof.
  intros Hne Hw Hs Hk. destruct Hw as [|c w Hc Hw]; [done|]. simpl. rewrite Hc.
  by apply ws_star_all.
Qed.

(** The minute, last in the format: its alternatives come longest first,
    so the search takes two digits where it can, and leaves no more than
    any match does. *)
Lemma dir_match_minute alt m r :
  alt ∈ regex_of DM → Forall2 (λ k x, cc_match k x = true) alt m →
  ∃ m' r', dir_match (re_match []) DM (m ++ r) = Some ([(DM, m')], r') ∧
           (length r' ≤ length r)%nat ∧ (r = [] → m' = m ∧ r' = []).
Proof.
  intros Halt Hm. simpl in Halt.
  repeat (apply elem_of_cons in Halt as [->|Halt]); [..|by apply elem_of_nil in Halt].
  - apply Forall2_cons_inv_l in Hm as (a & ? & Ha & Hm & ->).
    apply Forall2_cons_inv_l in Hm as (b & ? & Hb & ->%Forall2_nil_inv_l & ->).
    exists [a; b], r. unfold dir_match. cbn -[cc_match]. by rewrite Ha, Hb.
  - apply Forall2_cons_inv_l in Hm as (a & ? & Ha & ->%Forall2_nil_inv_l & ->).
    unfold dir_match. cbn -[cc_match].
    destruct (cc_match (Rng _ _) a); cbn -[cc_match]; rewrite ?Ha; [|by exists [a], r].
    destruct r as [|b r]; cbn -[cc_match]; rewrite ?Ha; [by exists [a], []|].
    destruct (cc_match Digit b); cbn -[cc_match]; rewrite ?Ha.
    + exists [a; b], r. split_and!; [done|simpl; lia|done].
    + by exists [a], (b :: r).
Qed.

(** ** The whole format *)

(** The text after the white space starts with the hour, a digit. *)
Lemma group_head_not_space d alt m s c s' :
  d ≠ Dd → alt ∈ regex_of d → Forall2 (λ k x, cc_match k x = true) alt m →
  m ++ s = c :: s' → is_space c = false.
Proof.
  intros Hd Halt Hm Heq. apply is_digit_not_space.
  destruct Hm as [|k x alt' m' Hk _]; [by destruct (proj2 (group_text d [] [] Halt ltac:(done)))|].
  injection Heq as <- _. apply cc_match_Prop in Hk. apply is_digit_spec.
  destruct d; try done; simpl in Halt;
    repeat (apply elem_of_cons in Halt as [[= -> ->]|Halt]); try (by apply elem_of_nil in Halt);
    simpl in Hk; subst; eval_ord; lia.
Qed.

Ltac invert_matches :=
  repeat match goal with
  | H : matches (_ :: _) _ _ _ |- _ => inversion H; subst; clear H
  | H : matches [] _ _ _ |- _ => inversion H; subst; clear H
  end.

(** The search finds a match that leaves no more of the text than any
    other, and the match of the whole text when there is one. *)
Lemma re_match_longest dy alt s g r :
  regex_of dy = [alt] → matches (fmt dy) s g r →
  ∃ g' r', re_match (fmt dy) s = Some (g', r') ∧ (length r' ≤ length r)%nat ∧
           (r = [] → g' = g ∧ r' = []).
Proof.
  intros Hy Hm. unfold fmt in *. invert_matches.
  repeat match goal with
  | H : lower_char _ = lower_char _ |- _ => apply lit_not_group in H as [-> _]; [|done]
  end.
  match goal with
  | Ha : ?a ∈ regex_of DM, Hm : Forall2 _ ?a ?m |- _ =>
      destruct (dir_match_minute a m r Ha Hm) as (m' & r' & Hmin & Hlen & Hnil)
  end.
  eexists [_; _; _; _; (DM, m')], r'.
  split_and!; [|done|by intros [-> ->]%Hnil].
  rewrite re_match_dir. eapply dir_match_before_lit; [done|eassumption..|].
  rewrite re_match_lit, re_match_dir. eapply dir_match_before_lit; [done|eassumption..|].
  rewrite re_match_lit, re_match_dir.
  match goal with
  | H : _ ∈ regex_of dy |- _ => rewrite Hy in H; apply list_elem_of_singleton in H as ->
  end.
  apply (dir_match_single _ _ alt); [done..|].
  rewrite re_match_ws. apply ws_plus_all; [done..| |].
  { intros c s' Heq. by eapply (group_head_not_space DH). }
  rewrite re_match_dir. eapply dir_match_before_lit; [done|eassumption..|].
  by rewrite re_match_lit, re_match_dir.
Qed.

Lemma re_match_full dy alt s g :
  regex_of dy = [alt] → matches (fmt dy) s g [] → re_match (fmt dy) s = Some (g, []).
Proof.
  intros Hy (g' & r' & -> & _ & Hnil)%(re_match_longest dy alt); [|done].
  by destruct Hnil as [-> ->].
Qed.

(** A text matches the format, as a whole, in one way. *)
Lemma matches_unique dy alt s g g' :
  regex_of dy = [alt] → matches (fmt dy) s g [] → matches (fmt dy) s g' [] → g = g'.
Proof. intros Hy H1%(re_match_full dy alt) H2%(re_match_full dy alt); congruence. Qed.

(** ** What [strptime] returns *)

(** The text reads as the date [t] in the format: [reads] is the
    declarative half of the module. *)
Lemma reads_functional dy alt s t t' :
  regex_of dy = [alt] → reads (fmt dy) s t → reads (fmt dy) s t' → t = t'.
Proof.
  intros Hy (g & Hg & Ht) (g' & Hg' & Ht'). rewrite (matches_unique dy alt _ g g') in Ht by done.
  simpl in *. congruence.
Qed.

Lemma strptime_reads dy alt data t :
  regex_of dy = [alt] → strptime_tokens data (fmt dy) = inr t ↔ reads (fmt dy) data t.
Proof.
  intros Hy. rewrite strptime_tokens_inr. unfold reads. split.
  - intros (g & Hm%re_match_sound & Ht). eauto.
  - intros (g & Hm & Ht). exists g. split; [|done]. by eapply re_match_full.
Qed.

(** [strptime] with the format of the date cells returns a date exactly
    when the whole text reads as that date in the format: the order in
    which the search tries the alternatives and gives white space back is
    no part of the result. *)
Theorem strptime_cell_iff data t :
  strptime_tokens data FMT_CELL = inr t ↔ reads FMT_CELL data t.
Proof. by apply (strptime_reads Dy [Digit; Digit]). Qed.

(** The same for the format of the window. *)
Theorem strptime_window_iff data t :
  strptime_tokens data FMT_WINDOW = inr t ↔ reads FMT_WINDOW data t.
Proof. by apply (strptime_reads DY [Digit; Digit; Digit; Digit]). Qed.

(** ** What [strptime] raises *)

Lemma strptime_tokens_eq data ts :
  strptime_tokens data ts =
  match re_match ts (chars data) with
  | None => inl NoMatch
  | Some (g, []) => match date_of g with Some t => inr t | None => inl OutOfRange end
  | Some (_, rest) => inl (Unconverted (text rest))
  end.
Proof. done. Qed.

Section Rejects.
Context (dy : directive) (alt : list cclass) (data : string).
Hypothesis Hy : regex_of dy = [alt].

(** What the search found leaves the least. *)
Lemma re_match_least g r g' r' :
  re_match (fmt dy) (chars data) = Some (g, r) → matches (fmt dy) (chars data) g' r' →
  (length r ≤ length r')%nat.
Proof using Hy.
  intros Hm (? & ? & Hm' & ? & _)%(re_match_longest dy alt); [|done]. by simplify_eq.
Qed.

Lemma rejects_NoMatch : re_match (fmt dy) (chars data) = None ↔ rejects (fmt dy) data NoMatch.
Proof using Type. rewrite re_match_None_iff. simpl. naive_solver. Qed.

Lemma rejects_OutOfRange :
  (∃ g, re_match (fmt dy) (chars data) = Some (g, []) ∧ date_of g = None) ↔
  rejects (fmt dy) data OutOfRange.
Proof using Hy.
  split; intros (g & Hm & Hd); exists g; split; [|done| |done].
  - by apply re_match_sound.
  - by apply (re_match_full dy alt).
Qed.

Lemma rejects_Unconverted rest :
  (∃ g c r, re_match (fmt dy) (chars data) = Some (g, c :: r) ∧ rest = text (c :: r)) ↔
  rejects (fmt dy) data (Unconverted rest).
Proof using Hy.
  split.
  - intros (g & c & r & Hm & ->). rewrite <-(chars_text (c :: r)) in Hm.
    split_and!; [done|eauto using re_match_sound|]. intros g' r'. by apply (re_match_least g).
  - intros (Hne & [g Hg] & Hleast).
    destruct (re_match_longest dy alt _ _ _ Hy Hg) as (g' & r' & Hm & Hlen & _).
    pose proof (re_match_sound _ _ _ _ Hm) as Hm'.
    assert (r' = chars rest) as ->.
    { eapply suffix_same_length;
        [exact (matches_suffix _ _ _ _ Hm')|exact (matches_suffix _ _ _ _ Hg)|].
      specialize (Hleast _ _ Hm'). lia. }
    destruct (chars rest) as [|c r] eqn:Hr; [by destruct rest|].
    exists g', c, r. split; [done|]. by rewrite <-Hr, text_chars.
Qed.

(** [strptime] raises the error [e] exactly when the format rejects the text with it. *)
Lemma strptime_rejects e : strptime_tokens data (fmt dy) = inl e ↔ rejects (fmt dy) data e.
Proof using Hy.
  destruct e as [|rest|]; [rewrite <-rejects_NoMatch|rewrite <-rejects_Unconverted|
                           rewrite <-rejects_OutOfRange];
    rewrite strptime_tokens_eq;
    destruct (re_match _ _) as [[g [|c r]]|]; try destruct (date_of g) eqn:?;
    naive_solver.
Qed.

End Rejects.

(** C35. [strptime] with the format of the date cells raises, and with which of
    its three errors, by what the format matches of the text: nothing; the
    whole text, with numbers that make no date; or a start of it, the
    longest there is, and then the rest is reported. *)
Theorem strptime_cell_rejects data e :
  strptime_tokens data FMT_CELL = inl e ↔ rejects FMT_CELL data e.
Proof. by apply (strptime_rejects Dy [Digit; Digit]). Qed.

(** The same for the format of the window. *)
Theorem strptime_window_rejects data e :
  strptime_tokens data FMT_WINDOW = inl e ↔ rejects FMT_WINDOW data e.
Proof. by apply (strptime_rejects DY [Digit; Digit; Digit; Digit]). Qed.
