(* ===== verification/Frame.v ===== *)
(** * Frame: the pandas DataFrame as the program uses it

    A [frame] is a header of named, typed columns and a list of rows, each
    row with its index label and one [cell] per column.  Every operation the
    program applies to a DataFrame is a function here:

    - [dropna_all]: [df.dropna(how='all')] (src/workshift.py line 37);
    - [missing_columns]: the columns of a list that the frame lacks (line 49);
    - [column]: [df[c]], [assign]: [df[c] = values] (lines 149, 188);
    - [isna_col], [select]: [df[c].isna()], [df[mask]] (lines 150, 162, 179);
    - [project]: [df[[a, b]]] (line 150); [dropna_subset] (line 156);
    - [empty], [head], [unique], [iterrows] (lines 158, 141, 95, 82).

    A column that does not exist is [None] where pandas raises KeyError.
    [wf] is the shape invariant: column names are distinct, index labels are
    distinct, every row is as wide as the header.  [typed] is the typing
    invariant: every cell has the dtype of its column ([has_dtype]). *)

From Stdlib Require Import ZArith Lia Ascii String QArith.
From stdpp Require Import base tactics option list strings.
From S2P Require Import Prelude PyText Datetime.

(** ** Cells *)

#[export] Instance Q_eq_dec : EqDecision Q.
Proof. solve_decision. Defined.

(** A value of a table: missing (NaN, None and NaT alike), text, an integer,
    a truth value, a time stamp, or a float (as the rational it stands for). *)
Inductive cell : Type :=
| NA
| Str (s : string)
| Int (n : Z)
| Bool (b : bool)
| Stamp (t : datetime)
| Real (q : Q).

#[export] Instance cell_eq_dec : EqDecision cell.
Proof. solve_decision. Defined.

(** [pd.isna(x)] *)
Definition isna (c : cell) : bool :=
  match c with NA => true | _ => false end.

(** [str(x)]; [None] for a float, whose rendering is not modelled. *)
Definition py_str (c : cell) : option string :=
  match c with
  | NA => Some "nan"%string
  | Str s => Some s
  | Int n => Some (str_int n)
  | Bool b => Some (if b then "True" else "False")%string
  | Stamp t => Some (str_datetime t)
  | Real _ => None
  end.

(** The time stamp in a cell, if it holds one. *)
Definition stamp_of (c : cell) : option datetime :=
  match c with Stamp t => Some t | _ => None end.

(** The cell made of an optional time stamp: [None] becomes missing. *)
Definition of_stamp (o : option datetime) : cell :=
  match o with Some t => Stamp t | None => NA end.

(** ** Frames *)

(** The type of a column's values. *)
Inductive dtype : Type := object | int64 | float64 | bool_ | datetime64.

#[export] Instance dtype_eq_dec : EqDecision dtype.
Proof. solve_decision. Defined.

(** A row: its index label and its cells, one per column. *)
Definition row : Type := nat * list cell.

Record frame : Type := Frame {
  columns : list (string * dtype);
  rows : list row
}.

#[export] Instance frame_eq_dec : EqDecision frame.
Proof. solve_decision. Defined.

(** [df.columns.tolist()] *)
Definition col_names (f : frame) : list string := (columns f).*1.

(** [df.index.tolist()] *)
Definition index (f : frame) : list nat := (rows f).*1.

(** [len(df)] *)
Definition len (f : frame) : nat := length (rows f).

(** The position of column [c] in the header. *)
Definition col_pos (f : frame) (c : string) : option nat :=
  fst <$> list_find (λ n, n = c) (col_names f).

(** [c in df.columns] *)
Definition has_column (f : frame) (c : string) : bool := bool_decide (c ∈ col_names f).

(** The dtype of column [c]. *)
Definition col_dtype (f : frame) (c : string) : option dtype :=
  i ← col_pos f c; snd <$> columns f !! i.

(** The cell of a row at a position; a position past the row gives [NA]. *)
Definition cell_at (i : nat) (r : row) : cell := default NA (r.2 !! i).

(** [row[c]] for a row of [f]. *)
Definition row_get (f : frame) (c : string) (r : row) : option cell :=
  i ← col_pos f c; Some (cell_at i r).

(** [df[c]]: the values of a column, in row order; [None] is KeyError. *)
Definition column (f : frame) (c : string) : option (list cell) :=
  i ← col_pos f c; Some (cell_at i <$> rows f).

(** [df.empty]: no row or no column. *)
Definition empty (f : frame) : bool :=
  match rows f, columns f with
  | [], _ | _, [] => true
  | _, _ => false
  end.

(** [df.head(n)] *)
Definition head (n : nat) (f : frame) : frame := Frame (columns f) (take n (rows f)).

(** [df.iterrows()] *)
Definition iterrows (f : frame) : list row := rows f.

(** ** Selecting rows *)

(** [df[mask]] for a boolean mask computed from the rows of [df]: the rows
    whose bit is set, in order, with their labels. *)
Fixpoint select_rows (mask : list bool) (rs : list row) : list row :=
  match mask, rs with
  | b :: mask', r :: rs' => if b then r :: select_rows mask' rs' else select_rows mask' rs'
  | _, _ => []
  end.

Definition select (mask : list bool) (f : frame) : frame :=
  Frame (columns f) (select_rows mask (rows f)).

(** [df[c].isna()] *)
Definition isna_col (f : frame) (c : string) : option (list bool) :=
  fmap (M:=list) isna <$> column f c.

(** A row all of whose cells are missing. *)
Definition all_na (r : row) : bool := forallb isna r.2.

(** [df.dropna(how='all')]: the rows that hold at least one value. *)
Definition dropna_all (f : frame) : frame :=
  Frame (columns f) (filter (λ r, negb (all_na r)) (rows f)).

(** [df.dropna(subset=cs)]: the rows with a value in every column of [cs]. *)
Definition dropna_subset (cs : list string) (f : frame) : option frame :=
  ps ← mapM (col_pos f) cs;
  Some (Frame (columns f)
          (filter (λ r, forallb (λ i, negb (isna (cell_at i r))) ps) (rows f))).

(** ** Columns *)

(** The names of [required] that are no column of [f], in the order of
    [required]. *)
Definition missing_columns (required : list string) (f : frame) : list string :=
  filter (λ c, negb (has_column f c)) required.

(** A row with the cell at position [i] set, or with one more cell when [i]
    is the width of the row. *)
Definition set_cell (i : nat) (v : cell) (r : row) : row :=
  (r.1, if decide (i < length r.2) then <[i := v]> r.2 else r.2 ++ [v]).

(** [df[c] = vals]: column [c] gets the type [dt] and the values [vals], one
    per row; a new column goes last. *)
Definition assign (c : string) (dt : dtype) (vals : list cell) (f : frame) : frame :=
  match col_pos f c with
  | Some i => Frame (<[i := (c, dt)]> (columns f)) (zip_with (set_cell i) vals (rows f))
  | None =>
      Frame (columns f ++ [(c, dt)])
            (zip_with (set_cell (length (columns f))) vals (rows f))
  end.

(** [df[cs]]: the columns [cs], in that order. *)
Definition project (cs : list string) (f : frame) : option frame :=
  ps ← mapM (col_pos f) cs;
  hs ← mapM (λ i, columns f !! i) ps;
  Some (Frame hs ((λ r : row, (r.1, (λ i, cell_at i r) <$> ps)) <$> rows f)).

(** [series.unique()]: the distinct values, in the order of their first
    occurrence. *)
Definition unique_step (seen : list cell) (c : cell) : list cell :=
  if decide (c ∈ seen) then seen else seen ++ [c].

Definition unique (l : list cell) : list cell := foldl unique_step [] l.

(** ** The shape invariant *)

Definition wf (f : frame) : Prop :=
  NoDup (col_names f) ∧ NoDup (index f) ∧
  Forall (λ r : row, length r.2 = length (columns f)) (rows f).

#[export] Instance wf_dec f : Decision (wf f).
Proof. unfold wf. apply _. Defined.

(** ** The typing invariant *)

(** Whether a value may sit in a column of a type.  An object column holds
    any value; a float column holds floats and NaN, a datetime column time
    stamps and NaT; integer and boolean columns have no missing value. *)
Definition has_dtype (dt : dtype) (c : cell) : bool :=
  match dt, c with
  | object, _ => true
  | int64, Int _ => true
  | float64, (Real _ | NA) => true
  | bool_, Bool _ => true
  | datetime64, (Stamp _ | NA) => true
  | _, _ => false
  end.

(** A row has one cell per column, of the type of the column. *)
Definition row_typed (cols : list (string * dtype)) (r : row) : Prop :=
  Forall2 (λ h c, has_dtype h.2 c = true) cols r.2.

Definition typed (f : frame) : Prop := Forall (row_typed (columns f)) (rows f).

#[export] Instance typed_dec f : Decision (typed f).
Proof. unfold typed, row_typed. apply _. Defined.

(** ** Examples *)

Definition example_frame : frame :=
  Frame [("Activity Number", object); ("Start Date (CET)", object)]%string
        [(0, [Str "Prod-1"; Str "08/11/24 17:00"]);
         (1, [NA; NA]);
         (2, [Str "Test-2"; NA])]%nat.

Example example_wf : wf example_frame.
Proof. by apply (bool_decide_unpack _). Qed.

Example example_dropna_all : index (dropna_all example_frame) = [0; 2]%nat.
Proof. reflexivity. Qed.

Example example_dropna_subset :
  index <$> dropna_subset ["Start Date (CET)"%string] example_frame = Some [0%nat].
Proof. reflexivity. Qed.

Example example_missing :
  missing_columns ["Activity Number"; "Activity"; "Responsible Person"]%string example_frame
  = ["Activity"; "Responsible Person"]%string.
Proof. reflexivity. Qed.

Example example_column :
  column example_frame "Activity Number" = Some [Str "Prod-1"; NA; Str "Test-2"].
Proof. reflexivity. Qed.

Example example_assign_new :
  assign "D" float64 [Real 1; Real 2; NA] example_frame =
  Frame [("Activity Number", object); ("Start Date (CET)", object); ("D", float64)]%string
        [(0, [Str "Prod-1"; Str "08/11/24 17:00"; Real 1]);
         (1, [NA; NA; Real 2]);
         (2, [Str "Test-2"; NA; NA])]%nat.
Proof. reflexivity. Qed.

Example example_unique : unique [Str "a"; NA; Str "b"; Str "a"; NA] = [Str "a"; NA; Str "b"].
Proof. reflexivity. Qed.

(** ** Columns: lemmas *)

Lemma col_pos_Some f c i :
  col_pos f c = Some i ↔
  col_names f !! i = Some c ∧ ∀ j, j < i → col_names f !! j ≠ Some c.
Proof.
  unfold col_pos. rewrite fmap_Some. split.
  - intros ([i' c'] & (Hi & -> & Hlt)%list_find_Some & ->). simpl. split; [done|].
    intros j Hj Hc. by apply (Hlt j c).
  - intros [Hi Hlt]. exists (i, c). split; [|done].
    apply list_find_Some. split_and!; [done..|]. intros j y Hy Hj ->. by apply (Hlt j).
Qed.

Lemma col_pos_is_Some f c : is_Some (col_pos f c) ↔ c ∈ col_names f.
Proof.
  unfold col_pos. rewrite fmap_is_Some. split.
  - intros [[i c'] (Hi & -> & _)%list_find_Some]. by eapply list_elem_of_lookup_2.
  - intros Hc. by eapply list_find_elem_of.
Qed.

Lemma col_pos_None f c : col_pos f c = None ↔ c ∉ col_names f.
Proof. rewrite <-col_pos_is_Some, eq_None_not_Some. done. Qed.

Lemma has_column_true f c : has_column f c = true ↔ is_Some (col_pos f c).
Proof. unfold has_column. by rewrite bool_decide_eq_true, col_pos_is_Some. Qed.

Lemma col_pos_lt f c i : col_pos f c = Some i → i < length (columns f).
Proof.
  intros [Hi _]%col_pos_Some. apply lookup_lt_Some in Hi.
  unfold col_names in Hi. by rewrite length_fmap in Hi.
Qed.

Lemma col_pos_lookup f c i :
  col_pos f c = Some i → ∃ dt, columns f !! i = Some (c, dt).
Proof.
  intros [Hi _]%col_pos_Some. unfold col_names in Hi.
  rewrite list_lookup_fmap in Hi. destruct (columns f !! i) as [[c' dt]|]; [|done].
  simpl in Hi. exists dt. congruence.
Qed.

(** With distinct names, a name sits at one position only. *)
Lemma col_pos_NoDup f c i :
  NoDup (col_names f) → col_names f !! i = Some c → col_pos f c = Some i.
Proof.
  intros Hnd Hi. apply col_pos_Some. split; [done|]. intros j Hj Hc.
  assert (j = i) by by eapply NoDup_lookup. lia.
Qed.

Lemma column_is_Some f c : is_Some (column f c) ↔ c ∈ col_names f.
Proof.
  rewrite <-col_pos_is_Some. unfold column. destruct (col_pos f c); simpl.
  - split; eauto.
  - split; by intros [? ?].
Qed.

Lemma column_length f c l : column f c = Some l → length l = len f.
Proof.
  unfold column. destruct (col_pos f c); simpl; [|done].
  intros [= <-]. by rewrite length_fmap.
Qed.

(** [missing_columns] lists every required name that is absent, and only
    those. *)
Lemma elem_of_missing_columns required f c :
  c ∈ missing_columns required f ↔ c ∈ required ∧ c ∉ col_names f.
Proof.
  unfold missing_columns. rewrite list_elem_of_filter, negb_True.
  unfold has_column. rewrite bool_decide_spec. tauto.
Qed.

Lemma missing_columns_nil required f :
  missing_columns required f = [] ↔ ∀ c, c ∈ required → c ∈ col_names f.
Proof.
  split.
  - intros Hnil c Hc. destruct (decide (c ∈ col_names f)) as [|Hn]; [done|].
    assert (c ∈ missing_columns required f) as Hin by by apply elem_of_missing_columns.
    rewrite Hnil in Hin. by apply elem_of_nil in Hin.
  - intros Hall. apply elem_of_nil_inv. intros c [Hc Hn]%elem_of_missing_columns.
    by apply Hn, Hall.
Qed.

Lemma missing_columns_sublist required f :
  missing_columns required f `sublist_of` required.
Proof. apply sublist_filter. Qed.

(** ** Selecting rows: lemmas *)

(** Selecting by a mask computed row by row is filtering the rows. *)
Lemma select_rows_fmap (p : row → bool) rs :
  select_rows (p <$> rs) rs = filter (λ r, p r) rs.
Proof.
  induction rs as [|r rs IH]; [done|].
  rewrite fmap_cons, filter_cons. cbn [select_rows]. rewrite IH.
  destruct (p r); by case_decide.
Qed.

Lemma select_rows_sublist mask rs : select_rows mask rs `sublist_of` rs.
Proof.
  revert mask. induction rs as [|r rs IH]; intros [|b mask]; simpl;
    try apply sublist_nil_l.
  destruct b; [by apply sublist_skip|by apply sublist_cons].
Qed.

Lemma select_rows_all rs : select_rows (replicate (length rs) true) rs = rs.
Proof. induction rs; simpl; by f_equal. Qed.

Lemma select_rows_none rs : select_rows (replicate (length rs) false) rs = [].
Proof. induction rs; simpl; by f_equal. Qed.

Lemma select_rows_length mask rs : length (select_rows mask rs) ≤ length rs.
Proof. apply sublist_length, select_rows_sublist. Qed.

(** ** The shape invariant: lemmas *)

(** A frame with the same header and some of the rows is well formed. *)
Lemma wf_sub f f' :
  wf f → columns f' = columns f → rows f' `sublist_of` rows f → wf f'.
Proof.
  intros (Hc & Hi & Hw) Hcol Hsub. unfold wf, col_names, index. rewrite Hcol.
  split_and!; [done| |by eapply Forall_sublist].
  eapply sublist_NoDup; [done|]. by apply fmap_sublist.
Qed.

(** Dropping the empty rows keeps a frame well formed. *)
Lemma wf_dropna_all f : wf f → wf (dropna_all f).
Proof. intros ?. eapply wf_sub; [done..|apply sublist_filter]. Qed.

(** Selecting rows by a mask keeps a frame well formed. *)
Lemma wf_select mask f : wf f → wf (select mask f).
Proof. intros ?. eapply wf_sub; [done..|apply select_rows_sublist]. Qed.

Lemma wf_head n f : wf f → wf (head n f).
Proof. intros ?. eapply wf_sub; [done..|apply sublist_take]. Qed.

Lemma dropna_subset_Some cs f f' :
  dropna_subset cs f = Some f' →
  columns f' = columns f ∧ rows f' `sublist_of` rows f.
Proof.
  unfold dropna_subset. destruct (mapM _ cs); simpl; [|done].
  intros [= <-]. split; [done|apply sublist_filter].
Qed.

Lemma wf_dropna_subset cs f f' : wf f → dropna_subset cs f = Some f' → wf f'.
Proof. intros ? [??]%dropna_subset_Some. by eapply wf_sub. Qed.

(** [dropna_subset] raises KeyError exactly when a column is absent. *)
Lemma dropna_subset_is_Some cs f :
  is_Some (dropna_subset cs f) ↔ ∀ c, c ∈ cs → c ∈ col_names f.
Proof.
  trans (is_Some (mapM (col_pos f) cs)).
  { unfold dropna_subset. destruct (mapM (col_pos f) cs); simpl; split; eauto; by intros [? ?]. }
  rewrite mapM_is_Some, Forall_forall. apply forall_proper; intros c.
  unfold compose. by rewrite col_pos_is_Some.
Qed.

(** ** Assigning a column: lemmas *)

Lemma set_cell_fst i v r : (set_cell i v r).1 = r.1.
Proof. done. Qed.

Lemma set_cell_length i v r :
  i ≤ length r.2 →
  length (set_cell i v r).2 = if decide (i < length r.2) then length r.2 else S i.
Proof.
  intros ?. unfold set_cell. simpl. case_decide.
  - by rewrite length_insert.
  - rewrite length_app. simpl. lia.
Qed.

Lemma cell_at_set_cell i v r : i ≤ length r.2 → cell_at i (set_cell i v r) = v.
Proof.
  intros ?. unfold cell_at, set_cell. simpl. case_decide.
  - by rewrite list_lookup_insert_eq.
  - assert (i = length r.2) as -> by lia. by rewrite lookup_app_r, Nat.sub_diag.
Qed.

Lemma cell_at_set_cell_ne i j v r :
  i ≤ length r.2 → i ≠ j → cell_at j (set_cell i v r) = cell_at j r.
Proof.
  intros ??. unfold cell_at, set_cell. simpl. case_decide.
  - by rewrite list_lookup_insert_ne.
  - assert (i = length r.2) as -> by lia.
    destruct (decide (j < length r.2)); [by rewrite lookup_app_l|].
    rewrite !lookup_ge_None_2; [done|lia|rewrite length_app; simpl; lia].
Qed.

Lemma col_names_assign c dt vals f :
  col_names (assign c dt vals f) =
  match col_pos f c with Some _ => col_names f | None => col_names f ++ [c] end.
Proof.
  unfold assign, col_names. destruct (col_pos f c) as [i|] eqn:Hi; simpl.
  - rewrite list_fmap_insert. simpl. apply list_insert_id.
    by apply col_pos_Some in Hi as [? _].
  - by rewrite fmap_app.
Qed.

Lemma index_assign c dt vals f :
  length vals = len f → index (assign c dt vals f) = index f.
Proof.
  intros ?. unfold assign, index.
  destruct (col_pos f c); simpl; by apply fmap_zip_with_r.
Qed.

Lemma len_assign c dt vals f : length vals = len f → len (assign c dt vals f) = len f.
Proof.
  intros H. pose proof (index_assign c dt vals f H) as Hi.
  apply (f_equal length) in Hi. unfold index in Hi. by rewrite !length_fmap in Hi.
Qed.

(** Assigning one value per row keeps the frame well formed. *)
Lemma wf_assign c dt vals f : wf f → length vals = len f → wf (assign c dt vals f).
Proof.
  intros (Hc & Hi & Hw) Hlen. split_and!.
  - rewrite col_names_assign. destruct (col_pos f c) eqn:Hp; [done|].
    apply NoDup_app. split_and!; [done| |apply NoDup_singleton].
    intros x Hx ->%list_elem_of_singleton. by apply col_pos_None in Hp.
  - by rewrite index_assign.
  - rewrite Forall_forall in Hw. unfold assign.
    destruct (col_pos f c) as [i|] eqn:Hp; simpl; apply Forall_zip_with_r; intros v r Hr.
    + apply col_pos_lt in Hp. rewrite set_cell_length, length_insert by (rewrite Hw; [lia|done]).
      rewrite decide_True by (rewrite Hw; done). auto.
    + rewrite set_cell_length, length_app by (rewrite Hw; [lia|done]).
      rewrite decide_False by (rewrite Hw; [lia|done]). simpl. lia.
Qed.

(** Reading a column after assigning it gives the assigned values. *)
Lemma column_assign c dt vals f :
  wf f → length vals = len f → column (assign c dt vals f) c = Some vals.
Proof.
  intros Hwf Hlen. pose proof (wf_assign c dt vals f Hwf Hlen) as (Hnd & _ & _).
  destruct Hwf as (Hc & Hi & Hw). rewrite Forall_forall in Hw.
  assert (∃ i, col_pos (assign c dt vals f) c = Some i ∧
               rows (assign c dt vals f) = zip_with (set_cell i) vals (rows f) ∧
               i ≤ length (columns f)) as (i & Hp & Hr & Hle).
  { rewrite col_names_assign in Hnd. unfold assign in *.
    destruct (col_pos f c) as [i|] eqn:Hp.
    - exists i. split_and!; [|done|by apply col_pos_lt in Hp; lia].
      apply col_pos_NoDup; unfold col_names; simpl.
      + by rewrite list_fmap_insert, list_insert_id by by apply col_pos_Some in Hp as [? _].
      + rewrite list_lookup_fmap, list_lookup_insert_eq; [done|by eapply col_pos_lt].
    - exists (length (columns f)). split_and!; [|done..].
      apply col_pos_NoDup; unfold col_names; simpl; [by rewrite fmap_app|].
      rewrite fmap_app, lookup_app_r, length_fmap, Nat.sub_diag by by rewrite length_fmap.
      done. }
  unfold column. rewrite Hp, Hr. simpl. f_equal.
  apply fmap_zip_with_l; [done|]. intros v r Hin. apply cell_at_set_cell.
  by rewrite (Hw r Hin).
Qed.

(** Assigning a column leaves the other columns as they were. *)
Lemma column_assign_ne c c' dt vals f :
  wf f → length vals = len f → c' ≠ c →
  column (assign c dt vals f) c' = column f c'.
Proof.
  intros (Hc & Hi & Hw) Hlen Hne. rewrite Forall_forall in Hw.
  assert (col_pos (assign c dt vals f) c' = col_pos f c') as Hpos.
  { unfold col_pos. rewrite col_names_assign. destruct (col_pos f c) eqn:Hp; [done|].
    destruct (list_find (λ n, n = c') (col_names f)) as [[j x]|] eqn:Hf.
    - by erewrite list_find_app_l.
    - rewrite list_find_app_r by done. simpl. by rewrite decide_False. }
  unfold column. rewrite Hpos. destruct (col_pos f c') as [j|] eqn:Hj; simpl; [|done].
  f_equal. unfold assign.
  assert (∀ i, (col_pos f c = Some i ∨ col_pos f c = None ∧ i = length (columns f)) →
    cell_at j <$> zip_with (set_cell i) vals (rows f) = cell_at j <$> rows f) as Hz.
  { intros i Hcase. apply fmap_zip_with_r; [done|]. intros v r Hr.
    apply cell_at_set_cell_ne.
    - rewrite (Hw r Hr). destruct Hcase as [?%col_pos_lt|[_ ->]]; lia.
    - intros ->. destruct Hcase as [Hp|[Hp ->]].
      + apply col_pos_Some in Hp as [Hp _]. apply col_pos_Some in Hj as [Hj _]. congruence.
      + apply col_pos_lt in Hj. lia. }
  destruct (col_pos f c) as [i|] eqn:Hp; simpl; apply Hz; auto.
Qed.

(** ** The typing invariant: lemmas *)

Lemma row_typed_length cols r : row_typed cols r → length r.2 = length cols.
Proof. intros H. symmetry. by eapply Forall2_length. Qed.

(** A typed frame has rows of the width of the header. *)
Lemma typed_width f : typed f → Forall (λ r : row, length r.2 = length (columns f)) (rows f).
Proof. intros H. eapply Forall_impl; [exact H|]. intros r. apply row_typed_length. Qed.

(** The cell of a typed row under a column has the type of the column. *)
Lemma row_typed_cell cols r i h :
  row_typed cols r → cols !! i = Some h → has_dtype h.2 (cell_at i r) = true.
Proof.
  intros Ht Hi. destruct (Forall2_lookup_l _ _ _ _ _ Ht Hi) as (c & Hc & ?).
  unfold cell_at. by rewrite Hc.
Qed.

(** A frame with the same header and some of the rows is typed. *)
Lemma typed_sub f f' :
  typed f → columns f' = columns f → rows f' `sublist_of` rows f → typed f'.
Proof. unfold typed. intros Ht -> Hsub. by eapply Forall_sublist. Qed.

Lemma typed_select mask f : typed f → typed (select mask f).
Proof. intros ?. eapply typed_sub; [done..|apply select_rows_sublist]. Qed.

Lemma typed_dropna_all f : typed f → typed (dropna_all f).
Proof. intros ?. eapply typed_sub; [done..|apply sublist_filter]. Qed.

Lemma typed_dropna_subset cs f f' : typed f → dropna_subset cs f = Some f' → typed f'.
Proof. intros ? [??]%dropna_subset_Some. by eapply typed_sub. Qed.

(** Setting the cell of a column to a value of the new type of the column,
    or adding a cell for a new column, keeps a row typed. *)
Lemma row_typed_set_cell cols r i c dt v :
  row_typed cols r → i ≤ length cols → has_dtype dt v = true →
  row_typed (if decide (i < length cols) then <[i := (c, dt)]> cols else cols ++ [(c, dt)])
            (set_cell i v r).
Proof.
  intros Ht Hi Hv. pose proof (row_typed_length _ _ Ht) as Hlen.
  unfold row_typed, set_cell. simpl. rewrite Hlen. case_decide.
  - by apply Forall2_insert.
  - apply Forall2_app; [done|]. by repeat constructor.
Qed.

(** Assigning values of the type of the column keeps a frame typed. *)
Lemma typed_assign c dt vals f :
  typed f → Forall (λ v, has_dtype dt v = true) vals → typed (assign c dt vals f).
Proof.
  intros Ht Hv. unfold typed, assign.
  destruct (col_pos f c) as [i|] eqn:Hp; simpl;
    (eapply Forall_zip_with_fst; [exact Hv|]); eapply Forall_impl; try exact Ht;
    intros r Hr v Hdt.
  - pose proof (row_typed_set_cell _ r i c dt v Hr) as H.
    rewrite decide_True in H by by eapply col_pos_lt.
    apply H; [|done]. apply col_pos_lt in Hp. lia.
  - pose proof (row_typed_set_cell _ r (length (columns f)) c dt v Hr) as H.
    rewrite decide_False in H by lia. by apply H.
Qed.

(** ** Rows through a filter *)

Lemma col_pos_columns f f' c : columns f' = columns f → col_pos f' c = col_pos f c.
Proof. unfold col_pos, col_names. by intros ->. Qed.

Lemma row_get_columns f f' c r : columns f' = columns f → row_get f' c r = row_get f c r.
Proof. intros H. unfold row_get. by rewrite (col_pos_columns _ _ _ H). Qed.

(** The value of a column in a row is the row's entry in the column. *)
Lemma column_row_get f c l :
  column f c = Some l → Forall2 (λ r v, row_get f c r = Some v) (rows f) l.
Proof.
  unfold column, row_get. destruct (col_pos f c) as [i|]; simpl; [|done].
  intros [= <-]. apply Forall2_fmap_r, Forall_Forall2_diag, Forall_true. done.
Qed.

Lemma row_get_is_Some f c r : is_Some (row_get f c r) ↔ c ∈ col_names f.
Proof.
  rewrite <-col_pos_is_Some. unfold row_get. destruct (col_pos f c); simpl.
  - split; eauto.
  - split; by intros [? ?].
Qed.

(** A mask computed from one column keeps the rows whose entry passes. *)
Lemma elem_of_select_column f c l (p : cell → bool) r :
  column f c = Some l →
  r ∈ rows (select (p <$> l) f) ↔
  r ∈ rows f ∧ ∃ v, row_get f c r = Some v ∧ p v = true.
Proof.
  unfold column, row_get, select. destruct (col_pos f c) as [i|]; simpl; [|done].
  intros [= <-]. rewrite <-list_fmap_compose, select_rows_fmap, list_elem_of_filter.
  simpl. rewrite Is_true_true. split.
  - intros [? ?]. eauto.
  - intros [? (v & [= <-] & ?)]. done.
Qed.

Lemma dropna_positions f cs ps r :
  Forall2 (λ c i, col_pos f c = Some i) cs ps →
  forallb (λ i, negb (isna (cell_at i r))) ps = true ↔
  Forall (λ c, ∃ v, row_get f c r = Some v ∧ isna v = false) cs.
Proof.
  induction 1 as [|c i cs ps Hc _ IH]; simpl; [split; by constructor|].
  rewrite andb_true_iff, Forall_cons, IH, negb_true_iff.
  assert (row_get f c r = Some (cell_at i r)) as -> by (unfold row_get; by rewrite Hc).
  split; intros [Hv ?]; split; eauto. by destruct Hv as (v & [= <-] & ?).
Qed.

(** The rows [dropna_subset] keeps are those with a value in each column. *)
Lemma elem_of_dropna_subset cs f f' r :
  dropna_subset cs f = Some f' →
  r ∈ rows f' ↔
  r ∈ rows f ∧ Forall (λ c, ∃ v, row_get f c r = Some v ∧ isna v = false) cs.
Proof.
  unfold dropna_subset. destruct (mapM (col_pos f) cs) as [ps|] eqn:Hps; simpl; [|done].
  intros [= <-]. simpl. apply mapM_Some in Hps.
  rewrite list_elem_of_filter, Is_true_true, (dropna_positions f cs ps r); [tauto|].
  eapply Forall2_impl; [exact Hps|done].
Qed.

(** ** Column operations, row by row

    With the position of a column in hand, reading the column, selecting by
    a mask computed from it and assigning values computed from the rows are
    a map or a filter over the rows. *)

Lemma col_pos_names f f' c : col_names f' = col_names f → col_pos f' c = col_pos f c.
Proof. unfold col_pos. by intros ->. Qed.

Lemma elem_of_column f c l v :
  column f c = Some l → v ∈ l ↔ ∃ r, r ∈ rows f ∧ row_get f c r = Some v.
Proof.
  unfold column, row_get. destruct (col_pos f c); simpl; [|done].
  intros [= <-]. rewrite list_elem_of_fmap. naive_solver.
Qed.

Lemma column_pos f c i : col_pos f c = Some i → column f c = Some (cell_at i <$> rows f).
Proof. unfold column. by intros ->. Qed.

Lemma col_dtype_pos f c i dt :
  col_pos f c = Some i → columns f !! i = Some (c, dt) → col_dtype f c = Some dt.
Proof. unfold col_dtype. intros -> H. simpl. by rewrite H. Qed.

(** A column that holds a text is an object column. *)
Lemma typed_text_column f c i r a :
  typed f → col_pos f c = Some i → r ∈ rows f → cell_at i r = Str a →
  col_dtype f c = Some object.
Proof.
  intros Ht Hc Hr Ha. destruct (col_pos_lookup _ _ _ Hc) as [dt Hdt].
  rewrite (col_dtype_pos _ _ _ _ Hc Hdt). unfold typed in Ht. rewrite Forall_forall in Ht.
  pose proof (row_typed_cell _ _ _ _ (Ht r Hr) Hdt) as H. rewrite Ha in H. by destruct dt.
Qed.

Lemma select_pos (p : cell → bool) i f :
  select (p <$> (cell_at i <$> rows f)) f =
  Frame (columns f) (filter (λ r, p (cell_at i r)) (rows f)).
Proof.
  unfold select. f_equal. rewrite <-list_fmap_compose.
  apply (select_rows_fmap (p ∘ cell_at i)).
Qed.

Lemma select_pos2 (p q : cell → bool) i j f :
  select (zip_with andb (p <$> (cell_at i <$> rows f)) (q <$> (cell_at j <$> rows f))) f =
  Frame (columns f) (filter (λ r, p (cell_at i r) && q (cell_at j r)) (rows f)).
Proof.
  unfold select. f_equal. rewrite <-!list_fmap_compose, zip_with_fmap_same.
  apply (select_rows_fmap (λ r, p (cell_at i r) && q (cell_at j r))).
Qed.

Lemma assign_pos c dt (h : row → cell) i f :
  col_pos f c = Some i →
  assign c dt (h <$> rows f) f =
  Frame (<[i := (c, dt)]> (columns f)) ((λ r, set_cell i (h r) r) <$> rows f).
Proof. unfold assign. intros ->. by rewrite zip_with_fmap_l. Qed.

Lemma assign_new c dt (h : row → cell) f :
  col_pos f c = None →
  assign c dt (h <$> rows f) f =
  Frame (columns f ++ [(c, dt)])
        ((λ r, set_cell (length (columns f)) (h r) r) <$> rows f).
Proof. unfold assign. intros ->. by rewrite zip_with_fmap_l. Qed.

(** Replacing the type of a column keeps the names. *)
Lemma col_names_retype f c dt i rs :
  col_pos f c = Some i → col_names (Frame (<[i := (c, dt)]> (columns f)) rs) = col_names f.
Proof.
  intros [Hi _]%col_pos_Some. unfold col_names. simpl.
  by rewrite list_fmap_insert, list_insert_id.
Qed.

Lemma dropna_subset_pos cs ps f :
  mapM (col_pos f) cs = Some ps →
  dropna_subset cs f =
  Some (Frame (columns f)
          (filter (λ r, forallb (λ i, negb (isna (cell_at i r))) ps) (rows f))).
Proof. unfold dropna_subset. by intros ->. Qed.

(** [df[cs]] raises KeyError exactly when a column is absent. *)
Lemma project_is_Some cs f :
  is_Some (project cs f) ↔ ∀ c, c ∈ cs → c ∈ col_names f.
Proof.
  unfold project. split.
  - destruct (mapM (col_pos f) cs) as [ps|] eqn:Hps; simpl; [|by intros [? ?]].
    intros _ c Hc. apply col_pos_is_Some.
    assert (is_Some (mapM (col_pos f) cs)) as Hs by eauto.
    rewrite mapM_is_Some, Forall_forall in Hs. by apply Hs.
  - intros Hall. assert (is_Some (mapM (col_pos f) cs)) as [ps Hps].
    { rewrite mapM_is_Some, Forall_forall. intros c Hc. by apply col_pos_is_Some, Hall. }
    rewrite Hps. simpl. assert (is_Some (mapM (λ i, columns f !! i) ps)) as [hs ->]; [|by eexists].
    rewrite mapM_is_Some, Forall_forall. intros i Hi. apply lookup_lt_is_Some.
    apply mapM_Some in Hps. apply list_elem_of_lookup in Hi as [k Hk].
    destruct (Forall2_lookup_r _ _ _ _ _ Hps Hk) as (c & _ & Hc). by eapply col_pos_lt.
Qed.

(** Two columns, with their positions in hand. *)
Lemma project_two f a b ia ib ha hb :
  col_pos f a = Some ia → col_pos f b = Some ib →
  columns f !! ia = Some ha → columns f !! ib = Some hb →
  project [a; b] f =
  Some (Frame [ha; hb] ((λ r : row, (r.1, [cell_at ia r; cell_at ib r])) <$> rows f)).
Proof. intros Ha Hb Hia Hib. unfold project. simpl. rewrite Ha, Hb. simpl. by rewrite Hia, Hib. Qed.

(** The rows of a frame that is not empty. *)
Lemma empty_false f : empty f = false ↔ rows f ≠ [] ∧ columns f ≠ [].
Proof. unfold empty. destruct (rows f), (columns f); naive_solver. Qed.

Lemma empty_rows f : columns f ≠ [] → empty f = bool_decide (rows f = []).
Proof. unfold empty. by destruct (rows f), (columns f). Qed.

Lemma columns_nonempty f c : c ∈ col_names f → columns f ≠ [].
Proof. unfold col_names. by destruct (columns f); [intros ?%elem_of_nil|]. Qed.

(** ** [unique]: lemmas *)

Lemma unique_fold acc l :
  NoDup acc →
  NoDup (foldl unique_step acc l) ∧
  ∀ c, c ∈ foldl unique_step acc l ↔ c ∈ acc ∨ c ∈ l.
Proof.
  revert acc. induction l as [|x l IH]; intros acc Hnd; simpl.
  - split; [done|]. intros c. rewrite elem_of_nil. tauto.
  - destruct (decide (x ∈ acc)) as [Hx|Hx].
    + assert (unique_step acc x = acc) as -> by (unfold unique_step; by rewrite decide_True).
      destruct (IH acc Hnd) as [? Hin]. split; [done|]. intros c.
      rewrite Hin, elem_of_cons. split; [tauto|]. intros [?|[->|?]]; auto.
    + assert (unique_step acc x = acc ++ [x]) as ->
        by (unfold unique_step; by rewrite decide_False).
      destruct (IH (acc ++ [x])) as [? Hin].
      { apply NoDup_app. split_and!; [done| |apply NoDup_singleton].
        by intros c Hc ->%list_elem_of_singleton. }
      split; [done|]. intros c.
      rewrite Hin, elem_of_app, list_elem_of_singleton, elem_of_cons. tauto.
Qed.

(** [unique] keeps every value once. *)
Lemma NoDup_unique l : NoDup (unique l).
Proof. apply unique_fold, NoDup_nil_2. Qed.

Lemma elem_of_unique l c : c ∈ unique l ↔ c ∈ l.
Proof.
  unfold unique. rewrite (proj2 (unique_fold [] l (NoDup_nil_2))), elem_of_nil. tauto.
Qed.

(** ** The lemmas at the example frame *)

Lemma wf_select_witness : wf (select [true; false; true] example_frame).
Proof. apply wf_select, example_wf. Defined.

Lemma wf_dropna_all_witness : wf (dropna_all example_frame).
Proof. apply wf_dropna_all, example_wf. Defined.

Lemma column_assign_witness :
  column (assign "D" float64 [Real 1; Real 2; NA] example_frame) "D" =
  Some [Real 1; Real 2; NA].
Proof. apply column_assign; [apply example_wf|reflexivity]. Defined.

Lemma column_assign_ne_witness :
  column (assign "D" float64 [Real 1; Real 2; NA] example_frame) "Activity Number" =
  column example_frame "Activity Number".
Proof. apply column_assign_ne; [apply example_wf|reflexivity|discriminate]. Defined.

Lemma elem_of_select_column_witness :
  (2, [Str "Test-2"; NA])%nat ∈
    rows (select (isna <$> [Str "08/11/24 17:00"; NA; NA]) example_frame) ↔
  (2, [Str "Test-2"; NA])%nat ∈ rows example_frame ∧
  ∃ v, row_get example_frame "Start Date (CET)" (2, [Str "Test-2"; NA])%nat = Some v ∧
       isna v = true.
Proof. apply elem_of_select_column. reflexivity. Defined.

Lemma elem_of_dropna_subset_witness :
  (0, [Str "Prod-1"; Str "08/11/24 17:00"])%nat ∈
    rows (Frame (columns example_frame) [(0, [Str "Prod-1"; Str "08/11/24 17:00"])])%nat ↔
  (0, [Str "Prod-1"; Str "08/11/24 17:00"])%nat ∈ rows example_frame ∧
  Forall (λ c, ∃ v, row_get example_frame c (0, [Str "Prod-1"; Str "08/11/24 17:00"])%nat
                      = Some v ∧ isna v = false) ["Start Date (CET)"%string].
Proof. apply elem_of_dropna_subset. reflexivity. Defined.
