(* ===== verification/Effects.v ===== *)
(** * Effects: the exceptions the program raises and the lines it prints

    [exn] has one constructor per [raise] statement of src/workshift.py, each
    carrying the values its message interpolates, and constructors for what
    the libraries raise.  [exn_class] is the Python class of an exception and
    [issubclass] the class hierarchy, which decides what an [except] clause
    catches.  [event] has one constructor per [print] call (two adjacent
    prints of a heading and its value are one event).  [py A] is a
    computation of the program: [run event exn A]. *)

From Stdlib Require Import ZArith Lia String.
From stdpp Require Import base tactics option list strings.
From S2P Require Import Prelude PyText Datetime Strptime Frame.

(** ** Exception classes *)

Inductive pyclass : Type :=
| BaseException
| KeyboardInterrupt
| Exception
| OSError
| FileNotFoundError
| ValueError
| UnicodeError
| UnicodeDecodeError
| LookupError
| KeyError
| AttributeError
| ImportError.

#[export] Instance pyclass_eq_dec : EqDecision pyclass.
Proof. solve_decision. Defined.

(** The base class of a class. *)
Definition base (c : pyclass) : option pyclass :=
  match c with
  | BaseException => None
  | KeyboardInterrupt => Some BaseException
  | Exception => Some BaseException
  | OSError => Some Exception
  | FileNotFoundError => Some OSError
  | ValueError => Some Exception
  | UnicodeError => Some ValueError
  | UnicodeDecodeError => Some UnicodeError
  | LookupError => Some Exception
  | KeyError => Some LookupError
  | AttributeError => Some Exception
  | ImportError => Some Exception
  end.

(** The class and its bases, the class first; the hierarchy is five deep. *)
Fixpoint mro_fuel (n : nat) (c : pyclass) : list pyclass :=
  match n with
  | O => [c]
  | S n' => c :: match base c with Some b => mro_fuel n' b | None => [] end
  end.

Definition mro (c : pyclass) : list pyclass := mro_fuel 5 c.

(** [issubclass(c, d)] *)
Definition issubclass (c d : pyclass) : bool := bool_decide (d ∈ mro c).

(** ** Exceptions *)

Inductive exn : Type :=
| FileMissing (path : string)
| NoEncodingWorked
| ColumnsMissing (missing : list string)
| FormatUnsupported (ext : string)
| NoValidData
| NoProdTasks
| BadStartDate (text : string) (cause : strptime_error)
| BadEndDate (text : string) (cause : strptime_error)
| NoTaskInRange (start finish : string)
| Processing (cause : exn)
| StrAccessor
| KeyMissing (col : string)
| Foreign (cls : pyclass) (msg : string).

#[export] Instance exn_eq_dec : EqDecision exn.
Proof. solve_decision. Defined.

(** The class of the exception object. *)
Definition exn_class (e : exn) : pyclass :=
  match e with
  | FileMissing _ => FileNotFoundError
  | NoEncodingWorked | ColumnsMissing _ | FormatUnsupported _ | NoValidData
  | NoProdTasks | BadStartDate _ _ | BadEndDate _ _ | NoTaskInRange _ _ => ValueError
  | Processing _ => Exception
  | StrAccessor => AttributeError
  | KeyMissing _ => KeyError
  | Foreign cls _ => cls
  end.

(** [isinstance(e, c)]: what [except c] catches. *)
Definition isinstance (e : exn) (c : pyclass) : bool := issubclass (exn_class e) c.

(** ** Printed lines *)

Inductive event : Type :=
| SayTrying (encoding : string)
| SayReadOk (encoding : string)
| SayDecodeFailed (encoding : string)
| SayReadError (encoding : string) (e : exn)
| SayUnparsable (date_str : cell)
| SayColumns (names : list string)
| SayHead (f : frame)
| SayProcessing (col : string)
| SayInvalidDates (col : string) (f : frame)
| SayReading (path : string)
| SayWindow (start finish : string)
| SaySummary (n : nat)
| SayDateRange (earliest latest : cell)
| SayResponsibles (people : list cell)
| SayCreating
| SayGenerated (file : string)
| SayTaskList
| SayTask (number activity task person : cell) (duration : string)
| SayError (e : exn)
| SayAdvice (c : pyclass).

#[export] Instance event_eq_dec : EqDecision event.
Proof. solve_decision. Defined.

(** A computation of the program. *)
Abbreviation py := (run event exn).

(** [except c as e: h e] around [m]: the handler runs when the exception is an
    instance of [c]; any other exception goes on. *)
Definition except {A} (c : pyclass) (m : py A) (h : exn → py A) : py A :=
  catch m (λ e, if isinstance e c then h e else raise e).

(** Turn a missing column into KeyError. *)
Definition or_key_error {A} (col : string) (o : option A) : py A :=
  match o with
  | Some a => ret a
  | None => raise (KeyMissing col)
  end.

(** ** Examples *)

Example decode_error_is_value_error : issubclass UnicodeDecodeError ValueError = true.
Proof. reflexivity. Qed.

Example interrupt_is_no_exception : issubclass KeyboardInterrupt Exception = false.
Proof. reflexivity. Qed.

(** ** Classes: lemmas *)

Lemma issubclass_refl c : issubclass c c = true.
Proof. by destruct c. Qed.

Lemma issubclass_base c b d :
  base c = Some b → issubclass b d = true → issubclass c d = true.
Proof. destruct c, d; intros [= <-]; done. Qed.

Lemma issubclass_trans c d e :
  issubclass c d = true → issubclass d e = true → issubclass c e = true.
Proof. destruct c, d; try done; destruct e; done. Qed.

Lemma issubclass_BaseException c : issubclass c BaseException = true.
Proof. by destruct c. Qed.

(** The fuel of [mro] is enough: no class is more than four bases away
    from [BaseException], where every chain of bases ends, and more fuel
    lists the same classes. *)
Lemma mro_fuel_enough n c :
  4 ≤ n → mro_fuel n c = mro c ∧ last (mro c) = Some BaseException.
Proof.
  intros Hn. do 4 (destruct n as [|n]; [lia|]). clear Hn.
  split; [|by destruct c]. destruct c, n; reflexivity.
Qed.

(** Every exception the program itself raises is an [Exception]. *)
Lemma own_exn_is_Exception e :
  (∀ cls msg, e ≠ Foreign cls msg) → isinstance e Exception = true.
Proof. destruct e; intros H; try done. by destruct (H cls msg). Qed.

(** ** [except]: lemmas *)

Lemma except_returns {A} c (m : py A) h a : returns m a → except c m h = m.
Proof. unfold except, catch, returns. by intros ->. Qed.

(** A clause whose class the exception is an instance of runs its handler
    after what was printed so far. *)
Lemma except_caught {A} c (m : py A) h e :
  raises m e → isinstance e c = true →
  except c m h = Run (trace m ++ trace (h e)) (result (h e)).
Proof.
  unfold except, catch, raises. intros Hm Hi. rewrite Hm. simpl. by rewrite Hi.
Qed.

Lemma except_passed {A} c (m : py A) h e :
  raises m e → isinstance e c = false → except c m h = m.
Proof.
  unfold except, catch, raises. intros Hm Hi. rewrite Hm. simpl. rewrite Hi.
  destruct m; simpl in *. by rewrite app_nil_r, Hm.
Qed.

(** What [except] returns or raises. *)
Lemma result_except {A} c (m : py A) h :
  result (except c m h) =
  match result m with
  | Returned a => Returned a
  | Raised e => if isinstance e c then result (h e) else Raised e
  end.
Proof.
  unfold except, catch. destruct (result m) as [a|e] eqn:Hm; [done|].
  simpl. by destruct (isinstance e c).
Qed.

(** A handler that raises prints nothing: the lines are those of the body. *)
Lemma trace_except_raise {A} c (m : py A) (f : exn → exn) :
  trace (except c m (λ e, raise (f e))) = trace m.
Proof.
  unfold except, catch. destruct (result m) as [a|e]; [done|]. simpl.
  destruct (isinstance e c); apply app_nil_r.
Qed.

Lemma or_key_error_trace {A} col (o : option A) : trace (or_key_error col o) = [].
Proof. by destruct o. Qed.

(** A class that is no [Exception] is no [ValueError] either. *)
Lemma not_Exception_not_ValueError e :
  isinstance e Exception = false → isinstance e ValueError = false.
Proof.
  unfold isinstance. intros He. destruct (issubclass _ ValueError) eqn:Hv; [|done].
  by rewrite (issubclass_trans _ _ Exception Hv) in He.
Qed.

(** ** The lemmas at concrete exceptions *)

Lemma own_exn_is_Exception_witness : isinstance NoValidData Exception = true.
Proof. apply own_exn_is_Exception. intros cls msg. discriminate. Defined.

Lemma except_caught_witness :
  except ValueError (raise NoValidData) (λ e, emit (SayError e)) =
  Run (trace (raise NoValidData : py unit) ++ trace (emit (SayError NoValidData) : py unit))
      (result (emit (SayError NoValidData))).
Proof.
  apply (except_caught ValueError (raise NoValidData) (λ e, emit (SayError e)) NoValidData);
    reflexivity.
Defined.
