(* ===== verification/Dates.v ===== *)
(** * Dates: parsing the date cells

    [parse_dates] is the function of that name (src/workshift.py lines
    55-73): a missing cell gives [None]; otherwise the text of the cell is
    tried against each format of [date_formats] in order; when none matches,
    a line is printed and the result is [None].  [normalize_column] is the
    body of the loop over the two date columns (lines 147-153): it replaces a
    column by its parsed values and prints the rows that have no date. *)

From Stdlib Require Import ZArith Lia Ascii String.
From stdpp Require Import base tactics option list strings.
From S2P Require Import Prelude PyText Datetime Strptime Match Frame Effects.

(** ** [parse_dates] *)

(** The formats tried, in order: '%d/%m/%y %H:%M' alone. *)
Definition date_formats : list (list token) := [FMT_CELL].

(** One turn of the loop: [datetime.strptime(str(date_str), date_format)],
    [None] when it raises ValueError. *)
Definition try_format (date_str : cell) (fmt : list token) : option datetime :=
  s ← py_str date_str;
  match strptime_tokens s fmt with
  | inr t => Some t
  | inl _ => None
  end.

Definition parse_dates (date_str : cell) : py (option datetime) :=
  if isna date_str then ret None
  else
    match first_ok (try_format date_str) date_formats with
    | Some (_, t) => ret (Some t)
    | None => bind (emit (SayUnparsable date_str)) (λ _, ret None)
    end.

(** What [parse_dates] returns, without the printing. *)
Definition parsed (date_str : cell) : option datetime :=
  if isna date_str then None
  else snd <$> first_ok (try_format date_str) date_formats.

(** A cell that holds a value and does not parse: the cells [parse_dates]
    prints a line for. *)
Definition unparsable (date_str : cell) : bool :=
  negb (isna date_str) && bool_decide (parsed date_str = None).

(** ** One date column *)

(** The dtype pandas gives the parsed column: datetime64 when it holds a
    date, object when every value is missing. *)
Definition parsed_dtype (l : list (option datetime)) : dtype :=
  if existsb (λ o, bool_decide (is_Some o)) l then datetime64 else object.

Definition normalize_column (date_col : string) (df : frame) : py frame :=
  _ ← emit (SayProcessing date_col);
  vals ← or_key_error date_col (column df date_col);
  dates ← map_run parse_dates vals;
  let df := assign date_col (parsed_dtype dates) (of_stamp <$> dates) df in
  mask ← or_key_error date_col (isna_col df date_col);
  invalid_dates ← or_key_error "Activity Number"
                    (project ["Activity Number"; date_col]%string (select mask df));
  _ ← (if empty invalid_dates then ret tt else emit (SayInvalidDates date_col invalid_dates));
  ret df.

(** ** The parsed column, row by row *)

(** The row with the date at position [i] parsed. *)
Definition set_date (i : nat) (r : row) : row :=
  set_cell i (of_stamp (parsed (cell_at i r))) r.

(** The frame with column [c], at position [i], parsed. *)
Definition parse_column (c : string) (i : nat) (df : frame) : frame :=
  Frame (<[i := (c, parsed_dtype (parsed <$> (cell_at i <$> rows df)))]> (columns df))
        (set_date i <$> rows df).

(** The values a run has printed as not parsable. *)
Definition unparsable_values (t : list event) : list cell :=
  omap (λ v, match v with SayUnparsable c => Some c | _ => None end) t.

(** ** Examples *)

Example parse_dates_ok :
  parse_dates (Str "08/11/24 17:00") = Run [] (Returned (Some (DT 2024 11 8 17 0 0))).
Proof. reflexivity. Qed.

Example parse_dates_missing : parse_dates NA = Run [] (Returned None).
Proof. reflexivity. Qed.

Example parse_dates_bad :
  parse_dates (Str "2024-11-08") = Run [SayUnparsable (Str "2024-11-08")] (Returned None).
Proof. reflexivity. Qed.

Example parse_dates_typed :
  parse_dates (Stamp (DT 2024 11 8 17 0 0)) =
  Run [SayUnparsable (Stamp (DT 2024 11 8 17 0 0))] (Returned None).
Proof. reflexivity. Qed.

(** The loop body on the example frame: the table of invalid dates is made
    from the column after it was overwritten, so it shows the missing value
    and not the text that failed, and it lists row 1, whose cell was empty. *)
Example normalize_example :
  normalize_column "Start Date (CET)" example_frame =
  Run [SayProcessing "Start Date (CET)";
       SayInvalidDates "Start Date (CET)"
         (Frame [("Activity Number", object); ("Start Date (CET)", datetime64)]%string
                [(1, [NA; NA]); (2, [Str "Test-2"; NA])])]
      (Returned
         (Frame [("Activity Number", object); ("Start Date (CET)", datetime64)]%string
                [(0, [Str "Prod-1"; Stamp (DT 2024 11 8 17 0 0)]);
                 (1, [NA; NA]);
                 (2, [Str "Test-2"; NA])])).
Proof. reflexivity. Qed.

(** ** [parse_dates]: lemmas *)

(** [parse_dates] never raises; it returns [parsed]. *)
Lemma parse_dates_returns c : returns (parse_dates c) (parsed c).
Proof.
  unfold parse_dates, parsed, returns. destruct (isna c); [done|].
  by destruct (first_ok _ _) as [[? ?]|].
Qed.

(** It prints one line for a value that does not parse, and nothing else. *)
Lemma parse_dates_trace c :
  trace (parse_dates c) = if unparsable c then [SayUnparsable c] else [].
Proof.
  unfold parse_dates, unparsable, parsed. destruct (isna c); [done|].
  by destruct (first_ok _ _) as [[? ?]|].
Qed.


Lemma parsed_Some c t :
  parsed c = Some t ↔
  isna c = false ∧ ∃ s, py_str c = Some s ∧ strptime_tokens s FMT_CELL = inr t.
Proof.
  unfold parsed, date_formats. simpl. destruct (isna c).
  { split; [done|]. by intros [? _]. }
  unfold try_format. destruct (py_str c) as [s|]; simpl.
  - destruct (strptime_tokens s FMT_CELL) as [?|t'] eqn:Hs; simpl.
    + split; [done|]. intros (_ & s' & [= <-] & ?). congruence.
    + split; [intros [= <-]; eauto|]. intros (_ & s' & [= <-] & ?). congruence.
  - split; [done|]. by intros (_ & s' & ? & _).
Qed.

(** C9. [parse_dates] returns a date exactly when the cell holds a value whose
    text, as a whole, reads as that date in the format of line 63. *)
Theorem parse_dates_reads c t :
  returns (parse_dates c) (Some t) ↔
  isna c = false ∧ ∃ s, py_str c = Some s ∧ reads FMT_CELL s t.
Proof.
  setoid_rewrite <-strptime_cell_iff. rewrite <-parsed_Some. split.
  - intros Hr. symmetry. exact (returns_inj _ _ _ Hr (parse_dates_returns c)).
  - intros <-. apply parse_dates_returns.
Qed.

(** A date that parsed is a date of the calendar. *)
Lemma parsed_Some_valid c t : parsed c = Some t → valid t = true.
Proof. intros (_ & s & _ & Hs)%parsed_Some. by destruct (strptime_valid _ _ _ Hs). Qed.

(** It has no seconds: the format has no directive for them. *)
Lemma parsed_Some_second c t : parsed c = Some t → second t = 0%Z.
Proof. intros (_ & s & _ & Hs)%parsed_Some. by destruct (strptime_valid _ _ _ Hs). Qed.

(** C8. A date [parse_dates] returns is a valid date-time of the years 1969
    to 2068 with zero seconds, and it fits the datetime64 column. *)
Theorem parsed_valid c t :
  parsed c = Some t →
  valid t = true ∧ second t = 0%Z ∧ (1969 ≤ year t ≤ 2068)%Z ∧
  in_dt64_range (dt64 t) = true.
Proof.
  intros (_ & s & _ & Hs)%parsed_Some.
  destruct (strptime_valid _ _ _ Hs), (strptime_cell_in_range _ _ Hs). done.
Qed.

Lemma parsed_valid_witness :
  valid (DT 2024 11 8 17 0 0) = true ∧ second (DT 2024 11 8 17 0 0) = 0%Z ∧
  (1969 ≤ year (DT 2024 11 8 17 0 0) ≤ 2068)%Z ∧
  in_dt64_range (dt64 (DT 2024 11 8 17 0 0)) = true.
Proof. apply (parsed_valid (Str "08/11/24 17:00")). reflexivity. Defined.

(** ** [normalize_column]: lemmas *)

Lemma map_parse_dates vals :
  returns (map_run parse_dates vals) (parsed <$> vals) ∧
  trace (map_run parse_dates vals) = SayUnparsable <$> filter (λ c, unparsable c) vals.
Proof.
  destruct (map_run_total parse_dates parsed vals) as [Hr Ht].
  { intros c _. apply parse_dates_returns. }
  split; [done|]. rewrite Ht. clear. induction vals as [|c vals IH]; [done|].
  rewrite bind_cons, IH, parse_dates_trace, filter_cons.
  destruct (unparsable c); by case_decide.
Qed.

Lemma assign_parsed c i df :
  col_pos df c = Some i →
  assign c (parsed_dtype (parsed <$> (cell_at i <$> rows df)))
    (of_stamp <$> (parsed <$> (cell_at i <$> rows df))) df = parse_column c i df.
Proof.
  intros Hi. rewrite <-!(list_fmap_compose _ _ (rows df)).
  rewrite (assign_pos c _ (of_stamp ∘ parsed ∘ cell_at i) i df Hi).
  unfold parse_column. by rewrite <-!(list_fmap_compose _ _ (rows df)).
Qed.

Lemma wf_parse_column c i df : wf df → col_pos df c = Some i → wf (parse_column c i df).
Proof.
  intros Hwf Hc. rewrite <-(assign_parsed c i df Hc). apply wf_assign; [done|].
  by rewrite !length_fmap.
Qed.

Lemma col_names_parse_column c i df :
  col_pos df c = Some i → col_names (parse_column c i df) = col_names df.
Proof. apply col_names_retype. Qed.

Lemma col_pos_parse_column c i df c' :
  col_pos df c = Some i → col_pos (parse_column c i df) c' = col_pos df c'.
Proof. intros ?. by apply col_pos_names, col_names_parse_column. Qed.

(** With the date column and the Activity Number column present, the loop
    body returns the frame with the column parsed. *)
Lemma normalize_column_returns c i df :
  col_pos df c = Some i → "Activity Number"%string ∈ col_names df →
  returns (normalize_column c df) (parse_column c i df).
Proof.
  intros Hi HA. unfold normalize_column, returns. rewrite result_emit.
  rewrite (column_pos _ _ _ Hi). simpl or_key_error.
  rewrite ret_bind.
  run_step (proj1 (map_parse_dates (cell_at i <$> rows df))).
  rewrite (assign_parsed c i df Hi). unfold isna_col.
  rewrite (column_pos (parse_column c i df) c i) by by rewrite col_pos_parse_column.
  simpl or_key_error. rewrite ret_bind.
  destruct (proj2 (project_is_Some ["Activity Number"; c]%string
    (select (isna <$> (cell_at i <$> rows (parse_column c i df))) (parse_column c i df))))
    as [inv Hinv].
  { intros c' Hc. change (c' ∈ col_names (parse_column c i df)).
    rewrite col_names_parse_column by done.
    apply elem_of_cons in Hc as [->|Hc]; [done|].
    apply list_elem_of_singleton in Hc as ->. apply col_pos_is_Some. eauto. }
  change (rows (parse_column c i df)) with (set_date i <$> rows df) in Hinv.
  rewrite Hinv. simpl or_key_error.
  rewrite ret_bind.
  by destruct (empty inv).
Qed.

(** It raises KeyError when the date column is absent. *)
Lemma normalize_column_missing c df :
  col_pos df c = None → raises (normalize_column c df) (KeyMissing c).
Proof.
  intros Hi. unfold normalize_column, raises, column. rewrite result_emit, Hi. done.
Qed.

(** When the loop body returns, it returns the frame with the column
    replaced by its parsed values. *)
Lemma normalize_column_inv c df df' :
  returns (normalize_column c df) df' →
  ∃ vals, column df c = Some vals ∧
    df' = assign c (parsed_dtype (parsed <$> vals)) (of_stamp <$> (parsed <$> vals)) df.
Proof.
  unfold normalize_column, returns. rewrite result_emit.
  destruct (column df c) as [vals|]; simpl or_key_error; [rewrite ret_bind|done].
  run_step (proj1 (map_parse_dates vals)).
  destruct (isna_col _ c) as [mask|]; simpl or_key_error; [rewrite ret_bind|done].
  destruct (project _ _) as [inv|]; simpl or_key_error; [rewrite ret_bind|done].
  destruct (empty inv); intros [= <-]; eauto.
Qed.

(** A parsed value has the type of the parsed column. *)
Lemma has_dtype_parsed l o : has_dtype (parsed_dtype l) (of_stamp o) = true.
Proof. unfold parsed_dtype. by destruct (existsb _ l), o. Qed.

(** ** Cells that hold a time stamp *)

Lemma pad2_no_slash n d : d ∈ pad2 n → lower_char "/" ≠ lower_char d.
Proof.
  unfold pad2. intros Hd.
  assert (∃ v, (0 ≤ v ≤ 9)%Z ∧ d = digit_chr v) as (v & Hv & ->).
  { apply elem_of_cons in Hd as [->|Hd]; [|apply list_elem_of_singleton in Hd as ->];
      eexists; (split; [|done]); zlia. }
  digit_cases v; done.
Qed.

Lemma str_datetime_no_slash t d :
  d ∈ chars (str_datetime t) → lower_char "/" ≠ lower_char d.
Proof.
  unfold str_datetime, pad4. rewrite chars_text.
  repeat (rewrite elem_of_app || rewrite elem_of_cons).
  intros Hd. destruct_or! Hd; subst; try done; by eapply pad2_no_slash.
Qed.

(** The text of a time stamp, YYYY-MM-DD HH:MM:SS, has no slash: a cell that
    holds a time stamp, as the cells of a date column of a spreadsheet do,
    never parses. *)
Lemma parsed_Stamp t : parsed (Stamp t) = None.
Proof.
  unfold parsed, date_formats, try_format. simpl.
  rewrite (strptime_missing_literal _ FMT_CELL "/"); [done|by repeat constructor|].
  apply str_datetime_no_slash.
Qed.

Lemma digit_no_slash d : is_digit d = true → lower_char "/" ≠ lower_char d.
Proof.
  intros Hd%is_digit_spec. assert (lower_char d = d) as ->.
  { unfold lower_char, is_upper. by destruct (Z.leb_spec 65 (ord d)); [lia|]. }
  intros <-. change (ord (lower_char "/")) with 47%Z in Hd. lia.
Qed.

(** The text of an integer has no slash either. *)
Lemma parsed_Int n : parsed (Int n) = None.
Proof.
  unfold parsed, date_formats, try_format. cbn [isna py_str first_ok mbind option_bind].
  rewrite (strptime_missing_literal _ FMT_CELL "/"); [done|by repeat constructor|].
  intros d Hd. destruct (str_int_chars n) as (ds & Hc & _ & Hds & _). rewrite Hc in Hd.
  rewrite Forall_forall in Hds. apply elem_of_app in Hd as [Hd|Hd]; [|by apply digit_no_slash, Hds].
  destruct (n <? 0)%Z; [by apply list_elem_of_singleton in Hd as ->|by apply elem_of_nil in Hd].
Qed.

(** Only a cell that holds text parses: a number, a truth value, a time
    stamp and a missing value give no date. *)
Lemma parsed_text_only c t : parsed c = Some t → ∃ s, c = Str s.
Proof.
  destruct c as [|s|n|b|t'|q];
    [done|by eexists|by rewrite parsed_Int|by destruct b|by rewrite parsed_Stamp|done].
Qed.

(** ** What [normalize_column] prints *)

Lemma unparsable_values_fmap l : unparsable_values (SayUnparsable <$> l) = l.
Proof. induction l; simpl; by f_equal. Qed.

Lemma unparsable_values_app t1 t2 :
  unparsable_values (t1 ++ t2) = unparsable_values t1 ++ unparsable_values t2.
Proof. apply omap_app. Qed.

(** The lines of the loop body that name a value. *)
Lemma normalize_column_lines c i df :
  col_pos df c = Some i → "Activity Number"%string ∈ col_names df →
  unparsable_values (trace (normalize_column c df)) =
  filter (λ v, unparsable v) (cell_at i <$> rows df).
Proof.
  intros Hi HA. pose proof (normalize_column_returns c i df Hi HA) as Hret.
  revert Hret. unfold normalize_column, returns. rewrite trace_emit, result_emit.
  rewrite (column_pos _ _ _ Hi). simpl or_key_error. rewrite ret_bind.
  destruct (map_parse_dates (cell_at i <$> rows df)) as [Hr Ht].
  run_step Hr. run_step Hr. rewrite Ht.
  destruct (isna_col _ c) as [mask|]; simpl or_key_error; [rewrite ret_bind|done].
  destruct (project _ _) as [inv|]; simpl or_key_error; [rewrite ret_bind|done].
  intros _. assert (∀ t, unparsable_values (SayProcessing c :: t) = unparsable_values t)
    as -> by done.
  rewrite unparsable_values_app, unparsable_values_fmap.
  by destruct (empty inv); simpl; rewrite app_nil_r.
Qed.

