(* ===== verification/Pipeline.v ===== *)
(** * Pipeline: reading, validating, filtering

    The functions of src/workshift.py that make the clean data set:
    [try_read_csv] (lines 9-30), [clean_and_validate_data] (lines 32-53) and
    [read_and_process_data] (lines 118-195).

    What the program asks of the outside is the class [World]: whether a path
    exists, and what [pd.read_csv] and [pd.read_excel] return or raise for a
    path.  Every definition below takes a world, and the theorems hold for
    all worlds; [WorldOk] and [WorldTyped] add what pandas promises of a
    frame it returns. *)

From Stdlib Require Import ZArith Lia Ascii String QArith.
From stdpp Require Import base tactics option list strings.
From S2P Require Import Prelude PyText Datetime Strptime Frame Effects Dates.

(** ** The outside *)

Class World : Type := {
  (** [os.path.exists(path)] *)
  path_exists : string → bool;
  (** [pd.read_csv(path, encoding=encoding)]: the frame, or what it raises *)
  read_csv : string → string → exn + frame;
  (** [pd.read_excel(path, engine=engine)] *)
  read_excel : string → string → exn + frame
}.

(** pandas returns frames of distinct column names and index labels whose
    rows all have the width of the header. *)
Class WorldOk (W : World) : Prop := {
  read_csv_wf path enc df : read_csv path enc = inr df → wf df;
  read_excel_wf path eng df : read_excel path eng = inr df → wf df
}.

(** pandas gives every column a dtype that its values have. *)
Class WorldTyped (W : World) : Prop := {
  read_csv_typed path enc df : read_csv path enc = inr df → typed df;
  read_excel_typed path eng df : read_excel path eng = inr df → typed df
}.

(** ** Constants of the program *)

Definition encodings : list string := ["utf-8"; "latin1"; "iso-8859-1"; "cp1252"]%string.

Definition required_columns : list string :=
  ["Activity Number"; "Activity"; "Milestone/task"; "Start Date (CET)";
   "End Date (CET)"; "Responsible Person"]%string.

Definition ACTIVITY_NUMBER : string := "Activity Number".
Definition START : string := "Start Date (CET)".
Definition FINISH : string := "End Date (CET)".
Definition DURATION : string := "Duration (Hours)".

(** ** [clean_and_validate_data] *)

Definition clean_and_validate_data (df : frame) : py frame :=
  let df := dropna_all df in
  let missing := missing_columns required_columns df in
  match missing with
  | [] => ret df
  | _ :: _ => raise (ColumnsMissing missing)
  end.

(** ** Element-wise operations on columns *)

(** [startswith] on one value of a text column; a value that is not text
    (a missing value above all) counts as no match: na=False. *)
Definition starts_with (prefix : string) (c : cell) : bool :=
  match c with Str s => startswith s prefix | _ => false end.

(** [series.str.startswith(prefix, na=False)]: AttributeError unless the
    column holds text. *)
Definition str_startswith (prefix : string) (df : frame) (col : string) : py (list bool) :=
  vals ← or_key_error col (column df col);
  dt ← or_key_error col (col_dtype df col);
  if decide (dt = object)
  then ret (fmap (M:=list) (starts_with prefix) vals)
  else raise StrAccessor.

(** [series >= bound]; a missing value compares false. *)
Definition ge_bound (bound : datetime) (c : cell) : bool :=
  match c with Stamp t => dt_ge t bound | _ => false end.

(** [series <= bound] *)
Definition le_bound (bound : datetime) (c : cell) : bool :=
  match c with Stamp t => dt_le t bound | _ => false end.

(** [finish - start] in hours; missing when either is. *)
Definition hours_between (finish start : cell) : cell :=
  match finish, start with
  | Stamp tf, Stamp ts => Real (duration_hours ts tf)
  | _, _ => NA
  end.

Section WithWorld.
Context `{W : World}.

(** ** [try_read_csv] *)

(** The loop over the encodings that are left to try. *)
Fixpoint try_encodings (file_path : string) (left : list string) : py frame :=
  match left with
  | [] => raise NoEncodingWorked
  | encoding :: left' =>
      _ ← emit (SayTrying encoding);
      match read_csv file_path encoding with
      | inr df => _ ← emit (SayReadOk encoding); ret df
      | inl e =>
          if isinstance e UnicodeDecodeError then
            _ ← emit (SayDecodeFailed encoding); try_encodings file_path left'
          else if isinstance e Exception then
            _ ← emit (SayReadError encoding e); try_encodings file_path left'
          else raise e
      end
  end.

Definition try_read_csv (file_path : string) : py frame :=
  try_encodings file_path encodings.

(** The encodings a run has tried, from what it printed. *)
Definition tried (t : list event) : list string :=
  omap (λ v, match v with SayTrying encoding => Some encoding | _ => None end) t.

(** What one turn of the loop decides: [None] to go on with the next
    encoding, the frame to return, or the exception that leaves the loop. *)
Definition attempt (file_path encoding : string) : option (exn + frame) :=
  match read_csv file_path encoding with
  | inr df => Some (inr df)
  | inl e => if isinstance e Exception then None else Some (inl e)
  end.

(** ** [read_and_process_data] *)

(** Lines 129-136: the reader chosen by the extension. *)
Definition read_file (file_path file_extension : string) : py frame :=
  if decide (file_extension = ".xlsx"%string) then
    match read_excel file_path "openpyxl" with inr df => ret df | inl e => raise e end
  else if decide (file_extension = ".xls"%string) then
    match read_excel file_path "xlrd" with inr df => ret df | inl e => raise e end
  else if decide (file_extension = ".csv"%string) then try_read_csv file_path
  else raise (FormatUnsupported file_extension).

(** *** The stages of the try block

    The block is a sequence of stages, each under its comment in the source;
    a stage takes the frame of the stage before and returns the next frame or
    raises. *)

(** Lines 128-141: read the file, print its columns and first rows. *)
Definition decode (file_path file_extension : string) : py frame :=
  df ← read_file file_path file_extension;
  _ ← emit (SayColumns (col_names df));
  _ ← emit (SayHead (head 5 df));
  ret df.

(** Lines 146-153: parse the two date columns. *)
Definition normalize_dates (df : frame) : py frame :=
  df ← normalize_column START df;
  normalize_column FINISH df.

(** Lines 155-159: drop the rows that lack a date. *)
Definition drop_null_dates (df : frame) : py frame :=
  df ← or_key_error START (dropna_subset [START; FINISH] df);
  if empty df then raise NoValidData else ret df.

(** Lines 161-165: keep the tasks whose number starts with 'Prod'. *)
Definition filter_prefix (df : frame) : py frame :=
  mask ← str_startswith "Prod" df ACTIVITY_NUMBER;
  let df := select mask df in
  if empty df then raise NoProdTasks else ret df.

(** One bound of the window: ValueError is raised again with the text. *)
Definition parse_bound (wrap : string → strptime_error → exn) (text : string) : py datetime :=
  match strptime_tokens text FMT_WINDOW with
  | inr t => ret t
  | inl cause => raise (wrap text cause)
  end.

(** Lines 167-176: the two bounds, the start first. *)
Definition parse_window (start_date_filter end_date_filter : string) : py (datetime * datetime) :=
  start_date ← parse_bound BadStartDate start_date_filter;
  end_date ← parse_bound BadEndDate end_date_filter;
  ret (start_date, end_date).

(** The mask of lines 180-181. *)
Definition window_mask (start_date end_date : datetime) (starts ends : list cell) : list bool :=
  zip_with andb (ge_bound start_date <$> starts) (le_bound end_date <$> ends).

(** Lines 178-185: keep the tasks inside the window. *)
Definition filter_range (start_date_filter end_date_filter : string)
    (window : datetime * datetime) (df : frame) : py frame :=
  starts ← or_key_error START (column df START);
  ends ← or_key_error FINISH (column df FINISH);
  let df := select (window_mask window.1 window.2 starts ends) df in
  if empty df then raise (NoTaskInRange start_date_filter end_date_filter) else ret df.

(** Lines 187-192: add the duration column. *)
Definition compute_duration (df : frame) : py frame :=
  ends ← or_key_error FINISH (column df FINISH);
  starts ← or_key_error START (column df START);
  ret (assign DURATION float64 (zip_with hours_between ends starts) df).

(** Lines 128-192: the body of the try block. *)
Definition process (file_path file_extension start_date_filter end_date_filter : string)
    : py frame :=
  df ← decode file_path file_extension;
  df ← clean_and_validate_data df;
  df ← normalize_dates df;
  df ← drop_null_dates df;
  df ← filter_prefix df;
  window ← parse_window start_date_filter end_date_filter;
  df ← filter_range start_date_filter end_date_filter window df;
  compute_duration df.

Definition read_and_process_data (file_path start_date_filter end_date_filter : string)
    : py frame :=
  if negb (path_exists file_path) then raise (FileMissing file_path) else
  let file_extension := lower (splitext file_path).2 in
  except Exception
    (process file_path file_extension start_date_filter end_date_filter)
    (λ e, raise (Processing e)).

End WithWorld.

(** ** [clean_and_validate_data]: lemmas *)

Lemma col_names_dropna_all df : col_names (dropna_all df) = col_names df.
Proof. done. Qed.

(** Validation returns when every required column is there, and then it
    returns the frame without its empty rows. *)
Lemma clean_and_validate_data_returns df df' :
  returns (clean_and_validate_data df) df' ↔
  df' = dropna_all df ∧ ∀ c, c ∈ required_columns → c ∈ col_names df.
Proof.
  unfold clean_and_validate_data, returns.
  destruct (missing_columns required_columns (dropna_all df)) as [|c m] eqn:Hm; simpl.
  - pose proof (proj1 (missing_columns_nil _ _) Hm).
    split; [intros [= <-]; by split|by intros [-> _]].
  - split; [done|]. intros [_ Hall].
    pose proof (proj2 (missing_columns_nil required_columns (dropna_all df)) Hall).
    congruence.
Qed.

(** C6. Validation raises exactly when a required column is absent, and the
    error names every absent column, in the order of [required_columns]. *)
Lemma clean_and_validate_data_raises df e :
  raises (clean_and_validate_data df) e ↔
  e = ColumnsMissing (missing_columns required_columns df) ∧
  ∃ c, c ∈ required_columns ∧ c ∉ col_names df.
Proof.
  unfold clean_and_validate_data, raises.
  change (missing_columns required_columns (dropna_all df))
    with (missing_columns required_columns df).
  destruct (missing_columns required_columns df) as [|c m] eqn:Hm; simpl.
  - split; [done|]. intros [_ (c & Hc & Hn)].
    destruct Hn. by apply (proj1 (missing_columns_nil _ _) Hm).
  - split; [|by intros [-> _]]. intros [= <-]. split; [done|]. exists c.
    apply elem_of_missing_columns. rewrite Hm. left.
Qed.

Lemma clean_and_validate_data_trace df : trace (clean_and_validate_data df) = [].
Proof. unfold clean_and_validate_data. by destruct (missing_columns _ _). Qed.

Section PipelineLaws.
Context `{W : World}.

(** ** [try_read_csv]: lemmas *)

Lemma decode_error_is_Exception e :
  isinstance e UnicodeDecodeError = true → isinstance e Exception = true.
Proof. intros H. by apply (issubclass_trans _ _ _ H). Qed.

(** The loop returns what the first encoding that decides gives. *)
Lemma try_encodings_result file_path left :
  result (try_encodings file_path left) =
  match first_ok (attempt file_path) left with
  | Some (_, inr df) => Returned df
  | Some (_, inl e) => Raised e
  | None => Raised NoEncodingWorked
  end.
Proof.
  induction left as [|enc left IH]; [done|].
  cbn [try_encodings first_ok]. rewrite result_emit. unfold attempt at 1.
  destruct (read_csv file_path enc) as [e|df]; [|done].
  destruct (isinstance e UnicodeDecodeError) eqn:Hu.
  - by rewrite (decode_error_is_Exception e Hu), result_emit.
  - destruct (isinstance e Exception); [by rewrite result_emit|done].
Qed.

(** C7. [try_read_csv] returns the frame of the first encoding, in the order
    utf-8, latin1, iso-8859-1, cp1252, that reads the file; an error that is
    no [Exception] leaves the loop, and when every encoding fails the error
    is the ValueError of line 30. *)
Theorem try_read_csv_first file_path :
  result (try_read_csv file_path) =
  match first_ok (attempt file_path) encodings with
  | Some (_, inr df) => Returned df
  | Some (_, inl e) => Raised e
  | None => Raised NoEncodingWorked
  end.
Proof. apply try_encodings_result. Qed.

(** One line is printed for every encoding tried, in the order of the list. *)
Lemma try_encodings_tried file_path left :
  tried (trace (try_encodings file_path left)) `prefix_of` left.
Proof.
  induction left as [|enc left IH]; [done|].
  cbn [try_encodings]. rewrite trace_emit. cbn [tried omap]. apply prefix_cons.
  destruct (read_csv file_path enc) as [e|df]; [|apply prefix_nil].
  destruct (isinstance e UnicodeDecodeError); [by rewrite trace_emit|].
  destruct (isinstance e Exception); [by rewrite trace_emit|apply prefix_nil].
Qed.

(** A frame the loop returns is one a reader returned. *)
Lemma try_encodings_returns file_path left df :
  returns (try_encodings file_path left) df →
  ∃ encoding, encoding ∈ left ∧ read_csv file_path encoding = inr df.
Proof.
  unfold returns. rewrite try_encodings_result.
  destruct (first_ok _ _) as [[enc [e|df']]|] eqn:Hf; try done. intros [= ->].
  apply first_ok_elem_of in Hf as [Hin Ha]. exists enc. split; [done|].
  unfold attempt in Ha. destruct (read_csv file_path enc) as [e|?]; [|congruence].
  by destruct (isinstance e Exception).
Qed.

(** ** [read_file]: lemmas *)

Lemma read_file_returns file_path file_extension df :
  returns (read_file file_path file_extension) df →
  (∃ engine, read_excel file_path engine = inr df) ∨
  (∃ encoding, encoding ∈ encodings ∧ read_csv file_path encoding = inr df).
Proof.
  unfold read_file, returns. repeat case_decide; try done.
  - destruct (read_excel _ _) eqn:?; [done|]. intros [= ->]. eauto.
  - destruct (read_excel _ _) eqn:?; [done|]. intros [= ->]. eauto.
  - intros ?%try_encodings_returns. eauto.
Qed.

Lemma read_file_wf `{!WorldOk W} file_path file_extension df :
  returns (read_file file_path file_extension) df → wf df.
Proof.
  intros [[? ?]|(? & _ & ?)]%read_file_returns;
    [by eapply read_excel_wf|by eapply read_csv_wf].
Qed.

Lemma read_file_typed `{!WorldTyped W} file_path file_extension df :
  returns (read_file file_path file_extension) df → typed df.
Proof.
  intros [[? ?]|(? & _ & ?)]%read_file_returns;
    [by eapply read_excel_typed|by eapply read_csv_typed].
Qed.

(** C37. When an encoding reads the file and what the readers raise are
    Exceptions, the loop comes to an encoding that reads the file and
    returns its frame. *)
Lemma try_encodings_succeeds file_path left encoding df :
  encoding ∈ left → read_csv file_path encoding = inr df →
  (∀ enc e, enc ∈ left → read_csv file_path enc = inl e → isinstance e Exception = true) →
  ∃ enc' df', enc' ∈ left ∧ read_csv file_path enc' = inr df' ∧
    returns (try_encodings file_path left) df'.
Proof.
  intros Hin Hread Hexn. unfold returns. rewrite try_encodings_result.
  destruct (first_ok_is_Some (attempt file_path) left encoding Hin) as [[enc' r] Hf].
  { unfold attempt. rewrite Hread. by eexists. }
  rewrite Hf. apply first_ok_elem_of in Hf as [Hin' Ha]. unfold attempt in Ha.
  destruct (read_csv file_path enc') as [e|df'] eqn:Hr.
  - rewrite (Hexn enc' e Hin' Hr) in Ha. done.
  - simplify_eq. by exists enc', df'.
Qed.

(** An extension that is none of the three raises ValueError. *)
Lemma read_file_unsupported file_path file_extension :
  file_extension ∉ [".xlsx"; ".xls"; ".csv"]%string →
  read_file file_path file_extension = raise (FormatUnsupported file_extension).
Proof.
  intros Hn. unfold read_file.
  repeat case_decide; try done; subst; destruct Hn; repeat constructor.
Qed.

End PipelineLaws.
