(* ===== verification/Invariant.v ===== *)
(** * Invariant: what every stage keeps

    A frame is [sound] when it is well formed ([wf]: distinct column names,
    distinct index labels, rows as wide as the header) and typed ([typed]:
    every cell has the dtype of its column).  Every stage of the try block of
    [read_and_process_data] (src/workshift.py lines 128-192) that returns,
    returns a sound frame when it is given one: the filters keep the header
    and some of the rows, and the two assignments (the parsed dates at line
    149, the duration at lines 188-190) write values of the dtype they give
    the column.  By induction on the runs of the machine of Stages, every
    state reached from the first stage holds a sound frame. *)

From Stdlib Require Import ZArith Lia Ascii String QArith.
From stdpp Require Import base tactics option list strings relations.
From S2P Require Import Prelude PyText Datetime Strptime Frame Effects Dates Pipeline Stages.

Definition sound (f : frame) : Prop := wf f ∧ typed f.

#[export] Instance sound_dec f : Decision (sound f).
Proof. unfold sound. apply _. Defined.

(** The invariant of the machine: the frame of the state is sound. *)
Definition state_ok (st : state) : Prop :=
  match st with
  | AtDecode => True
  | AtValidate df | AtNormalizeDates df | AtDropNullDates df | AtFilterPrefix df
  | AtParseWindow df | AtFilterRange df _ | AtComputeDuration df | AtDone df => sound df
  end.

(** ** Operations on frames *)

Lemma sound_sub f f' :
  sound f → columns f' = columns f → rows f' `sublist_of` rows f → sound f'.
Proof. intros [??] ??. split; [by eapply wf_sub|by eapply typed_sub]. Qed.

Lemma sound_select mask f : sound f → sound (select mask f).
Proof. intros Hs. eapply sound_sub; [exact Hs|done|apply select_rows_sublist]. Qed.

Lemma sound_assign c dt vals f :
  sound f → length vals = len f → Forall (λ v, has_dtype dt v = true) vals →
  sound (assign c dt vals f).
Proof. intros [??] ??. split; [by apply wf_assign|by apply typed_assign]. Qed.

Lemma has_dtype_hours_between finish start :
  has_dtype float64 (hours_between finish start) = true.
Proof. by destruct finish, start. Qed.

(** ** The stages *)

#[local] Hint Resolve sound_select : core.

Lemma clean_and_validate_data_sound df df' :
  sound df → returns (clean_and_validate_data df) df' → sound df'.
Proof.
  unfold clean_and_validate_data, returns. intros Hs.
  destruct (missing_columns _ _); intros [= <-].
  eapply sound_sub; [exact Hs|done|apply sublist_filter].
Qed.

Lemma normalize_column_sound c df df' :
  sound df → returns (normalize_column c df) df' → sound df'.
Proof.
  intros Hs (vals & Hc & ->)%normalize_column_inv. apply sound_assign; [done|..].
  - rewrite !length_fmap. by eapply column_length.
  - apply Forall_fmap, Forall_true. intros o. apply has_dtype_parsed.
Qed.

Lemma normalize_dates_sound df df' : sound df → returns (normalize_dates df) df' → sound df'.
Proof.
  unfold normalize_dates. intros Hs (df1 & H1 & H2)%mbind_returns.
  eapply normalize_column_sound; [|exact H2]. eapply normalize_column_sound; [exact Hs|exact H1].
Qed.

Lemma drop_null_dates_sound df df' : sound df → returns (drop_null_dates df) df' → sound df'.
Proof.
  unfold drop_null_dates, returns. intros Hs.
  destruct (dropna_subset _ df) as [f|] eqn:Hd; simpl or_key_error; [rewrite ret_bind|done].
  destruct (empty f); intros [= <-]. apply dropna_subset_Some in Hd as [??].
  eapply sound_sub; [exact Hs|done..].
Qed.

Lemma filter_prefix_sound df df' : sound df → returns (filter_prefix df) df' → sound df'.
Proof.
  unfold filter_prefix. intros Hs (mask & _ & Hm)%mbind_returns. revert Hm. unfold returns.
  destruct (empty (select mask df)); intros [= <-]. auto.
Qed.

Lemma filter_range_sound start_date_filter end_date_filter w df df' :
  sound df → returns (filter_range start_date_filter end_date_filter w df) df' → sound df'.
Proof.
  unfold filter_range.
  intros Hs (starts & _ & (ends & _ & Hm)%mbind_returns)%mbind_returns. revert Hm.
  unfold returns. destruct (empty (select _ df)); intros [= <-]. auto.
Qed.

Lemma or_key_error_returns {A} col (o : option A) a : returns (or_key_error col o) a → o = Some a.
Proof. destruct o; unfold returns; simpl; congruence. Qed.

Lemma compute_duration_sound df df' : sound df → returns (compute_duration df) df' → sound df'.
Proof.
  unfold compute_duration. intros Hs (ends & He%or_key_error_returns &
             (starts & Hst%or_key_error_returns & [= <-])%mbind_returns)%mbind_returns.
  apply sound_assign; [done|..].
  - rewrite length_zip_with, (column_length _ _ _ He), (column_length _ _ _ Hst). lia.
  - apply Forall_zip_with_r. intros. apply has_dtype_hours_between.
Qed.

(** ** The machine *)

Section Machine.
Context `{W : World} `{!WorldOk W} `{!WorldTyped W}.
Context (file_path file_extension start_date_filter end_date_filter : string).

(** The steps of the run under way. *)
Local Abbreviation run_step :=
  (Stages.step file_path file_extension start_date_filter end_date_filter).

Lemma decode_sound df : returns (decode file_path file_extension) df → sound df.
Proof.
  unfold decode. intros (df0 & Hr & Hd)%mbind_returns. revert Hd. unfold returns.
  rewrite !result_emit. intros [= <-].
  split; [by eapply read_file_wf|by eapply read_file_typed].
Qed.

(** Every step keeps the invariant. *)
Lemma step_state_ok st st' : state_ok st → run_step st st' → state_ok st'.
Proof.
  intros Hok Hs. inversion Hs as [s m s' Ha Hm]; subst.
  destruct st; cbn [advance] in Ha; try discriminate; injection Ha as <-;
    apply fmap_returns in Hm as (x & Hx & ->); cbn [state_ok] in *;
    first [ exact Hok | exact (decode_sound _ Hx)
          | exact (clean_and_validate_data_sound _ _ Hok Hx)
          | exact (normalize_dates_sound _ _ Hok Hx)
          | exact (drop_null_dates_sound _ _ Hok Hx)
          | exact (filter_prefix_sound _ _ Hok Hx)
          | exact (filter_range_sound _ _ _ _ _ Hok Hx)
          | exact (compute_duration_sound _ _ Hok Hx) ].
Qed.

Lemma steps_state_ok st st' : state_ok st → rtc run_step st st' → state_ok st'.
Proof. intros Hok Hs. induction Hs as [|st1 st2 st3 H _ IH]; [done|]. by apply IH, (step_state_ok st1). Qed.

(** C14. Every state the machine reaches from the first stage holds a sound
    frame: distinct column names and index labels, and in every row one cell
    per column, of the dtype of the column. *)
Theorem reachable_sound st : rtc run_step AtDecode st → state_ok st.
Proof. exact (steps_state_ok AtDecode st I). Qed.

(** The frame the try block returns is sound. *)
Lemma process_sound out :
  returns (process file_path file_extension start_date_filter end_date_filter) out →
  sound out.
Proof.
  intros Hs%(resume_returns file_path file_extension start_date_filter end_date_filter AtDecode).
  exact (steps_state_ok AtDecode (AtDone out) I Hs).
Qed.

End Machine.
