(* ===== verification/Scenario.v ===== *)
(** * Scenario: runs from start to end

    A world of five files and the runs of [read_and_process_data] in it:
    [book] is a file of five rows, three of them 'Prod' tasks inside the
    window and two with a date that does not parse; [mixed] holds the rows
    of [book] in another order; [late] holds one task
    that ends before it starts; [short] lacks two of the required columns;
    [plan] is a sheet whose date cells are time stamps.  The first encoding
    fails to decode the text files and the second reads them.  The examples
    evaluate the whole function, printed lines included; the other files
    use this world where a theorem is applied to a concrete run. *)

From Stdlib Require Import ZArith Lia Ascii String QArith.
From stdpp Require Import base tactics option list strings.
From stdpp Require Import relations.
From S2P Require Import Prelude PyText Datetime Strptime Frame Effects Dates Pipeline Stages.
From S2P Require Import Invariant.

Local Open Scope string_scope.

Definition header : list (string * dtype) :=
  [("Activity Number", object); ("Activity", object); ("Milestone/task", object);
   ("Start Date (CET)", object); ("End Date (CET)", object);
   ("Responsible Person", object)].

Definition book : frame := Frame header
  [(0, [Str "Prod-1"; Str "Freeze"; Str "M1"; Str "08/11/24 17:00"; Str "08/11/24 19:30"; Str "Ana"]);
   (1, [Str "Prod-2"; Str "Backup"; Str "M1"; Str "09/11/24 08:00"; Str "09/11/24 12:00"; Str "Luis"]);
   (2, [Str "Prod-3"; Str "Deploy"; Str "M2"; Str "2024-11-09 13:00"; Str "09/11/24 15:00"; Str "Ana"]);
   (3, [Str "Test-4"; Str "Smoke"; Str "M2"; Str "09/11/24 15:00"; Str "soon"; Str "Eva"]);
   (4, [Str "Prod-5"; Str "Release"; Str "M3"; Str "10/11/24 09:00"; Str "10/11/24 23:59"; Str "Luis"])]%nat.

(** The rows of [book] in another order, as a file of its own. *)
Definition mixed : frame := Frame header
  [(0, [Str "Prod-5"; Str "Release"; Str "M3"; Str "10/11/24 09:00"; Str "10/11/24 23:59"; Str "Luis"]);
   (1, [Str "Prod-3"; Str "Deploy"; Str "M2"; Str "2024-11-09 13:00"; Str "09/11/24 15:00"; Str "Ana"]);
   (2, [Str "Prod-1"; Str "Freeze"; Str "M1"; Str "08/11/24 17:00"; Str "08/11/24 19:30"; Str "Ana"]);
   (3, [Str "Test-4"; Str "Smoke"; Str "M2"; Str "09/11/24 15:00"; Str "soon"; Str "Eva"]);
   (4, [Str "Prod-2"; Str "Backup"; Str "M1"; Str "09/11/24 08:00"; Str "09/11/24 12:00"; Str "Luis"])]%nat.

Definition late : frame := Frame header
  [(0, [Str "Prod-9"; Str "Rollback"; Str "M4"; Str "10/11/24 10:00"; Str "08/11/24 09:00"; Str "Eva"])]%nat.

(** A frame without two of the required columns. *)
Definition short : frame :=
  Frame [("Activity Number", object); ("Milestone/task", object);
         ("Start Date (CET)", object); ("End Date (CET)", object)]
        [(0, [Str "Prod-1"; Str "M1"; Str "08/11/24 17:00"; Str "08/11/24 19:30"])]%nat.

(** A sheet of a spreadsheet, whose date cells are time stamps. *)
Definition plan : frame :=
  Frame [("Activity Number", object); ("Activity", object); ("Milestone/task", object);
         ("Start Date (CET)", datetime64); ("End Date (CET)", datetime64);
         ("Responsible Person", object)]
        [(0, [Str "Prod-1"; Str "Freeze"; Str "M1"; Stamp (DT 2024 11 8 17 0 0);
              Stamp (DT 2024 11 8 19 30 0); Str "Ana"])]%nat.

Definition files : list (string * frame) :=
  [("book.csv", book); ("late.csv", late); ("short.csv", short); ("mixed.csv", mixed)].

Definition sheets : list (string * frame) := [("plan.xlsx", plan)].

Fixpoint lookup_file (fs : list (string * frame)) (p : string) : option frame :=
  match fs with
  | [] => None
  | (q, f) :: fs' => if decide (q = p) then Some f else lookup_file fs' p
  end.

#[export] Instance file_world : World := {|
  path_exists p := bool_decide (is_Some (lookup_file (files ++ sheets)%list p));
  read_csv p enc :=
    if decide (enc = "utf-8") then inl (Foreign UnicodeDecodeError "invalid start byte")
    else match lookup_file files p with
         | Some f => inr f
         | None => inl (Foreign FileNotFoundError p)
         end;
  read_excel p eng :=
    if decide (eng = "openpyxl") then
      match lookup_file sheets p with
      | Some f => inr f
      | None => inl (Foreign ValueError "not a workbook")
      end
    else inl (Foreign ImportError "no engine")
|}.

(** The header of a result. *)
Definition out_header : list (string * dtype) :=
  [("Activity Number", object); ("Activity", object); ("Milestone/task", object);
   ("Start Date (CET)", datetime64); ("End Date (CET)", datetime64);
   ("Responsible Person", object); ("Duration (Hours)", float64)].

(** The tasks of [book] between 8 November 17:00 and 10 November 23:59. *)
Definition book_out : frame := Frame out_header
  [(0, [Str "Prod-1"; Str "Freeze"; Str "M1"; Stamp (DT 2024 11 8 17 0 0);
        Stamp (DT 2024 11 8 19 30 0); Str "Ana"; Real (5 # 2)]);
   (1, [Str "Prod-2"; Str "Backup"; Str "M1"; Stamp (DT 2024 11 9 8 0 0);
        Stamp (DT 2024 11 9 12 0 0); Str "Luis"; Real 4]);
   (4, [Str "Prod-5"; Str "Release"; Str "M3"; Stamp (DT 2024 11 10 9 0 0);
        Stamp (DT 2024 11 10 23 59 0); Str "Luis"; Real (899 # 60)])]%nat.

(** The task of [late], 49 hours shorter than nothing. *)
Definition late_out : frame := Frame out_header
  [(0, [Str "Prod-9"; Str "Rollback"; Str "M4"; Stamp (DT 2024 11 10 10 0 0);
        Stamp (DT 2024 11 8 9 0 0); Str "Eva"; Real (-49)])]%nat.

(** What reading a file prints before the dates are parsed. *)
Definition read_lines (f : frame) : list event :=
  [SayTrying "utf-8"; SayDecodeFailed "utf-8"; SayTrying "latin1"; SayReadOk "latin1";
   SayColumns (col_names f); SayHead f].

(** ** The world returns sound frames *)

Lemma lookup_file_elem_of fs p f : lookup_file fs p = Some f → (p, f) ∈ fs.
Proof.
  induction fs as [|[q g] fs IH]; simpl; [done|].
  case_decide; [intros [= <-]; subst; left|right; auto].
Qed.

Lemma files_sound p f : (p, f) ∈ (files ++ sheets)%list → sound f.
Proof.
  revert p f. assert (Forall (λ x, sound x.2) (files ++ sheets)%list) as Hall.
  { repeat constructor; by apply (bool_decide_unpack _). }
  rewrite Forall_forall in Hall. intros p f. apply Hall.
Qed.

(** A frame a reader returns is one of the files. *)
Lemma read_csv_file p enc f : read_csv p enc = inr f → (p, f) ∈ (files ++ sheets)%list.
Proof.
  unfold read_csv, file_world. case_decide; [done|].
  destruct (lookup_file files p) eqn:Hp; [|done]. intros [= <-].
  apply elem_of_app. left. by apply lookup_file_elem_of.
Qed.

Lemma read_excel_file p eng f : read_excel p eng = inr f → (p, f) ∈ (files ++ sheets)%list.
Proof.
  unfold read_excel, file_world. case_decide; [|done].
  destruct (lookup_file sheets p) eqn:Hp; [|done]. intros [= <-].
  apply elem_of_app. right. by apply lookup_file_elem_of.
Qed.

#[export] Instance file_world_ok : WorldOk file_world.
Proof.
  split; intros p x f H; [apply read_csv_file in H|apply read_excel_file in H];
    by destruct (files_sound p f H).
Qed.

#[export] Instance file_world_typed : WorldTyped file_world.
Proof.
  split; intros p x f H; [apply read_csv_file in H|apply read_excel_file in H];
    by destruct (files_sound p f H).
Qed.

(** A frame under [header] has the required columns. *)
Lemma required_in_header df :
  columns df = header → ∀ c, c ∈ required_columns → c ∈ col_names df.
Proof.
  unfold col_names. intros -> c Hc. apply (bool_decide_unpack _).
  revert c Hc. apply Forall_forall. by apply (bool_decide_unpack _).
Qed.

(** ** Runs *)

(** Five rows, three 'Prod' tasks inside the window, two dates that do not
    parse: three rows are returned, and two lines name the values that did
    not parse. *)
Example run_book :
  read_and_process_data "book.csv" "08/11/2024 17:00" "10/11/2024 23:59" =
  Run (read_lines book ++
       [SayProcessing "Start Date (CET)"; SayUnparsable (Str "2024-11-09 13:00");
        SayInvalidDates "Start Date (CET)"
          (Frame [("Activity Number", object); ("Start Date (CET)", datetime64)]
                 [(2%nat, [Str "Prod-3"; NA])]);
        SayProcessing "End Date (CET)"; SayUnparsable (Str "soon");
        SayInvalidDates "End Date (CET)"
          (Frame [("Activity Number", object); ("End Date (CET)", datetime64)]
                 [(3%nat, [Str "Test-4"; NA])])])
      (Returned book_out).
Proof. vm_compute. reflexivity. Qed.

(** The bounds of the window are included: with the end of the window one
    minute earlier, the task that ends at 23:59 is left out. *)
Example run_book_minute_earlier :
  result (read_and_process_data "book.csv" "08/11/2024 17:00" "10/11/2024 23:58") =
  Returned (head 2 book_out).
Proof. vm_compute. reflexivity. Qed.

(** A window that ends before it starts returns the task of [late], which
    ends before the window ends and starts after the window starts. *)
Example run_inverted_window :
  result (read_and_process_data "late.csv" "09/11/2024 12:00" "09/11/2024 08:00") =
  Returned late_out.
Proof. vm_compute. reflexivity. Qed.

Example run_no_file :
  read_and_process_data "nobook.csv" "08/11/2024 17:00" "10/11/2024 23:59" =
  Run [] (Raised (FileMissing "nobook.csv")).
Proof. vm_compute. reflexivity. Qed.

(** Every missing column is named, and the error is wrapped. *)
Example run_short :
  result (read_and_process_data "short.csv" "08/11/2024 17:00" "10/11/2024 23:59") =
  Raised (Processing (ColumnsMissing ["Activity"; "Responsible Person"])).
Proof. vm_compute. reflexivity. Qed.

(** A bound with the month and the day exchanged names no date. *)
Example run_bad_window :
  result (read_and_process_data "book.csv" "11/13/2024 17:00" "10/11/2024 23:59") =
  Raised (Processing (BadStartDate "11/13/2024 17:00" NoMatch)).
Proof. vm_compute. reflexivity. Qed.

Example run_nothing_in_window :
  result (read_and_process_data "book.csv" "01/12/2024 00:00" "02/12/2024 00:00") =
  Raised (Processing (NoTaskInRange "01/12/2024 00:00" "02/12/2024 00:00")).
Proof. vm_compute. reflexivity. Qed.

(** A sheet whose dates are time stamps leaves no row. *)
Example run_plan :
  result (read_and_process_data "plan.xlsx" "08/11/2024 17:00" "10/11/2024 23:59") =
  Raised (Processing NoValidData).
Proof. vm_compute. reflexivity. Qed.

(** ** Lemmas of Pipeline at this world *)

Lemma read_file_unsupported_witness :
  read_file "book.txt" ".txt" = raise (FormatUnsupported ".txt").
Proof. apply read_file_unsupported. by apply (bool_decide_unpack _). Defined.

(** The second encoding reads [book]. *)
Lemma try_encodings_succeeds_witness :
  ∃ enc' df', enc' ∈ encodings ∧ read_csv "book.csv" enc' = inr df' ∧
    returns (try_encodings "book.csv" encodings) df'.
Proof.
  apply (try_encodings_succeeds "book.csv" encodings "latin1" book);
    [by apply (bool_decide_unpack _)|reflexivity|].
  intros enc e _. unfold read_csv, file_world. case_decide; [by intros [= <-]|done].
Defined.

(** ** The machine of Stages at this world *)

(** The first step of the machine on [book]. *)
Lemma steps_in_order_witness : (rank (AtValidate book) = 1 ∧ 1 ≤ 8)%nat.
Proof.
  apply (steps_in_order "book.csv" ".csv" "08/11/2024 17:00" "10/11/2024 23:59").
  eapply nsteps_l; [|apply nsteps_O]. eapply step_returns; [reflexivity|].
  vm_compute. reflexivity.
Defined.

(** The frame the machine ends with on [book] is sound. *)
Lemma reachable_sound_witness : state_ok (AtDone book_out).
Proof.
  apply (reachable_sound "book.csv" ".csv" "08/11/2024 17:00" "10/11/2024 23:59").
  apply resume_returns. vm_compute. reflexivity.
Defined.
