(* ===== verification/Schedule.v ===== *)
(** * Schedule: the pipeline read row by row

    The program works on whole columns: it computes a mask from one or two
    columns and selects by it, or computes a column of values and assigns it.
    [schedule] is the same computation read one row at a time: a row is
    normalised ([norm_row]), tested ([has_dates], [is_prod], [in_window]) and
    completed ([with_duration]) on its own, and each stage that leaves no row
    ends with the error of that stage.

    The stage lemmas show, for each stage of [process] (Pipeline), that its
    result is a filter or a map over the rows of the frame it is given;
    [process_result] composes them: the try block of [read_and_process_data]
    (src/workshift.py lines 128-192) computes [schedule] of the frame it
    reads.  The theorems on the returned frame and on the errors are proved
    from that.

    The order of the rows of the file, and their index labels, are no part
    of the result: [same_rows] relates two frames with one header whose
    rows hold the same cells in some order, [same_outcome] two results that
    are the same error or frames so related, and [schedule] maps the first
    to the second ([schedule_proper]). *)

From Stdlib Require Import ZArith Lia Ascii String QArith.
From stdpp Require Import base tactics option list strings.
From S2P Require Import Prelude PyText Datetime Strptime Frame Effects Dates Pipeline.

(** ** One row *)

Section Rows.
Context (iA iS iF iD : nat).

(** Both dates parsed, the start first (lines 147-149). *)
Definition norm_row (r : row) : row := set_date iF (set_date iS r).

(** The row has both dates (line 156). *)
Definition has_dates (r : row) : bool :=
  forallb (λ i, negb (isna (cell_at i r))) [iS; iF].

(** The number of the task starts with 'Prod' (line 162). *)
Definition is_prod (r : row) : bool := starts_with "Prod" (cell_at iA r).

(** The task starts and ends inside the window (lines 179-182). *)
Definition in_window (w : datetime * datetime) (r : row) : bool :=
  ge_bound w.1 (cell_at iS r) && le_bound w.2 (cell_at iF r).

(** The row with its duration in hours (lines 188-190). *)
Definition with_duration (r : row) : row :=
  set_cell iD (hours_between (cell_at iF r) (cell_at iS r)) r.

(** The row of a task that starts at [ts] and ends at [tf]. *)
Definition task_row (ts tf : datetime) (r : row) : row :=
  set_cell iD (Real (duration_hours ts tf)) (set_cell iF (Stamp tf) (set_cell iS (Stamp ts) r)).

End Rows.

(** ** The whole table *)

(** The position of a column, or the width of the frame for a column that
    is not there: where [assign] puts a new column. *)
Definition pos (df : frame) (c : string) : nat :=
  default (length (columns df)) (col_pos df c).

(** The header after [df[c] = values] of type [dt]. *)
Definition assign_columns (c : string) (dt : dtype) (cols : list (string * dtype))
    (i : option nat) : list (string * dtype) :=
  match i with
  | Some i => <[i := (c, dt)]> cols
  | None => cols ++ [(c, dt)]
  end.

(** The header of the result: the two date columns hold dates, the duration
    column is a float column, added last unless the file has one. *)
Definition out_columns (df : frame) : list (string * dtype) :=
  assign_columns DURATION float64
    (<[pos df FINISH := (FINISH, datetime64)]>
       (<[pos df START := (START, datetime64)]> (columns df)))
    (col_pos df DURATION).

(** The frame of the rows [rs], or the error [e] when there is none. *)
Definition nonempty (e : exn) (cols : list (string * dtype)) (rs : list row)
    : outcome exn frame :=
  match rs with
  | [] => Raised e
  | _ :: _ => Returned (Frame cols rs)
  end.

(** The rows of [df] that reach each stage. *)
Definition dated_rows (df : frame) : list row :=
  filter (λ r, has_dates (pos df START) (pos df FINISH) r)
    (norm_row (pos df START) (pos df FINISH) <$> filter (λ r, negb (all_na r)) (rows df)).

Definition prod_rows (df : frame) : list row :=
  filter (λ r, is_prod (pos df ACTIVITY_NUMBER) r) (dated_rows df).

Definition window_rows (w : datetime * datetime) (df : frame) : list row :=
  filter (λ r, in_window (pos df START) (pos df FINISH) w r) (prod_rows df).

Definition result_rows (w : datetime * datetime) (df : frame) : list row :=
  with_duration (pos df START) (pos df FINISH) (pos df DURATION) <$> window_rows w df.

(** A bound of the window, when it parses. *)
Definition strptime_ok (text : string) : option datetime :=
  match strptime_tokens text FMT_WINDOW with inr t => Some t | inl _ => None end.

(** What the try block computes from the frame it has read. *)
Definition schedule (df : frame) (start_date_filter end_date_filter : string)
    : outcome exn frame :=
  match missing_columns required_columns df with
  | (_ :: _) as missing => Raised (ColumnsMissing missing)
  | [] =>
    if bool_decide (dated_rows df = []) then Raised NoValidData else
    if bool_decide (col_dtype df ACTIVITY_NUMBER = Some object) then
      if bool_decide (prod_rows df = []) then Raised NoProdTasks else
      match strptime_tokens start_date_filter FMT_WINDOW with
      | inl cause => Raised (BadStartDate start_date_filter cause)
      | inr start_date =>
        match strptime_tokens end_date_filter FMT_WINDOW with
        | inl cause => Raised (BadEndDate end_date_filter cause)
        | inr end_date =>
          if bool_decide (window_rows (start_date, end_date) df = [])
          then Raised (NoTaskInRange start_date_filter end_date_filter)
          else Returned (Frame (out_columns df) (result_rows (start_date, end_date) df))
        end
      end
    else Raised StrAccessor
  end.

(** ** Frames up to the order of their rows *)

(** Two lists of rows that hold the same cells, in some order and under
    any index labels. *)
Definition alike (l k : list row) : Prop := l.*2 ≡ₚ k.*2.

(** Two frames with the same header and the same rows, in some order. *)
Definition same_rows (f g : frame) : Prop := columns f = columns g ∧ alike (rows f) (rows g).

(** Two outcomes that differ in the order of the rows at most. *)
Definition same_outcome (o o' : outcome exn frame) : Prop :=
  match o, o' with
  | Returned f, Returned g => same_rows f g
  | Raised e, Raised e' => e = e'
  | _, _ => False
  end.

(** ** The stages, row by row *)

Lemma result_nonempty e f :
  columns f ≠ [] →
  result (if empty f then raise e else ret f : py frame) = nonempty e (columns f) (rows f).
Proof. destruct f as [[|c cs] [|r rs]]; done. Qed.

Lemma col_pos_columns_nonempty f c i : col_pos f c = Some i → columns f ≠ [].
Proof. intros H. apply (columns_nonempty f c), col_pos_is_Some. eauto. Qed.

Lemma normalize_dates_returns df iS iF :
  col_pos df START = Some iS → col_pos df FINISH = Some iF →
  ACTIVITY_NUMBER ∈ col_names df →
  returns (normalize_dates df) (parse_column FINISH iF (parse_column START iS df)).
Proof.
  intros HS HF HA. unfold normalize_dates, returns.
  run_step (normalize_column_returns START iS df HS HA).
  apply normalize_column_returns.
  - by rewrite col_pos_parse_column.
  - by rewrite col_names_parse_column.
Qed.

Lemma drop_null_dates_result f iS iF :
  col_pos f START = Some iS → col_pos f FINISH = Some iF →
  result (drop_null_dates f) =
  nonempty NoValidData (columns f) (filter (λ r, has_dates iS iF r) (rows f)).
Proof.
  intros HS HF. unfold drop_null_dates.
  rewrite (dropna_subset_pos [START; FINISH] [iS; iF]) by (simpl; by rewrite HS, HF).
  simpl or_key_error. rewrite ret_bind.
  apply (result_nonempty _ (Frame _ _)). by eapply col_pos_columns_nonempty.
Qed.

Lemma filter_prefix_result f iA :
  col_pos f ACTIVITY_NUMBER = Some iA → col_dtype f ACTIVITY_NUMBER = Some object →
  result (filter_prefix f) =
  nonempty NoProdTasks (columns f) (filter (λ r, is_prod iA r) (rows f)).
Proof.
  intros HA Hdt. unfold filter_prefix, str_startswith.
  rewrite (column_pos _ _ _ HA), Hdt. simpl or_key_error.
  rewrite !ret_bind.
  rewrite decide_True by done. rewrite ret_bind, select_pos.
  apply (result_nonempty _ (Frame _ _)). by eapply col_pos_columns_nonempty.
Qed.

Lemma filter_prefix_untyped f iA dt :
  col_pos f ACTIVITY_NUMBER = Some iA → col_dtype f ACTIVITY_NUMBER = Some dt →
  dt ≠ object → result (filter_prefix f) = Raised StrAccessor.
Proof.
  intros HA Hdt Hne. unfold filter_prefix, str_startswith.
  rewrite (column_pos _ _ _ HA), Hdt. simpl or_key_error.
  rewrite !ret_bind.
  by rewrite decide_False by done.
Qed.

Lemma parse_window_result start_date_filter end_date_filter :
  result (parse_window start_date_filter end_date_filter) =
  match strptime_tokens start_date_filter FMT_WINDOW with
  | inl cause => Raised (BadStartDate start_date_filter cause)
  | inr start_date =>
    match strptime_tokens end_date_filter FMT_WINDOW with
    | inl cause => Raised (BadEndDate end_date_filter cause)
    | inr end_date => Returned (start_date, end_date)
    end
  end.
Proof.
  unfold parse_window, parse_bound.
  destruct (strptime_tokens start_date_filter _); [done|].
  by destruct (strptime_tokens end_date_filter _).
Qed.

Lemma filter_range_result start_date_filter end_date_filter w f iS iF :
  col_pos f START = Some iS → col_pos f FINISH = Some iF →
  result (filter_range start_date_filter end_date_filter w f) =
  nonempty (NoTaskInRange start_date_filter end_date_filter) (columns f)
    (filter (λ r, in_window iS iF w r) (rows f)).
Proof.
  intros HS HF. unfold filter_range.
  rewrite (column_pos _ _ _ HS), (column_pos _ _ _ HF). simpl or_key_error.
  rewrite !ret_bind. unfold window_mask. rewrite select_pos2.
  apply (result_nonempty _ (Frame _ _)). by eapply col_pos_columns_nonempty.
Qed.

Lemma compute_duration_result f iS iF :
  col_pos f START = Some iS → col_pos f FINISH = Some iF →
  result (compute_duration f) =
  Returned (Frame (assign_columns DURATION float64 (columns f) (col_pos f DURATION))
              (with_duration iS iF (pos f DURATION) <$> rows f)).
Proof.
  intros HS HF. unfold compute_duration.
  rewrite (column_pos _ _ _ HS), (column_pos _ _ _ HF). simpl or_key_error.
  rewrite !ret_bind. simpl. f_equal. rewrite zip_with_fmap_same.
  unfold pos, assign_columns. destruct (col_pos f DURATION) as [i|] eqn:HD.
  - by rewrite (assign_pos _ _ _ i).
  - by rewrite assign_new.
Qed.

(** ** Positions and widths *)

Lemma nonempty_case e cols rs :
  nonempty e cols rs = if bool_decide (rs = []) then Raised e else Returned (Frame cols rs).
Proof. by destruct rs. Qed.

Lemma pos_Some df c i : col_pos df c = Some i → pos df c = i.
Proof. unfold pos. by intros ->. Qed.

(** Two names sit at two positions. *)
Lemma col_pos_ne f c c' i j :
  col_pos f c = Some i → col_pos f c' = Some j → c ≠ c' → i ≠ j.
Proof. intros [Hi _]%col_pos_Some [Hj _]%col_pos_Some Hne ->. congruence. Qed.

Lemma col_dtype_is_Some f c i : col_pos f c = Some i → is_Some (col_dtype f c).
Proof.
  intros Hi. destruct (col_pos_lookup _ _ _ Hi) as [dt Hdt].
  exists dt. by eapply col_dtype_pos.
Qed.

Lemma col_dtype_parse_column c i df c' :
  col_pos df c = Some i → c' ≠ c →
  col_dtype (parse_column c i df) c' = col_dtype df c'.
Proof.
  intros Hi Hne. unfold col_dtype. rewrite col_pos_parse_column by done.
  destruct (col_pos df c') as [j|] eqn:Hj; simpl; [|done].
  rewrite list_lookup_insert_ne; [done|]. by eapply col_pos_ne.
Qed.

Lemma parsed_dtype_datetime64 l o :
  o ∈ l → is_Some o → parsed_dtype l = datetime64.
Proof.
  intros Hin Ho. unfold parsed_dtype.
  assert (existsb (λ o, bool_decide (is_Some o)) l = true) as ->; [|done].
  apply existsb_exists. exists o. split; [by apply list_elem_of_In|by apply bool_decide_eq_true].
Qed.

Lemma of_stamp_isna o : isna (of_stamp o) = false ↔ is_Some o.
Proof. destruct o; simpl; rewrite is_Some_alt; naive_solver. Qed.

Lemma set_date_width n i r : i < n → length r.2 = n → length (set_date i r).2 = n.
Proof.
  intros Hi Hr. unfold set_date. rewrite set_cell_length by lia.
  by rewrite decide_True by lia.
Qed.

Lemma cell_at_set_date n i r :
  i < n → length r.2 = n → cell_at i (set_date i r) = of_stamp (parsed (cell_at i r)).
Proof. intros ??. apply cell_at_set_cell. lia. Qed.

Lemma cell_at_set_date_ne n i j r :
  i < n → length r.2 = n → i ≠ j → cell_at j (set_date i r) = cell_at j r.
Proof. intros ???. apply cell_at_set_cell_ne; [lia|done]. Qed.

Section Widths.
Context (n iS iF : nat).
Hypothesis HS : iS < n.
Hypothesis HF : iF < n.
Hypothesis Hne : iS ≠ iF.

Lemma norm_row_width r : length r.2 = n → length (norm_row iS iF r).2 = n.
Proof. intros ?. by apply (set_date_width n), (set_date_width n). Qed.

Lemma norm_row_start r :
  length r.2 = n → cell_at iS (norm_row iS iF r) = of_stamp (parsed (cell_at iS r)).
Proof.
  intros ?. unfold norm_row.
  rewrite (cell_at_set_date_ne n) by (by auto using set_date_width).
  by apply (cell_at_set_date n).
Qed.

Lemma norm_row_finish r :
  length r.2 = n → cell_at iF (norm_row iS iF r) = of_stamp (parsed (cell_at iF r)).
Proof.
  intros ?. unfold norm_row. rewrite (cell_at_set_date n) by (by auto using set_date_width).
  by rewrite (cell_at_set_date_ne n).
Qed.

Lemma norm_row_other j r :
  length r.2 = n → j ≠ iS → j ≠ iF → cell_at j (norm_row iS iF r) = cell_at j r.
Proof.
  intros ???. unfold norm_row.
  rewrite (cell_at_set_date_ne n) by (by auto using set_date_width).
  by rewrite (cell_at_set_date_ne n).
Qed.

(** A normalised row has its dates when both cells parse. *)
Lemma has_dates_norm_row r :
  length r.2 = n →
  has_dates iS iF (norm_row iS iF r) = true ↔
  is_Some (parsed (cell_at iS r)) ∧ is_Some (parsed (cell_at iF r)).
Proof.
  intros ?. unfold has_dates. cbn [forallb].
  rewrite norm_row_start, norm_row_finish by done.
  rewrite andb_true_r, andb_true_iff, !negb_true_iff. by rewrite !of_stamp_isna.
Qed.

(** The normalised row of a row whose two cells parse. *)
Lemma norm_row_parsed r ts tf :
  length r.2 = n → parsed (cell_at iS r) = Some ts → parsed (cell_at iF r) = Some tf →
  norm_row iS iF r = set_cell iF (Stamp tf) (set_cell iS (Stamp ts) r).
Proof.
  intros Hr Hs Hf. unfold norm_row, set_date at 1.
  rewrite (cell_at_set_date_ne n), Hf by done. unfold set_date. by rewrite Hs.
Qed.

Lemma with_duration_norm_row iD r ts tf :
  length r.2 = n → parsed (cell_at iS r) = Some ts → parsed (cell_at iF r) = Some tf →
  with_duration iS iF iD (norm_row iS iF r) = task_row iS iF iD ts tf r.
Proof.
  intros Hr Hs Hf. unfold with_duration, task_row.
  by rewrite norm_row_start, norm_row_finish, Hs, Hf, (norm_row_parsed r ts tf).
Qed.

Lemma in_window_norm_row w r ts tf :
  length r.2 = n → parsed (cell_at iS r) = Some ts → parsed (cell_at iF r) = Some tf →
  in_window iS iF w (norm_row iS iF r) = dt_ge ts w.1 && dt_le tf w.2.
Proof.
  intros Hr Hs Hf. unfold in_window. by rewrite norm_row_start, norm_row_finish, Hs, Hf.
Qed.

End Widths.

(** ** The frame after the dates are parsed *)

Section Layout.
Context (df : frame) (iA iS iF : nat).
Hypothesis Hwf : wf df.
Hypothesis HA : col_pos df ACTIVITY_NUMBER = Some iA.
Hypothesis HS : col_pos df START = Some iS.
Hypothesis HF : col_pos df FINISH = Some iF.

(** The frame after validation and the parsing of the two columns. *)
Definition normalized : frame :=
  parse_column FINISH iF (parse_column START iS (dropna_all df)).

Lemma live_width r : r ∈ rows (dropna_all df) → length r.2 = length (columns df).
Proof.
  destruct Hwf as (_ & _ & Hw). rewrite Forall_forall in Hw.
  intros [_ Hr]%list_elem_of_filter. by apply Hw.
Qed.

Lemma normalized_rows : rows normalized = norm_row iS iF <$> rows (dropna_all df).
Proof. unfold normalized. simpl. by rewrite <-list_fmap_compose. Qed.

Lemma dated_rows_eq :
  dated_rows df = filter (λ r, has_dates iS iF r) (rows normalized).
Proof. unfold dated_rows. by rewrite (pos_Some _ _ _ HS), (pos_Some _ _ _ HF), normalized_rows. Qed.

Lemma col_pos_normalized c : col_pos normalized c = col_pos df c.
Proof.
  unfold normalized. rewrite col_pos_parse_column by by rewrite col_pos_parse_column.
  by rewrite col_pos_parse_column.
Qed.

Lemma start_finish_ne : iS ≠ iF.
Proof. by eapply col_pos_ne. Qed.

(** A row that keeps its dates comes from a row whose two cells parse. *)
Lemma elem_of_dated_rows r' :
  r' ∈ dated_rows df ↔
  ∃ r, r ∈ rows (dropna_all df) ∧ r' = norm_row iS iF r ∧
       is_Some (parsed (cell_at iS r)) ∧ is_Some (parsed (cell_at iF r)).
Proof.
  pose proof (col_pos_lt _ _ _ HS). pose proof (col_pos_lt _ _ _ HF).
  pose proof start_finish_ne.
  rewrite dated_rows_eq, normalized_rows, list_elem_of_filter, list_elem_of_fmap, Is_true_true.
  split.
  - intros [Hd (r & -> & Hr)]. exists r. split_and!; [done..| |];
      eapply (has_dates_norm_row (length (columns df))) in Hd; try done;
      try apply Hd; by apply live_width.
  - intros (r & Hr & -> & Hs & Hf). split; [|eauto].
    apply (has_dates_norm_row (length (columns df))); auto using live_width.
Qed.

(** A row without a value has no date. *)
Lemma all_na_cell_at i r : all_na r = true → cell_at i r = NA.
Proof.
  unfold all_na, cell_at. intros Hall. destruct (r.2 !! i) as [c|] eqn:Hc; [|done].
  rewrite forallb_forall in Hall. specialize (Hall c). simpl.
  destruct c; try done; discriminate Hall; by eapply list_elem_of_In, list_elem_of_lookup_2.
Qed.

(** No row keeps its dates exactly when every row of the file lacks a date
    that parses. *)
Lemma dated_rows_nil :
  dated_rows df = [] ↔
  ∀ r, r ∈ rows df → parsed (cell_at iS r) = None ∨ parsed (cell_at iF r) = None.
Proof.
  split.
  - intros Hnil r Hr.
    destruct (parsed (cell_at iS r)) as [ts|] eqn:Hs; [|by left].
    destruct (parsed (cell_at iF r)) as [tf|] eqn:Hf; [|by right].
    assert (norm_row iS iF r ∈ dated_rows df) as Hin; [|rewrite Hnil in Hin; by apply elem_of_nil in Hin].
    apply elem_of_dated_rows. exists r. rewrite Hs, Hf. split_and!; [|done|by eexists..].
    apply list_elem_of_filter. split; [|done]. apply negb_True, Is_true_false.
    destruct (all_na r) eqn:Hna; [|done]. by rewrite (all_na_cell_at iS r Hna) in Hs.
  - intros Hno. apply elem_of_nil_inv. intros r'. rewrite elem_of_dated_rows.
    intros (r & [_ Hr]%list_elem_of_filter & _ & [ts Hts] & [tf Htf]).
    destruct (Hno r Hr); congruence.
Qed.

(** When a row keeps its dates, both columns are date columns. *)
Lemma normalized_columns :
  dated_rows df ≠ [] →
  columns normalized =
  <[iF := (FINISH, datetime64)]> (<[iS := (START, datetime64)]> (columns df)).
Proof.
  intros Hne. destruct (dated_rows df) as [|r' rs] eqn:Hd; [done|].
  assert (r' ∈ dated_rows df) as (r & Hr & _ & Hs & Hf)%elem_of_dated_rows
    by (rewrite Hd; left).
  unfold normalized, parse_column. simpl. f_equal; [f_equal|f_equal; f_equal].
  - apply (parsed_dtype_datetime64 _ (parsed (cell_at iF (set_date iS r)))).
    + by do 3 apply list_elem_of_fmap_2.
    + rewrite (cell_at_set_date_ne (length (columns df))); auto using live_width.
      * by eapply col_pos_lt.
      * apply start_finish_ne.
  - apply (parsed_dtype_datetime64 _ (parsed (cell_at iS r))); [|done].
    by do 2 apply list_elem_of_fmap_2.
Qed.

Lemma col_dtype_normalized : col_dtype normalized ACTIVITY_NUMBER = col_dtype df ACTIVITY_NUMBER.
Proof.
  unfold normalized. rewrite col_dtype_parse_column; [|by rewrite col_pos_parse_column|done].
  by rewrite col_dtype_parse_column.
Qed.

Lemma pos_normalized c rs : pos (Frame (columns normalized) rs) c = pos df c.
Proof.
  unfold pos. change (col_pos (Frame (columns normalized) rs) c) with (col_pos normalized c).
  rewrite col_pos_normalized. simpl. by rewrite !length_insert.
Qed.

End Layout.

(** ** Reading the row of a task *)

Lemma set_cell_width i v r : i < length r.2 → length (set_cell i v r).2 = length r.2.
Proof. intros ?. rewrite set_cell_length by lia. by rewrite decide_True. Qed.

Section TaskRow.
Context (n iS iF iD : nat) (ts tf : datetime) (r : row).
Hypothesis HS : iS < n.
Hypothesis HF : iF < n.
Hypothesis HD : iD ≤ n.
Hypothesis HSF : iS ≠ iF.
Hypothesis HDS : iD ≠ iS.
Hypothesis HDF : iD ≠ iF.
Hypothesis Hr : length r.2 = n.

Lemma stamped_width : length (set_cell iF (Stamp tf) (set_cell iS (Stamp ts) r)).2 = n.
Proof. rewrite !set_cell_width; rewrite ?set_cell_width; lia. Qed.

Lemma task_row_label : (task_row iS iF iD ts tf r).1 = r.1.
Proof. done. Qed.

Lemma task_row_width :
  length (task_row iS iF iD ts tf r).2 = if decide (iD < n) then n else S n.
Proof.
  unfold task_row. rewrite set_cell_length, stamped_width by (rewrite stamped_width; lia).
  case_decide; [done|]. f_equal. lia.
Qed.

Lemma task_row_duration : cell_at iD (task_row iS iF iD ts tf r) = Real (duration_hours ts tf).
Proof. apply cell_at_set_cell. rewrite stamped_width. lia. Qed.

Lemma task_row_finish : cell_at iF (task_row iS iF iD ts tf r) = Stamp tf.
Proof.
  unfold task_row. rewrite cell_at_set_cell_ne by (rewrite ?stamped_width; done).
  apply cell_at_set_cell. rewrite set_cell_width; lia.
Qed.

Lemma task_row_start : cell_at iS (task_row iS iF iD ts tf r) = Stamp ts.
Proof.
  unfold task_row. rewrite cell_at_set_cell_ne by (rewrite ?stamped_width; done).
  rewrite cell_at_set_cell_ne by (rewrite ?set_cell_width; (done || lia)).
  apply cell_at_set_cell. lia.
Qed.

Lemma task_row_other j :
  j ≠ iS → j ≠ iF → j ≠ iD → cell_at j (task_row iS iF iD ts tf r) = cell_at j r.
Proof.
  intros ???. unfold task_row.
  rewrite cell_at_set_cell_ne by (rewrite ?stamped_width; done).
  rewrite cell_at_set_cell_ne by (rewrite ?set_cell_width; (done || lia)).
  apply cell_at_set_cell_ne; [lia|done].
Qed.

End TaskRow.

(** ** The rows of the result *)

Section Contract.
Context (df : frame) (iA iS iF : nat) (w : datetime * datetime).
Hypothesis Hwf : wf df.
Hypothesis HA : col_pos df ACTIVITY_NUMBER = Some iA.
Hypothesis HS : col_pos df START = Some iS.
Hypothesis HF : col_pos df FINISH = Some iF.

(** What the program keeps of a row [r] of the file: the row is not empty,
    its dates parse to [ts] and [tf], its number is a text [a] that starts
    with 'Prod', and the task lies in the window. *)
Definition kept (r : row) (a : string) (ts tf : datetime) : Prop :=
  r ∈ rows df ∧ all_na r = false ∧
  parsed (cell_at iS r) = Some ts ∧ parsed (cell_at iF r) = Some tf ∧
  cell_at iA r = Str a ∧ startswith a "Prod" = true ∧
  dt_ge ts w.1 = true ∧ dt_le tf w.2 = true.

Lemma elem_of_live r : r ∈ rows (dropna_all df) ↔ r ∈ rows df ∧ all_na r = false.
Proof using Type.
  unfold dropna_all. simpl. rewrite list_elem_of_filter, negb_True, Is_true_false.
  naive_solver.
Qed.

Lemma is_prod_Str r : is_prod iA r = true ↔ ∃ a, cell_at iA r = Str a ∧ startswith a "Prod" = true.
Proof using Type.
  unfold is_prod, starts_with. destruct (cell_at iA r); split; try done; eauto;
    try by intros (? & ? & ?). by intros (? & [= <-] & ?).
Qed.

(** The result holds one row per kept row of the file. *)
Lemma elem_of_result_rows r' :
  r' ∈ result_rows w df ↔
  ∃ r a ts tf, kept r a ts tf ∧ r' = task_row iS iF (pos df DURATION) ts tf r.
Proof.
  pose proof (col_pos_lt _ _ _ HS) as HSn. pose proof (col_pos_lt _ _ _ HF) as HFn.
  pose proof (col_pos_lt _ _ _ HA) as HAn.
  pose proof (start_finish_ne df iS iF HS HF) as Hne.
  assert (iA ≠ iS ∧ iA ≠ iF) as [HAS HAF] by (split; by eapply col_pos_ne).
  unfold result_rows, window_rows, prod_rows, kept.
  rewrite (pos_Some _ _ _ HA), (pos_Some _ _ _ HS), (pos_Some _ _ _ HF).
  rewrite list_elem_of_fmap. setoid_rewrite list_elem_of_filter.
  setoid_rewrite list_elem_of_filter. setoid_rewrite (elem_of_dated_rows df iS iF Hwf HS HF).
  setoid_rewrite Is_true_true. setoid_rewrite elem_of_live. split.
  - intros (? & -> & Hw & Hp & r & [Hr Hna] & -> & [ts Hts] & [tf Htf]).
    assert (length r.2 = length (columns df)) as Hlen by (apply live_width, elem_of_live; auto).
    apply is_prod_Str in Hp as (a & Ha & Hpre).
    rewrite (norm_row_other (length (columns df))) in Ha by done.
    rewrite (in_window_norm_row _ _ _ HSn HFn Hne w r ts tf) in Hw by done.
    apply andb_true_iff in Hw as [Hge Hle].
    exists r, a, ts, tf. split_and!; try done.
    by apply (with_duration_norm_row (length (columns df))).
  - intros (r & a & ts & tf & (Hr & Hna & Hts & Htf & Ha & Hpre & Hge & Hle) & ->).
    assert (length r.2 = length (columns df)) as Hlen by (apply live_width, elem_of_live; auto).
    exists (norm_row iS iF r). split_and!.
    + symmetry. by apply (with_duration_norm_row (length (columns df))).
    + rewrite (in_window_norm_row _ _ _ HSn HFn Hne w r ts tf) by done. by rewrite Hge, Hle.
    + apply is_prod_Str. exists a. by rewrite (norm_row_other (length (columns df))).
    + exists r. rewrite Hts, Htf. eauto.
Qed.

(** A row passes the prefix filter when a row of the file has both dates
    and a number that starts with 'Prod'. *)
Lemma prod_rows_nonempty :
  prod_rows df ≠ [] ↔
  ∃ r a, r ∈ rows df ∧ is_Some (parsed (cell_at iS r)) ∧ is_Some (parsed (cell_at iF r)) ∧
         cell_at iA r = Str a ∧ startswith a "Prod" = true.
Proof using Hwf HA HS HF.
  pose proof (start_finish_ne df iS iF HS HF) as Hne.
  assert (iA ≠ iS ∧ iA ≠ iF) as [HAS HAF] by (split; by eapply col_pos_ne).
  assert (∀ r, r ∈ rows (dropna_all df) →
            is_prod iA (norm_row iS iF r) = true ↔
            ∃ a, cell_at iA r = Str a ∧ startswith a "Prod" = true) as Hprod.
  { intros r Hr. rewrite is_prod_Str, (norm_row_other (length (columns df))); [done|..];
      first [by eapply col_pos_lt | by apply live_width | done]. }
  unfold prod_rows. rewrite (pos_Some _ _ _ HA). split.
  - intros Hp. destruct (filter _ (dated_rows df)) as [|r' rs] eqn:Hf; [done|].
    assert (r' ∈ filter (λ r, is_prod iA r) (dated_rows df)) as Hin by (rewrite Hf; left).
    apply list_elem_of_filter in Hin as [Hpr (r & Hr & -> & ? & ?)%(elem_of_dated_rows df iS iF)];
      [|done..].
    apply Is_true_true, Hprod in Hpr as (a & ? & ?); [|done].
    exists r, a. by apply elem_of_live in Hr as [? _].
  - intros (r & a & Hr & Hs & Hf & Ha & Hpre) Hnil.
    assert (r ∈ rows (dropna_all df)) as Hlive.
    { apply elem_of_live. split; [done|]. destruct (all_na r) eqn:Hna; [|done].
      rewrite (all_na_cell_at iS r Hna) in Hs. by destruct Hs. }
    assert (norm_row iS iF r ∈ filter (λ r, is_prod iA r) (dated_rows df)) as Hin;
      [|rewrite Hnil in Hin; by apply elem_of_nil in Hin].
    apply list_elem_of_filter. split; [apply Is_true_true, Hprod; eauto|].
    apply (elem_of_dated_rows df iS iF); [done..|]. by exists r.
Qed.

(** The bounds of the window are included. *)
Lemma in_window_bounds r :
  cell_at iS r = Stamp w.1 → cell_at iF r = Stamp w.2 → in_window iS iF w r = true.
Proof.
  intros Hs Hf. unfold in_window, ge_bound, le_bound, dt_ge.
  by rewrite Hs, Hf, !dt_le_refl.
Qed.

End Contract.

(** ** A wider window *)

Section Window.
Context (df : frame) (iS iF : nat) (w w' : datetime * datetime).
Hypothesis Hwf : wf df.
Hypothesis HS : col_pos df START = Some iS.
Hypothesis HF : col_pos df FINISH = Some iF.
Hypothesis Hvalid : Forall (λ t, valid t = true) [w.1; w.2; w'.1; w'.2].
Hypothesis Hstart : dt_le w'.1 w.1 = true.
Hypothesis Hend : dt_le w.2 w'.2 = true.

(** A task inside [w] is inside the wider [w']. *)
Lemma in_window_mono r' :
  r' ∈ dated_rows df → in_window iS iF w r' → in_window iS iF w' r'.
Proof.
  pose proof (col_pos_lt _ _ _ HS) as HSn. pose proof (col_pos_lt _ _ _ HF) as HFn.
  pose proof (start_finish_ne df iS iF HS HF) as Hne.
  intros (r & Hr & -> & [ts Hts] & [tf Htf])%(elem_of_dated_rows df iS iF Hwf HS HF).
  assert (length r.2 = length (columns df)) by (by apply live_width).
  rewrite (in_window_norm_row _ _ _ HSn HFn Hne w r ts tf),
    (in_window_norm_row _ _ _ HSn HFn Hne w' r ts tf) by done.
  rewrite !Is_true_true, !andb_true_iff. unfold dt_ge.
  apply Forall_cons in Hvalid as [? [? [? [? _]%Forall_cons]%Forall_cons]%Forall_cons].
  intros [? ?]. split.
  - apply (dt_le_trans w'.1 w.1 ts); [done..|by eapply parsed_Some_valid|done|done].
  - apply (dt_le_trans tf w.2 w'.2); [by eapply parsed_Some_valid|done..].
Qed.

(** The rows of [w] are, in order, among the rows of [w']. *)
Lemma window_rows_mono : window_rows w df `sublist_of` window_rows w' df.
Proof.
  unfold window_rows. rewrite (pos_Some _ _ _ HS), (pos_Some _ _ _ HF).
  apply sublist_filter_impl, Forall_forall. intros r' Hr'. apply in_window_mono.
  unfold prod_rows in Hr'. by apply list_elem_of_filter in Hr' as [_ ?].
Qed.

Lemma result_rows_mono : result_rows w df `sublist_of` result_rows w' df.
Proof. apply fmap_sublist, window_rows_mono. Qed.

End Window.

(** The date-range test is a comparison of seconds: a task is inside the
    window when it starts no earlier than the window and ends no later. *)
Lemma in_window_seconds iS iF w r ts tf :
  valid w.1 = true → valid w.2 = true → valid ts = true → valid tf = true →
  cell_at iS r = Stamp ts → cell_at iF r = Stamp tf →
  in_window iS iF w r = true ↔
  (to_seconds w.1 ≤ to_seconds ts ∧ to_seconds tf ≤ to_seconds w.2)%Z.
Proof.
  intros ???? Hs Hf. unfold in_window, ge_bound, le_bound, dt_ge. rewrite Hs, Hf.
  by rewrite andb_true_iff, !dt_le_to_seconds, !Z.leb_le.
Qed.

(** ** The order of the rows *)

#[export] Instance alike_equivalence : Equivalence alike.
Proof.
  unfold alike. split; [by intros l|by intros l k|]. intros l k m ??. by etrans.
Qed.

#[export] Instance same_rows_equivalence : Equivalence same_rows.
Proof.
  split; [by intros f|by intros f g [? ?]|].
  intros f g h [? ?] [? ?]. split; by etrans.
Qed.

#[export] Instance same_outcome_equivalence : Equivalence same_outcome.
Proof.
  split.
  - by intros [f|e].
  - intros [f|e] [g|e'] H; simpl in *; by try symmetry.
  - intros [f|e] [g|e'] [h|e''] H1 H2; simpl in *; try done; by etrans.
Qed.

(** A filter by the cells of a row, and a map of them, keep lists alike. *)
Lemma filter_alike (P : row → bool) :
  (∀ r r' : row, r.2 = r'.2 → P r = P r') → Proper (alike ==> alike) (filter P).
Proof.
  intros HP l k H. unfold alike in *.
  assert (∀ m : list row, (filter P m).*2 = filter (λ c, P (0%nat, c)) (m.*2)) as Hf.
  { induction m as [|r m IH]; [done|]. rewrite fmap_cons, !filter_cons, (HP r (0%nat, r.2)) by done.
    destruct (decide _); [rewrite fmap_cons|]; by rewrite IH. }
  by rewrite !Hf, H.
Qed.

Lemma fmap_alike (f : row → row) :
  (∀ r r' : row, r.2 = r'.2 → (f r).2 = (f r').2) → Proper (alike ==> alike) (fmap f).
Proof.
  intros Hf l k H. unfold alike in *. rewrite <-!list_fmap_compose.
  assert (∀ m : list row, snd ∘ f <$> m = (λ c, (f (0%nat, c)).2) <$> m.*2) as Hm.
  { intros m. rewrite <-list_fmap_compose. apply list_fmap_ext. intros _ r _. by apply Hf. }
  by rewrite !Hm, H.
Qed.

Lemma alike_nil l k : alike l k → bool_decide (l = []) = bool_decide (k = []).
Proof.
  intros H%Permutation_length. rewrite !length_fmap in H.
  apply bool_decide_ext. by destruct l, k.
Qed.

Section Order.
Context (f g : frame).
Hypothesis H : same_rows f g.

Lemma same_rows_col_pos c : col_pos f c = col_pos g c.
Proof using H. unfold col_pos, col_names. by rewrite (proj1 H). Qed.

Lemma same_rows_pos c : pos f c = pos g c.
Proof using H. unfold pos. by rewrite same_rows_col_pos, (proj1 H). Qed.

Lemma dated_rows_alike : alike (dated_rows f) (dated_rows g).
Proof using H.
  unfold dated_rows. rewrite !same_rows_pos.
  apply filter_alike; [by intros [] [] [= ->]|].
  apply fmap_alike; [by intros [] [] [= ->]|].
  apply filter_alike; [by intros [] [] [= ->]|]. apply H.
Qed.

Lemma prod_rows_alike : alike (prod_rows f) (prod_rows g).
Proof using H.
  unfold prod_rows. rewrite same_rows_pos.
  apply filter_alike; [by intros [] [] [= ->]|]. apply dated_rows_alike.
Qed.

Lemma window_rows_alike w : alike (window_rows w f) (window_rows w g).
Proof using H.
  unfold window_rows. rewrite !same_rows_pos.
  apply filter_alike; [by intros [] [] [= ->]|]. apply prod_rows_alike.
Qed.

Lemma result_rows_alike w : alike (result_rows w f) (result_rows w g).
Proof using H.
  unfold result_rows. rewrite !same_rows_pos.
  apply fmap_alike; [by intros [] [] [= ->]|]. apply window_rows_alike.
Qed.

(** The order of the rows is no part of what [schedule] computes: the
    same rows in another order give the same error, or the same tasks in
    another order. *)
Lemma schedule_same_rows a b : same_outcome (schedule f a b) (schedule g a b).
Proof using H.
  unfold schedule.
  assert (missing_columns required_columns f = missing_columns required_columns g) as ->
    by (unfold missing_columns, has_column, col_names; by rewrite (proj1 H)).
  destruct (missing_columns _ g); [|done].
  rewrite (alike_nil _ _ dated_rows_alike). case_bool_decide; [done|].
  assert (col_dtype f ACTIVITY_NUMBER = col_dtype g ACTIVITY_NUMBER) as ->
    by (unfold col_dtype; by rewrite same_rows_col_pos, (proj1 H)).
  case_bool_decide; [|done].
  rewrite (alike_nil _ _ prod_rows_alike). case_bool_decide; [done|].
  destruct (strptime_tokens a _) as [|sd]; [done|].
  destruct (strptime_tokens b _) as [|ed]; [done|].
  rewrite (alike_nil _ _ (window_rows_alike _)).
  case_bool_decide; [done|]. split; [|by apply result_rows_alike].
  unfold out_columns. simpl. by rewrite !same_rows_pos, same_rows_col_pos, (proj1 H).
Qed.

End Order.

#[export] Instance schedule_proper :
  Proper (same_rows ==> eq ==> eq ==> same_outcome) schedule.
Proof. intros f g H a ? <- b ? <-. by apply schedule_same_rows. Qed.

(** ** The header of the result *)

Section Header.
Context (df : frame) (iA iS iF : nat).
Hypothesis HA : col_pos df ACTIVITY_NUMBER = Some iA.
Hypothesis HS : col_pos df START = Some iS.
Hypothesis HF : col_pos df FINISH = Some iF.

(** Where the columns sit: inside the frame and apart. *)
Lemma layout :
  iA < length (columns df) ∧ iS < length (columns df) ∧ iF < length (columns df) ∧
  pos df DURATION ≤ length (columns df) ∧
  iS ≠ iF ∧ iA ≠ iS ∧ iA ≠ iF ∧
  pos df DURATION ≠ iA ∧ pos df DURATION ≠ iS ∧ pos df DURATION ≠ iF.
Proof.
  pose proof (col_pos_lt _ _ _ HA). pose proof (col_pos_lt _ _ _ HS).
  pose proof (col_pos_lt _ _ _ HF).
  assert (iS ≠ iF ∧ iA ≠ iS ∧ iA ≠ iF) as (? & ? & ?) by (split_and!; by eapply col_pos_ne).
  unfold pos. destruct (col_pos df DURATION) as [i|] eqn:HD; simpl.
  - pose proof (col_pos_lt _ _ _ HD). split_and!; try done; try lia; by eapply col_pos_ne.
  - split_and!; try done; lia.
Qed.

Lemma col_names_out_columns rs :
  col_names (Frame (out_columns df) rs) =
  match col_pos df DURATION with
  | Some _ => col_names df
  | None => col_names df ++ [DURATION]
  end.
Proof.
  unfold out_columns, col_names. simpl.
  rewrite (pos_Some _ _ _ HS), (pos_Some _ _ _ HF).
  assert ((<[iF := (FINISH, datetime64)]> (<[iS := (START, datetime64)]> (columns df))).*1
          = (columns df).*1) as Hh.
  { rewrite !list_fmap_insert. simpl.
    rewrite (list_insert_id _ iS) by by apply col_pos_Some in HS as [? _].
    apply list_insert_id. by apply col_pos_Some in HF as [? _]. }
  destruct (col_pos df DURATION) as [i|] eqn:HD; simpl.
  - rewrite list_fmap_insert, Hh. simpl. apply list_insert_id.
    by apply col_pos_Some in HD as [? _].
  - by rewrite fmap_app, Hh.
Qed.

(** A column of the file keeps its position in the result. *)
Lemma col_pos_out c i rs :
  col_pos df c = Some i → col_pos (Frame (out_columns df) rs) c = Some i.
Proof.
  intros Hc. unfold col_pos at 1. rewrite col_names_out_columns.
  destruct (col_pos df DURATION); [done|]. unfold col_pos in Hc.
  destruct (list_find (λ n, n = c) (col_names df)) as [[j x]|] eqn:Hf; [|done].
  by erewrite list_find_app_l.
Qed.

Lemma col_pos_out_duration rs :
  col_pos (Frame (out_columns df) rs) DURATION = Some (pos df DURATION).
Proof.
  unfold pos. destruct (col_pos df DURATION) as [i|] eqn:HD; [by apply col_pos_out|].
  unfold col_pos at 1. rewrite col_names_out_columns, HD. unfold col_pos in HD.
  destruct (list_find (λ n, n = DURATION) (col_names df)) eqn:Hf; [done|].
  rewrite list_find_app_r by done. simpl. unfold col_names.
  by rewrite length_fmap.
Qed.

(** The types of the three columns the program writes. *)
Lemma out_columns_lookup :
  out_columns df !! iS = Some (START, datetime64) ∧
  out_columns df !! iF = Some (FINISH, datetime64) ∧
  out_columns df !! pos df DURATION = Some (DURATION, float64).
Proof.
  destruct layout as (_ & ? & ? & ? & ? & _ & _ & _ & ? & ?).
  set (cols := <[iF := (FINISH, datetime64)]> (<[iS := (START, datetime64)]> (columns df))).
  assert (length cols = length (columns df)) as Hlen by (unfold cols; by rewrite !length_insert).
  assert (cols !! iS = Some (START, datetime64) ∧ cols !! iF = Some (FINISH, datetime64))
    as [HcS HcF].
  { unfold cols. split.
    - rewrite list_lookup_insert_ne by done. by apply list_lookup_insert_eq.
    - apply list_lookup_insert_eq. by rewrite length_insert. }
  unfold out_columns, assign_columns. rewrite (pos_Some _ _ _ HS), (pos_Some _ _ _ HF).
  fold cols. unfold pos in *. destruct (col_pos df DURATION) as [i|] eqn:HD; simpl in *.
  - apply col_pos_lt in HD.
    rewrite !list_lookup_insert_ne by done. by rewrite list_lookup_insert_eq by lia.
  - rewrite !lookup_app_l, lookup_app_r, Hlen, Nat.sub_diag by lia. done.
Qed.

Lemma length_out_columns :
  length (out_columns df) =
  if decide (pos df DURATION < length (columns df)) then length (columns df)
  else S (length (columns df)).
Proof.
  unfold out_columns, pos, assign_columns.
  destruct (col_pos df DURATION) as [i|] eqn:HD; simpl.
  - rewrite !length_insert. by rewrite decide_True by by eapply col_pos_lt.
  - rewrite length_app, !length_insert. simpl. rewrite decide_False by lia. lia.
Qed.

End Header.

(** The labels of the result are labels of the file, in the order of the
    file. *)
Lemma result_rows_labels w df : (result_rows w df).*1 `sublist_of` index df.
Proof.
  unfold result_rows, window_rows, prod_rows, dated_rows, index.
  rewrite (fmap_fst_preserved (B:=list cell) (with_duration _ _ _)) by done.
  etrans; [apply fmap_sublist, sublist_filter|].
  etrans; [apply fmap_sublist, sublist_filter|].
  etrans; [apply fmap_sublist, sublist_filter|].
  rewrite (fmap_fst_preserved (B:=list cell) (norm_row _ _)) by done.
  apply fmap_sublist, sublist_filter.
Qed.

(** ** The try block computes [schedule] *)

Section Process.
Context `{W : World}.

Lemma decode_result file_path file_extension :
  result (decode file_path file_extension) = result (read_file file_path file_extension).
Proof. unfold decode. rewrite result_bind. by destruct (result (read_file _ _)). Qed.

Lemma required_positions df :
  missing_columns required_columns df = [] →
  ∃ iA iS iF, col_pos df ACTIVITY_NUMBER = Some iA ∧ col_pos df START = Some iS ∧
              col_pos df FINISH = Some iF.
Proof.
  intros Hm. pose proof (proj1 (missing_columns_nil _ _) Hm) as Hall.
  destruct (proj2 (col_pos_is_Some df ACTIVITY_NUMBER)) as [iA ?]; [apply Hall; repeat constructor|].
  destruct (proj2 (col_pos_is_Some df START)) as [iS ?]; [apply Hall; repeat constructor|].
  destruct (proj2 (col_pos_is_Some df FINISH)) as [iF ?]; [apply Hall; repeat constructor|].
  by exists iA, iS, iF.
Qed.

(** The stages after validation, for a frame that has the columns. *)
Lemma stages_result df start_date_filter end_date_filter :
  wf df → missing_columns required_columns df = [] →
  result (df ← normalize_dates (dropna_all df);
          df ← drop_null_dates df;
          df ← filter_prefix df;
          window ← parse_window start_date_filter end_date_filter;
          df ← filter_range start_date_filter end_date_filter window df;
          compute_duration df) =
  schedule df start_date_filter end_date_filter.
Proof.
  intros Hwf Hm. destruct (required_positions df Hm) as (iA & iS & iF & HA & HS & HF).
  unfold schedule. rewrite Hm.
  run_step (normalize_dates_returns (dropna_all df) iS iF HS HF
              (proj1 (col_pos_is_Some _ _) (ex_intro _ iA HA))).
  fold (normalized df iS iF).
  assert (∀ rs c, col_pos (Frame (columns (normalized df iS iF)) rs) c = col_pos df c)
    as Hpos by (intros; by apply col_pos_normalized).
  unfold result_rows, window_rows, prod_rows.
  rewrite (pos_Some _ _ _ HA), (pos_Some _ _ _ HS), (pos_Some _ _ _ HF).
  rewrite result_bind, (drop_null_dates_result _ iS iF) by by rewrite col_pos_normalized.
  rewrite <-(dated_rows_eq df iS iF HS HF), nonempty_case.
  case_bool_decide as Hd; [done|]. rewrite result_bind.
  destruct (col_dtype_is_Some df _ _ HA) as [dt Hdt].
  assert (col_dtype (Frame (columns (normalized df iS iF)) (dated_rows df))
            ACTIVITY_NUMBER = Some dt) as Hdt'
    by (rewrite <-Hdt; by apply col_dtype_normalized).
  rewrite Hdt. destruct (decide (dt = object)) as [->|Hno].
  2: { rewrite (filter_prefix_untyped _ iA dt), bool_decide_eq_false_2;
         [done|congruence|by rewrite Hpos|done..]. }
  rewrite (filter_prefix_result _ iA), bool_decide_eq_true_2, nonempty_case
    by (done || by rewrite Hpos).
  cbn [rows columns]. case_bool_decide as Hp; [done|].
  rewrite result_bind, parse_window_result.
  destruct (strptime_tokens start_date_filter _) as [?|start_date]; [done|].
  destruct (strptime_tokens end_date_filter _) as [?|end_date]; [done|].
  rewrite result_bind, (filter_range_result _ _ _ _ iS iF), nonempty_case
    by by rewrite Hpos.
  cbn [rows columns fst snd]. case_bool_decide as Hw; [done|].
  rewrite (compute_duration_result _ iS iF) by by rewrite Hpos.
  cbn [rows columns]. rewrite Hpos, pos_normalized by done.
  unfold out_columns.
  rewrite normalized_columns by done.
  by rewrite (pos_Some _ _ _ HS), (pos_Some _ _ _ HF).
Qed.

(** The try block of [read_and_process_data] computes [schedule] of the
    frame it reads. *)
Lemma process_result file_path file_extension start_date_filter end_date_filter :
  (∀ df, returns (read_file file_path file_extension) df → wf df) →
  result (process file_path file_extension start_date_filter end_date_filter) =
  match result (read_file file_path file_extension) with
  | Returned df => schedule df start_date_filter end_date_filter
  | Raised e => Raised e
  end.
Proof.
  intros Hwf. unfold process. rewrite result_bind, decode_result.
  destruct (result (read_file _ _)) as [df|e] eqn:Hread; [|done].
  unfold clean_and_validate_data.
  change (missing_columns required_columns (dropna_all df))
    with (missing_columns required_columns df).
  destruct (missing_columns required_columns df) as [|c m] eqn:Hm.
  - rewrite ret_bind. apply stages_result; auto.
  - unfold schedule. rewrite Hm. reflexivity.
Qed.

End Process.

(** ** What [schedule] returns *)

Lemma schedule_returns df start_date_filter end_date_filter out :
  schedule df start_date_filter end_date_filter = Returned out →
  missing_columns required_columns df = [] ∧
  col_dtype df ACTIVITY_NUMBER = Some object ∧
  ∃ start_date end_date,
    strptime_tokens start_date_filter FMT_WINDOW = inr start_date ∧
    strptime_tokens end_date_filter FMT_WINDOW = inr end_date ∧
    result_rows (start_date, end_date) df ≠ [] ∧
    out = Frame (out_columns df) (result_rows (start_date, end_date) df).
Proof.
  unfold schedule. destruct (missing_columns _ _); [|done].
  repeat case_bool_decide; try done.
  destruct (strptime_tokens start_date_filter _) as [|start_date]; [done|].
  destruct (strptime_tokens end_date_filter _) as [|end_date]; [done|].
  case_bool_decide as Hw; [done|]. intros [= <-]. split_and!; [done..|].
  exists start_date, end_date. split_and!; [done..| |done].
  unfold result_rows. by intros ?%fmap_nil_inv.
Qed.

(** [schedule] returns when the file has the columns, its numbers are
    texts, the window parses and a task lies inside it. *)
Lemma schedule_Returned df start_date_filter end_date_filter start_date end_date :
  missing_columns required_columns df = [] → col_dtype df ACTIVITY_NUMBER = Some object →
  strptime_tokens start_date_filter FMT_WINDOW = inr start_date →
  strptime_tokens end_date_filter FMT_WINDOW = inr end_date →
  result_rows (start_date, end_date) df ≠ [] →
  schedule df start_date_filter end_date_filter =
  Returned (Frame (out_columns df) (result_rows (start_date, end_date) df)).
Proof.
  intros Hm Ho Hs He Hne. unfold schedule. rewrite Hm, Hs, He.
  assert (window_rows (start_date, end_date) df ≠ []) as Hw.
  { intros Hw. unfold result_rows in Hne. by rewrite Hw in Hne. }
  assert (prod_rows df ≠ []) as Hp.
  { intros Hp. unfold window_rows in Hw. by rewrite Hp in Hw. }
  assert (dated_rows df ≠ []) as Hd.
  { intros Hd. unfold prod_rows in Hp. by rewrite Hd in Hp. }
  by rewrite (bool_decide_eq_false_2 _ Hd), (bool_decide_eq_true_2 _ Ho),
    (bool_decide_eq_false_2 _ Hp), (bool_decide_eq_false_2 _ Hw).
Qed.

(** The errors of [schedule] are exceptions of the program's own. *)
Lemma schedule_raises_Exception df start_date_filter end_date_filter e :
  schedule df start_date_filter end_date_filter = Raised e → isinstance e Exception = true.
Proof.
  unfold schedule. destruct (missing_columns _ _); [|by intros [= <-]].
  repeat case_bool_decide; try by intros [= <-].
  destruct (strptime_tokens start_date_filter _); [by intros [= <-]|].
  destruct (strptime_tokens end_date_filter _); [by intros [= <-]|].
  by case_bool_decide; intros [= <-].
Qed.

(** ** Which error [schedule] ends with *)

Section Errors.
Context (df : frame) (start_date_filter end_date_filter : string).
Hypothesis Hm : missing_columns required_columns df = [].

(** 'No valid data' is the error of a file without a dated row. *)
Lemma schedule_NoValidData :
  schedule df start_date_filter end_date_filter = Raised NoValidData ↔ dated_rows df = [].
Proof.
  unfold schedule. rewrite Hm. repeat case_bool_decide; try done.
  destruct (strptime_tokens start_date_filter _); [done|].
  destruct (strptime_tokens end_date_filter _); [done|]. by case_bool_decide.
Qed.

(** A start of the window that does not parse is reported when a row has
    passed the prefix filter, and only then. *)
Lemma schedule_BadStartDate text cause :
  schedule df start_date_filter end_date_filter = Raised (BadStartDate text cause) ↔
  text = start_date_filter ∧ col_dtype df ACTIVITY_NUMBER = Some object ∧
  prod_rows df ≠ [] ∧ strptime_tokens start_date_filter FMT_WINDOW = inl cause.
Proof.
  unfold schedule. rewrite Hm.
  assert (dated_rows df = [] → prod_rows df = []) as Hd by (unfold prod_rows; by intros ->).
  repeat case_bool_decide; try (split; [done|]; naive_solver).
  destruct (strptime_tokens start_date_filter _) as [c|t]; [naive_solver|].
  destruct (strptime_tokens end_date_filter _); [naive_solver|].
  case_bool_decide; naive_solver.
Qed.

(** An end of the window that does not parse is reported when, besides, the
    start parses. *)
Lemma schedule_BadEndDate text cause :
  schedule df start_date_filter end_date_filter = Raised (BadEndDate text cause) ↔
  text = end_date_filter ∧ col_dtype df ACTIVITY_NUMBER = Some object ∧
  prod_rows df ≠ [] ∧ is_Some (strptime_ok start_date_filter) ∧
  strptime_tokens end_date_filter FMT_WINDOW = inl cause.
Proof.
  unfold schedule, strptime_ok. rewrite Hm.
  assert (dated_rows df = [] → prod_rows df = []) as Hd by (unfold prod_rows; by intros ->).
  repeat case_bool_decide; try (split; [done|]; naive_solver).
  destruct (strptime_tokens start_date_filter _) as [c|t]; [split; [done|]; by intros (_ & _ & _ & [? ?] & _)|].
  destruct (strptime_tokens end_date_filter _); [naive_solver|].
  case_bool_decide; naive_solver.
Qed.

End Errors.

Lemma in_window_bounds_witness :
  in_window 3 4 (DT 2024 11 8 17 0 0, DT 2024 11 10 23 59 0)
    (0%nat, [Str "Prod-1"; Str "Freeze"; Str "M1"; Stamp (DT 2024 11 8 17 0 0);
             Stamp (DT 2024 11 10 23 59 0); Str "Ana"]) = true.
Proof. apply in_window_bounds; reflexivity. Defined.

(** The task that ends with the window is inside it. *)
Lemma in_window_seconds_witness :
  in_window 3 4 (DT 2024 11 8 17 0 0, DT 2024 11 10 23 59 0)
    (4%nat, [Str "Prod-5"; Str "Release"; Str "M3"; Stamp (DT 2024 11 10 9 0 0);
             Stamp (DT 2024 11 10 23 59 0); Str "Luis"]) = true ↔
  (to_seconds (DT 2024 11 8 17 0 0) ≤ to_seconds (DT 2024 11 10 9 0 0) ∧
   to_seconds (DT 2024 11 10 23 59 0) ≤ to_seconds (DT 2024 11 10 23 59 0))%Z.
Proof. apply in_window_seconds; reflexivity. Defined.
