(* ===== verification/Lifecycle.v ===== *)
(** * Lifecycle: what the frame holds at each stage

    The try block of [read_and_process_data] (src/workshift.py lines
    128-192) builds its result stage by stage, and each stage relies on
    what the stages before it have done: the dates are compared (lines
    179-182) after the rows without a date were dropped (line 156), and
    subtracted (lines 188-190) after that.  [facts] says, for each state of
    the machine of Stages, what the frame of that state holds:

    - from [AtNormalizeDates] on, the required columns;
    - at [AtDropNullDates], in both date columns, dates of the calendar or
      missing values;
    - from [AtFilterPrefix] on, a row at least, and in every row two dates;
    - from [AtParseWindow] on, in every row a number that starts with
      'Prod';
    - at [AtFilterRange], the window parsed from the two texts;
    - from [AtComputeDuration] on, every row inside that window;
    - at [AtDone], in the duration column, the hours from start to end.

    Every step of the machine keeps [facts], together with the invariant
    [state_ok] of Invariant, so every state reached from the first stage has
    them ([reachable_facts]). *)

From Stdlib Require Import ZArith Lia Ascii String QArith.
From stdpp Require Import base tactics option list strings relations.
From S2P Require Import Prelude PyText Datetime Strptime Frame Effects Dates Pipeline.
From S2P Require Import Stages Invariant Scenario Schedule.

(** ** Cells and rows *)

(** What a parsed date column holds: a date of the calendar or nothing. *)
Definition date_cell (c : cell) : Prop := c = NA ∨ ∃ t, c = Stamp t ∧ valid t = true.

Definition stamp_cell (c : cell) : Prop := ∃ t, c = Stamp t ∧ valid t = true.

(** The facts of a row, by the positions of the number and of the two
    dates. *)
Definition parsed_row (iA iS iF : nat) (r : row) : Prop :=
  date_cell (cell_at iS r) ∧ date_cell (cell_at iF r).

Definition dated_row (iA iS iF : nat) (r : row) : Prop :=
  stamp_cell (cell_at iS r) ∧ stamp_cell (cell_at iF r).

Definition prod_row (iA iS iF : nat) (r : row) : Prop :=
  dated_row iA iS iF r ∧ is_prod iA r.

Definition inside_row (w : datetime * datetime) (iA iS iF : nat) (r : row) : Prop :=
  prod_row iA iS iF r ∧ in_window iS iF w r.

(** A fact of every row of a frame, at the positions of its columns. *)
Definition each (P : nat → nat → nat → row → Prop) (df : frame) : Prop :=
  Forall (P (pos df ACTIVITY_NUMBER) (pos df START) (pos df FINISH)) (rows df).

Definition has_required (df : frame) : Prop := missing_columns required_columns df = [].

(** The duration column holds the hours from start to end. *)
Definition timed (df : frame) : Prop :=
  DURATION ∈ col_names df ∧
  Forall (λ r, cell_at (pos df DURATION) r =
               hours_between (cell_at (pos df FINISH) r) (cell_at (pos df START) r)) (rows df).

(** The facts of the states, for the two texts of the window. *)
Definition window_of (start_date_filter end_date_filter : string)
    (w : datetime * datetime) : Prop :=
  strptime_tokens start_date_filter FMT_WINDOW = inr w.1 ∧
  strptime_tokens end_date_filter FMT_WINDOW = inr w.2.

Definition facts (start_date_filter end_date_filter : string) (st : state) : Prop :=
  match st with
  | AtDecode | AtValidate _ => True
  | AtNormalizeDates df => has_required df
  | AtDropNullDates df => has_required df ∧ each parsed_row df
  | AtFilterPrefix df => has_required df ∧ rows df ≠ [] ∧ each dated_row df
  | AtParseWindow df => has_required df ∧ rows df ≠ [] ∧ each prod_row df
  | AtFilterRange df w =>
      has_required df ∧ rows df ≠ [] ∧ each prod_row df ∧
      window_of start_date_filter end_date_filter w
  | AtComputeDuration df =>
      has_required df ∧ rows df ≠ [] ∧
      ∃ w, window_of start_date_filter end_date_filter w ∧ each (inside_row w) df
  | AtDone df =>
      has_required df ∧ rows df ≠ [] ∧ timed df ∧
      ∃ w, window_of start_date_filter end_date_filter w ∧ each (inside_row w) df
  end.

(** ** Cells and rows: lemmas *)

Lemma date_cell_parsed c : date_cell (of_stamp (parsed c)).
Proof. destruct (parsed c) eqn:Hp; [right|by left]. eauto using parsed_Some_valid. Qed.

Lemma date_cell_stamp c : date_cell c → isna c = false → stamp_cell c.
Proof. by intros [->|?]. Qed.

Lemma has_dates_cells iS iF r :
  has_dates iS iF r ↔ isna (cell_at iS r) = false ∧ isna (cell_at iF r) = false.
Proof.
  unfold has_dates. cbn [forallb].
  by rewrite Is_true_true, andb_true_r, andb_true_iff, !negb_true_iff.
Qed.

(** The facts of a row are facts of three of its cells. *)
Lemma inside_row_cells w iA iS iF r r' :
  cell_at iA r' = cell_at iA r → cell_at iS r' = cell_at iS r →
  cell_at iF r' = cell_at iF r →
  inside_row w iA iS iF r → inside_row w iA iS iF r'.
Proof.
  unfold inside_row, prod_row, dated_row, is_prod, in_window. by intros -> -> ->.
Qed.

Lemma Forall_filter_both {A} (P Q : A → Prop) `{!∀ x, Decision (Q x)} (l : list A) :
  Forall P l → Forall (λ x, P x ∧ Q x) (filter Q l).
Proof. rewrite !Forall_forall. intros HP x [??]%list_elem_of_filter. auto. Qed.

(** ** Frames: lemmas *)

Lemma nonempty_Returned e cols rs out :
  nonempty e cols rs = Returned out → rs ≠ [] ∧ out = Frame cols rs.
Proof. destruct rs; [done|]. by intros [= <-]. Qed.

Lemma has_required_names df df' :
  col_names df' = col_names df → has_required df → has_required df'.
Proof. unfold has_required, missing_columns, has_column. by intros ->. Qed.

Lemma pos_names df df' c : col_names df' = col_names df → pos df' c = pos df c.
Proof. unfold pos, col_pos, col_names. intros Hn. by rewrite Hn, <-!(length_fmap fst), Hn. Qed.

(** A filter keeps the header, the facts of the rows, and adds its test. *)
Lemma filter_facts P (Q : nat → nat → nat → row → bool) e df out :
  has_required df → each P df →
  nonempty e (columns df)
    (filter (λ r, Q (pos df ACTIVITY_NUMBER) (pos df START) (pos df FINISH) r) (rows df)) =
    Returned out →
  has_required out ∧ rows out ≠ [] ∧ each (λ iA iS iF r, P iA iS iF r ∧ Q iA iS iF r) out.
Proof.
  intros Hm HP [Hne ->]%nonempty_Returned. split_and!; [done..|].
  by apply (Forall_filter_both _ (λ r, Q _ _ _ r)).
Qed.

(** The columns of the file keep their places when the duration is added. *)
Lemma col_names_assign_columns f c dt rs :
  col_names (Frame (assign_columns c dt (columns f) (col_pos f c)) rs) =
  match col_pos f c with Some _ => col_names f | None => col_names f ++ [c] end.
Proof.
  unfold assign_columns, col_names. simpl. destruct (col_pos f c) as [i|] eqn:Hi; simpl.
  - rewrite list_fmap_insert. simpl. apply list_insert_id. by apply col_pos_Some in Hi as [? _].
  - by rewrite fmap_app.
Qed.

Lemma col_pos_assign_columns f c dt rs c' i :
  col_pos f c' = Some i →
  col_pos (Frame (assign_columns c dt (columns f) (col_pos f c)) rs) c' = Some i.
Proof.
  intros Hc. unfold col_pos at 1. rewrite col_names_assign_columns.
  destruct (col_pos f c); [done|]. unfold col_pos in Hc.
  destruct (list_find (λ n, n = c') (col_names f)) as [[j x]|] eqn:Hf; [|done].
  by erewrite list_find_app_l.
Qed.

Lemma col_pos_assigned f c dt rs :
  col_pos (Frame (assign_columns c dt (columns f) (col_pos f c)) rs) c = Some (pos f c).
Proof.
  pose proof (col_names_assign_columns f c dt rs) as Hn.
  pose proof (col_pos_assign_columns f c dt rs c) as Hp.
  unfold pos. destruct (col_pos f c) as [i|] eqn:Hc; [by apply Hp|].
  unfold col_pos at 1. rewrite Hn. unfold col_pos in Hc.
  destruct (list_find (λ n, n = c) (col_names f)) eqn:Hf; [done|].
  rewrite list_find_app_r by done. simpl. rewrite decide_True by done. simpl.
  unfold col_names. by rewrite length_fmap.
Qed.

(** ** The stages *)

Lemma clean_and_validate_data_facts df df' :
  returns (clean_and_validate_data df) df' → has_required df'.
Proof.
  unfold clean_and_validate_data, returns, has_required. cbv zeta.
  by destruct (missing_columns _ (dropna_all df)) eqn:Hm; intros [= <-].
Qed.

(** After the loop of lines 147-153 both date columns hold dates of the
    calendar or missing values. *)
Lemma normalize_dates_facts df df' :
  wf df → has_required df → returns (normalize_dates df) df' →
  has_required df' ∧ each parsed_row df'.
Proof.
  intros Hwf Hm Hr. destruct (required_positions df Hm) as (iA & iS & iF & HA & HS & HF).
  assert (ACTIVITY_NUMBER ∈ col_names df) as Hin by (apply col_pos_is_Some; eauto).
  rewrite (returns_inj _ _ _ Hr (normalize_dates_returns df iS iF HS HF Hin)).
  assert (col_names (parse_column FINISH iF (parse_column START iS df)) = col_names df) as Hn.
  { by rewrite !col_names_parse_column by by rewrite ?col_pos_parse_column. }
  split; [by eapply has_required_names|]. unfold each. rewrite !(pos_names df _ _ Hn).
  rewrite (pos_Some _ _ _ HS), (pos_Some _ _ _ HF). simpl. rewrite <-list_fmap_compose.
  apply Forall_fmap. destruct Hwf as (_ & _ & Hw). eapply Forall_impl; [exact Hw|].
  intros r Hlen. unfold parsed_row. simpl. fold (norm_row iS iF r).
  pose proof (col_pos_lt _ _ _ HS). pose proof (col_pos_lt _ _ _ HF).
  pose proof (start_finish_ne df iS iF HS HF).
  rewrite (norm_row_start (length (columns df))), (norm_row_finish (length (columns df)))
    by done.
  split; apply date_cell_parsed.
Qed.

(** After line 156 every row has its two dates. *)
Lemma drop_null_dates_facts df df' :
  has_required df → each parsed_row df → returns (drop_null_dates df) df' →
  has_required df' ∧ rows df' ≠ [] ∧ each dated_row df'.
Proof.
  intros Hm Hp Hr. destruct (required_positions df Hm) as (iA & iS & iF & HA & HS & HF).
  unfold returns in Hr. rewrite (drop_null_dates_result df iS iF HS HF) in Hr.
  rewrite <-(pos_Some _ _ _ HS), <-(pos_Some _ _ _ HF) in Hr.
  destruct (filter_facts parsed_row (λ _ iS iF r, has_dates iS iF r) _ _ _ Hm Hp Hr)
    as (? & ? & Hd).
  split_and!; [done..|]. eapply Forall_impl; [exact Hd|].
  intros r [[??] [??]%has_dates_cells]. split; by apply date_cell_stamp.
Qed.

(** After line 162 every row is a 'Prod' task. *)
Lemma filter_prefix_facts df df' :
  has_required df → each dated_row df → returns (filter_prefix df) df' →
  has_required df' ∧ rows df' ≠ [] ∧ each prod_row df'.
Proof.
  intros Hm Hp Hr. destruct (required_positions df Hm) as (iA & iS & iF & HA & HS & HF).
  destruct (col_dtype_is_Some df _ _ HA) as [dt Hdt]. unfold returns in Hr.
  destruct (decide (dt = object)) as [->|Hne];
    [|by rewrite (filter_prefix_untyped df iA dt) in Hr].
  rewrite (filter_prefix_result df iA HA Hdt), <-(pos_Some _ _ _ HA) in Hr.
  exact (filter_facts dated_row (λ iA _ _ r, is_prod iA r) _ _ _ Hm Hp Hr).
Qed.

(** Lines 169-176 give the window of the two texts. *)
Lemma parse_window_facts start_date_filter end_date_filter w :
  returns (parse_window start_date_filter end_date_filter) w →
  window_of start_date_filter end_date_filter w.
Proof.
  unfold returns, window_of. rewrite parse_window_result.
  destruct (strptime_tokens start_date_filter _); [done|].
  destruct (strptime_tokens end_date_filter _); [done|]. by intros [= <-].
Qed.

(** After line 179 every row lies inside the window. *)
Lemma filter_range_facts start_date_filter end_date_filter w df df' :
  has_required df → each prod_row df →
  returns (filter_range start_date_filter end_date_filter w df) df' →
  has_required df' ∧ rows df' ≠ [] ∧ each (inside_row w) df'.
Proof.
  intros Hm Hp Hr. destruct (required_positions df Hm) as (iA & iS & iF & HA & HS & HF).
  unfold returns in Hr.
  rewrite (filter_range_result _ _ w df iS iF HS HF) in Hr.
  rewrite <-(pos_Some _ _ _ HS), <-(pos_Some _ _ _ HF) in Hr.
  exact (filter_facts prod_row (λ _ iS iF r, in_window iS iF w r) _ _ _ Hm Hp Hr).
Qed.

(** Lines 188-190 write the hours from start to end, and leave the other
    cells as they are. *)
Lemma compute_duration_facts w df df' :
  wf df → has_required df → rows df ≠ [] → each (inside_row w) df →
  returns (compute_duration df) df' →
  has_required df' ∧ rows df' ≠ [] ∧ timed df' ∧ each (inside_row w) df'.
Proof.
  intros (_ & _ & Hw) Hm Hne Hin Hr.
  destruct (required_positions df Hm) as (iA & iS & iF & HA & HS & HF).
  destruct (layout df iA iS iF HA HS HF) as (_ & _ & _ & ? & _ & _ & _ & ? & ? & ?).
  unfold returns in Hr. rewrite (compute_duration_result df iS iF HS HF) in Hr.
  injection Hr as <-. unfold each, timed in *.
  rewrite (pos_Some _ _ _ HA), (pos_Some _ _ _ HS), (pos_Some _ _ _ HF) in Hin.
  rewrite (pos_Some _ _ _ (col_pos_assigned df DURATION _ _)),
    !(pos_Some _ _ _ (col_pos_assign_columns df DURATION _ _ _ _ HA)),
    !(pos_Some _ _ _ (col_pos_assign_columns df DURATION _ _ _ _ HS)),
    !(pos_Some _ _ _ (col_pos_assign_columns df DURATION _ _ _ _ HF)). simpl.
  assert (∀ r, length r.2 = length (columns df) → ∀ j, pos df DURATION ≠ j →
            cell_at j (with_duration iS iF (pos df DURATION) r) = cell_at j r) as Hsame.
  { intros r Hr j Hj. unfold with_duration. apply cell_at_set_cell_ne; [lia|done]. }
  split_and!.
  - apply missing_columns_nil. intros c Hc. apply col_pos_is_Some.
    destruct (proj2 (col_pos_is_Some df c)) as [i Hi];
      [by apply (proj1 (missing_columns_nil required_columns df) Hm)|].
    exists i. by apply col_pos_assign_columns.
  - by intros ?%fmap_nil_inv.
  - apply col_pos_is_Some. rewrite col_pos_assigned. eauto.
  - apply Forall_fmap. eapply Forall_impl; [exact Hw|]. intros r Hlen. simpl.
    rewrite (Hsame r Hlen iF), (Hsame r Hlen iS) by done.
    unfold with_duration. apply cell_at_set_cell. by rewrite Hlen.
  - apply Forall_fmap, Forall_forall. intros r Hr. rewrite Forall_forall in Hw, Hin.
    apply (inside_row_cells w iA iS iF r); [apply Hsame; auto..|auto].
Qed.

(** ** The machine *)

Section Machine.
Context `{W : World} `{!WorldOk W} `{!WorldTyped W}.
Context (file_path file_extension start_date_filter end_date_filter : string).

(** The steps of the run under way. *)
Local Abbreviation run_step :=
  (Stages.step file_path file_extension start_date_filter end_date_filter).

(** Every step keeps the facts. *)
Lemma step_facts st st' :
  state_ok st → facts start_date_filter end_date_filter st → run_step st st' →
  facts start_date_filter end_date_filter st'.
Proof.
  intros Hok Hf Hs. inversion Hs as [s m s' Ha Hm]; subst.
  destruct st; cbn [advance] in Ha; try discriminate; injection Ha as <-;
    apply fmap_returns in Hm as (x & Hx & ->); cbn [facts state_ok] in *.
  - exact I.
  - exact (clean_and_validate_data_facts _ _ Hx).
  - destruct Hok as [Hwf _]. exact (normalize_dates_facts _ _ Hwf Hf Hx).
  - destruct Hf as [Hm Hp]. exact (drop_null_dates_facts _ _ Hm Hp Hx).
  - destruct Hf as (Hm & _ & Hp). exact (filter_prefix_facts _ _ Hm Hp Hx).
  - destruct Hf as (Hm & Hne & Hp). split_and!; [done..|]. exact (parse_window_facts _ _ _ Hx).
  - destruct Hf as (Hm & _ & Hp & Hw).
    destruct (filter_range_facts _ _ _ _ _ Hm Hp Hx) as (? & ? & ?). eauto.
  - destruct Hf as (Hm & Hne & w & Hw & Hp), Hok as [Hwf _].
    destruct (compute_duration_facts w _ _ Hwf Hm Hne Hp Hx) as (? & ? & ? & ?). eauto 6.
Qed.

Lemma steps_facts st st' :
  state_ok st → facts start_date_filter end_date_filter st → rtc run_step st st' →
  state_ok st' ∧ facts start_date_filter end_date_filter st'.
Proof.
  intros Hok Hf Hs. induction Hs as [|st1 st2 st3 H _ IH]; [done|].
  apply IH; [by apply (step_state_ok file_path file_extension start_date_filter
                         end_date_filter st1)|by apply (step_facts st1)].
Qed.

(** C15. Every state the machine reaches from the first stage holds a sound
    frame with the facts of its stage: the required columns once the frame
    was validated, two dates in every row once the rows without a date were
    dropped, a number that starts with 'Prod' once the prefix was tested,
    the row inside the window once the dates were compared, and at the end
    the hours from start to end in the duration column. *)
Theorem reachable_facts st :
  rtc run_step AtDecode st → state_ok st ∧ facts start_date_filter end_date_filter st.
Proof. exact (steps_facts AtDecode st I I). Qed.

End Machine.

(** The frame the machine ends with on [book]. *)
Lemma reachable_facts_witness :
  state_ok (AtDone book_out) ∧
  facts "08/11/2024 17:00" "10/11/2024 23:59" (AtDone book_out).
Proof.
  apply (reachable_facts "book.csv" ".csv" "08/11/2024 17:00" "10/11/2024 23:59").
  apply resume_returns. vm_compute. reflexivity.
Defined.
