(* ===== verification/Correct.v ===== *)
(** * Correct: what [read_and_process_data] returns and raises

    The theorems on the function the program is built around
    (src/workshift.py lines 118-195), for every world that returns
    well-formed frames: its result is [specification], the row-by-row
    [schedule] of the frame read, with the errors wrapped as the handler at
    lines 194-195 wraps them; the frame it returns is well formed, not empty,
    and every row of it is a task of the file with the properties [task_ok]
    collects, and every such task of the file is a row of it; no duration
    exceeds the hours of the window, and a wider window keeps every row;
    the order of the rows of the file is no part of the result
    ([row_order]); the float of each duration is within [2^-26] of the
    hours the model holds and prints the same two decimals
    ([duration_double]); the exceptions it raises are of three shapes. *)

From Stdlib Require Import ZArith Lia Ascii String QArith Qabs.
From stdpp Require Import base tactics option list strings.
From S2P Require Import Prelude PyText Datetime Format Double Strptime Frame Effects Dates.
From S2P Require Import Pipeline Stages Invariant Scenario Schedule.

(** The handler of lines 194-195: an [Exception] is raised again as a plain
    [Exception] that carries its text; anything else goes through. *)
Definition wrapped (o : outcome exn frame) : outcome exn frame :=
  match o with
  | Returned df => Returned df
  | Raised e => if isinstance e Exception then Raised (Processing e) else Raised e
  end.

(** A row of the result, read by column names: a 'Prod' task with both
    dates inside the window and its duration in hours. *)
Definition task_ok (out : frame) (w : datetime * datetime) (r : row) : Prop :=
  ∃ a ts tf,
    row_get out ACTIVITY_NUMBER r = Some (Str a) ∧ startswith a "Prod" = true ∧
    row_get out START r = Some (Stamp ts) ∧ row_get out FINISH r = Some (Stamp tf) ∧
    valid ts = true ∧ valid tf = true ∧
    dt_le w.1 ts = true ∧ dt_le tf w.2 = true ∧
    row_get out DURATION r = Some (Real (duration_hours ts tf)).

(** A row of the file that passes the prefix filter: both its dates parse and
    its number is a text that starts with 'Prod'. *)
Definition has_task (df : frame) : Prop :=
  ∃ r a vs vf, r ∈ rows df ∧
    row_get df ACTIVITY_NUMBER r = Some (Str a) ∧ startswith a "Prod" = true ∧
    row_get df START r = Some vs ∧ is_Some (parsed vs) ∧
    row_get df FINISH r = Some vf ∧ is_Some (parsed vf).

(** ** The frame [schedule] returns *)

Lemma row_get_pos f c i r : col_pos f c = Some i → row_get f c r = Some (cell_at i r).
Proof. unfold row_get. by intros ->. Qed.

Section Output.
Context (df : frame) (iA iS iF : nat) (w : datetime * datetime).
Hypothesis Hwf : wf df.
Hypothesis HA : col_pos df ACTIVITY_NUMBER = Some iA.
Hypothesis HS : col_pos df START = Some iS.
Hypothesis HF : col_pos df FINISH = Some iF.

Let out : frame := Frame (out_columns df) (result_rows w df).

Lemma row_width r : r ∈ rows df → length r.2 = length (columns df).
Proof. destruct Hwf as (_ & _ & Hw). rewrite Forall_forall in Hw. apply Hw. Qed.

(** The cells of the row of a task, read by column names. *)
Lemma result_row_cells r a ts tf :
  kept df iA iS iF w r a ts tf →
  let r' := task_row iS iF (pos df DURATION) ts tf r in
  row_get out ACTIVITY_NUMBER r' = Some (Str a) ∧
  row_get out START r' = Some (Stamp ts) ∧ row_get out FINISH r' = Some (Stamp tf) ∧
  row_get out DURATION r' = Some (Real (duration_hours ts tf)).
Proof.
  intros (Hr & _ & _ & _ & Ha & _).
  destruct (layout df iA iS iF HA HS HF) as (? & ? & ? & ? & ? & ? & ? & ? & ? & ?).
  pose proof (row_width r Hr). cbn zeta.
  rewrite (row_get_pos out _ iA), (row_get_pos out _ iS), (row_get_pos out _ iF),
    (row_get_pos out _ (pos df DURATION))
    by first [by apply (col_pos_out df iS iF) | by apply (col_pos_out_duration df iS iF)].
  rewrite (task_row_other (length (columns df))), Ha by done.
  by rewrite (task_row_start (length (columns df))), (task_row_finish (length (columns df))),
    (task_row_duration (length (columns df))) by done.
Qed.

(** Every row of the result is a task, read by column names. *)
Lemma result_rows_task_ok : Forall (task_ok out w) (rows out).
Proof.
  apply Forall_forall. intros r' Hr'.
  apply (elem_of_result_rows df iA iS iF w Hwf HA HS HF) in Hr'
    as (r & a & ts & tf & Hk & ->).
  destruct (result_row_cells r a ts tf Hk) as (? & ? & ? & ?).
  destruct Hk as (_ & _ & Hts & Htf & _ & Hpre & Hge & Hle). exists a, ts, tf.
  split_and!; eauto using parsed_Some_valid.
Qed.

(** The dates of a row of the result are dates [strptime] made: they are
    valid and have no seconds. *)
Lemma result_rows_timed :
  Forall (λ r', ∃ ts tf,
    row_get out START r' = Some (Stamp ts) ∧ row_get out FINISH r' = Some (Stamp tf) ∧
    row_get out DURATION r' = Some (Real (duration_hours ts tf)) ∧
    valid ts = true ∧ valid tf = true ∧ second ts = 0%Z ∧ second tf = 0%Z) (rows out).
Proof.
  apply Forall_forall. intros r' Hr'.
  apply (elem_of_result_rows df iA iS iF w Hwf HA HS HF) in Hr'
    as (r & a & ts & tf & Hk & ->).
  destruct (result_row_cells r a ts tf Hk) as (_ & ? & ? & ?).
  destruct Hk as (_ & _ & Hts & Htf & _). exists ts, tf.
  split_and!; eauto using parsed_Some_valid, parsed_Some_second.
Qed.

Lemma result_rows_width :
  Forall (λ r : row, length r.2 = length (columns out)) (rows out).
Proof.
  destruct (layout df iA iS iF HA HS HF) as (? & ? & ? & ? & ? & ? & ? & ? & ? & ?).
  apply Forall_forall. intros r' Hr'.
  apply (elem_of_result_rows df iA iS iF w Hwf HA HS HF) in Hr'
    as (r & a & ts & tf & (Hr & _) & ->).
  cbn [columns out]. rewrite (length_out_columns df).
  apply (task_row_width (length (columns df))); auto using row_width.
Qed.

(** The result is well formed. *)
Lemma result_wf : wf out.
Proof.
  destruct Hwf as (Hnd & Hix & _). split_and!; [| |apply result_rows_width].
  - unfold out. rewrite (col_names_out_columns df iS iF HS HF).
    destruct (col_pos df DURATION) eqn:HD; [done|].
    apply NoDup_app. split_and!; [done| |apply NoDup_singleton].
    intros c Hc ->%list_elem_of_singleton. by apply col_pos_None in HD.
  - eapply sublist_NoDup; [apply Hix|apply result_rows_labels].
Qed.

(** The columns the program writes have the types it gives them. *)
Lemma result_dtypes :
  col_dtype out START = Some datetime64 ∧ col_dtype out FINISH = Some datetime64 ∧
  col_dtype out DURATION = Some float64.
Proof.
  destruct (out_columns_lookup df iA iS iF HA HS HF) as (? & ? & ?).
  split_and!; eapply col_dtype_pos; try done;
    first [by apply (col_pos_out df iS iF) | by apply (col_pos_out_duration df iS iF)].
Qed.

Lemma has_task_prod_rows : has_task df ↔ prod_rows df ≠ [].
Proof using Hwf HA HS HF.
  rewrite (prod_rows_nonempty df iA iS iF Hwf HA HS HF). unfold has_task.
  setoid_rewrite (row_get_pos df _ _ _ HA). setoid_rewrite (row_get_pos df _ _ _ HS).
  setoid_rewrite (row_get_pos df _ _ _ HF). split.
  - intros (r & a & vs & vf & ? & [= Ha] & ? & [= <-] & ? & [= <-] & ?). by exists r, a.
  - intros (r & a & ? & ? & ? & Ha & ?). exists r, a, (cell_at iS r), (cell_at iF r).
    by rewrite Ha.
Qed.

End Output.

Section Correct.
Context {W : World} `{!WorldOk W}.

(** What the function computes, from the world alone. *)
Definition specification (file_path start_date_filter end_date_filter : string)
    : outcome exn frame :=
  if path_exists file_path then
    wrapped
      match result (read_file file_path (lower (splitext file_path).2)) with
      | Returned df => schedule df start_date_filter end_date_filter
      | Raised e => Raised e
      end
  else Raised (FileMissing file_path).

(** The try block with its handler. *)
Lemma result_try_block file_path file_extension start_date_filter end_date_filter :
  result (except Exception
            (process file_path file_extension start_date_filter end_date_filter)
            (λ e, raise (Processing e))) =
  wrapped
    match result (read_file file_path file_extension) with
    | Returned df => schedule df start_date_filter end_date_filter
    | Raised e => Raised e
    end.
Proof.
  rewrite result_except, process_result by (intros ?; apply read_file_wf).
  unfold wrapped. by destruct (result (read_file _ _)) as [df|e]; [destruct (schedule _ _ _)|].
Qed.

Lemma wrapped_returns o out : wrapped o = Returned out → o = Returned out.
Proof. destruct o as [|e]; simpl; [done|]. by destruct (isinstance e Exception). Qed.

(** The handler wraps an [Exception], and nothing else. *)
Lemma wrapped_Processing o x :
  wrapped o = Raised (Processing x) ↔ o = Raised x ∧ isinstance x Exception = true.
Proof.
  destruct o as [|e]; simpl; [naive_solver|].
  destruct (isinstance e Exception) eqn:He; [naive_solver|].
  split; [by intros [= ->]|]. intros [[= ->] ?]. congruence.
Qed.

#[export] Instance wrapped_proper : Proper (same_outcome ==> same_outcome) wrapped.
Proof.
  intros [f|e] [g|e'] H; simpl in *; try done. subst. by destruct (isinstance e' Exception).
Qed.

(** The function on a file that exists and that a reader reads. *)
Lemma result_read file_path start_date_filter end_date_filter df :
  path_exists file_path = true →
  returns (read_file file_path (lower (splitext file_path).2)) df →
  result (read_and_process_data file_path start_date_filter end_date_filter) =
  wrapped (schedule df start_date_filter end_date_filter).
Proof.
  intros Hex Hread. unfold read_and_process_data. rewrite Hex. cbn [negb].
  by rewrite result_try_block, Hread.
Qed.

(** The wrapped errors are the errors of [schedule]. *)
Lemma raises_Processing file_path start_date_filter end_date_filter df x :
  path_exists file_path = true →
  returns (read_file file_path (lower (splitext file_path).2)) df →
  raises (read_and_process_data file_path start_date_filter end_date_filter) (Processing x) ↔
  schedule df start_date_filter end_date_filter = Raised x.
Proof.
  intros Hex Hread. unfold raises. rewrite (result_read _ _ _ df), wrapped_Processing by done.
  split; [by intros [? _]|]. eauto using schedule_raises_Exception.
Qed.

(** A frame the function returns is a frame the try block returns. *)
Lemma returns_process file_path start_date_filter end_date_filter out :
  returns (read_and_process_data file_path start_date_filter end_date_filter) out →
  returns (process file_path (lower (splitext file_path).2) start_date_filter end_date_filter)
    out.
Proof.
  unfold returns, read_and_process_data. destruct (path_exists file_path); [|done].
  cbn [negb]. rewrite result_except. destruct (result (process _ _ _ _)) as [|x]; [done|].
  by destruct (isinstance x Exception).
Qed.

(** What is known of a frame the function returns: the file exists, a
    reader returned a frame [df], the window parses, and the frame is the
    header and the rows [schedule] makes of [df]. *)
Lemma returned_frame file_path start_date_filter end_date_filter out :
  returns (read_and_process_data file_path start_date_filter end_date_filter) out →
  path_exists file_path = true ∧
  ∃ df start_date end_date iA iS iF,
    returns (read_file file_path (lower (splitext file_path).2)) df ∧ wf df ∧
    missing_columns required_columns df = [] ∧
    col_pos df ACTIVITY_NUMBER = Some iA ∧ col_pos df START = Some iS ∧
    col_pos df FINISH = Some iF ∧
    strptime_tokens start_date_filter FMT_WINDOW = inr start_date ∧
    strptime_tokens end_date_filter FMT_WINDOW = inr end_date ∧
    result_rows (start_date, end_date) df ≠ [] ∧
    out = Frame (out_columns df) (result_rows (start_date, end_date) df).
Proof.
  unfold returns, read_and_process_data.
  destruct (path_exists file_path); [|done]. cbn [negb].
  rewrite result_try_block. intros Hs%wrapped_returns. split; [done|].
  destruct (result (read_file _ _)) as [df|] eqn:Hread; [|done].
  apply schedule_returns in Hs as (Hm & _ & start_date & end_date & ? & ? & ? & ->).
  destruct (required_positions df Hm) as (iA & iS & iF & ? & ? & ?).
  exists df, start_date, end_date, iA, iS, iF. split_and!; try done.
  by apply (read_file_wf file_path (lower (splitext file_path).2)).
Qed.

(** The frame returned has the required columns and the duration column. *)
Lemma returned_columns file_path start_date_filter end_date_filter out :
  returns (read_and_process_data file_path start_date_filter end_date_filter) out →
  (∀ c, c ∈ required_columns → c ∈ col_names out) ∧ DURATION ∈ col_names out.
Proof.
  intros (? & df & start_date & end_date & iA & iS & iF & ? & ? & Hm & ? & ? & ? & ? & ? & ? & ->)
    %returned_frame.
  pose proof (proj1 (missing_columns_nil _ _) Hm) as Hreq.
  rewrite (col_names_out_columns df iS iF) by done.
  destruct (col_pos df DURATION) eqn:HD.
  - split; [done|]. apply col_pos_is_Some. eauto.
  - split; [|apply elem_of_app; right; left].
    intros c Hc. apply elem_of_app. left. auto.
Qed.

(** The durations of the frame returned are floats. *)
Lemma returned_durations file_path start_date_filter end_date_filter out :
  returns (read_and_process_data file_path start_date_filter end_date_filter) out →
  Forall (λ r, ∃ q, row_get out DURATION r = Some (Real q)) (rows out).
Proof.
  intros (? & df & start_date & end_date & iA & iS & iF & _ & ? & _ & ? & ? & ? & _ & _ & _ & ->)
    %returned_frame.
  eapply Forall_impl; [by eapply (result_rows_task_ok df iA iS iF)|].
  intros r (a & ts & tf & _ & _ & _ & _ & _ & _ & _ & _ & Hd). eauto.
Qed.

(** C1. [read_and_process_data] computes [specification]: reading the file
    and working on whole columns gives the frame, or the error, that the
    row-by-row [schedule] gives, with the errors wrapped by the handler. *)
Theorem read_and_process_data_refines file_path start_date_filter end_date_filter :
  result (read_and_process_data file_path start_date_filter end_date_filter) =
  specification file_path start_date_filter end_date_filter.
Proof.
  unfold read_and_process_data, specification.
  destruct (path_exists file_path); [|done]. apply result_try_block.
Qed.

(** The tasks of the frame returned, and the window they lie in. *)
Lemma returned_tasks file_path start_date_filter end_date_filter out :
  returns (read_and_process_data file_path start_date_filter end_date_filter) out →
  ∃ start_date end_date,
    strptime_tokens start_date_filter FMT_WINDOW = inr start_date ∧
    strptime_tokens end_date_filter FMT_WINDOW = inr end_date ∧
    rows out ≠ [] ∧ Forall (task_ok out (start_date, end_date)) (rows out).
Proof.
  intros (? & df & start_date & end_date & iA & iS & iF & _ & ? & _ & ? & ? & ? & ? & ? & ? & ->)
    %returned_frame.
  exists start_date, end_date. split_and!; [done..|]. by eapply result_rows_task_ok.
Qed.

(** C2. A frame [read_and_process_data] returns is well formed and not
    empty, the two bounds of the window parse, and every row is a task whose
    number starts with 'Prod', whose dates are valid and lie inside the
    window, bounds included, and whose duration is the hours from start to
    end. *)
Theorem read_and_process_data_returns file_path start_date_filter end_date_filter out :
  returns (read_and_process_data file_path start_date_filter end_date_filter) out →
  path_exists file_path = true ∧
  ∃ start_date end_date,
    strptime_tokens start_date_filter FMT_WINDOW = inr start_date ∧
    strptime_tokens end_date_filter FMT_WINDOW = inr end_date ∧
    wf out ∧ rows out ≠ [] ∧ Forall (task_ok out (start_date, end_date)) (rows out).
Proof.
  intros (? & df & start_date & end_date & iA & iS & iF & _ & ? & _ & ? & ? & ? & ? & ? & ? & ->)
    %returned_frame.
  split; [done|]. exists start_date, end_date. split_and!; [done..| | |].
  - by eapply result_wf.
  - done.
  - by eapply result_rows_task_ok.
Qed.

(** The three shapes of an exception the function raises. *)
Lemma raised_exception file_path start_date_filter end_date_filter x :
  raises (read_and_process_data file_path start_date_filter end_date_filter) x →
  x = FileMissing file_path ∧ path_exists file_path = false ∨
  (∃ cause, x = Processing cause ∧ isinstance cause Exception = true) ∨
  isinstance x Exception = false ∧
    raises (read_file file_path (lower (splitext file_path).2)) x.
Proof.
  unfold raises, read_and_process_data.
  destruct (path_exists file_path); cbn [negb]; [|intros [= <-]; auto].
  rewrite result_try_block. unfold wrapped.
  destruct (result (read_file _ _)) as [df|e] eqn:Hread.
  - destruct (schedule df _ _) as [|e] eqn:Hs; [done|].
    pose proof (schedule_raises_Exception _ _ _ _ Hs) as He. rewrite He.
    intros [= <-]. right; left; eauto.
  - destruct (isinstance e Exception) eqn:He; intros [= <-]; [right; left; eauto|auto].
Qed.

(** C5. An exception [read_and_process_data] raises is FileNotFoundError
    for a path that does not exist, or the plain Exception the handler makes
    of an Exception, or something that is no Exception and came from a
    reader; it is never a ValueError. *)
Theorem read_and_process_data_raises file_path start_date_filter end_date_filter x :
  raises (read_and_process_data file_path start_date_filter end_date_filter) x →
  isinstance x ValueError = false ∧
  (x = FileMissing file_path ∧ path_exists file_path = false ∨
   (∃ cause, x = Processing cause ∧ isinstance cause Exception = true) ∨
   isinstance x Exception = false ∧
     raises (read_file file_path (lower (splitext file_path).2)) x).
Proof.
  intros Hx%raised_exception. split; [|done].
  destruct Hx as [[-> _]|[(cause & -> & _)|[Hx _]]]; [done..|].
  by apply not_Exception_not_ValueError.
Qed.

(** C11. The rows of the result are rows of the file, in the order of the
    file and under their labels, and the header is the header of the file
    with the duration column. *)
Theorem read_and_process_data_order file_path start_date_filter end_date_filter out :
  returns (read_and_process_data file_path start_date_filter end_date_filter) out →
  ∃ df, returns (read_file file_path (lower (splitext file_path).2)) df ∧
    index out `sublist_of` index df ∧
    col_names out = if has_column df DURATION then col_names df
                    else col_names df ++ [DURATION].
Proof.
  intros (? & df & start_date & end_date & iA & iS & iF & ? & ? & _ & ? & ? & ? & ? & ? & ? & ->)
    %returned_frame.
  exists df. split_and!; [done|apply result_rows_labels|].
  rewrite (col_names_out_columns df iS iF) by done. unfold has_column.
  destruct (col_pos df DURATION) eqn:HD.
  - rewrite bool_decide_eq_true_2; [done|]. apply col_pos_is_Some. eauto.
  - rewrite bool_decide_eq_false_2; [done|]. by apply col_pos_None.
Qed.

(** C13. With a window that ends before it starts, the function can still
    return rows, and every row it returns has a negative duration. *)
Theorem inverted_window_negative file_path start_date_filter end_date_filter out
    start_date end_date :
  returns (read_and_process_data file_path start_date_filter end_date_filter) out →
  strptime_tokens start_date_filter FMT_WINDOW = inr start_date →
  strptime_tokens end_date_filter FMT_WINDOW = inr end_date →
  dt_le start_date end_date = false →
  Forall (λ r, ∃ q, row_get out DURATION r = Some (Real q) ∧ (q < 0)%Q) (rows out).
Proof.
  intros (? & df & sd & ed & iA & iS & iF & _ & ? & _ & ? & ? & ? & Hs & He & ? & ->)
    %returned_frame.
  rewrite Hs, He. intros [= ->] [= ->] Hinv.
  eapply Forall_impl; [by eapply (result_rows_task_ok df iA iS iF)|].
  intros r (a & ts & tf & _ & _ & _ & _ & Hvs & Hvf & Hge & Hle & Hd).
  destruct (strptime_valid _ _ _ Hs) as [? _], (strptime_valid _ _ _ He) as [? _].
  eexists. split; [exact Hd|]. apply duration_hours_negative; [done..|].
  destruct (dt_le ts tf) eqn:Hsf; [|done].
  assert (dt_le start_date end_date = true) as Hc; [|congruence].
  apply (dt_le_trans _ ts); [done..|]. by apply (dt_le_trans _ tf).
Qed.

(** C30. A file whose start dates are time stamps, not texts, is rejected:
    no time stamp parses, so no row is left after the dates are parsed. *)
Theorem typed_dates_rejected file_path start_date_filter end_date_filter df :
  path_exists file_path = true →
  returns (read_file file_path (lower (splitext file_path).2)) df →
  (∀ c, c ∈ required_columns → c ∈ col_names df) →
  (∀ r, r ∈ rows df →
     row_get df START r = Some NA ∨ ∃ t, row_get df START r = Some (Stamp t)) →
  raises (read_and_process_data file_path start_date_filter end_date_filter)
    (Processing NoValidData).
Proof.
  intros Hex Hread Hreq Htyped. unfold raises, read_and_process_data.
  rewrite Hex. cbn [negb]. rewrite result_try_block, Hread.
  pose proof (read_file_wf _ _ _ Hread) as Hwf.
  pose proof (proj2 (missing_columns_nil _ _) Hreq) as Hm.
  destruct (required_positions df Hm) as (iA & iS & iF & HA & HS & HF).
  unfold schedule. rewrite Hm, (proj2 (dated_rows_nil df iS iF Hwf HS HF)); [done|].
  intros r Hr. specialize (Htyped r Hr). rewrite (row_get_pos _ _ _ _ HS) in Htyped.
  left. destruct Htyped as [[= ->]|[t [= ->]]]; [reflexivity|apply parsed_Stamp].
Qed.

(** C16. A frame [read_and_process_data] returns is typed: every cell has the
    dtype of its column; the two date columns are datetime64 columns and the
    duration column is a float64 column. *)
Theorem read_and_process_data_typed `{!WorldTyped W}
    file_path start_date_filter end_date_filter out :
  returns (read_and_process_data file_path start_date_filter end_date_filter) out →
  typed out ∧ col_dtype out START = Some datetime64 ∧
  col_dtype out FINISH = Some datetime64 ∧ col_dtype out DURATION = Some float64.
Proof.
  intros Hout. split.
  - by apply returns_process, process_sound in Hout as [_ ?].
  - apply returned_frame in Hout
      as (? & df & sd & ed & iA & iS & iF & _ & ? & _ & ? & ? & ? & _ & _ & _ & ->).
    by apply (result_dtypes df iA iS iF).
Qed.

(** C24. The run ends with 'no valid data' exactly when every row of the file
    read lacks a start or an end that parses. *)
Theorem no_valid_data_iff file_path start_date_filter end_date_filter df :
  path_exists file_path = true →
  returns (read_file file_path (lower (splitext file_path).2)) df →
  (∀ c, c ∈ required_columns → c ∈ col_names df) →
  raises (read_and_process_data file_path start_date_filter end_date_filter)
    (Processing NoValidData) ↔
  ∀ r vs vf, r ∈ rows df → row_get df START r = Some vs → row_get df FINISH r = Some vf →
    parsed vs = None ∨ parsed vf = None.
Proof.
  intros Hex Hread Hreq. pose proof (read_file_wf _ _ _ Hread) as Hwf.
  pose proof (proj2 (missing_columns_nil _ _) Hreq) as Hm.
  destruct (required_positions df Hm) as (iA & iS & iF & HA & HS & HF).
  rewrite (raises_Processing _ _ _ df), schedule_NoValidData,
    (dated_rows_nil df iS iF) by done.
  setoid_rewrite (row_get_pos df _ _ _ HS). setoid_rewrite (row_get_pos df _ _ _ HF).
  split; [intros Hno r vs vf Hr [= <-] [= <-]|]; eauto.
Qed.

(** C25. A start of the window that does not parse is reported exactly when the
    file read has a task that passes the prefix filter: the bounds are
    parsed after that filter, and a file without such a task fails with the
    error of the earlier stage, whatever the window is. *)
Theorem bad_start_date_iff file_path start_date_filter end_date_filter df cause :
  path_exists file_path = true →
  returns (read_file file_path (lower (splitext file_path).2)) df →
  (∀ c, c ∈ required_columns → c ∈ col_names df) →
  raises (read_and_process_data file_path start_date_filter end_date_filter)
    (Processing (BadStartDate start_date_filter cause)) ↔
  col_dtype df ACTIVITY_NUMBER = Some object ∧ has_task df ∧
  strptime_tokens start_date_filter FMT_WINDOW = inl cause.
Proof.
  intros Hex Hread Hreq. pose proof (read_file_wf _ _ _ Hread) as Hwf.
  pose proof (proj2 (missing_columns_nil _ _) Hreq) as Hm.
  destruct (required_positions df Hm) as (iA & iS & iF & HA & HS & HF).
  rewrite (raises_Processing _ _ _ df), schedule_BadStartDate,
    (has_task_prod_rows df iA iS iF) by done.
  naive_solver.
Qed.

(** C3. The rows returned are exactly the tasks of the file: a row is in the
    result when, and only when, it is the row of a task the program keeps
    (a row of the file that is not empty, whose two dates parse, whose
    number is a text that starts with 'Prod', and that lies in the window),
    with its dates parsed and its duration added.  No task is lost and none
    is made up. *)
Theorem read_and_process_data_complete file_path start_date_filter end_date_filter out :
  returns (read_and_process_data file_path start_date_filter end_date_filter) out →
  ∃ df start_date end_date iA iS iF,
    returns (read_file file_path (lower (splitext file_path).2)) df ∧
    col_pos df ACTIVITY_NUMBER = Some iA ∧ col_pos df START = Some iS ∧
    col_pos df FINISH = Some iF ∧
    strptime_tokens start_date_filter FMT_WINDOW = inr start_date ∧
    strptime_tokens end_date_filter FMT_WINDOW = inr end_date ∧
    ∀ r', r' ∈ rows out ↔
      ∃ r a ts tf, kept df iA iS iF (start_date, end_date) r a ts tf ∧
                   r' = task_row iS iF (pos df DURATION) ts tf r.
Proof.
  intros (? & df & start_date & end_date & iA & iS & iF & ? & ? & _ & ? & ? & ? & ? & ? & _ & ->)
    %returned_frame.
  exists df, start_date, end_date, iA, iS, iF. split_and!; [done..|].
  intros r'. by apply elem_of_result_rows.
Qed.

(** C4. The function returns exactly when the file has a task for it: for a
    file that is read and has the required columns, and a window that
    parses, a frame is returned when, and only when, a row of the file is
    not empty, has two dates that parse and a number that starts with
    'Prod', and lies in the window. *)
Theorem read_and_process_data_succeeds `{!WorldTyped W}
    file_path start_date_filter end_date_filter df start_date end_date iA iS iF :
  path_exists file_path = true →
  returns (read_file file_path (lower (splitext file_path).2)) df →
  (∀ c, c ∈ required_columns → c ∈ col_names df) →
  col_pos df ACTIVITY_NUMBER = Some iA → col_pos df START = Some iS →
  col_pos df FINISH = Some iF →
  strptime_tokens start_date_filter FMT_WINDOW = inr start_date →
  strptime_tokens end_date_filter FMT_WINDOW = inr end_date →
  (∃ out, returns (read_and_process_data file_path start_date_filter end_date_filter) out) ↔
  ∃ r a ts tf, kept df iA iS iF (start_date, end_date) r a ts tf.
Proof.
  intros Hex Hread Hreq HA HS HF Hs He. pose proof (read_file_wf _ _ _ Hread) as Hwf.
  pose proof (elem_of_result_rows df iA iS iF (start_date, end_date) Hwf HA HS HF) as Hrows.
  unfold returns. setoid_rewrite (result_read _ _ _ df Hex Hread). split.
  - intros [out (_ & _ & sd & ed & Hs' & He' & Hne & _)%wrapped_returns%schedule_returns].
    rewrite Hs in Hs'. rewrite He in He'. simplify_eq.
    destruct (result_rows _ df) as [|r' rs]; [done|].
    destruct (proj1 (Hrows r')) as (r & a & ts & tf & ? & _); [left|eauto].
  - intros (r & a & ts & tf & Hk). eexists.
    rewrite (schedule_Returned df _ _ start_date end_date); [done| |..|done|done|].
    + by apply missing_columns_nil.
    + destruct Hk as (? & _ & _ & _ & ? & _).
      eapply typed_text_column; [by eapply read_file_typed|done..].
    + intros Hnil. assert (task_row iS iF (pos df DURATION) ts tf r ∈ result_rows
                             (start_date, end_date) df) as Hin
        by (apply Hrows; by exists r, a, ts, tf).
      rewrite Hnil in Hin. by apply elem_of_nil in Hin.
Qed.

(** C28. No task returned lasts longer than the window: the duration of every
    row is at most the hours from the start of the window to its end, and
    so is its float, the double of the one at most the double of the
    other. *)
Theorem duration_within_window file_path start_date_filter end_date_filter out
    start_date end_date :
  returns (read_and_process_data file_path start_date_filter end_date_filter) out →
  strptime_tokens start_date_filter FMT_WINDOW = inr start_date →
  strptime_tokens end_date_filter FMT_WINDOW = inr end_date →
  Forall (λ r, ∃ q, row_get out DURATION r = Some (Real q) ∧
                    (q <= duration_hours start_date end_date)%Q ∧
                    (b64 q <= hours_f64 start_date end_date)%Q) (rows out).
Proof.
  intros (sd & ed & Hs & He & _ & Ht)%returned_tasks. rewrite Hs, He. intros [= <-] [= <-].
  destruct (strptime_valid _ _ _ Hs) as [? _], (strptime_valid _ _ _ He) as [? _].
  eapply Forall_impl; [exact Ht|].
  intros r (a & ts & tf & _ & _ & _ & _ & ? & ? & ? & ? & Hd).
  eexists. split_and!; [exact Hd|by apply duration_hours_mono|].
  rewrite <-hours_f64_eq by done. by apply hours_f64_mono.
Qed.

(** C26. A wider window keeps every task: when the function returns a frame for
    a window, it returns one for every window that contains it, with the
    same header and with the rows of the first among its rows, in order. *)
Theorem wider_window file_path start_date_filter end_date_filter start_date_filter'
    end_date_filter' start_date end_date start_date' end_date' out :
  strptime_tokens start_date_filter FMT_WINDOW = inr start_date →
  strptime_tokens end_date_filter FMT_WINDOW = inr end_date →
  strptime_tokens start_date_filter' FMT_WINDOW = inr start_date' →
  strptime_tokens end_date_filter' FMT_WINDOW = inr end_date' →
  dt_le start_date' start_date = true → dt_le end_date end_date' = true →
  returns (read_and_process_data file_path start_date_filter end_date_filter) out →
  ∃ out', returns (read_and_process_data file_path start_date_filter' end_date_filter') out' ∧
    columns out' = columns out ∧ rows out `sublist_of` rows out'.
Proof.
  intros Hs He Hs' He' Hstart Hend Hout.
  pose proof Hout as (Hex & df & ? & ? & iA & iS & iF & Hread & Hwf & Hm & _ & HS & HF &
                      Hs0 & He0 & Hne & ->)%returned_frame.
  rewrite Hs in Hs0. rewrite He in He0. injection Hs0 as <-. injection He0 as <-.
  unfold returns in Hout. rewrite (result_read _ _ _ df Hex Hread) in Hout.
  apply wrapped_returns, schedule_returns in Hout as (_ & Ho & _).
  assert (result_rows (start_date, end_date) df `sublist_of`
          result_rows (start_date', end_date') df) as Hsub.
  { apply (result_rows_mono df iS iF); [done..| |done|done].
    repeat constructor; simpl; by eapply strptime_valid. }
  exists (Frame (out_columns df) (result_rows (start_date', end_date') df)).
  split_and!; [|done..]. unfold returns.
  rewrite (result_read _ _ _ df Hex Hread),
    (schedule_Returned df _ _ start_date' end_date'); [done..|].
  intros Hnil. rewrite Hnil in Hsub. by apply sublist_nil_r in Hsub.
Qed.

(** C29. The float of a duration. The frame of the program holds, for each task,
    the double of the hours the frame of the model holds: the two are
    [2^-26] apart at most, they have the same sign, and [:.2f] prints the
    same text for both. *)
Theorem duration_double file_path start_date_filter end_date_filter out :
  returns (read_and_process_data file_path start_date_filter end_date_filter) out →
  Forall (λ r, ∃ ts tf,
    row_get out START r = Some (Stamp ts) ∧ row_get out FINISH r = Some (Stamp tf) ∧
    row_get out DURATION r = Some (Real (duration_hours ts tf)) ∧
    (Qabs (hours_f64 ts tf - duration_hours ts tf) <= 2 ^ (-26))%Q ∧
    (hours_f64 ts tf < 0 ↔ duration_hours ts tf < 0)%Q ∧
    format_2f (hours_f64 ts tf) = format_2f (duration_hours ts tf)) (rows out).
Proof.
  intros (? & df & start_date & end_date & iA & iS & iF & _ & ? & _ & ? & ? & ? & _ & _ & _ & ->)
    %returned_frame.
  eapply Forall_impl; [by eapply (result_rows_timed df iA iS iF)|].
  intros r (ts & tf & ? & ? & ? & ? & ? & ? & ?). exists ts, tf.
  split_and!; [done..|by apply hours_f64_error|by apply hours_f64_sign|
               by apply format_2f_double].
Qed.

(** C27. The order of the rows does not matter. Two files that hold the same
    rows in a different order, under whatever index labels, give the same
    error, or frames with one header whose rows hold the same cells in some
    order: no stage of the pipeline looks at the place of a row. *)
Theorem row_order file_path file_path' start_date_filter end_date_filter df df' :
  path_exists file_path = true → path_exists file_path' = true →
  returns (read_file file_path (lower (splitext file_path).2)) df →
  returns (read_file file_path' (lower (splitext file_path').2)) df' →
  same_rows df df' →
  same_outcome (result (read_and_process_data file_path start_date_filter end_date_filter))
               (result (read_and_process_data file_path' start_date_filter end_date_filter)).
Proof.
  intros Hex Hex' Hread Hread' Hsame.
  rewrite (result_read _ _ _ df Hex Hread), (result_read _ _ _ df' Hex' Hread').
  by rewrite Hsame.
Qed.

End Correct.

(** ** The theorems at the runs of Scenario *)

Lemma read_and_process_data_returns_witness :
  path_exists "book.csv" = true ∧
  ∃ start_date end_date,
    strptime_tokens "08/11/2024 17:00" FMT_WINDOW = inr start_date ∧
    strptime_tokens "10/11/2024 23:59" FMT_WINDOW = inr end_date ∧
    wf book_out ∧ rows book_out ≠ [] ∧
    Forall (task_ok book_out (start_date, end_date)) (rows book_out).
Proof.
  apply (read_and_process_data_returns "book.csv" "08/11/2024 17:00" "10/11/2024 23:59").
  vm_compute. reflexivity.
Defined.

Lemma read_and_process_data_raises_witness :
  isinstance (Processing (ColumnsMissing ["Activity"; "Responsible Person"]%string))
    ValueError = false ∧
  (Processing (ColumnsMissing ["Activity"; "Responsible Person"]%string)
     = FileMissing "short.csv" ∧ path_exists "short.csv" = false ∨
   (∃ cause, Processing (ColumnsMissing ["Activity"; "Responsible Person"]%string)
               = Processing cause ∧ isinstance cause Exception = true) ∨
   isinstance (Processing (ColumnsMissing ["Activity"; "Responsible Person"]%string))
     Exception = false ∧
     raises (read_file "short.csv" (lower (splitext "short.csv").2))
       (Processing (ColumnsMissing ["Activity"; "Responsible Person"]%string))).
Proof.
  apply (read_and_process_data_raises "short.csv" "08/11/2024 17:00" "10/11/2024 23:59").
  vm_compute. reflexivity.
Defined.

Lemma read_and_process_data_order_witness :
  ∃ df, returns (read_file "book.csv" (lower (splitext "book.csv").2)) df ∧
    index book_out `sublist_of` index df ∧
    col_names book_out = if has_column df DURATION then col_names df
                         else col_names df ++ [DURATION].
Proof.
  apply (read_and_process_data_order "book.csv" "08/11/2024 17:00" "10/11/2024 23:59").
  vm_compute. reflexivity.
Defined.

Lemma inverted_window_negative_witness :
  Forall (λ r, ∃ q, row_get late_out DURATION r = Some (Real q) ∧ (q < 0)%Q)
    (rows late_out).
Proof.
  apply (inverted_window_negative "late.csv" "09/11/2024 12:00" "09/11/2024 08:00" late_out
           (DT 2024 11 9 12 0 0) (DT 2024 11 9 8 0 0)); vm_compute; reflexivity.
Defined.

Lemma typed_dates_rejected_witness :
  raises (read_and_process_data "plan.xlsx" "08/11/2024 17:00" "10/11/2024 23:59")
    (Processing NoValidData).
Proof.
  apply (typed_dates_rejected "plan.xlsx" _ _ plan); [reflexivity..| |].
  - intros c Hc. apply (bool_decide_unpack _).
    revert c Hc. apply Forall_forall. by apply (bool_decide_unpack _).
  - intros r ->%list_elem_of_singleton. right. by eexists.
Defined.

Lemma read_and_process_data_refines_witness :
  result (read_and_process_data "book.csv" "08/11/2024 17:00" "10/11/2024 23:59") =
  specification "book.csv" "08/11/2024 17:00" "10/11/2024 23:59".
Proof. apply (read_and_process_data_refines (W := file_world)). Defined.

Lemma read_and_process_data_typed_witness :
  typed book_out ∧ col_dtype book_out START = Some datetime64 ∧
  col_dtype book_out FINISH = Some datetime64 ∧ col_dtype book_out DURATION = Some float64.
Proof.
  apply (read_and_process_data_typed (W := file_world)
           "book.csv" "08/11/2024 17:00" "10/11/2024 23:59").
  vm_compute. reflexivity.
Defined.

Lemma no_valid_data_iff_witness :
  raises (read_and_process_data "book.csv" "08/11/2024 17:00" "10/11/2024 23:59")
    (Processing NoValidData) ↔
  ∀ r vs vf, r ∈ rows book → row_get book START r = Some vs →
    row_get book FINISH r = Some vf → parsed vs = None ∨ parsed vf = None.
Proof.
  apply (no_valid_data_iff (W := file_world) "book.csv"); [reflexivity..|].
  by apply required_in_header.
Defined.

Lemma bad_start_date_iff_witness :
  raises (read_and_process_data "book.csv" "11/13/2024 17:00" "10/11/2024 23:59")
    (Processing (BadStartDate "11/13/2024 17:00" NoMatch)) ↔
  col_dtype book ACTIVITY_NUMBER = Some object ∧ has_task book ∧
  strptime_tokens "11/13/2024 17:00" FMT_WINDOW = inl NoMatch.
Proof.
  apply (bad_start_date_iff (W := file_world) "book.csv"); [reflexivity..|].
  by apply required_in_header.
Defined.

Lemma wider_window_witness :
  ∃ out', returns (read_and_process_data "book.csv" "01/11/2024 00:00" "30/11/2024 23:59") out' ∧
    columns out' = columns book_out ∧ rows book_out `sublist_of` rows out'.
Proof.
  apply (wider_window "book.csv" "08/11/2024 17:00" "10/11/2024 23:59" _ _
           (DT 2024 11 8 17 0 0) (DT 2024 11 10 23 59 0)
           (DT 2024 11 1 0 0 0) (DT 2024 11 30 23 59 0)); vm_compute; reflexivity.
Defined.

Lemma duration_within_window_witness :
  Forall (λ r, ∃ q, row_get book_out DURATION r = Some (Real q) ∧
                    (q <= duration_hours (DT 2024 11 8 17 0 0) (DT 2024 11 10 23 59 0))%Q ∧
                    (b64 q <= hours_f64 (DT 2024 11 8 17 0 0) (DT 2024 11 10 23 59 0))%Q)
    (rows book_out).
Proof.
  apply (duration_within_window "book.csv" "08/11/2024 17:00" "10/11/2024 23:59");
    vm_compute; reflexivity.
Defined.

Lemma read_and_process_data_complete_witness :
  ∃ df start_date end_date iA iS iF,
    returns (read_file "book.csv" (lower (splitext "book.csv").2)) df ∧
    col_pos df ACTIVITY_NUMBER = Some iA ∧ col_pos df START = Some iS ∧
    col_pos df FINISH = Some iF ∧
    strptime_tokens "08/11/2024 17:00" FMT_WINDOW = inr start_date ∧
    strptime_tokens "10/11/2024 23:59" FMT_WINDOW = inr end_date ∧
    ∀ r', r' ∈ rows book_out ↔
      ∃ r a ts tf, kept df iA iS iF (start_date, end_date) r a ts tf ∧
                   r' = task_row iS iF (pos df DURATION) ts tf r.
Proof.
  apply (read_and_process_data_complete "book.csv" "08/11/2024 17:00" "10/11/2024 23:59").
  vm_compute. reflexivity.
Defined.

Lemma read_and_process_data_succeeds_witness :
  (∃ out, returns (read_and_process_data "book.csv" "08/11/2024 17:00" "10/11/2024 23:59") out) ↔
  ∃ r a ts tf, kept book 0 3 4 (DT 2024 11 8 17 0 0, DT 2024 11 10 23 59 0) r a ts tf.
Proof.
  apply (read_and_process_data_succeeds (W := file_world)); try reflexivity.
  by apply required_in_header.
Defined.

Lemma duration_double_witness :
  Forall (λ r, ∃ ts tf,
    row_get book_out START r = Some (Stamp ts) ∧ row_get book_out FINISH r = Some (Stamp tf) ∧
    row_get book_out DURATION r = Some (Real (duration_hours ts tf)) ∧
    (Qabs (hours_f64 ts tf - duration_hours ts tf) <= 2 ^ (-26))%Q ∧
    (hours_f64 ts tf < 0 ↔ duration_hours ts tf < 0)%Q ∧
    format_2f (hours_f64 ts tf) = format_2f (duration_hours ts tf)) (rows book_out).
Proof.
  apply (duration_double (W := file_world) "book.csv" "08/11/2024 17:00" "10/11/2024 23:59").
  reflexivity.
Defined.

Lemma row_order_witness :
  same_outcome (result (read_and_process_data "book.csv" "08/11/2024 17:00" "10/11/2024 23:59"))
               (result (read_and_process_data "mixed.csv" "08/11/2024 17:00" "10/11/2024 23:59")).
Proof.
  apply (row_order (W := file_world) "book.csv" "mixed.csv" _ _ book mixed); try reflexivity.
  split; [done|]. unfold alike. by apply (bool_decide_unpack _).
Defined.
