(* ===== verification/Diagnostics.v ===== *)
(** * Diagnostics: the lines a run prints

    What [read_and_process_data] (src/workshift.py lines 118-195) prints is
    printed before the first filter: the lines of the reader, the columns and
    the first rows (lines 138-141), and the lines of the loop over the two
    date columns (lines 147-153).  The filters, the parsing of the window,
    the duration and the handler print nothing, so a run that fails later
    has printed the same lines as one that returns.  Among these lines, the
    ones [parse_dates] prints name the values that did not parse: those of
    the start column, then those of the end column, in the order of the rows.

    [normalize_column_spec] gives every line of the loop body (lines
    148-153) with its result: [failures] are the values reported, [undated]
    the rows left without a date, [invalid_table] the table printed for
    them, which is made from the column as overwritten, and [loop_lines]
    the lines of one turn.  [read_and_process_data_trace] puts the lines of
    a run together. *)

From Stdlib Require Import ZArith Lia Ascii String QArith.
From stdpp Require Import base tactics option list strings.
From S2P Require Import Prelude PyText Datetime Strptime Frame Effects Dates Pipeline.
From S2P Require Import Stages Invariant Scenario Schedule.

(** ** The lines of the loop body *)

(** The values of a column that hold a value and do not parse, in the order
    of the rows: what the loop body reports one by one. *)
Definition failures (i : nat) (df : frame) : list cell :=
  filter (λ v, unparsable v) (cell_at i <$> rows df).

(** The rows left without a date in column [i]: the cell was missing, or
    it did not parse. *)
Definition undated (i : nat) (df : frame) : list row :=
  filter (λ r, parsed (cell_at i r) = None) (rows df).

(** The table of line 150, made from the column after it was overwritten:
    the number of the task and the missing value that took the place of
    the text. *)
Definition invalid_table (c : string) (i iA : nat) (df : frame) : frame :=
  Frame [default (ACTIVITY_NUMBER, object) (columns df !! iA);
         (c, parsed_dtype (parsed <$> (cell_at i <$> rows df)))]
        ((λ r : row, (r.1, [cell_at iA r; NA])) <$> undated i df).

(** The lines of one turn of the loop of lines 147-153: the heading, one
    line for every value that does not parse, and the table of the rows
    left without a date, when there is one. *)
Definition loop_lines (c : string) (i iA : nat) (df : frame) : list event :=
  SayProcessing c :: (SayUnparsable <$> failures i df) ++
  (if bool_decide (undated i df = []) then []
   else [SayInvalidDates c (invalid_table c i iA df)]).

(** ** The stages that print nothing *)

Lemma drop_null_dates_trace df : trace (drop_null_dates df) = [].
Proof.
  unfold drop_null_dates.
  destruct (dropna_subset _ df) as [f|]; simpl or_key_error; [rewrite ret_bind|done].
  by destruct (empty f).
Qed.

Lemma filter_prefix_trace df : trace (filter_prefix df) = [].
Proof.
  unfold filter_prefix, str_startswith.
  destruct (column df _); simpl or_key_error; [rewrite ret_bind|done].
  destruct (col_dtype df _); simpl or_key_error; [rewrite ret_bind|done].
  case_decide; [rewrite ret_bind|done]. by destruct (empty _).
Qed.

Lemma parse_window_trace start_date_filter end_date_filter :
  trace (parse_window start_date_filter end_date_filter) = [].
Proof.
  unfold parse_window, parse_bound.
  destruct (strptime_tokens start_date_filter _); [done|].
  by destruct (strptime_tokens end_date_filter _).
Qed.

Lemma filter_range_trace start_date_filter end_date_filter w df :
  trace (filter_range start_date_filter end_date_filter w df) = [].
Proof.
  unfold filter_range.
  destruct (column df START); simpl or_key_error; [rewrite ret_bind|done].
  destruct (column df FINISH); simpl or_key_error; [rewrite ret_bind|done].
  by destruct (empty _).
Qed.

Lemma compute_duration_trace df : trace (compute_duration df) = [].
Proof.
  unfold compute_duration.
  destruct (column df FINISH); simpl or_key_error; [rewrite ret_bind|done].
  by destruct (column df START).
Qed.

(** The stages after the dates are parsed print nothing. *)
Lemma filters_trace start_date_filter end_date_filter df :
  trace (df ← drop_null_dates df;
         df ← filter_prefix df;
         window ← parse_window start_date_filter end_date_filter;
         df ← filter_range start_date_filter end_date_filter window df;
         compute_duration df) = [].
Proof.
  rewrite trace_bind_quiet; [apply drop_null_dates_trace|]. intros df1.
  rewrite trace_bind_quiet; [apply filter_prefix_trace|]. intros df2.
  rewrite trace_bind_quiet; [apply parse_window_trace|]. intros w.
  rewrite trace_bind_quiet; [apply filter_range_trace|]. intros df3.
  apply compute_duration_trace.
Qed.

(** ** The loop body: lemmas *)

Section Body.
Context (df : frame) (c : string) (i iA : nat).
Hypothesis Hwf : wf df.
Hypothesis HA : col_pos df ACTIVITY_NUMBER = Some iA.
Hypothesis Hc : col_pos df c = Some i.
Hypothesis Hne : c ≠ ACTIVITY_NUMBER.

(** The rows of the parsed frame that lack the date are the undated rows,
    parsed. *)
Lemma filter_isna_parsed :
  filter (λ r, isna (cell_at i r)) (set_date i <$> rows df) = set_date i <$> undated i df.
Proof using Hwf Hc.
  unfold undated. destruct Hwf as (_ & _ & Hw). pose proof (col_pos_lt _ _ _ Hc).
  induction Hw as [|r rs Hr _ IH]; [done|].
  rewrite fmap_cons, !filter_cons, IH.
  rewrite (cell_at_set_date (length (columns df))) by done.
  destruct (parsed (cell_at i r)); simpl; repeat case_decide; naive_solver.
Qed.

Lemma undated_row r :
  r ∈ undated i df →
  ((set_date i r).1, [cell_at iA (set_date i r); cell_at i (set_date i r)]) =
  (r.1, [cell_at iA r; NA]).
Proof using Hwf HA Hc Hne.
  intros [Hp Hr]%list_elem_of_filter. destruct Hwf as (_ & _ & Hw).
  rewrite Forall_forall in Hw. pose proof (col_pos_lt _ _ _ Hc).
  rewrite (cell_at_set_date (length (columns df))), Hp by auto.
  rewrite (cell_at_set_date_ne (length (columns df))); auto. by eapply col_pos_ne.
Qed.

(** The table the loop body builds. *)
Lemma invalid_dates_table :
  project [ACTIVITY_NUMBER; c]
    (select (isna <$> (cell_at i <$> rows (parse_column c i df))) (parse_column c i df)) =
  Some (invalid_table c i iA df).
Proof using Hwf HA Hc Hne.
  destruct (col_pos_lookup _ _ _ HA) as [dtA HdA].
  rewrite select_pos.
  rewrite (project_two _ _ _ iA i (ACTIVITY_NUMBER, dtA)
             (c, parsed_dtype (parsed <$> (cell_at i <$> rows df)))).
  - unfold invalid_table. rewrite HdA. simpl. f_equal. f_equal.
    rewrite filter_isna_parsed, <-list_fmap_compose.
    apply list_fmap_ext. intros k r Hr. apply undated_row. by eapply list_elem_of_lookup_2.
  - change (col_pos (parse_column c i df) ACTIVITY_NUMBER = Some iA).
    by rewrite col_pos_parse_column.
  - change (col_pos (parse_column c i df) c = Some i). by rewrite col_pos_parse_column.
  - simpl. rewrite list_lookup_insert_ne; [done|]. by eapply col_pos_ne.
  - simpl. apply list_lookup_insert_eq. by eapply col_pos_lt.
Qed.

(** What the loop body prints: its heading, one line for every value that
    does not parse, and the table of the rows left without a date, when
    there is one. *)
Lemma normalize_column_trace : trace (normalize_column c df) = loop_lines c i iA df.
Proof using Hwf HA Hc Hne.
  unfold normalize_column, loop_lines. rewrite trace_emit, (column_pos _ _ _ Hc). simpl or_key_error.
  rewrite ret_bind. destruct (map_parse_dates (cell_at i <$> rows df)) as [Hr Ht].
  rewrite (trace_bind_returns _ _ _ Hr), Ht, (assign_parsed c i df Hc). unfold isna_col.
  rewrite (column_pos (parse_column c i df) c i) by by rewrite col_pos_parse_column.
  simpl or_key_error. rewrite ret_bind. pose proof invalid_dates_table as Hinv.
  unfold ACTIVITY_NUMBER in Hinv.
  change (rows (parse_column c i df)) with (set_date i <$> rows df) in Hinv.
  rewrite Hinv. simpl or_key_error.
  rewrite ret_bind. do 2 f_equal. unfold invalid_table, empty. simpl.
  destruct (undated i df); simpl; by rewrite ?app_nil_r.
Qed.

End Body.

(** C19. The loop body (lines 148-153), printed lines and result: the heading,
    one line for every value that does not parse, the table of the rows
    left without a date, and the frame with the column parsed.  The table
    is made after the column was overwritten: it shows the missing value
    and not the text that failed, and it lists the rows whose cell was
    missing to begin with. *)
Theorem normalize_column_spec df c i iA :
  wf df → col_pos df ACTIVITY_NUMBER = Some iA → col_pos df c = Some i →
  c ≠ ACTIVITY_NUMBER →
  normalize_column c df = Run (loop_lines c i iA df) (Returned (parse_column c i df)).
Proof.
  intros Hwf HA Hc Hne. rewrite <-(normalize_column_trace df c i iA) by done.
  apply returns_eta, normalize_column_returns; [done|]. apply col_pos_is_Some. eauto.
Qed.

Lemma normalize_column_spec_witness :
  normalize_column START example_frame =
  Run (loop_lines START 1 0 example_frame) (Returned (parse_column START 1 example_frame)).
Proof.
  apply normalize_column_spec; [apply example_wf|reflexivity|reflexivity|discriminate].
Defined.

(** ** The lines of the date loop *)

Section Loop.
Context (df : frame) (iA iS iF : nat).
Hypothesis Hwf : wf df.
Hypothesis HA : col_pos df ACTIVITY_NUMBER = Some iA.
Hypothesis HS : col_pos df START = Some iS.
Hypothesis HF : col_pos df FINISH = Some iF.

(** Parsing the start column leaves the end column as it was. *)
Lemma finish_after_start :
  cell_at iF <$> rows (parse_column START iS (dropna_all df)) =
  cell_at iF <$> rows (dropna_all df).
Proof using Hwf HS HF.
  cbn [rows parse_column]. rewrite <-list_fmap_compose.
  apply list_fmap_ext. intros k r Hr. simpl.
  apply (cell_at_set_date_ne (length (columns df))).
  - by eapply col_pos_lt.
  - eapply live_width; [done|]. by eapply list_elem_of_lookup_2.
  - by eapply col_pos_ne.
Qed.

(** The loop names the start values that do not parse, then the end
    values. *)
Lemma normalize_dates_lines :
  unparsable_values (trace (normalize_dates (dropna_all df))) =
  failures iS (dropna_all df) ++ failures iF (dropna_all df).
Proof using Hwf HA HS HF.
  assert (ACTIVITY_NUMBER ∈ col_names (dropna_all df)) as HN
    by (apply col_pos_is_Some; eauto).
  unfold normalize_dates, failures.
  rewrite (trace_bind_returns _ _ _ (normalize_column_returns START iS (dropna_all df) HS HN)).
  rewrite unparsable_values_app, (normalize_column_lines START iS (dropna_all df)) by done.
  rewrite (normalize_column_lines FINISH iF), finish_after_start;
    [done|by rewrite col_pos_parse_column|by rewrite col_names_parse_column].
Qed.

(** The two turns of the loop: the end column is parsed in the frame
    whose start column was. *)
Lemma normalize_dates_trace :
  trace (normalize_dates (dropna_all df)) =
  loop_lines START iS iA (dropna_all df) ++
  loop_lines FINISH iF iA (parse_column START iS (dropna_all df)).
Proof using Hwf HA HS HF.
  assert (ACTIVITY_NUMBER ∈ col_names (dropna_all df)) as HN
    by (apply col_pos_is_Some; eauto).
  pose proof (wf_dropna_all df Hwf) as Hwf'. unfold normalize_dates.
  rewrite (trace_bind_returns _ _ _ (normalize_column_returns START iS (dropna_all df) HS HN)).
  rewrite (normalize_column_trace (dropna_all df) START iS iA) by done.
  rewrite (normalize_column_trace (parse_column START iS (dropna_all df)) FINISH iF iA);
    [done|by apply wf_parse_column|by rewrite col_pos_parse_column..|done].
Qed.

End Loop.

(** ** The lines of a run *)

Section Run.
Context `{W : World} `{!WorldOk W}.

(** The readers name no value. *)
Lemma try_encodings_lines file_path left :
  unparsable_values (trace (try_encodings file_path left)) = [].
Proof.
  induction left as [|enc left IH]; [done|]. cbn [try_encodings]. rewrite trace_emit.
  destruct (read_csv file_path enc) as [e|df]; [|done].
  destruct (isinstance e UnicodeDecodeError); [by rewrite trace_emit|].
  destruct (isinstance e Exception); [by rewrite trace_emit|done].
Qed.

Lemma read_file_lines file_path file_extension :
  unparsable_values (trace (read_file file_path file_extension)) = [].
Proof.
  unfold read_file. repeat case_decide; try done; try by destruct (read_excel _ _).
  apply try_encodings_lines.
Qed.

(** Reading prints the lines of the reader, the columns and the first rows. *)
Lemma decode_trace file_path file_extension df :
  returns (read_file file_path file_extension) df →
  returns (decode file_path file_extension) df ∧
  trace (decode file_path file_extension) =
  trace (read_file file_path file_extension) ++
  [SayColumns (col_names df); SayHead (head 5 df)].
Proof.
  intros Hr. unfold decode, returns.
  by rewrite (result_bind_returns _ _ _ Hr), (trace_bind_returns _ _ _ Hr).
Qed.

(** What the try block prints, for a file with the required columns. *)
Lemma process_trace file_path file_extension start_date_filter end_date_filter df :
  returns (read_file file_path file_extension) df →
  missing_columns required_columns df = [] →
  trace (process file_path file_extension start_date_filter end_date_filter) =
  trace (read_file file_path file_extension) ++
  [SayColumns (col_names df); SayHead (head 5 df)] ++
  trace (normalize_dates (dropna_all df)).
Proof.
  intros Hread Hm. destruct (decode_trace _ _ _ Hread) as [Hd Ht].
  assert (clean_and_validate_data df = ret (dropna_all df)) as Hclean.
  { unfold clean_and_validate_data.
    change (missing_columns required_columns (dropna_all df))
      with (missing_columns required_columns df). by rewrite Hm. }
  unfold process. rewrite (trace_bind_returns _ _ _ Hd), Ht, Hclean, ret_bind.
  rewrite trace_bind_quiet by (intros; apply filters_trace). by rewrite <-app_assoc.
Qed.

(** C18. Every line [read_and_process_data] prints, for a file that is read and
    has the required columns, whether the run then returns or fails: the
    lines of the reader, the columns and the first rows, and the lines of
    the two turns of the date loop.  Nothing is printed after the loop. *)
Theorem read_and_process_data_trace
    file_path start_date_filter end_date_filter df iA iS iF :
  path_exists file_path = true →
  returns (read_file file_path (lower (splitext file_path).2)) df →
  (∀ c, c ∈ required_columns → c ∈ col_names df) →
  col_pos df ACTIVITY_NUMBER = Some iA →
  col_pos df START = Some iS → col_pos df FINISH = Some iF →
  trace (read_and_process_data file_path start_date_filter end_date_filter) =
  trace (read_file file_path (lower (splitext file_path).2)) ++
  [SayColumns (col_names df); SayHead (head 5 df)] ++
  loop_lines START iS iA (dropna_all df) ++
  loop_lines FINISH iF iA (parse_column START iS (dropna_all df)).
Proof.
  intros Hex Hread Hreq HA HS HF. pose proof (read_file_wf _ _ _ Hread) as Hwf.
  pose proof (proj2 (missing_columns_nil _ _) Hreq) as Hm.
  unfold read_and_process_data. rewrite Hex. cbn [negb].
  rewrite trace_except_raise, (process_trace _ _ _ _ df) by done.
  by rewrite (normalize_dates_trace df iA iS iF).
Qed.

(** C17. The values a run names as not parsable are those of the start column,
    then those of the end column, of the rows that hold a value, in the
    order of the rows, whether the run then returns or fails. *)
Theorem read_and_process_data_unparsable
    file_path start_date_filter end_date_filter df iS iF :
  path_exists file_path = true →
  returns (read_file file_path (lower (splitext file_path).2)) df →
  (∀ c, c ∈ required_columns → c ∈ col_names df) →
  col_pos df START = Some iS → col_pos df FINISH = Some iF →
  unparsable_values
    (trace (read_and_process_data file_path start_date_filter end_date_filter)) =
  failures iS (dropna_all df) ++ failures iF (dropna_all df).
Proof.
  intros Hex Hread Hreq HS HF. pose proof (read_file_wf _ _ _ Hread) as Hwf.
  pose proof (proj2 (missing_columns_nil _ _) Hreq) as Hm.
  destruct (proj2 (col_pos_is_Some df ACTIVITY_NUMBER)) as [iA HA];
    [apply Hreq; repeat constructor|].
  unfold read_and_process_data. rewrite Hex. cbn [negb].
  rewrite trace_except_raise, (process_trace _ _ _ _ df) by done.
  rewrite !unparsable_values_app, read_file_lines. simpl.
  by apply (normalize_dates_lines df iA).
Qed.

End Run.

(** The run on [book] names the start of row 2 and the end of row 3. *)
Lemma read_and_process_data_unparsable_witness :
  unparsable_values
    (trace (read_and_process_data "book.csv" "08/11/2024 17:00" "10/11/2024 23:59")) =
  failures 3 (dropna_all book) ++ failures 4 (dropna_all book).
Proof.
  apply (read_and_process_data_unparsable (W := file_world) "book.csv" _ _ book 3 4);
    [reflexivity..| |reflexivity|reflexivity].
  by apply required_in_header.
Defined.

Lemma read_and_process_data_trace_witness :
  trace (read_and_process_data "book.csv" "08/11/2024 17:00" "10/11/2024 23:59") =
  trace (read_file "book.csv" (lower (splitext "book.csv").2)) ++
  [SayColumns (col_names book); SayHead (head 5 book)] ++
  loop_lines START 3 0 (dropna_all book) ++
  loop_lines FINISH 4 0 (parse_column START 3 (dropna_all book)).
Proof.
  apply (read_and_process_data_trace (W := file_world) "book.csv" _ _ book 0 3 4);
    [reflexivity..| |reflexivity|reflexivity|reflexivity].
  by apply required_in_header.
Defined.
