(* ===== verification/Gantt.v ===== *)
(** * Gantt: what is handed to the chart

    [create_gantt_chart] (src/workshift.py lines 75-116) makes one record per
    row of the frame and one colour per responsible person, and hands both
    to Plotly's [create_gantt]; then it sets the title, the axis title, the
    height and the font of the figure.  A [figure] here is what the chart is
    made from: the records, the colours and the layout.  The three numbers
    of a colour are draws of [randint(0, 255)]: [randint k] is the [k]-th
    draw of a call, so that the function is a function of the frame and of
    the draws. *)

From Stdlib Require Import ZArith Lia Ascii String QArith.
From stdpp Require Import base tactics option list strings.
From S2P Require Import Prelude PyText Datetime Frame Effects Pipeline.

Definition ACTIVITY : string := "Activity".
Definition MILESTONE : string := "Milestone/task".
Definition RESPONSIBLE : string := "Responsible Person".

(** One record of [gantt_data] (lines 86-92). *)
Record bar : Type := Bar {
  Task : cell;
  Description : option string;
  Start : cell;
  Finish : cell;
  Resource : cell
}.

(** 'rgb(r, g, b)' *)
Definition rgb : Type := Z * Z * Z.

Record figure : Type := Figure {
  data : list bar;
  colors : list (cell * rgb);
  title : string;
  xaxis_title : string;
  height : nat;
  font_size : nat
}.

(** The source of the draws of [randint(0, 255)]. *)
Class Random : Type := { randint : nat → Z }.

Class RandomOk (R : Random) : Prop := { randint_range k : (0 ≤ randint k ≤ 255)%Z }.

(** The f-string of line 84: the two values as [str] gives them, with
    ' - ' between; [None] where a value is a float. *)
Definition task_description (milestone activity : cell) : option string :=
  m ← py_str milestone; a ← py_str activity; Some (m +:+ " - " +:+ a)%string.

(** The body of the loop of lines 82-92. *)
Definition gantt_row (df : frame) (r : row) : py bar :=
  milestone ← or_key_error MILESTONE (row_get df MILESTONE r);
  activity ← or_key_error ACTIVITY (row_get df ACTIVITY r);
  number ← or_key_error ACTIVITY_NUMBER (row_get df ACTIVITY_NUMBER r);
  start ← or_key_error START (row_get df START r);
  finish ← or_key_error FINISH (row_get df FINISH r);
  resource ← or_key_error RESPONSIBLE (row_get df RESPONSIBLE r);
  ret (Bar number (task_description milestone activity) start finish resource).

Section WithRandom.
Context `{R : Random}.

(** The loop of lines 94-96: the [j]-th resource takes the draws [3j],
    [3j+1] and [3j+2]. *)
Definition color_of (j : nat) : rgb := (randint (3 * j), randint (3 * j + 1), randint (3 * j + 2)).

Definition assign_colors (resources : list cell) : list (cell * rgb) :=
  imap (λ j resource, (resource, color_of j)) resources.

Definition create_gantt_chart (df : frame) : py figure :=
  gantt_data ← map_run (gantt_row df) (iterrows df);
  resources ← or_key_error RESPONSIBLE (column df RESPONSIBLE);
  let colors := assign_colors (unique resources) in
  ret (Figure gantt_data colors "Cronograma de Actividades" "Fecha"
         (400 + len df * 30) 10).

End WithRandom.

(** ** Lemmas *)

Lemma gantt_row_returns df r iN iA iM iS iF iR :
  col_pos df ACTIVITY_NUMBER = Some iN → col_pos df ACTIVITY = Some iA →
  col_pos df MILESTONE = Some iM → col_pos df START = Some iS →
  col_pos df FINISH = Some iF → col_pos df RESPONSIBLE = Some iR →
  gantt_row df r =
  ret (Bar (cell_at iN r) (task_description (cell_at iM r) (cell_at iA r))
           (cell_at iS r) (cell_at iF r) (cell_at iR r)).
Proof.
  intros HN HA HM HS HF HR. unfold gantt_row, row_get.
  rewrite HN, HA, HM, HS, HF, HR. reflexivity.
Qed.

Lemma imap_keys {A B} (f : nat → B) (l : list A) : (imap (λ j x, (x, f j)) l).*1 = l.
Proof.
  revert f. induction l as [|x l IH]; intros f; [done|].
  simpl. f_equal. apply (IH (λ j, f (S j))).
Qed.

Section GanttLaws.
Context `{R : Random}.

(** The colours are keyed by the resources, in their order. *)
Lemma assign_colors_keys resources : (assign_colors resources).*1 = resources.
Proof. apply imap_keys. Qed.

Lemma assign_colors_range `{!RandomOk R} resources x c :
  (x, c) ∈ assign_colors resources →
  (0 ≤ c.1.1 ≤ 255 ∧ 0 ≤ c.1.2 ≤ 255 ∧ 0 ≤ c.2 ≤ 255)%Z.
Proof.
  unfold assign_colors. intros (j & ? & [= _ ->] & _)%elem_of_lookup_imap.
  unfold color_of. simpl. auto using randint_range.
Qed.

(** With the six columns in place the function returns, without printing,
    the figure of one record per row and one colour per responsible
    person. *)
Lemma create_gantt_chart_result df iN iA iM iS iF iR :
  col_pos df ACTIVITY_NUMBER = Some iN → col_pos df ACTIVITY = Some iA →
  col_pos df MILESTONE = Some iM → col_pos df START = Some iS →
  col_pos df FINISH = Some iF → col_pos df RESPONSIBLE = Some iR →
  create_gantt_chart df =
  ret (Figure
         ((λ r, Bar (cell_at iN r) (task_description (cell_at iM r) (cell_at iA r))
                    (cell_at iS r) (cell_at iF r) (cell_at iR r)) <$> rows df)
         (assign_colors (unique (cell_at iR <$> rows df)))
         "Cronograma de Actividades" "Fecha" (400 + len df * 30) 10).
Proof.
  intros HN HA HM HS HF HR. unfold create_gantt_chart, iterrows.
  rewrite (map_run_ret _ _ _ (λ r _, gantt_row_returns df r _ _ _ _ _ _ HN HA HM HS HF HR)).
  by rewrite ret_bind, (column_pos _ _ _ HR).
Qed.

(** C34. Plotly's [create_gantt] asks for a list of records that is not empty
    and, with the colours given as a dict and an index column, for a colour
    under every value of that column.  The figure has one record per row,
    a colour for the resource of every record, each resource once, the
    height of line 112, and in every colour three numbers from 0 to 255. *)
Theorem create_gantt_chart_covers `{!RandomOk R} df fig :
  (∀ c, c ∈ required_columns → c ∈ col_names df) →
  returns (create_gantt_chart df) fig →
  length (data fig) = len df ∧ height fig = 400 + len df * 30 ∧
  NoDup (colors fig).*1 ∧ (∀ b, b ∈ data fig → Resource b ∈ (colors fig).*1) ∧
  ∀ x c, (x, c) ∈ colors fig → (0 ≤ c.1.1 ≤ 255 ∧ 0 ≤ c.1.2 ≤ 255 ∧ 0 ≤ c.2 ≤ 255)%Z.
Proof.
  intros Hreq.
  assert (∀ c, c ∈ required_columns → ∃ i, col_pos df c = Some i) as Hpos.
  { intros c Hc. by apply col_pos_is_Some, Hreq. }
  destruct (Hpos ACTIVITY_NUMBER) as [iN HN]; [repeat constructor|].
  destruct (Hpos ACTIVITY) as [iA HA]; [repeat constructor|].
  destruct (Hpos MILESTONE) as [iM HM]; [repeat constructor|].
  destruct (Hpos START) as [iS HS]; [repeat constructor|].
  destruct (Hpos FINISH) as [iF HF]; [repeat constructor|].
  destruct (Hpos RESPONSIBLE) as [iR HR]; [repeat constructor|].
  rewrite (create_gantt_chart_result df iN iA iM iS iF iR) by done.
  intros [= <-]. simpl. rewrite assign_colors_keys, length_fmap.
  split_and!; [done..|apply NoDup_unique| |apply assign_colors_range].
  intros b (r & -> & Hr)%list_elem_of_fmap. simpl.
  apply elem_of_unique. by apply list_elem_of_fmap_2.
Qed.

End GanttLaws.
