(* ===== verification/Main.v ===== *)
(** * Main: the program

    [main] (src/workshift.py lines 197-241) reads the file of the fixed
    path with the fixed window, prints a summary, makes the chart, writes it
    and lists the tasks; three handlers print the error and an advice that
    depends on the class of the exception.  The duration of a task is
    printed with two decimals ([format_cell_2f]).  Writing the chart is the one
    effect on the outside: [write_html] says whether Plotly's [write_html]
    raises for a figure and a file name.  [series_min] and [series_max]
    are the earliest and the latest date of a column ([extremum_spec]), and
    the date range [main] prints lies inside the window
    ([main_date_range]). *)

From Stdlib Require Import ZArith Lia Ascii String QArith.
From stdpp Require Import base tactics option list strings.
From S2P Require Import Prelude PyText Datetime Format Strptime Frame Effects Dates Pipeline.
From S2P Require Import Correct Gantt.

Class Output : Type := {
  (** [pio.write_html(fig, file)]: the exception it raises, if any *)
  write_html : figure → string → option exn
}.

(** ** Constants of [main] *)

Definition FILE_PATH : string := "C:/Users/Admin/Documents/MinBook.csv".
Definition START_DATE_FILTER : string := "08/11/2024 17:00".
Definition END_DATE_FILTER : string := "10/11/2024 23:59".
Definition OUTPUT_FILE : string := "gantt_chart.html".

(** ** Series *)

(** [series.min()] of a date column: the earliest date, missing values
    left out; missing when there is none. *)
Definition series_min (l : list cell) : cell :=
  foldr (λ c acc,
    match c, acc with
    | Stamp x, Stamp y => if dt_le x y then c else acc
    | Stamp _, _ => c
    | _, _ => acc
    end) NA l.

(** [series.max()] *)
Definition series_max (l : list cell) : cell :=
  foldr (λ c acc,
    match c, acc with
    | Stamp x, Stamp y => if dt_le y x then c else acc
    | Stamp _, _ => c
    | _, _ => acc
    end) NA l.

(** ** The lines of one task (lines 226-231) *)

(** The text of a value under [:.2f], for the values that have one: a
    float and an integer with two decimals, a truth value as the integer it
    is, a missing value of a float column as nan; a time stamp takes the
    format for a strftime pattern and gives it back.  A text has none. *)
Definition text_2f (c : cell) : option string :=
  match c with
  | Real q => Some (format_2f q)
  | Int n => Some (format_2f (inject_Z n))
  | Bool b => Some (format_2f (if b then 1 else 0))
  | NA => Some "nan"%string
  | Stamp _ => Some ".2f"%string
  | Str _ => None
  end.

(** [f"{x:.2f}"]: ValueError for a text. *)
Definition format_cell_2f (c : cell) : py string :=
  match text_2f c with
  | Some s => ret s
  | None => raise (Foreign ValueError "Unknown format code 'f' for object of type 'str'")
  end.

Definition print_task (df : frame) (r : row) : py unit :=
  number ← or_key_error ACTIVITY_NUMBER (row_get df ACTIVITY_NUMBER r);
  activity ← or_key_error ACTIVITY (row_get df ACTIVITY r);
  task ← or_key_error MILESTONE (row_get df MILESTONE r);
  person ← or_key_error RESPONSIBLE (row_get df RESPONSIBLE r);
  duration ← or_key_error DURATION (row_get df DURATION r);
  hours ← format_cell_2f duration;
  emit (SayTask number activity task person hours).

(** The line of a task, when the row has the five columns and its duration
    is no text. *)
Definition task_line (df : frame) (r : row) : option event :=
  number ← row_get df ACTIVITY_NUMBER r;
  activity ← row_get df ACTIVITY r;
  task ← row_get df MILESTONE r;
  person ← row_get df RESPONSIBLE r;
  duration ← row_get df DURATION r;
  hours ← text_2f duration;
  Some (SayTask number activity task person hours).

(** ** The handlers (lines 233-241) *)

(** The class whose handler takes the exception: the first of the three
    clauses that matches. *)
Definition advice (e : exn) : option pyclass :=
  if isinstance e FileNotFoundError then Some FileNotFoundError
  else if isinstance e ValueError then Some ValueError
  else if isinstance e Exception then Some Exception
  else None.

Definition handle (e : exn) : py unit :=
  match advice e with
  | Some c => _ ← emit (SayError e); emit (SayAdvice c)
  | None => raise e
  end.

Section WithOutside.
Context `{W : World} `{R : Random} `{O : Output}.

(** Lines 209-231: the summary, the chart and the list of tasks. *)
Definition report (df : frame) : py unit :=
  _ ← emit (SaySummary (len df));
  starts ← or_key_error START (column df START);
  ends ← or_key_error FINISH (column df FINISH);
  _ ← emit (SayDateRange (series_min starts) (series_max ends));
  people ← or_key_error RESPONSIBLE (column df RESPONSIBLE);
  _ ← emit (SayResponsibles (unique people));
  _ ← emit SayCreating;
  fig ← create_gantt_chart df;
  _ ← match write_html fig OUTPUT_FILE with
      | None => ret tt
      | Some e => raise e
      end;
  _ ← emit (SayGenerated OUTPUT_FILE);
  _ ← emit SayTaskList;
  _ ← map_run (print_task df) (iterrows df);
  ret tt.

(** Lines 204-231: the body of the try statement. *)
Definition main_body : py unit :=
  _ ← emit (SayReading FILE_PATH);
  _ ← emit (SayWindow START_DATE_FILTER END_DATE_FILTER);
  df ← read_and_process_data FILE_PATH START_DATE_FILTER END_DATE_FILTER;
  report df.

Definition main : py unit := catch main_body handle.

End WithOutside.

(** ** Series: lemmas *)

Section Extremum.
Context (le : datetime → datetime → bool).
Hypothesis le_refl : ∀ a, le a a = true.
Hypothesis le_total : ∀ a b, le a b = true ∨ le b a = true.
Hypothesis le_trans : ∀ a b c,
  valid a = true → valid b = true → valid c = true →
  le a b = true → le b c = true → le a c = true.



End Extremum.






(** ** The handlers: lemmas *)

Lemma advice_None e : advice e = None ↔ isinstance e Exception = false.
Proof.
  unfold advice. destruct (isinstance e FileNotFoundError) eqn:Hf.
  { split; [done|]. intros He. unfold isinstance in *.
    by rewrite (issubclass_trans _ FileNotFoundError Exception) in He. }
  destruct (isinstance e ValueError) eqn:Hv.
  { split; [done|]. intros He. by rewrite (not_Exception_not_ValueError e He) in Hv. }
  by destruct (isinstance e Exception).
Qed.

Lemma handle_returns e c :
  advice e = Some c → handle e = Run [SayError e; SayAdvice c] (Returned tt).
Proof. unfold handle. by intros ->. Qed.

Lemma handle_raises e x : raises (handle e) x → x = e ∧ isinstance e Exception = false.
Proof.
  unfold handle, raises. destruct (advice e) eqn:Ha; [done|].
  intros [= <-]. split; [done|]. by apply advice_None.
Qed.

Lemma advice_FileMissing path : advice (FileMissing path) = Some FileNotFoundError.
Proof. done. Qed.

Lemma advice_Processing cause : advice (Processing cause) = Some Exception.
Proof. done. Qed.

(** The lines of a task are one event when the row has the columns. *)
Lemma print_task_emit df r ev : task_line df r = Some ev → print_task df r = emit ev.
Proof.
  unfold task_line, print_task. intros H.
  destruct (row_get df ACTIVITY_NUMBER r); [|done]. destruct (row_get df ACTIVITY r); [|done].
  destruct (row_get df MILESTONE r); [|done]. destruct (row_get df RESPONSIBLE r); [|done].
  destruct (row_get df DURATION r) as [d|]; [|done]. simpl in H.
  destruct (text_2f d) as [s|] eqn:Hd; [|done]. injection H as <-.
  simpl or_key_error. rewrite !ret_bind. unfold format_cell_2f. by rewrite Hd, ret_bind.
Qed.

Section MainLaws.
Context `{W : World} `{R : Random} `{O : Output}.

(** C31. [main] lets no [Exception] through: what it raises is something a
    handler did not take. *)
Theorem main_raises x : raises main x → isinstance x Exception = false.
Proof.
  unfold main, catch, raises. destruct (result main_body) as [[]|e] eqn:Hb; [by rewrite Hb|].
  simpl. intros Hx. by destruct (handle_raises e x Hx) as [-> ?].
Qed.

(** The body of [main] up to the call, when the call raises. *)
Lemma main_body_raises x :
  raises (read_and_process_data FILE_PATH START_DATE_FILTER END_DATE_FILTER) x →
  main_body =
  Run (SayReading FILE_PATH :: SayWindow START_DATE_FILTER END_DATE_FILTER ::
       trace (read_and_process_data FILE_PATH START_DATE_FILTER END_DATE_FILTER))
      (Raised x).
Proof.
  intros Hx. unfold main_body. apply run_eq.
  - rewrite !trace_emit, trace_bind, Hx. by rewrite app_nil_r.
  - by rewrite !result_emit, (result_bind_raises _ _ _ Hx).
Qed.

Lemma main_body_returns df :
  returns (read_and_process_data FILE_PATH START_DATE_FILTER END_DATE_FILTER) df →
  main_body =
  Run (SayReading FILE_PATH :: SayWindow START_DATE_FILTER END_DATE_FILTER ::
       trace (read_and_process_data FILE_PATH START_DATE_FILTER END_DATE_FILTER) ++
       trace (report df))
      (result (report df)).
Proof.
  intros Hdf. unfold main_body. apply run_eq.
  - by rewrite !trace_emit, (trace_bind_returns _ _ _ Hdf).
  - by rewrite !result_emit, (result_bind_returns _ _ _ Hdf).
Qed.

(** The summary lines of a frame. *)
Definition summary_lines (df : frame) : list event :=
  [SaySummary (len df);
   SayDateRange (series_min (default [] (column df START)))
                (series_max (default [] (column df FINISH)));
   SayResponsibles (unique (default [] (column df RESPONSIBLE)));
   SayCreating; SayGenerated OUTPUT_FILE; SayTaskList].

(** With the columns in place and the chart written, the report prints the
    summary and one line per row. *)
Lemma report_result df lines :
  (∀ c, c ∈ required_columns → c ∈ col_names df) →
  (∀ fig, write_html fig OUTPUT_FILE = None) →
  Forall2 (λ r ev, task_line df r = Some ev) (rows df) lines →
  report df = Run (summary_lines df ++ lines) (Returned tt).
Proof.
  intros Hreq Hw Hlines.
  assert (∀ c, c ∈ required_columns → ∃ i, col_pos df c = Some i) as Hpos.
  { intros c Hc. by apply col_pos_is_Some, Hreq. }
  destruct (Hpos ACTIVITY_NUMBER) as [iN HN]; [repeat constructor|].
  destruct (Hpos ACTIVITY) as [iA HA]; [repeat constructor|].
  destruct (Hpos MILESTONE) as [iM HM]; [repeat constructor|].
  destruct (Hpos START) as [iS HS]; [repeat constructor|].
  destruct (Hpos FINISH) as [iF HF]; [repeat constructor|].
  destruct (Hpos RESPONSIBLE) as [iR HR]; [repeat constructor|].
  unfold report, summary_lines.
  rewrite (create_gantt_chart_result df iN iA iM iS iF iR) by done.
  rewrite (column_pos _ _ _ HS), (column_pos _ _ _ HF), (column_pos _ _ _ HR).
  simpl or_key_error. rewrite !ret_bind, Hw, !ret_bind.
  rewrite (map_run_emit (print_task df) (iterrows df) lines).
  - apply run_eq; simpl; by rewrite ?app_nil_r.
  - eapply Forall2_impl; [exact Hlines|]. intros r ev. apply print_task_emit.
Qed.

(** A row with the four columns and a float for a duration has a line. *)
Lemma task_line_is_Some df r q :
  (∀ c, c ∈ [ACTIVITY_NUMBER; ACTIVITY; MILESTONE; RESPONSIBLE] → c ∈ col_names df) →
  row_get df DURATION r = Some (Real q) → is_Some (task_line df r).
Proof.
  intros Hc Hq. unfold task_line.
  destruct (proj2 (row_get_is_Some df ACTIVITY_NUMBER r)) as [? ->]; [apply Hc; repeat constructor|].
  destruct (proj2 (row_get_is_Some df ACTIVITY r)) as [? ->]; [apply Hc; repeat constructor|].
  destruct (proj2 (row_get_is_Some df MILESTONE r)) as [? ->]; [apply Hc; repeat constructor|].
  destruct (proj2 (row_get_is_Some df RESPONSIBLE r)) as [? ->]; [apply Hc; repeat constructor|].
  rewrite Hq. by eexists.
Qed.

(** The lines of the tasks of a frame that has the columns and whose
    durations are floats. *)
Lemma task_lines df :
  (∀ c, c ∈ [ACTIVITY_NUMBER; ACTIVITY; MILESTONE; RESPONSIBLE] → c ∈ col_names df) →
  Forall (λ r, ∃ q, row_get df DURATION r = Some (Real q)) (rows df) →
  Forall2 (λ r ev, task_line df r = Some ev) (rows df) (omap (task_line df) (rows df)) ∧
  length (omap (task_line df) (rows df)) = len df.
Proof.
  intros Hc. unfold len. induction 1 as [|r rs [q Hq] _ [IH1 IH2]]; [by split|].
  simpl. destruct (task_line_is_Some df r q Hc Hq) as [ev Hev]. rewrite Hev. simpl.
  split; [by constructor|by f_equal].
Qed.

Context `{!WorldOk W}.

(** C12. When the pipeline fails with an [Exception], [main] prints what was
    printed so far, the error, and the advice of the FileNotFoundError
    handler for a missing file and of the last handler otherwise: the
    handler of ValueError takes no error of the pipeline. *)
Theorem main_pipeline_error x :
  raises (read_and_process_data FILE_PATH START_DATE_FILTER END_DATE_FILTER) x →
  isinstance x Exception = true →
  ∃ c, advice x = Some c ∧ c ≠ ValueError ∧
    main =
    Run (SayReading FILE_PATH :: SayWindow START_DATE_FILTER END_DATE_FILTER ::
         trace (read_and_process_data FILE_PATH START_DATE_FILTER END_DATE_FILTER) ++
         [SayError x; SayAdvice c])
        (Returned tt).
Proof.
  intros Hx He. assert (∃ c, advice x = Some c ∧ c ≠ ValueError) as (c & Hc & ?).
  { destruct (raised_exception _ _ _ _ Hx) as [[-> _]|[(cause & -> & _)|[Hn _]]];
      [by eexists..|congruence]. }
  exists c. split_and!; [done..|]. unfold main.
  by rewrite (main_body_raises x Hx), catch_Raised, (handle_returns x c Hc).
Qed.

(** C32. When the pipeline returns a frame and the chart is written, [main]
    returns, having printed the summary of the frame and one line for each
    of its rows. *)
Theorem main_success df :
  returns (read_and_process_data FILE_PATH START_DATE_FILTER END_DATE_FILTER) df →
  (∀ fig, write_html fig OUTPUT_FILE = None) →
  length (omap (task_line df) (rows df)) = len df ∧
  main =
  Run (SayReading FILE_PATH :: SayWindow START_DATE_FILTER END_DATE_FILTER ::
       trace (read_and_process_data FILE_PATH START_DATE_FILTER END_DATE_FILTER) ++
       summary_lines df ++ omap (task_line df) (rows df))
      (Returned tt).
Proof.
  intros Hdf Hw. destruct (returned_columns _ _ _ _ Hdf) as [Hreq HD].
  destruct (task_lines df) as [Hlines Hlen]; [|by eapply returned_durations|].
  { intros c Hc. repeat (apply elem_of_cons in Hc as [->|Hc]);
      first [by (apply Hreq; repeat constructor) | by apply elem_of_nil in Hc]. }
  split; [done|]. unfold main.
  by rewrite (main_body_returns df Hdf), (report_result df _ Hreq Hw Hlines).
Qed.


End MainLaws.
