(* ===== verification/Runs.v ===== *)
(** * Runs: the program at concrete worlds

    Three worlds for [main], whose file path is fixed: in [desk] the file is
    there and reads as the frame [book] of Scenario; in [nowhere] no file
    exists, as in [file_world]; in [interrupted] reading is interrupted from
    the keyboard.  The chart is written without error, and the draws of
    [randint] are a fixed sequence. *)

From Stdlib Require Import ZArith Lia Ascii String QArith.
From stdpp Require Import base tactics option list strings.
From S2P Require Import Prelude PyText Datetime Strptime Frame Effects Dates Pipeline.
From S2P Require Import Scenario Schedule Correct Gantt Main.

Local Open Scope string_scope.

Definition desk : World := {|
  path_exists p := bool_decide (p = FILE_PATH);
  read_csv p enc := inr book;
  read_excel p eng := inl (Foreign ImportError "no engine")
|}.

Definition interrupted : World := {|
  path_exists p := true;
  read_csv p enc := inl (Foreign KeyboardInterrupt "");
  read_excel p eng := inl (Foreign KeyboardInterrupt "")
|}.

#[export] Instance draws : Random := {| randint k := ((Z.of_nat k * 37 + 11) `mod` 256)%Z |}.

#[export] Instance writer : Output := {| write_html fig file := None |}.

(** The lines of the three tasks of [book_out]. *)
Definition book_lines : list event :=
  [SayTask (Str "Prod-1") (Str "Freeze") (Str "M1") (Str "Ana") "2.50";
   SayTask (Str "Prod-2") (Str "Backup") (Str "M1") (Str "Luis") "4.00";
   SayTask (Str "Prod-5") (Str "Release") (Str "M3") (Str "Luis") "14.98"].

(** The figure of the three tasks: two responsible persons, two colours,
    a height of 490. *)
Definition book_chart : figure :=
  Figure
    [Bar (Str "Prod-1") (Some "M1 - Freeze") (Stamp (DT 2024 11 8 17 0 0))
         (Stamp (DT 2024 11 8 19 30 0)) (Str "Ana");
     Bar (Str "Prod-2") (Some "M1 - Backup") (Stamp (DT 2024 11 9 8 0 0))
         (Stamp (DT 2024 11 9 12 0 0)) (Str "Luis");
     Bar (Str "Prod-5") (Some "M3 - Release") (Stamp (DT 2024 11 10 9 0 0))
         (Stamp (DT 2024 11 10 23 59 0)) (Str "Luis")]
    [(Str "Ana", (11, 48, 85)%Z); (Str "Luis", (122, 159, 196)%Z)]
    "Cronograma de Actividades" "Fecha" 490 10.

Lemma desk_ok : WorldOk desk.
Proof.
  split; intros p x f; [|done]. intros [= <-]. by apply (bool_decide_unpack _).
Qed.

Lemma draws_ok : RandomOk draws.
Proof. split. intros k. unfold randint, draws. zlia. Qed.

(** ** [main] at the three worlds *)

Example chart_of_book : create_gantt_chart book_out = ret book_chart.
Proof. vm_compute. reflexivity. Qed.

(** With the file in place, [main] prints the summary of the three tasks
    and their lines, and returns. *)
Example main_at_desk :
  main (W := desk) =
  Run ([SayReading FILE_PATH; SayWindow START_DATE_FILTER END_DATE_FILTER] ++
       trace (read_and_process_data (W := desk) FILE_PATH START_DATE_FILTER END_DATE_FILTER) ++
       [SaySummary 3;
        SayDateRange (Stamp (DT 2024 11 8 17 0 0)) (Stamp (DT 2024 11 10 23 59 0));
        SayResponsibles [Str "Ana"; Str "Luis"];
        SayCreating; SayGenerated "gantt_chart.html"; SayTaskList] ++ book_lines)
      (Returned tt).
Proof. vm_compute. reflexivity. Qed.

(** Without the file, the handler of FileNotFoundError prints. *)
Example main_nowhere :
  main (W := file_world) =
  Run [SayReading FILE_PATH; SayWindow START_DATE_FILTER END_DATE_FILTER;
       SayError (FileMissing FILE_PATH); SayAdvice FileNotFoundError]
      (Returned tt).
Proof. vm_compute. reflexivity. Qed.

(** ** The theorems of Main at these worlds *)

Lemma main_raises_witness :
  isinstance (Foreign KeyboardInterrupt "") Exception = false.
Proof. apply (main_raises (W := interrupted)). vm_compute. reflexivity. Defined.

Lemma main_pipeline_error_witness :
  ∃ c, advice (FileMissing FILE_PATH) = Some c ∧ c ≠ ValueError ∧
    main (W := file_world) =
    Run (SayReading FILE_PATH :: SayWindow START_DATE_FILTER END_DATE_FILTER ::
         trace (read_and_process_data (W := file_world)
                  FILE_PATH START_DATE_FILTER END_DATE_FILTER) ++
         [SayError (FileMissing FILE_PATH); SayAdvice c])
        (Returned tt).
Proof. apply (main_pipeline_error (W := file_world)); vm_compute; reflexivity. Defined.

Lemma main_success_witness :
  length (omap (task_line book_out) (rows book_out)) = len book_out ∧
  main (W := desk) =
  Run (SayReading FILE_PATH :: SayWindow START_DATE_FILTER END_DATE_FILTER ::
       trace (read_and_process_data (W := desk) FILE_PATH START_DATE_FILTER END_DATE_FILTER) ++
       summary_lines book_out ++ omap (task_line book_out) (rows book_out))
      (Returned tt).
Proof.
  apply (main_success (W := desk) (WorldOk0 := desk_ok)); [vm_compute; reflexivity|done].
Defined.


Lemma create_gantt_chart_covers_witness :
  length (data book_chart) = len book_out ∧
  height book_chart = 400 + len book_out * 30 ∧
  NoDup (colors book_chart).*1 ∧
  (∀ b, b ∈ data book_chart → Resource b ∈ (colors book_chart).*1) ∧
  ∀ x c, (x, c) ∈ colors book_chart →
    (0 ≤ c.1.1 ≤ 255 ∧ 0 ≤ c.1.2 ≤ 255 ∧ 0 ≤ c.2 ≤ 255)%Z.
Proof.
  apply (create_gantt_chart_covers (RandomOk0 := draws_ok) book_out);
    [|vm_compute; reflexivity].
  intros c Hc. apply (bool_decide_unpack _).
  revert c Hc. apply Forall_forall. by apply (bool_decide_unpack _).
Defined.
